(* ===== verification/_CoqProject ===== *)
-Q . S2P
Prelude.v
CLib.v
Util.v
Base64.v
Dom.v
World.v
Config.v
Log.v
Concrete.v
SessionIo.v
Inv.v
Roster.v
User.v
Message.v
Presence.v
Session.v
Teardown.v
Auth.v
Stanza.v
Xml.v
Safety.v
Server.v
Rounds.v
Demo.v
Lifecycle.v
Main.v
Output.v
Silent.v
Offline.v
SaxTree.v
Routing.v
Broadcast.v
Refused.v
Credentials.v
Registration.v
Identity.v
Recovery.v
Redelivery.v
RosterFacts.v
Subscriptions.v
Handshake.v
RosterIq.v
ConfigFacts.v
