(* ===== verification/Prelude.v ===== *)
(** xmppd: a verification library for a small XMPP server in C (src/c).

    * The program

    One process, one thread, at most fifteen clients.  [main] reads the
    configuration, opens the listening socket and enters a loop around [poll].
    Per client there is a [session_t] on the heap: a read buffer, a growing
    write buffer, a libxml2 push parser whose SAX callbacks build the tree of
    one stanza at a time, the JID, the roster cache and the last presence.  A
    complete stanza goes to [stanza_route], which holds a gate before
    authentication and then dispatches by element name, and for IQs by the
    namespace of the payload, to the handlers for SASL, registration, resource
    binding, rosters, presence, messages and service discovery.  The handlers
    queue answers on sessions, their own or another one's, and keep accounts,
    rosters and waiting messages as files below the data directory.  A handler
    may ask for the teardown of a session, also of the one whose parser is on
    the call stack; then the teardown is deferred.

    * The files and the sources they model

    - Prelude: C strings, [snprintf], faults, the fault monad, automation.
    - CLib: <ctype.h>, [strcasecmp], [fgets], [atoi], ["%04d"].
    - Util: util.c (JIDs, base64, random ids), and its theorems.
    - Dom: libxml2 as a class of operations and their laws; xml.c's lookups.
    - World: config.h, session.h, server.h and the state of server.c; the
      operating system as a class of operations and their laws.
    - Config: config.c.  Log: log.c.
    - SessionIo: the tables of server.c; session_create, session_destroy,
      session_write, session_flush, session_find_by_jid of session.c; the life
      of a parser (xml.c); serialising and sending (stanza.c).
    - Roster, User, Message, Presence: roster.c, user.c with tools/useradd.c,
      message.c, presence.c.
    - Session: stream.c and the rest of session.c but for its event handlers;
      the knot between session_write and session_teardown.
    - Auth: auth.c, register.c, disco.c.
    - Stanza: stanza.c.  Xml: the SAX callbacks of xml.c, session_on_readable
      and session_on_writable.  Server: server.c.  Main: main.c.
    - Concrete, Demo: instances of the two classes (a toy XML syntax, one
      element of a list of lines per event; a finite map as file system; a
      script as network) and runs on them.  The witnesses of the theorems
      start from these runs.  No theorem depends on them.

    The other files hold theorems:

    - Inv: the well-formedness of the tables [wf] and that "quiet" operations,
      those that free no session, keep it.  Teardown: freeing one session.
      Safety: nothing frees the session being parsed.  Rounds: a round of the
      loop keeps [steady], which is [wf] with no parser on the stack.
    - Lifecycle: no use after free, the agreement of the tables, buffer
      bounds, accept, teardown, shutdown, the end of the client loop.  Main:
      the process ends on a signal.
    - Output: the write buffer is a queue, and it drains.  Silent: operations
      that only send.
    - Offline: offline messages are numbered, stored and delivered in order.
    - SaxTree: the callbacks build the element that was sent, and route it
      once.  Routing: lookup by JID, delivery of messages, the gate before
      authentication, resource takeover.  Refused: the hole in that gate.
    - Broadcast: who is sent a client's presence.  Redelivery: which requests
      a client finds when it comes online.  Subscriptions: a specification of
      the handshake, permissions and pending requests, and the subscription
      strings that stand for them.  Handshake: the handlers of presence.c
      implement it for sequences of stanzas between two connected users, and
      step by step on both rosters, in memory or on disk.
    - Credentials: accounts and SASL.  Registration: registering, logging in
      and removing an account over the wire.  Identity: a logic of invariants
      of single sessions, the states inside a round and inside the read
      handler, and in all of them who a session may act for.
    - Recovery: what session_write does when memory is exhausted.
    - Base64: the decoder against RFC 4648.  RosterFacts: the roster array is a
      finite map; its file.  RosterIq: roster sets, and the subscription
      stanzas that end in undefined behaviour.  ConfigFacts: the configuration
      file and the command line.

    * How the code is represented

    - State.  One record [world] holds the globals of the program (pollfds,
      sessions, nfds, listen_fd, shutdown_flag, g_config), the heap of
      sessions, and the states of the file system, the network and the system.
      A [session_t *] is an address of the heap; addresses are not reused.
      Reading or assigning through a freed one is [Fault FFreed].  Aliasing is
      therefore as in C: a handler that writes to another session changes what
      that session's own handler sees.
    - Undefined behaviour is a fault: null ([FNull]), uninitialised buffers
      ([FUninit]), outside an object ([FOob]), freed ([FFreed]); calls nested
      deeper than the stack ([FStack]); and [snprintf] of a string into the
      buffer it is in ([FOverlap]).
    - When [realloc] fails, session_write calls session_teardown, which writes
      to other sessions.  The cycle goes through the class [Recovery];
      [teardown_within] ties it, down to a given depth of the stack.  Whatever
      the depth, that recovery is what Recovery.v says: not safe.  All other
      theorems hold for any [Recovery] and assume [Reallocates]: that [realloc]
      does not fail.  [malloc] may fail everywhere.
    - Strings.  A [char] array is the string before its NUL; writing to it is
      [snprintf] with the array's size, so truncation is part of the model.
      What the network delivers and what is queued are strings of bytes.
    - Integers.  Descriptors, events and return codes are integers; [atoi] and
      the number of the next offline file wrap at 32 bits, base64 at 8 and 32,
      the clamps of jid_parse at the 64 bits of a [size_t].
    - Pointers into arrays.  A [roster_item_t *] is an index.  [current_stanza]
      and [current_node] are a stack of open elements, the innermost first; a
      child is attached to its parent when it closes, which no callback can
      observe.
    - Code that is not in the repository.  libxml2 is the class [LibXml], the
      system calls and the allocator are the class [Posix].  What theorems use
      of their behaviour is in [LibXmlLaws] and [PosixLaws]; that a document
      is read back as it was written is a law only for names and texts that
      libxml2 accepts ([plain_elem]).  What POSIX does not promise, that the
      disk has room and that different paths are different files, is a class
      of its own, [IdealDisk], which only the theorems on accounts, stored
      rosters and offline messages take.  The instances of Concrete satisfy
      all three.  [getopt_long] is represented by the list of what it returns.
    - The allocator grants or refuses a request by its size alone, one answer
      per size for a run; theorems hold for every such allocator.
    - [memcpy] from a string may not reach beyond the NUL of that string
      ([memcpy_str]), also where the array that holds the string is larger:
      what is there was not written by the code.
    - Loops.  Loops over arrays and lists are structural recursions.  The loop
      over the clients steps back after a removal and runs on fuel,
      [round_fuel], twice the number of slots; it never runs out, since each
      turn advances the index or shrinks the table ([clients_loop_ends]).
      [server_run] takes, per test of the shutdown flag, whether a signal
      arrives before it.
    - Logging is left out of the handlers: it changes nothing they read.  The
      logger itself is in Log.
    - The allocations of libxml2's node constructors are taken to succeed.

    * What is proved

    - In every state reachable from [server_init]: no use after free and no
      unbounded nesting of calls, tables that agree, buffers within bounds.  In
      these and in the states between two SAX callbacks: sessions without a
      name until they log in, lookups that only find sessions that are logged
      in.
    - Who may do what: names are given for passwords only; on an open stream and
      before its login a client reaches the login and the registration only.
    - What each operation does, error branches included: routing, delivery,
      the offline store, presence, roster sets, binding, teardown, accounts.
    - Refinements: roster array against finite map, subscription handlers
      against permissions and pending requests.
    - Equivalences: the base64 decoder and RFC 4648, the exchange sort of file
      names and merge sort.
    - Round trips: JIDs, base64, rosters, configuration, passwords,
      registration and login.
    - Termination and progress: the loops end, the server ends on a signal
      unless a client causes one of the faults it can cause, a write buffer
      drains.
    - The places where the code does not do what it means to.

    * Not modelled

    [fcntl], socket options and ignored signals, which leave no trace in the
    state; the initialisation of libxml2.

    * What is left

    Where files may be written: Handshake shows that a contact named ".."
    leaves the data directory, and a statement of what confines every other
    path is open.  Fairness between clients over many rounds, and the text of
    answers to IQs as a specification of its own. *)

(** ** This file

    Everything libc does with C strings that the server relies on is written
    out here or in CLib: [strchr], [snprintf] into a buffer of a given size,
    [strcmp].  A byte array that may hold NULs (the SASL payload) is a
    [list Z]. *)

From Stdlib Require Export ZArith Lia Bool Ascii String List.
From stdpp Require Export base tactics list strings.
#[export] Set Default Goal Selector "!".

#[global] Arguments String.append : simpl nomatch.
#[global] Arguments Nat.min : simpl nomatch.

Declare Scope xmppd_scope.
Delimit Scope xmppd_scope with xmppd.
Open Scope xmppd_scope.
Open Scope string_scope.

(** ** Automation *)

Create HintDb xmppd.
Create Rewrite HintDb xmppd_str.

(** Case analysis on the innermost scrutinee of a [match] of the goal. *)
Ltac case_goal :=
  match goal with
  | |- context [match ?x with _ => _ end] =>
      lazymatch x with
      | context [match _ with _ => _ end] => fail
      | _ => destruct x eqn:?
      end
  end.

Ltac case_hyp H :=
  match type of H with
  | context [match ?x with _ => _ end] =>
      lazymatch x with
      | context [match _ with _ => _ end] => fail
      | _ => destruct x eqn:?
      end
  end.

(** ** Equality of C strings: [strcmp (s, t) == 0] *)

Notation "s =s t" := (String.eqb s t) (at level 70, no associativity) : xmppd_scope.

Lemma eqs_refl s : (s =s s) = true.
Proof. apply String.eqb_refl. Qed.

Lemma eqs_true s t : (s =s t) = true <-> s = t.
Proof. apply String.eqb_eq. Qed.

Lemma eqs_false s t : (s =s t) = false <-> s <> t.
Proof. apply String.eqb_neq. Qed.

(** Turns the string tests among the hypotheses into (dis)equalities. *)
Ltac eqs_prop :=
  repeat match goal with
  | H : (?s =s ?t) = true |- _ => apply eqs_true in H
  | H : (?s =s ?t) = false |- _ => apply eqs_false in H
  | H : negb _ = true |- _ => apply negb_true_iff in H
  | H : negb _ = false |- _ => apply negb_false_iff in H
  | H : (_ && _)%bool = true |- _ => apply andb_true_iff in H; destruct H
  | H : (_ || _)%bool = false |- _ => apply orb_false_iff in H; destruct H
  end.

(** [s[0] == '\0'] *)
Definition str_empty (s : string) : bool :=
  match s with EmptyString => true | String _ _ => false end.

Lemma str_empty_true s : str_empty s = true <-> s = "".
Proof. destruct s; split; intros H; congruence || done. Qed.

(** ** Bytes of a string *)

Definition char_code (c : ascii) : Z := Z.of_N (N_of_ascii c).

Definition nul : ascii := "000"%char.

Fixpoint str_bytes (s : string) : list Z :=
  match s with
  | EmptyString => []
  | String c s' => char_code c :: str_bytes s'
  end.

Definition byte_char (b : Z) : ascii := ascii_of_N (Z.to_N b).

(** The C string that starts at the first byte of an array: up to its NUL. *)
Fixpoint c_str (bs : list Z) : string :=
  match bs with
  | [] => ""
  | b :: bs' => if (b =? 0)%Z then "" else String (byte_char b) (c_str bs')
  end.

Lemma char_code_range c : (0 <= char_code c < 256)%Z.
Proof.
  unfold char_code. pose proof (N_ascii_bounded c). lia.
Qed.

Lemma byte_char_code c : byte_char (char_code c) = c.
Proof.
  unfold byte_char, char_code. rewrite N2Z.id. apply ascii_N_embedding.
Qed.

Lemma char_code_byte b : (0 <= b < 256)%Z -> char_code (byte_char b) = b.
Proof.
  intros H. unfold byte_char, char_code. rewrite N_ascii_embedding; lia.
Qed.

Lemma char_code_inj a b : char_code a = char_code b -> a = b.
Proof. intros H. rewrite <- (byte_char_code a), <- (byte_char_code b). by rewrite H. Qed.

(** A string no character of which is NUL: what a [char *] can denote. *)
Fixpoint no_nul (s : string) : bool :=
  match s with
  | EmptyString => true
  | String c s' => negb (char_code c =? 0)%Z && no_nul s'
  end.

Lemma c_str_bytes s rest : no_nul s = true -> c_str (str_bytes s ++ 0%Z :: rest) = s.
Proof.
  induction s as [|c s IH]; simpl; intros H; [done|]. eqs_prop.
  rewrite H. by rewrite byte_char_code, IH.
Qed.

Lemma c_str_bytes_end s : no_nul s = true -> c_str (str_bytes s) = s.
Proof.
  induction s as [|c s IH]; simpl; intros H; [done|]. eqs_prop.
  rewrite H. by rewrite byte_char_code, IH.
Qed.

Lemma length_str_bytes s : List.length (str_bytes s) = String.length s.
Proof. induction s; simpl; congruence. Qed.

(** ** Prefixes and suffixes *)

Fixpoint str_take (n : nat) (s : string) : string :=
  match n, s with
  | S n', String c s' => String c (str_take n' s')
  | _, _ => ""
  end.

Fixpoint str_drop (n : nat) (s : string) : string :=
  match n, s with
  | S n', String _ s' => str_drop n' s'
  | _, _ => s
  end.

Fixpoint str_mem (c : ascii) (s : string) : bool :=
  match s with
  | EmptyString => false
  | String d s' => Ascii.eqb c d || str_mem c s'
  end.

(** [strchr (s, c)] as an offset from [s]. *)
Fixpoint strchr (c : ascii) (s : string) : option nat :=
  match s with
  | EmptyString => None
  | String d s' =>
      if Ascii.eqb c d then Some 0
      else match strchr c s' with Some n => Some (S n) | None => None end
  end.

Lemma str_app_assoc s t u : (s ++ t) ++ u = s ++ (t ++ u).
Proof. induction s; simpl; congruence. Qed.

Lemma str_app_inj s t u : s ++ t = s ++ u -> t = u.
Proof. induction s; simpl; [done|]. intros [=]. auto. Qed.

Lemma str_app_nil_r s : s ++ "" = s.
Proof. induction s; simpl; congruence. Qed.

Lemma str_length_app s t : String.length (s ++ t) = String.length s + String.length t.
Proof. induction s; simpl; lia. Qed.

Lemma str_take_app s t : str_take (String.length s) (s ++ t) = s.
Proof. induction s; simpl; [by destruct t|congruence]. Qed.

Lemma str_drop_app s t : str_drop (String.length s) (s ++ t) = t.
Proof. induction s; simpl; [by destruct t|done]. Qed.

Lemma str_take_drop n s : str_take n s ++ str_drop n s = s.
Proof. revert s; induction n; intros [|c s]; simpl; [done..|]. by rewrite IHn. Qed.

Lemma str_take_ge n s : String.length s <= n -> str_take n s = s.
Proof.
  revert s; induction n; intros [|c s]; simpl; intros H; try done; [lia|].
  rewrite IHn; [done|lia].
Qed.

Lemma str_take_length n s : String.length (str_take n s) = Nat.min n (String.length s).
Proof. revert s; induction n; intros [|c s]; simpl; [done..|]. by rewrite IHn. Qed.

Lemma str_drop_length n s : String.length (str_drop n s) = String.length s - n.
Proof. revert s; induction n; intros [|c s]; simpl; [done..|]. by rewrite IHn. Qed.

Lemma str_take_0 s : str_take 0 s = "".
Proof. by destruct s. Qed.

Lemma str_drop_0 s : str_drop 0 s = s.
Proof. by destruct s. Qed.

Lemma str_take_take n m s : str_take n (str_take m s) = str_take (Nat.min n m) s.
Proof.
  revert m s; induction n; intros [|m] [|c s]; simpl; try done. by rewrite IHn.
Qed.

Lemma strchr_None c s : strchr c s = None <-> str_mem c s = false.
Proof.
  induction s as [|d s IH]; simpl; [done|].
  destruct (Ascii.eqb c d); simpl; [done|].
  destruct (strchr c s); [|tauto]. split; [done|]. intros H. by apply IH in H.
Qed.

Lemma strchr_app c s t :
  str_mem c s = false -> strchr c (s ++ String c t) = Some (String.length s).
Proof.
  induction s as [|d s IH]; simpl; intros H.
  - by rewrite Ascii.eqb_refl.
  - eqs_prop. rewrite H. by rewrite IH.
Qed.

Lemma strchr_Some c s n :
  strchr c s = Some n ->
  s = str_take n s ++ String c (str_drop (S n) s) /\ str_mem c (str_take n s) = false.
Proof.
  revert n; induction s as [|d s IH]; simpl; intros n H; [done|].
  destruct (Ascii.eqb c d) eqn:E.
  - inv H. apply Ascii.eqb_eq in E; subst. simpl. split; [by destruct s|done].
  - destruct (strchr c s) as [m|] eqn:Em; [|done]. inv H.
    destruct (IH m eq_refl) as [H1 H2]. simpl. rewrite E. simpl. split; [|done].
    by f_equal.
Qed.

Lemma strchr_lt c s n : strchr c s = Some n -> n < String.length s.
Proof.
  revert n; induction s as [|d s IH]; simpl; intros n H; [done|].
  destruct (Ascii.eqb c d); [inv H; lia|].
  destruct (strchr c s) as [m|]; [|done]. inv H. specialize (IH m eq_refl). lia.
Qed.

Lemma str_mem_app c s t : str_mem c (s ++ t) = str_mem c s || str_mem c t.
Proof. induction s as [|d s IH]; simpl; [done|]. by rewrite IH, orb_assoc. Qed.

#[export] Hint Rewrite str_app_assoc str_app_nil_r str_length_app str_take_app
  str_drop_app str_take_0 str_drop_0 eqs_refl : xmppd_str.

(** Arithmetic on the lengths of concatenations. *)
Ltac str_len := rewrite ?str_length_app; cbn [String.length]; rewrite ?str_length_app;
  cbn [String.length]; lia.

(** ** Buffers: [snprintf (buf, sizeof buf, "%s", s)] *)

Definition snprintf (size : nat) (s : string) : string := str_take (size - 1) s.

#[global] Arguments snprintf : simpl never.

Lemma snprintf_fits size s : String.length s < size -> snprintf size s = s.
Proof. intros. apply str_take_ge. lia. Qed.

Lemma snprintf_length size s : 0 < size -> String.length (snprintf size s) < size.
Proof. intros. unfold snprintf. rewrite str_take_length. lia. Qed.

Lemma snprintf_idem size s : snprintf size (snprintf size s) = snprintf size s.
Proof. unfold snprintf. rewrite str_take_take. f_equal. lia. Qed.

Lemma snprintf_small size s n :
  String.length s < n -> n <= size -> snprintf size s = s.
Proof. intros. apply snprintf_fits. lia. Qed.

#[export] Hint Resolve snprintf_length : xmppd.

(** ** Faults and computations

    What ISO C leaves undefined and a run of the server can meet: reading
    through a null pointer, reading a buffer never written, reading past the
    end of an object, using a session that was freed, calls nested deeper
    than the stack, and [snprintf] of a string into the buffer it is in. *)
Inductive fault :=
  | FNull
  | FUninit
  | FOob
  | FFreed
  | FStack
  | FOverlap.

Inductive res (A : Type) :=
  | Ok (a : A)
  | Fault (f : fault).
Arguments Ok {A} a.
Arguments Fault {A} f.

#[export] Instance fault_eq_dec : EqDecision fault.
Proof. solve_decision. Defined.

(** A computation over a state [S] that may fault. *)
Definition comp (S A : Type) : Type := S -> res (A * S).

Definition ret {S A} (a : A) : comp S A := fun w => Ok (a, w).

Definition bind {S A B} (m : comp S A) (k : A -> comp S B) : comp S B :=
  fun w => match m w with
           | Ok (a, w') => k a w'
           | Fault f => Fault f
           end.

Definition get {S} : comp S S := fun w => Ok (w, w).
Definition put {S} (w : S) : comp S unit := fun _ => Ok (tt, w).
Definition modify {S} (f : S -> S) : comp S unit := fun w => Ok (tt, f w).
Definition raise {S A} (f : fault) : comp S A := fun _ => Fault f.

(** A pure computation that may fault, run in any state. *)
Definition lift {S A} (r : res A) : comp S A :=
  fun w => match r with Ok a => Ok (a, w) | Fault f => Fault f end.

Notation "'let!' x ':=' m 'in' k" := (bind m (fun x => k))
  (at level 10, x pattern, m at level 100, k at level 200) : xmppd_scope.
Notation "m1 ;; m2" := (bind m1 (fun _ => m2))
  (at level 100, m2 at level 200, right associativity) : xmppd_scope.
Notation "'when' b 'then' m" := (if b then m else ret tt)
  (at level 10, m at level 100) : xmppd_scope.

(** [for] over the elements of a list, in order. *)
Fixpoint for_each {S A} (l : list A) (body : A -> comp S unit) : comp S unit :=
  match l with
  | [] => ret tt
  | x :: l' => body x ;; for_each l' body
  end.

Lemma bind_ok {S A B} (m : comp S A) (k : A -> comp S B) w a w' :
  m w = Ok (a, w') -> bind m k w = k a w'.
Proof. unfold bind. by intros ->. Qed.

Definition rbind {A B} (r : res A) (k : A -> res B) : res B :=
  match r with Ok a => k a | Fault f => Fault f end.

(** ** Triples

    [triple F P m Q]: run in a state satisfying [P], [m] either ends in a
    state satisfying [Q] or meets one of the faults of [F].  With [F] empty it
    is total correctness; [F] lists what a component is known to risk. *)
Definition triple {S A} (F : fault -> Prop) (P : S -> Prop) (m : comp S A)
    (Q : A -> S -> Prop) : Prop :=
  forall w, P w -> match m w with
                   | Ok (a, w') => Q a w'
                   | Fault f => F f
                   end.

Section Triples.
Context {S : Type} (F : fault -> Prop).

Lemma triple_ret {A} (P : S -> Prop) (a : A) (Q : A -> S -> Prop) :
  (forall w, P w -> Q a w) -> triple F P (ret a) Q.
Proof. intros H w Hw. by apply H. Qed.

Lemma triple_bind {A B} (P : S -> Prop) (m : comp S A) (k : A -> comp S B) R Q :
  triple F P m R -> (forall a, triple F (R a) (k a) Q) -> triple F P (bind m k) Q.
Proof.
  intros Hm Hk w Hw. unfold bind. specialize (Hm w Hw).
  destruct (m w) as [[a w']|f]; [|done]. by apply Hk.
Qed.

Lemma triple_conseq {A} (P P' : S -> Prop) (m : comp S A) (Q Q' : A -> S -> Prop) :
  triple F P' m Q' -> (forall w, P w -> P' w) -> (forall a w, Q' a w -> Q a w) ->
  triple F P m Q.
Proof.
  intros Hm HP HQ w Hw. specialize (Hm w (HP w Hw)).
  destruct (m w) as [[a w']|f]; [|done]. by apply HQ.
Qed.

Lemma triple_modify (P : S -> Prop) (g : S -> S) (Q : unit -> S -> Prop) :
  (forall w, P w -> Q tt (g w)) -> triple F P (modify g) Q.
Proof. intros H w Hw. by apply H. Qed.

Lemma triple_get (P : S -> Prop) (Q : S -> S -> Prop) :
  (forall w, P w -> Q w w) -> triple F P get Q.
Proof. intros H w Hw. by apply H. Qed.

Lemma triple_raise {A} (P : S -> Prop) f (Q : A -> S -> Prop) :
  F f -> triple F P (raise f) Q.
Proof. intros H w Hw. done. Qed.

Lemma triple_for_each {A} (P : S -> Prop) (l : list A) (body : A -> comp S unit) :
  (forall x, triple F P (body x) (fun _ => P)) ->
  triple F P (for_each l body) (fun _ => P).
Proof.
  intros H. induction l as [|x l IH]; simpl; [by apply triple_ret|].
  eapply triple_bind; [apply H|]. intros []. apply IH.
Qed.
End Triples.
