(* ===== verification/CLib.v ===== *)
(** The pieces of the C library the server relies on beyond plain string
    functions: character classes of the C locale, trimming, [strtol]-style
    number reading, ["%04d"], [fgets]. *)

From stdpp Require Import pretty.
From S2P Require Import Prelude.
Open Scope Z_scope.

Definition isspace (c : ascii) : bool :=
  let n := char_code c in (n =? 32) || ((9 <=? n) && (n <=? 13)).

Definition isdigit (c : ascii) : bool :=
  let n := char_code c in (48 <=? n) && (n <=? 57).

Definition isalnum (c : ascii) : bool :=
  let n := char_code c in
  ((48 <=? n) && (n <=? 57)) || ((65 <=? n) && (n <=? 90)) || ((97 <=? n) && (n <=? 122)).

Definition toupper (c : ascii) : ascii :=
  let n := char_code c in
  if (97 <=? n) && (n <=? 122) then byte_char (n - 32) else c.

Fixpoint str_map (f : ascii -> ascii) (s : string) : string :=
  match s with
  | EmptyString => ""
  | String c s' => String (f c) (str_map f s')
  end.

(** [strcasecmp (s, t) == 0] *)
Definition strcaseeq (s t : string) : bool := str_map toupper s =s str_map toupper t.

(** ** Trimming *)

(** The loop skipping leading white space. *)
Fixpoint skip_space (s : string) : string :=
  match s with
  | String c s' => if isspace c then skip_space s' else s
  | EmptyString => ""
  end.

(** Drops the trailing white space of a string. *)
Fixpoint rtrim (s : string) : string :=
  match s with
  | EmptyString => ""
  | String c s' =>
      match rtrim s' with
      | EmptyString => if isspace c then "" else String c ""
      | t => String c t
      end
  end.

(** The loop cutting white space from the last character back, while that is
    past the first one: it never removes the first character. *)
Definition trim_end (s : string) : string :=
  match s with
  | EmptyString => ""
  | String c s' => String c (rtrim s')
  end.

(** [trim] of config.c, and the two trimming loops of [user_check_password]. *)
Definition trim (s : string) : string := trim_end (skip_space s).

(** The prefix of [s] before the first character satisfying [p]: what remains
    of [s] once [s[strcspn (s, p)] = '\0'] was executed. *)
Fixpoint str_until (p : ascii -> bool) (s : string) : string :=
  match s with
  | EmptyString => ""
  | String c s' => if p c then "" else String c (str_until p s')
  end.

Definition is_char (c d : ascii) : bool := Ascii.eqb c d.
Definition newline : ascii := "010"%char.
Definition carriage_return : ascii := "013"%char.

(** [fgets (line, size, fp)] until end of file: each chunk holds at most
    [size - 1] characters and ends after a newline. [room] is what is left in
    the current line. *)
Fixpoint fgets_loop (size room : nat) (s : string) : list string :=
  match s with
  | EmptyString => []
  | String c s' =>
      if is_char c newline || (room <=? 1)%nat
      then String c "" :: fgets_loop size (size - 1) s'
      else match s' with
           | EmptyString => [String c ""]
           | _ => match fgets_loop size (room - 1) s' with
                  | l :: ls => String c l :: ls
                  | [] => [String c ""]
                  end
           end
  end.

Definition fgets_all (size : nat) (s : string) : list string :=
  fgets_loop size (size - 1) s.

(** ** Numbers *)

Fixpoint digits_value (acc : Z) (s : string) : Z :=
  match s with
  | String c s' => if isdigit c then digits_value (10 * acc + (char_code c - 48)) s' else acc
  | EmptyString => acc
  end.

Definition int_wrap (z : Z) : Z := (z + 2 ^ 31) mod 2 ^ 32 - 2 ^ 31.

(** [strtol (s, NULL, 10)], clamped to a 64-bit [long]. *)
Definition strtol10 (s : string) : Z :=
  let clamp z := Z.max (- 2 ^ 63) (Z.min (2 ^ 63 - 1) z) in
  match skip_space s with
  | String c s' =>
      if is_char c "-" then clamp (- digits_value 0 s')
      else if is_char c "+" then clamp (digits_value 0 s')
      else clamp (digits_value 0 (String c s'))
  | EmptyString => 0
  end.

(** [atoi]: [(int) strtol (s, NULL, 10)]. *)
Definition atoi (s : string) : Z := int_wrap (strtol10 s).

Definition dec (z : Z) : string := pretty z.

Fixpoint str_rep (n : nat) (c : ascii) : string :=
  match n with O => "" | S n' => String c (str_rep n' c) end.

(** ["%0wd"] of a non-negative number; of a negative one, the sign and then
    [w - 1] digits at least. *)
Definition pad0 (w : nat) (s : string) : string := str_rep (w - String.length s) "0" ++ s.

Definition fmt_0d (w : nat) (z : Z) : string :=
  if z <? 0 then "-" ++ pad0 (w - 1) (dec (- z)) else pad0 w (dec z).

Lemma int_wrap_small z : - 2 ^ 31 <= z < 2 ^ 31 -> int_wrap z = z.
Proof. intros. unfold int_wrap. rewrite Z.mod_small by lia. lia. Qed.

Lemma is_char_eq c d : is_char c d = true <-> c = d.
Proof. apply Ascii.eqb_eq. Qed.

(** ** Trimming: lemmas *)

Lemma rtrim_app_nonspace s c : isspace c = false -> rtrim (s ++ String c "") = s ++ String c "".
Proof.
  intros Hc. induction s as [|d s IH]; simpl; [by rewrite Hc|].
  rewrite IH. by destruct s.
Qed.

Lemma rtrim_idem s : rtrim (rtrim s) = rtrim s.
Proof.
  induction s as [|c s IH]; simpl; [done|].
  destruct (rtrim s) as [|d t] eqn:E; simpl.
  - destruct (isspace c) eqn:Hc; simpl; [done|by rewrite Hc].
  - simpl in IH. by rewrite IH.
Qed.

Lemma skip_space_idem s : skip_space (skip_space s) = skip_space s.
Proof.
  induction s as [|c s IH]; simpl; [done|].
  destruct (isspace c) eqn:Hc; simpl; [done|by rewrite Hc].
Qed.

Lemma trim_end_rtrim c s : isspace c = false -> trim_end (String c s) = rtrim (String c s).
Proof. intros Hc. simpl. rewrite Hc. by destruct (rtrim s). Qed.

Lemma skip_space_nonspace c s : isspace c = false -> skip_space (String c s) = String c s.
Proof. intros Hc. simpl. by rewrite Hc. Qed.

Lemma str_until_none p s :
  (forall c, str_mem c s = true -> p c = false) -> str_until p s = s.
Proof.
  induction s as [|c s IH]; simpl; intros H; [done|].
  rewrite H by (by rewrite Ascii.eqb_refl). rewrite IH; [done|].
  intros d Hd. apply H. by rewrite Hd, orb_true_r.
Qed.

Lemma str_until_app p s c t :
  (forall d, str_mem d s = true -> p d = false) -> p c = true ->
  str_until p (s ++ String c t) = s.
Proof.
  induction s as [|d s IH]; simpl; intros H Hc; [by rewrite Hc|].
  rewrite H by (by rewrite Ascii.eqb_refl). rewrite IH; [done| |done].
  intros e He. apply H. by rewrite He, orb_true_r.
Qed.

(** A line shorter than the buffer is read whole. *)
Lemma fgets_loop_line size room s :
  str_mem newline s = false -> (String.length s + 1 <= room)%nat ->
  fgets_loop size room (s ++ String newline "") = [s ++ String newline ""].
Proof.
  revert room. induction s as [|c s IH]; intros room Hn Hr; [done|].
  cbn [String.length str_mem] in *. eqs_prop.
  change ((String c s ++ String newline "")) with (String c (s ++ String newline "")).
  cbn [fgets_loop]. unfold is_char. rewrite Ascii.eqb_sym.
  match goal with H : Ascii.eqb newline c = false |- _ => rewrite H end.
  rewrite (proj2 (Nat.leb_gt _ _)) by lia. simpl orb. cbv iota.
  rewrite IH by (done || lia). by destruct s.
Qed.

(** ** Numbers: lemmas *)

Lemma digits_value_char n s acc :
  (n < 10)%N -> digits_value acc (String (pretty_N_char n) s) = digits_value (10 * acc + Z.of_N n) s.
Proof.
  intros Hn. assert (N.to_nat n < 10)%nat as Hd by lia.
  rewrite <- (N2Nat.id n). revert Hd. generalize (N.to_nat n). clear n Hn. intros k Hk.
  do 10 (destruct k as [|k]; [done|]). lia.
Qed.

Lemma digits_of_pretty x s : digits_value 0 (pretty_N_go x s) = digits_value (Z.of_N x) s.
Proof.
  revert s. induction (N.lt_wf_0 x) as [x _ IH]. intros s.
  destruct (decide (x = 0)%N) as [->|Hx]; [done|].
  rewrite pretty_N_go_step by lia. rewrite IH by (apply N.div_lt; lia).
  rewrite digits_value_char by (apply N.mod_lt; lia).
  rewrite (N.div_mod x 10) at 3 by lia. f_equal. lia.
Qed.

Lemma pretty_go_app x s t : pretty_N_go x s ++ t = pretty_N_go x (s ++ t).
Proof.
  revert s. induction (N.lt_wf_0 x) as [x _ IH]. intros s.
  destruct (decide (x = 0)%N) as [->|Hx]; [done|].
  rewrite !(pretty_N_go_step x) by lia. by rewrite IH by (apply N.div_lt; lia).
Qed.

Lemma digits_value_zeros n s : digits_value 0 (str_rep n "0" ++ s) = digits_value 0 s.
Proof. induction n; simpl; [done|]. exact IHn. Qed.

Lemma dec_digits k t :
  0 <= k -> digits_value 0 (dec k ++ t) = digits_value k t.
Proof.
  intros Hk. unfold dec. destruct k as [|p|p]; [done| |lia].
  change (pretty (Z.pos p)) with (pretty (N.pos p)). unfold pretty, pretty_N.
  rewrite decide_False by done. by rewrite pretty_go_app, digits_of_pretty.
Qed.

(** The text of a number starts with a digit. *)
Lemma fmt_head w k :
  0 <= k -> exists c s, fmt_0d w k = String c s /\ isdigit c = true.
Proof.
  intros Hk. unfold fmt_0d. rewrite (proj2 (Z.ltb_ge _ _)) by lia. unfold pad0.
  destruct (w - String.length (dec k))%nat; simpl; [|eauto].
  destruct k as [|p|p]; [by eexists _, _|clear Hk|lia].
  unfold dec. change (pretty (Z.pos p)) with (pretty (N.pos p)). unfold pretty, pretty_N.
  rewrite decide_False by done.
  assert (forall x s, (exists c s', s = String c s' /\ isdigit c = true) \/ (0 < x)%N ->
          exists c s', pretty_N_go x s = String c s' /\ isdigit c = true) as H.
  { intros x. induction (N.lt_wf_0 x) as [x _ IH]. intros s Hs.
    destruct (decide (x = 0)%N) as [->|Hx]; [destruct Hs; [done|lia]|].
    rewrite pretty_N_go_step by lia. apply IH; [apply N.div_lt; lia|]. left.
    eexists _, _. split; [done|]. pose proof (N.mod_lt x 10 ltac:(lia)) as Hm.
    destruct (x mod 10)%N as [|[[[|[]|]|[|[]|]|]|[[|[]|]|[|[]|]|]|]]; done. }
  apply H. right. lia.
Qed.

Lemma digit_not_space c : isdigit c = true -> isspace c = false.
Proof. unfold isdigit, isspace. intros. lia. Qed.

Lemma digit_not_sign c :
  isdigit c = true -> is_char c "-" = false /\ is_char c "+" = false /\ is_char c "." = false.
Proof.
  intros H. split_and!; (destruct (is_char c _) eqn:E; [|done]);
    apply is_char_eq in E; subst; done.
Qed.

Lemma atoi_fmt w k t :
  0 <= k < 2 ^ 31 -> (forall c t', t = String c t' -> isdigit c = false) ->
  atoi (fmt_0d w k ++ t) = k.
Proof.
  intros Hk Ht. destruct (fmt_head w k) as (c & s & E & Hc); [lia|].
  assert (digits_value 0 (fmt_0d w k ++ t) = k) as Hv.
  { unfold fmt_0d. rewrite (proj2 (Z.ltb_ge _ _)) by lia. unfold pad0.
    rewrite str_app_assoc, digits_value_zeros, dec_digits by lia.
    destruct t as [|d t']; [done|]. simpl. by rewrite (Ht d t'). }
  unfold atoi, strtol10. rewrite E in Hv |- *. cbn [String.append] in *.
  rewrite skip_space_nonspace by (by apply digit_not_space).
  destruct (digit_not_sign c Hc) as (-> & -> & _). rewrite Hv.
  rewrite Z.min_r, Z.max_r by lia. apply int_wrap_small. lia.
Qed.

Lemma pretty_go_length n : forall x s,
  (x < 10 ^ N.of_nat n)%N -> (String.length (pretty_N_go x s) <= n + String.length s)%nat.
Proof.
  induction n as [|n IH]; intros x s Hx.
  - assert (x = 0)%N as -> by (simpl in Hx; lia). done.
  - destruct (decide (x = 0)%N) as [->|Hne]; [rewrite pretty_N_go_0; lia|].
    rewrite pretty_N_go_step by lia. etransitivity; [apply IH|simpl; lia].
    apply N.Div0.div_lt_upper_bound. rewrite <- N.pow_succ_r'. by rewrite <- Nat2N.inj_succ.
Qed.

Lemma dec_length k : 0 <= k < 2 ^ 31 -> (String.length (dec k) <= 10)%nat.
Proof.
  intros Hk. destruct k as [|p|p]; [simpl; lia| |lia].
  unfold dec. change (pretty (Z.pos p)) with (pretty (N.pos p)). unfold pretty, pretty_N.
  rewrite decide_False by done. apply (pretty_go_length 10). simpl. lia.
Qed.
