(* ===== verification/Util.v ===== *)
(** util.c: splitting and formatting JIDs, base64 decoding, random ids. *)

From S2P Require Import Prelude.
Open Scope Z_scope.

(** ** JIDs *)

(** The three output buffers of [jid_parse], once it has cleared them. *)
Record jid_bufs := mkJid {
  jb_local : string;
  jb_domain : string;
  jb_resource : string
}.

(** [memcpy (dst, s, n); dst[n] = '\0'] from a C string [s]: copying its
    characters, and its NUL when [n] is one more than its length.  What lies
    beyond is taken to be outside the object also when [s] is at the start of
    a larger array, where C allows the read: no call may need that. *)
Definition memcpy_str (n : Z) (s : string) : res string :=
  if n <=? Z.of_nat (String.length s) + 1
  then Ok (str_take (Z.to_nat n) s)
  else Fault FOob.

Definition size_max : Z := 2 ^ 64.

(** [if (len >= sz) len = sz - 1;] *)
Definition clamp_len (len : Z) (sz : nat) : Z :=
  if Z.of_nat sz <=? len then Z.of_nat sz - 1 else len.

(** [jid_parse]: the return code, and the buffers ([None] when it returned
    before writing any of them).  [at] and [slash] are searched for in the
    whole string, so [dlen] is the difference of two pointers in a [size_t]:
    it wraps when the first slash precedes the at sign.  The output pointers
    are never null at a call site. *)
Definition jid_parse (s : string) (local_sz domain_sz resource_sz : nat)
    : res (Z * option jid_bufs) :=
  if str_empty s then Ok (-1, None)
  else
    let at_ := strchr "@" s in
    let slash := strchr "/" s in
    if bool_decide (at_ = Some 0%nat) then Ok (-1, Some (mkJid "" "" ""))
    else
      rbind match at_ with
            | Some a => memcpy_str (clamp_len (Z.of_nat a) local_sz) s
            | None => Ok ""
            end (fun local =>
      let s' := match at_ with Some a => str_drop (S a) s | None => s end in
      match slash with
      | Some sl =>
          let dlen := match at_ with
                      | Some a => (Z.of_nat sl - (Z.of_nat a + 1)) mod size_max
                      | None => Z.of_nat sl
                      end in
          if dlen =? 0 then Ok (-1, Some (mkJid local "" ""))
          else
            rbind (memcpy_str (clamp_len dlen domain_sz) s') (fun domain =>
            let r := str_drop (S sl) s in
            let rlen := clamp_len (Z.of_nat (String.length r)) resource_sz in
            rbind (memcpy_str rlen r) (fun resource =>
            Ok (0, Some (mkJid local domain resource))))
      | None =>
          let dlen := Z.of_nat (String.length s') in
          if dlen =? 0 then Ok (-1, Some (mkJid local "" ""))
          else
            rbind (memcpy_str (clamp_len dlen domain_sz) s') (fun domain =>
            Ok (0, Some (mkJid local domain "")))
      end).

Definition jid_bare (local domain : string) (out_sz : nat) : string :=
  snprintf out_sz (local ++ "@" ++ domain).

Definition jid_full (local domain resource : string) (out_sz : nat) : string :=
  snprintf out_sz (local ++ "@" ++ domain ++ "/" ++ resource).

(** ** Base64 *)

Definition u8 (x : Z) : Z := x mod 2 ^ 8.
Definition u32 (x : Z) : Z := x mod 2 ^ 32.

Definition b64_table (c : Z) : Z :=
  if (65 <=? c) && (c <=? 90) then c - 65
  else if (97 <=? c) && (c <=? 122) then c - 71
  else if (48 <=? c) && (c <=? 57) then c + 4
  else if c =? 43 then 62
  else if c =? 47 then 63
  else 0.

Definition b64_valid (c : Z) : bool :=
  ((65 <=? c) && (c <=? 90)) || ((97 <=? c) && (c <=? 122)) ||
  ((48 <=? c) && (c <=? 57)) || (c =? 43) || (c =? 47) || (c =? 61).

(** The first loop: [clen] bytes are already in [clean], whose size is 4096. *)
Fixpoint b64_strip (inp : list Z) (clen : nat) : option (list Z) :=
  match inp with
  | [] => Some []
  | c :: inp' =>
      if b64_valid c then
        if (4096 <=? clen)%nat then None
        else match b64_strip inp' (S clen) with
             | Some clean => Some (c :: clean)
             | None => None
             end
      else b64_strip inp' clen
  end.

Definition b64_quantum (c0 c1 c2 c3 : Z) : list Z :=
  let a := b64_table c0 in
  let b := b64_table c1 in
  let c := if negb (c2 =? 61) then b64_table c2 else 0 in
  let d := if negb (c3 =? 61) then b64_table c3 else 0 in
  let triple := Z.lor (Z.lor (Z.lor (u32 (Z.shiftl a 18)) (u32 (Z.shiftl b 12)))
                             (u32 (Z.shiftl c 6))) d in
  [u8 (Z.shiftr triple 16)] ++
  (if negb (c2 =? 61) then [u8 (Z.shiftr triple 8)] else []) ++
  (if negb (c3 =? 61) then [u8 triple] else []).

(** The second loop; its index advances by four and [clen] is a multiple of
    four. *)
Fixpoint b64_quanta (clean : list Z) : list Z :=
  match clean with
  | c0 :: c1 :: c2 :: c3 :: clean' => b64_quantum c0 c1 c2 c3 ++ b64_quanta clean'
  | _ => []
  end.

(** [base64_decode]: [None] for -1, otherwise the bytes written to [out]. *)
Definition base64_decode (inp : list Z) : option (list Z) :=
  match b64_strip inp 0 with
  | None => None
  | Some clean =>
      if negb (Nat.modulo (List.length clean) 4 =? 0)%nat then None
      else Some (b64_quanta clean)
  end.

(** ** Random ids *)

Definition charset : string :=
  "abcdefghijklmnopqrstuvwxyz" ++
  "ABCDEFGHIJKLMNOPQRSTUVWXYZ" ++
  "0123456789".

Definition charset_at (b : Z) : ascii :=
  match String.get (Z.to_nat (u8 b mod 62)) charset with
  | Some c => c
  | None => nul
  end.

(** [generate_id]: [bytes] is what [arc4random_buf] left in the buffer. *)
Fixpoint generate_id (bytes : list Z) : string :=
  match bytes with
  | [] => ""
  | b :: bytes' => String (charset_at b) (generate_id bytes')
  end.

(** ** Properties: JIDs *)

(** What the parts of a JID that survives a round trip look like: a localpart
    and a domain free of separators; the resource may hold any character. *)
Definition jid_part (s : string) : bool :=
  negb (str_empty s) && negb (str_mem "@" s) && negb (str_mem "/" s).

Lemma jid_part_spec s :
  jid_part s = true -> s <> "" /\ str_mem "@" s = false /\ str_mem "/" s = false.
Proof.
  unfold jid_part. intros H. eqs_prop. split_and!; [|done..].
  intros ->. done.
Qed.

Lemma memcpy_str_all (n : Z) s :
  n = Z.of_nat (String.length s) -> memcpy_str n s = Ok s.
Proof.
  intros ->. unfold memcpy_str. rewrite (proj2 (Z.leb_le _ _)) by lia.
  rewrite Nat2Z.id. by rewrite str_take_ge.
Qed.

Lemma memcpy_str_prefix (n : Z) s t :
  n = Z.of_nat (String.length s) -> memcpy_str n (s ++ t) = Ok s.
Proof.
  intros ->. unfold memcpy_str. rewrite str_length_app.
  rewrite (proj2 (Z.leb_le _ _)) by lia. rewrite Nat2Z.id. by rewrite str_take_app.
Qed.

Lemma clamp_len_small n sz : n < Z.of_nat sz -> clamp_len n sz = n.
Proof. unfold clamp_len. destruct (Z.leb_spec (Z.of_nat sz) n); lia. Qed.

Lemma clamp_len_le n sz : clamp_len n sz <= n.
Proof. unfold clamp_len. destruct (Z.leb_spec (Z.of_nat sz) n); lia. Qed.

Lemma clamp_len_lt n sz : (0 < sz)%nat -> clamp_len n sz < Z.of_nat sz.
Proof. unfold clamp_len. destruct (Z.leb_spec (Z.of_nat sz) n); lia. Qed.

Lemma memcpy_str_ok (n : Z) s :
  n <= Z.of_nat (String.length s) + 1 -> memcpy_str n s = Ok (str_take (Z.to_nat n) s).
Proof. intros H. unfold memcpy_str. by rewrite (proj2 (Z.leb_le _ _)). Qed.

Lemma str_app_cons s c t : (s ++ String c "") ++ t = s ++ String c t.
Proof. by rewrite str_app_assoc. Qed.

Lemma str_drop_S_app s c t : str_drop (S (String.length s)) (s ++ String c t) = t.
Proof. induction s; simpl; [by destruct t|done]. Qed.

Lemma strchr_app_skip c s t n :
  str_mem c s = false -> strchr c t = Some n ->
  strchr c (s ++ t) = Some (String.length s + n)%nat.
Proof.
  induction s as [|d s IH]; simpl; intros H Ht; [done|]. eqs_prop.
  rewrite H. by rewrite IH.
Qed.

Lemma at_pos l t :
  jid_part l = true -> bool_decide (strchr "@" (l ++ String "@" t) = Some 0%nat) = false.
Proof.
  intros (Hne & Hat & _)%jid_part_spec. rewrite strchr_app by done.
  apply bool_decide_eq_false. intros [= H]. by destruct l.
Qed.

Lemma str_empty_at l t : str_empty (l ++ String "@" t) = false.
Proof. by destruct l. Qed.

Section Jid_round_trip.
Context (l d r : string) (lsz dsz rsz : nat).
Context (Hl : jid_part l = true) (Hd : jid_part d = true).
Context (Hlsz : (String.length l < lsz)%nat) (Hdsz : (String.length d < dsz)%nat).
Context (Hsz : Z.of_nat dsz <= size_max).

Lemma jid_parse_full_aux :
  (String.length r < rsz)%nat ->
  jid_parse (l ++ String "@" (d ++ String "/" r)) lsz dsz rsz
  = Ok (0, Some (mkJid l d r)).
Proof.
  intros Hrsz. unfold jid_parse. rewrite str_empty_at, (at_pos l) by done.
  destruct (jid_part_spec _ Hl) as (_ & Hat & Hsl).
  destruct (jid_part_spec _ Hd) as (Hdne & Hdat & Hdsl).
  rewrite (strchr_app _ _ _ Hat).
  rewrite (strchr_app_skip "/" l _ (S (String.length d))) by
    (done || simpl; by rewrite strchr_app).
  rewrite clamp_len_small by lia. rewrite memcpy_str_prefix by done. cbn [rbind]; cbv zeta beta iota.
  rewrite str_drop_S_app.
  replace (Z.of_nat (String.length l + S (String.length d))
           - (Z.of_nat (String.length l) + 1))
    with (Z.of_nat (String.length d)) by lia.
  rewrite Z.mod_small by (unfold size_max in *; lia).
  rewrite (proj2 (Z.eqb_neq _ _)) by (destruct d; simpl in *; [done|lia]).
  rewrite clamp_len_small by lia. rewrite memcpy_str_prefix by done. cbn [rbind]; cbv zeta beta iota.
  replace (str_drop _ _) with r.
  - rewrite clamp_len_small by lia. by rewrite memcpy_str_all.
  - replace (S (String.length l + S (String.length d)))
      with (S (String.length (l ++ String "@" d))) by (rewrite str_length_app; simpl; lia).
    replace (l ++ String "@" (d ++ String "/" r))
      with ((l ++ String "@" d) ++ String "/" r) by (by rewrite str_app_assoc).
    by rewrite str_drop_S_app.
Qed.

Lemma jid_parse_bare_aux :
  jid_parse (l ++ String "@" d) lsz dsz rsz = Ok (0, Some (mkJid l d "")).
Proof.
  unfold jid_parse. rewrite str_empty_at, (at_pos l) by done.
  destruct (jid_part_spec _ Hl) as (_ & Hat & Hsl).
  destruct (jid_part_spec _ Hd) as (Hdne & Hdat & Hdsl).
  rewrite (strchr_app _ _ _ Hat).
  rewrite (proj2 (strchr_None "/" _)) by (rewrite str_mem_app; simpl; by rewrite Hsl, Hdsl).
  rewrite clamp_len_small by lia. rewrite memcpy_str_prefix by done. cbn [rbind]; cbv zeta beta iota.
  rewrite str_drop_S_app.
  rewrite (proj2 (Z.eqb_neq _ _)) by (destruct d; simpl in *; [done|lia]).
  rewrite clamp_len_small by lia. by rewrite memcpy_str_all.
Qed.
End Jid_round_trip.

(** The sizes of the JID buffers of every caller. *)
Abbreviation jid_buf := 256%nat (only parsing).

(** C32. [jid_parse] inverts [jid_full]: a full JID whose parts are not empty, free
    of separators where they must be, and fit the server's buffers, is parsed
    back into exactly these parts. *)
Theorem jid_parse_full l d r :
  jid_part l = true -> jid_part d = true ->
  (String.length l < jid_buf)%nat -> (String.length d < jid_buf)%nat ->
  (String.length r < jid_buf)%nat ->
  jid_parse (jid_full l d r 768) jid_buf jid_buf jid_buf = Ok (0, Some (mkJid l d r)).
Proof.
  intros. unfold jid_full.
  rewrite snprintf_fits by (rewrite ?str_length_app; simpl; rewrite ?str_length_app; simpl; lia).
  simpl. by apply jid_parse_full_aux; auto; unfold size_max; lia.
Qed.

Lemma jid_parse_bare l d :
  jid_part l = true -> jid_part d = true ->
  (String.length l < jid_buf)%nat -> (String.length d < jid_buf)%nat ->
  jid_parse (jid_bare l d 512) jid_buf jid_buf jid_buf = Ok (0, Some (mkJid l d "")).
Proof.
  intros. unfold jid_bare.
  rewrite snprintf_fits by (rewrite ?str_length_app; simpl; lia).
  simpl. by apply jid_parse_bare_aux; auto.
Qed.

(** The shape of address that [jid_parse] mishandles: a slash before the
    first at sign, as in ["host/nick@home"]. *)
Definition slash_first (s : string) : bool :=
  match strchr "@" s, strchr "/" s with
  | Some a, Some sl => (sl <? a)%nat
  | _, _ => false
  end.

Lemma strchr_drop_length c s n :
  strchr c s = Some n -> (String.length (str_drop (S n) s) = String.length s - S n)%nat.
Proof. intros. apply str_drop_length. Qed.

(** The buffers of a call that returned. *)
Definition bufs_bounded (lsz dsz rsz : nat) (o : option jid_bufs) : Prop :=
  match o with
  | None => True
  | Some b => (String.length (jb_local b) < lsz)%nat /\
              (String.length (jb_domain b) < dsz)%nat /\
              (String.length (jb_resource b) < rsz)%nat
  end.

Lemma memcpy_str_clamp n s sz :
  (0 < sz)%nat -> n <= Z.of_nat (String.length s) + 1 ->
  exists t, memcpy_str (clamp_len n sz) s = Ok t /\ (String.length t < sz)%nat.
Proof.
  intros Hsz Hn. eexists. split.
  - apply memcpy_str_ok. pose proof (clamp_len_le n sz). lia.
  - rewrite str_take_length. pose proof (clamp_len_lt n sz Hsz). lia.
Qed.

Lemma strchr_same c d s n : strchr c s = Some n -> strchr d s = Some n -> c = d.
Proof.
  revert n. induction s as [|e s IH]; intros n Hc Hd; simpl in *; [done|].
  destruct (Ascii.eqb_spec c e), (Ascii.eqb_spec d e); subst; try done.
  - destruct (strchr d s); simplify_eq.
  - destruct (strchr c s); simplify_eq.
  - destruct (strchr c s) as [m|], (strchr d s) as [m'|]; simplify_eq. by eapply IH.
Qed.

Ltac jid_ret :=
  eexists _, _; split; [reflexivity|];
  split; [lia|]; split; [done|]; simpl; first [done | split_and!; simpl; first [done|lia]].

(** C39. On a string in which no slash comes before the first at sign, [jid_parse] stays
    inside its buffers: it returns 0 or -1, reads and writes nothing out of bounds, and each part it stored
    fits its buffer with the terminating NUL. *)
Theorem jid_parse_safe s lsz dsz rsz :
  (0 < lsz)%nat -> (0 < dsz)%nat -> (0 < rsz)%nat -> slash_first s = false ->
  exists rc o, jid_parse s lsz dsz rsz = Ok (rc, o) /\ (rc = 0 \/ rc = -1) /\
               (rc = 0 -> o <> None) /\ bufs_bounded lsz dsz rsz o.
Proof.
  intros Hl Hd Hr Hsf. unfold jid_parse.
  destruct (str_empty s); [by jid_ret|].
  destruct (bool_decide _); [by jid_ret|].
  unfold slash_first in Hsf.
  assert (exists l, match strchr "@" s with
                    | Some a => memcpy_str (clamp_len (Z.of_nat a) lsz) s
                    | None => Ok "" end = Ok l /\ (String.length l < lsz)%nat) as (l & -> & Hll).
  { destruct (strchr "@" s) as [a|] eqn:Ea; [|by eexists].
    apply memcpy_str_clamp; [done|]. apply strchr_lt in Ea. lia. }
  cbn [rbind]. cbv zeta beta.
  destruct (strchr "/" s) as [sl|] eqn:Es.
  - destruct (_ =? 0) eqn:E0; [by jid_ret|].
    edestruct (memcpy_str_clamp
      match strchr "@" s with
      | Some a => (Z.of_nat sl - (Z.of_nat a + 1)) mod size_max
      | None => Z.of_nat sl end
      match strchr "@" s with Some a => str_drop (S a) s | None => s end dsz)
      as (d & -> & Hdl); [done| |].
    { pose proof (strchr_lt _ _ _ Es). destruct (strchr "@" s) as [a|] eqn:Ea; [|lia].
      apply Nat.ltb_ge in Hsf. rewrite str_drop_length.
      assert (a <> sl) by (intros ->; by pose proof (strchr_same _ _ _ _ Ea Es)).
      pose proof (Z.mod_le (Z.of_nat sl - (Z.of_nat a + 1)) size_max).
      unfold size_max in *. lia. }
    cbn [rbind].
    edestruct (memcpy_str_clamp (Z.of_nat (String.length (str_drop (S sl) s)))
      (str_drop (S sl) s) rsz) as (r & -> & Hrl); [done|lia|].
    cbn [rbind]. jid_ret.
  - destruct (_ =? 0) eqn:E0; [by jid_ret|].
    edestruct (memcpy_str_clamp (Z.of_nat (String.length
      match strchr "@" s with Some a => str_drop (S a) s | None => s end)))
      as (d & -> & Hdl); [exact Hd|lia|].
    cbn [rbind]. jid_ret.
Qed.

(** A slash before the at sign makes [dlen] wrap, and the copy of the domain
    runs past the end of the string unless some 250 characters follow. *)
Theorem jid_parse_overread p m t :
  str_mem "@" (p ++ String "/" m) = false -> str_mem "/" p = false ->
  (String.length (p ++ m) < 255)%nat -> (String.length t < 254)%nat ->
  jid_parse (p ++ String "/" (m ++ String "@" t)) jid_buf jid_buf jid_buf = Fault FOob.
Proof.
  intros Hat Hsl Hlen Ht. unfold jid_parse.
  replace (p ++ String "/" (m ++ String "@" t))
    with ((p ++ String "/" m) ++ String "@" t) by (by rewrite str_app_assoc).
  set (q := p ++ String "/" m) in *.
  assert (0 < String.length q)%nat by (subst q; rewrite str_length_app; simpl; lia).
  rewrite str_length_app in Hlen.
  assert (String.length q < 256)%nat by (subst q; rewrite str_length_app; simpl; lia).
  rewrite str_empty_at, strchr_app by done.
  rewrite bool_decide_eq_false_2 by (intros [= ?]; lia).
  rewrite clamp_len_small by lia. rewrite memcpy_str_prefix by done.
  cbn [rbind]; cbv zeta beta iota.
  assert (strchr "/" (q ++ String "@" t) = Some (String.length p)) as ->.
  { subst q. rewrite str_app_assoc. by apply strchr_app. }
  assert (Z.of_nat (String.length p) < Z.of_nat (String.length q)).
  { subst q. rewrite str_length_app. simpl. lia. }
  set (d := Z.of_nat (String.length p) - (Z.of_nat (String.length q) + 1)).
  assert (d mod size_max = d + size_max) as ->.
  { symmetry. apply (Z.mod_unique _ _ (-1)); unfold size_max; lia. }
  rewrite (proj2 (Z.eqb_neq _ _)) by (unfold size_max; lia).
  rewrite str_drop_S_app. unfold clamp_len at 1.
  rewrite (proj2 (Z.leb_le _ _)) by (unfold size_max; lia).
  unfold memcpy_str at 1. by rewrite (proj2 (Z.leb_gt _ _)) by lia.
Qed.

(** The JIDs the server itself formats fit their buffers. *)
Theorem jid_formats_fit l d r :
  (String.length l < jid_buf)%nat -> (String.length d < jid_buf)%nat ->
  (String.length r < jid_buf)%nat ->
  jid_bare l d 512 = l ++ "@" ++ d /\ jid_full l d r 768 = l ++ "@" ++ d ++ "/" ++ r.
Proof.
  intros. unfold jid_bare, jid_full.
  by rewrite !snprintf_fits by
    (rewrite ?str_length_app; simpl; rewrite ?str_length_app; simpl; lia).
Qed.

(** ** Properties: base64 *)

(** The encoder of RFC 4648, section 4, as the reference. *)
Definition b64_char (k : Z) : Z :=
  if k <? 26 then k + 65
  else if k <? 52 then k + 71
  else if k <? 62 then k - 4
  else if k =? 62 then 43
  else 47.

Fixpoint b64_encode (bs : list Z) : list Z :=
  match bs with
  | a :: b :: c :: bs' =>
      [b64_char (a / 4); b64_char (a mod 4 * 16 + b / 16);
       b64_char (b mod 16 * 4 + c / 64); b64_char (c mod 64)] ++ b64_encode bs'
  | [a; b] =>
      [b64_char (a / 4); b64_char (a mod 4 * 16 + b / 16);
       b64_char (b mod 16 * 4); 61]
  | [a] => [b64_char (a / 4); b64_char (a mod 4 * 16); 61; 61]
  | [] => []
  end.

Definition byte_range (b : Z) : Prop := 0 <= b < 256.

Lemma b64_char_facts k :
  0 <= k < 64 ->
  b64_table (b64_char k) = k /\ b64_valid (b64_char k) = true /\ b64_char k <> 61.
Proof.
  intros H.
  assert (forallb (fun n => let k := Z.of_nat n in
    (b64_table (b64_char k) =? k) && b64_valid (b64_char k) && negb (b64_char k =? 61))
    (seq 0 64) = true) as Hall by (vm_compute; reflexivity).
  rewrite forallb_forall in Hall.
  specialize (Hall (Z.to_nat k)). rewrite in_seq in Hall.
  specialize (Hall ltac:(lia)). rewrite Z2Nat.id in Hall by lia.
  cbv zeta in Hall. eqs_prop.
  repeat match goal with H : (_ =? _) = _ |- _ => first [apply Z.eqb_eq in H|apply Z.eqb_neq in H] end.
  done.
Qed.

Lemma testbit_small b k i : 0 <= b < 2 ^ k -> k <= i -> Z.testbit b i = false.
Proof.
  intros Hb Hi. destruct (decide (b = 0)) as [->|Hn]; [apply Z.bits_0|].
  apply Z.bits_above_log2; [lia|]. apply Z.log2_lt_pow2; [lia|].
  apply Z.lt_le_trans with (2 ^ k); [lia|]. apply Z.pow_le_mono_r; lia.
Qed.

Lemma lor_shiftl_add a b k : 0 <= k -> 0 <= b < 2 ^ k -> Z.lor (Z.shiftl a k) b = a * 2 ^ k + b.
Proof.
  intros Hk Hb.
  assert (Z.land (Z.shiftl a k) b = 0) as Hland.
  { apply Z.bits_inj'. intros i Hi. rewrite Z.land_spec, Z.bits_0.
    destruct (Z.ltb_spec i k); [by rewrite Z.shiftl_spec_low|].
    rewrite (testbit_small b k i) by lia. apply andb_false_r. }
  rewrite <- Z.lxor_lor, <- Z.add_nocarry_lxor by done.
  by rewrite Z.shiftl_mul_pow2.
Qed.

(** The 24-bit word a quantum of four sextets makes. *)
Lemma triple_value a b c d :
  0 <= a < 64 -> 0 <= b < 64 -> 0 <= c < 64 -> 0 <= d < 64 ->
  Z.lor (Z.lor (Z.lor (u32 (Z.shiftl a 18)) (u32 (Z.shiftl b 12)))
               (u32 (Z.shiftl c 6))) d = a * 2 ^ 18 + b * 2 ^ 12 + c * 2 ^ 6 + d.
Proof.
  intros Ha Hb Hc Hd. unfold u32.
  rewrite !Z.mod_small by (rewrite Z.shiftl_mul_pow2; lia).
  rewrite <- !Z.lor_assoc.
  rewrite (lor_shiftl_add c d 6) by lia.
  rewrite (lor_shiftl_add b _ 12) by lia.
  rewrite (lor_shiftl_add a _ 18) by lia. lia.
Qed.

Lemma b64_quantum_value a b c d c0 c1 c2 c3 :
  0 <= a < 64 -> 0 <= b < 64 -> 0 <= c < 64 -> 0 <= d < 64 ->
  b64_table c0 = a -> b64_table c1 = b ->
  (if negb (c2 =? 61) then b64_table c2 else 0) = c ->
  (if negb (c3 =? 61) then b64_table c3 else 0) = d ->
  b64_quantum c0 c1 c2 c3 =
  ([a * 4 + b / 16] ++
  (if negb (c2 =? 61) then [b mod 16 * 16 + c / 4] else []) ++
  (if negb (c3 =? 61) then [c mod 4 * 64 + d] else []))%list.
Proof.
  intros Ha Hb Hc Hd E0 E1 E2 E3. unfold b64_quantum. rewrite E0, E1, E2, E3.
  rewrite triple_value by done. unfold u8. rewrite !Z.shiftr_div_pow2 by lia.
  f_equal; [|destruct (c2 =? 61), (c3 =? 61); simpl; repeat f_equal].
  all: try (f_equal; Z.to_euclidean_division_equations; lia).
  all: Z.to_euclidean_division_equations; lia.
Qed.

Definition all_valid (l : list Z) : bool := forallb b64_valid l.

Lemma b64_strip_valid l n :
  all_valid l = true -> (n + List.length l <= 4096)%nat -> b64_strip l n = Some l.
Proof.
  revert n. induction l as [|c l IH]; intros n Hv Hn; [done|].
  cbn [all_valid forallb b64_strip List.length] in *. eqs_prop.
  destruct (b64_valid c) eqn:?; [|done].
  rewrite (proj2 (Nat.leb_gt _ _)) by lia. by rewrite IH by (done || lia).
Qed.

(** Induction three bytes at a time, as the encoder goes. *)
Lemma b64_ind (P : list Z -> Prop) :
  P [] -> (forall a, P [a]) -> (forall a b, P [a; b]) ->
  (forall a b c bs, P bs -> P (a :: b :: c :: bs)) -> forall bs, P bs.
Proof.
  intros H0 H1 H2 H3. fix IH 1. intros [|a [|b [|c bs]]]; [done..|]. apply H3, IH.
Qed.

Lemma b64_char_table k : 0 <= k < 64 -> b64_table (b64_char k) = k.
Proof. intros. by apply b64_char_facts. Qed.

Lemma b64_char_valid k : 0 <= k < 64 -> b64_valid (b64_char k) = true.
Proof. intros. by apply b64_char_facts. Qed.

Lemma b64_char_pad k : 0 <= k < 64 -> (b64_char k =? 61) = false.
Proof. intros. apply Z.eqb_neq. by apply b64_char_facts. Qed.

Ltac sextet := unfold byte_range in *; Z.to_euclidean_division_equations; lia.

Lemma b64_encode_valid bs :
  Forall byte_range bs -> all_valid (b64_encode bs) = true.
Proof.
  induction bs as [|a|a b|a b c bs IH] using b64_ind; intros Hbs; [done|..];
    repeat (apply Forall_cons_1 in Hbs as [? Hbs]); simpl;
    rewrite !b64_char_valid by sextet; [done..|].
  simpl. by apply IH.
Qed.

Lemma b64_encode_length bs :
  List.length (b64_encode bs) = (4 * ((List.length bs + 2) / 3))%nat.
Proof.
  induction bs as [|a|a b|a b c bs IH] using b64_ind; [done..|].
  cbn [b64_encode app List.length]. rewrite IH.
  replace (S (S (S (List.length bs))) + 2)%nat with (1 * 3 + (List.length bs + 2))%nat by lia.
  rewrite Nat.div_add_l by lia. lia.
Qed.

Ltac quantum s0 s1 s2 s3 :=
  rewrite (b64_quantum_value s0 s1 s2 s3);
  [ | sextet | sextet | sextet | sextet
  | apply b64_char_table; sextet | apply b64_char_table; sextet | | ];
  rewrite ?b64_char_pad, ?b64_char_table by sextet; [simpl; repeat f_equal; sextet|done..].

Lemma quantum3 a b c :
  byte_range a -> byte_range b -> byte_range c ->
  b64_quantum (b64_char (a / 4)) (b64_char (a mod 4 * 16 + b / 16))
    (b64_char (b mod 16 * 4 + c / 64)) (b64_char (c mod 64)) = [a; b; c].
Proof.
  intros. quantum (a / 4) (a mod 4 * 16 + b / 16) (b mod 16 * 4 + c / 64) (c mod 64).
Qed.

Lemma quantum2 a b :
  byte_range a -> byte_range b ->
  b64_quantum (b64_char (a / 4)) (b64_char (a mod 4 * 16 + b / 16))
    (b64_char (b mod 16 * 4)) 61 = [a; b].
Proof.
  intros. quantum (a / 4) (a mod 4 * 16 + b / 16) (b mod 16 * 4) 0.
Qed.

Lemma quantum1 a :
  byte_range a ->
  b64_quantum (b64_char (a / 4)) (b64_char (a mod 4 * 16)) 61 61 = [a].
Proof. intros. quantum (a / 4) (a mod 4 * 16) 0 0. Qed.

Lemma b64_quanta_encode bs :
  Forall byte_range bs -> b64_quanta (b64_encode bs) = bs.
Proof.
  induction bs as [|a|a b|a b c bs IH] using b64_ind; intros Hbs; [done|..];
    repeat (apply Forall_cons_1 in Hbs as [? Hbs]); cbn [b64_encode app b64_quanta].
  - by rewrite quantum1.
  - by rewrite quantum2.
  - rewrite quantum3 by done. by rewrite IH.
Qed.

Lemma base64_decode_encode bs :
  Forall byte_range bs -> (List.length bs <= 3072)%nat ->
  base64_decode (b64_encode bs) = Some bs.
Proof.
  intros Hbs Hlen. unfold base64_decode.
  pose proof (b64_encode_length bs) as Hl.
  assert ((List.length bs + 2) / 3 <= 1024)%nat.
  { apply Nat.lt_succ_r, Nat.Div0.div_lt_upper_bound. lia. }
  rewrite b64_strip_valid by (by apply b64_encode_valid || lia).
  rewrite Hl, Nat.mul_comm, Nat.Div0.mod_mul. simpl. by rewrite b64_quanta_encode.
Qed.

(** Decoding is a left inverse of encoding, for every payload that fits the
    scratch buffer of 4096 characters. *)
Theorem base64_round_trip bs :
  Forall byte_range bs -> (List.length bs <= 3072)%nat ->
  base64_decode (b64_encode bs) = Some bs.
Proof. apply base64_decode_encode. Qed.

Lemma b64_strip_length l n clean :
  b64_strip l n = Some clean -> (n <= 4096)%nat -> (n + List.length clean <= 4096)%nat.
Proof.
  revert n clean. induction l as [|c l IH]; intros n clean H Hn; cbn [b64_strip] in H.
  - inv H. simpl. lia.
  - destruct (b64_valid c); [|by eapply IH].
    destruct (Nat.leb_spec 4096 n); [done|].
    destruct (b64_strip l (S n)) eqn:E; [|done]. inv H.
    apply IH in E; simpl; lia.
Qed.

Lemma list_ind4 {A} (P : list A -> Prop) :
  P [] -> (forall a, P [a]) -> (forall a b, P [a; b]) -> (forall a b c, P [a; b; c]) ->
  (forall a b c d l, P l -> P (a :: b :: c :: d :: l)) -> forall l, P l.
Proof. intros H0 H1 H2 H3 H4. fix IH 1. intros [|a [|b [|c [|d l]]]]; [done..|]. apply H4, IH. Qed.

Lemma b64_quanta_length l :
  (4 * List.length (b64_quanta l) <= 3 * List.length l)%nat.
Proof.
  induction l as [|a|a b|a b c|a b c d l IH] using list_ind4; [simpl; lia..|].
  cbn [b64_quanta]. rewrite length_app. unfold b64_quantum. rewrite !length_app.
  destruct (c =? 61), (d =? 61); simpl; lia.
Qed.

Lemma b64_quanta_range l : Forall byte_range (b64_quanta l).
Proof.
  induction l as [|a|a b|a b c|a b c d l IH] using list_ind4; [constructor..|].
  cbn [b64_quanta]. apply Forall_app. split; [|done]. unfold b64_quantum.
  assert (forall x, byte_range (u8 x)).
  { intros x. unfold byte_range, u8. apply Z.mod_pos_bound. lia. }
  destruct (c =? 61), (d =? 61); simpl; auto 10.
Qed.

(** Whatever the input, what is written is bytes and leaves room for the NUL
    that auth.c appends to its buffer of 4096. *)
Theorem base64_decode_bounds inp out :
  base64_decode inp = Some out ->
  Forall byte_range out /\ (List.length out <= 3072)%nat.
Proof.
  unfold base64_decode. destruct (b64_strip inp 0) as [clean|] eqn:E; [|done].
  destruct (negb _); [done|]. intros [= <-]. split; [apply b64_quanta_range|].
  apply b64_strip_length in E; [|lia]. pose proof (b64_quanta_length clean). lia.
Qed.

(** ** Properties: random ids *)

Fixpoint str_all (p : ascii -> bool) (s : string) : bool :=
  match s with
  | EmptyString => true
  | String c s' => p c && str_all p s'
  end.

Definition is_alnum_code (n : Z) : bool :=
  ((48 <=? n) && (n <=? 57)) || ((65 <=? n) && (n <=? 90)) || ((97 <=? n) && (n <=? 122)).

Lemma charset_at_alnum b : is_alnum_code (char_code (charset_at b)) = true.
Proof.
  assert (forallb (fun n => match String.get n charset with
    | Some c => is_alnum_code (char_code c) | None => false end) (seq 0 62) = true) as Hall
    by (vm_compute; reflexivity).
  rewrite forallb_forall in Hall.
  specialize (Hall (Z.to_nat (u8 b mod 62))). rewrite in_seq in Hall.
  pose proof (Z.mod_pos_bound (u8 b) 62). specialize (Hall ltac:(lia)).
  unfold charset_at. by destruct (String.get _ _).
Qed.

(** Whatever the random bytes, an id of the length asked for, over the
    characters a..z A..Z 0..9. *)
Theorem generate_id_alnum bytes :
  String.length (generate_id bytes) = List.length bytes /\
  str_all (fun c => is_alnum_code (char_code c)) (generate_id bytes) = true.
Proof.
  induction bytes as [|b bs [IH1 IH2]]; [done|]. cbn [generate_id].
  split; simpl; [by rewrite IH1|]. rewrite IH2. by rewrite charset_at_alnum.
Qed.

(** ** Instances *)

Lemma jid_parse_full_witness :
  jid_parse (jid_full "alice" "localhost" "home" 768) 256 256 256 =
  Ok (0, Some (mkJid "alice" "localhost" "home")).
Proof. apply jid_parse_full; [reflexivity|reflexivity|simpl; lia|simpl; lia|simpl; lia]. Defined.

Lemma jid_parse_safe_witness :
  exists rc o, jid_parse "alice@localhost/a@b" 16 16 16 = Ok (rc, o) /\ (rc = 0 \/ rc = -1) /\
               (rc = 0 -> o <> None) /\ bufs_bounded 16 16 16 o.
Proof. apply jid_parse_safe; [lia|lia|lia|reflexivity]. Defined.

Lemma jid_parse_overread_witness :
  jid_parse ("host" ++ String "/" ("nick" ++ String "@" "home")) 256 256 256 = Fault FOob.
Proof. apply jid_parse_overread; [reflexivity|reflexivity|simpl; lia|simpl; lia]. Defined.

Lemma base64_round_trip_witness : base64_decode (b64_encode [0; 97; 0; 255]) = Some [0; 97; 0; 255].
Proof.
  apply base64_round_trip.
  - repeat constructor; discriminate.
  - simpl. apply Nat.leb_le. vm_compute. reflexivity.
Defined.

Lemma base64_decode_bounds_witness : (List.length [97; 98] <= 3072)%nat.
Proof.
  destruct (base64_decode_bounds [89; 87; 73; 61] [97; 98]) as [_ H].
  - vm_compute. reflexivity.
  - exact H.
Defined.
