(* ===== verification/Base64.v ===== *)
(** base64_decode of util.c against RFC 4648, read as a string of bits. *)

From S2P Require Import Prelude Util.
Open Scope Z_scope.

(** ** The reference: six bits per character, eight bits per octet *)

(** Table 1 of the RFC: the place of a character is what it stands for. *)
Definition alphabet : list Z :=
  str_bytes "ABCDEFGHIJKLMNOPQRSTUVWXYZabcdefghijklmnopqrstuvwxyz0123456789+/".

Fixpoint position (c : Z) (l : list Z) : option Z :=
  match l with
  | [] => None
  | x :: l' => if x =? c then Some 0 else option_map Z.succ (position c l')
  end.

(** The characters of an encoding: the alphabet and the padding. *)
Definition encoding_char (c : Z) : bool :=
  match position c alphabet with Some _ => true | None => c =? 61 end.

(** The bits a character stands for; padding stands for none. *)
Definition sextet (c : Z) : list bool :=
  match position c alphabet with
  | Some v => map (Z.testbit v) [5; 4; 3; 2; 1; 0]
  | None => []
  end.

Definition octet (b7 b6 b5 b4 b3 b2 b1 b0 : bool) : Z :=
  fold_left (fun v b => 2 * v + Z.b2z b) [b7; b6; b5; b4; b3; b2; b1; b0] 0.

(** The whole octets of a string of bits; up to seven bits are left over. *)
Fixpoint octets (bits : list bool) : list Z :=
  match bits with
  | b7 :: b6 :: b5 :: b4 :: b3 :: b2 :: b1 :: b0 :: bits' =>
      octet b7 b6 b5 b4 b3 b2 b1 b0 :: octets bits'
  | _ => []
  end.

Definition bits_of (chars : list Z) : list bool := flat_map sextet chars.

(** ** The code *)

(** The first loop filters, and refuses what does not fit. *)
Lemma b64_strip_filter l : forall n, (n <= 4096)%nat ->
  b64_strip l n =
  let clean := List.filter b64_valid l in
  if (4096 <? n + List.length clean)%nat then None else Some clean.
Proof.
  cbv zeta. induction l as [|c l IH]; intros n Hn; cbn [b64_strip List.filter List.length].
  { by rewrite (proj2 (Nat.ltb_ge _ _)) by lia. }
  destruct (b64_valid c); [|by apply IH]. cbn [List.length].
  destruct (Nat.leb_spec 4096 n); [by rewrite (proj2 (Nat.ltb_lt _ _)) by lia|].
  rewrite IH by lia. replace (n + S (List.length (List.filter b64_valid l)))%nat
    with (S n + List.length (List.filter b64_valid l))%nat by lia.
  by destruct (_ <? _)%nat.
Qed.

(** *** The table of util.c is Table 1 of the RFC *)

Lemma position_some c l v : position c l = Some v -> c ∈ l.
Proof.
  revert v. induction l as [|x l IH]; intros v; cbn [position]; [done|].
  destruct (Z.eqb_spec x c) as [->|]; [intros _; left|].
  destruct (position c l) as [v'|]; [|done]. intros _. right. by eapply IH.
Qed.

Lemma position_none c l : position c l = None -> c ∉ l.
Proof.
  induction l as [|x l IH]; cbn [position]; [intros _; apply not_elem_of_nil|].
  destruct (Z.eqb_spec x c) as [->|]; [done|]. destruct (position c l); [done|].
  intros _ [?|?]%elem_of_cons; [congruence|by apply IH].
Qed.

Lemma alphabet_table :
  Forall (fun c => position c alphabet = Some (b64_table c) /\ b64_valid c = true /\ c <> 61) alphabet.
Proof. repeat constructor; done. Qed.

Lemma alphabet_valid c : b64_valid c = true -> c <> 61 -> c ∈ alphabet.
Proof.
  intros H Hc. enough (In c (map Z.of_nat (seq 43 80)) /\ b64_valid c = true) as [Hin Hv].
  { assert (forallb (fun c => negb (b64_valid c) || (c =? 61) || bool_decide (c ∈ alphabet))
              (map Z.of_nat (seq 43 80)) = true) as Hall by (vm_compute; reflexivity).
    rewrite forallb_forall in Hall. specialize (Hall c Hin). rewrite Hv in Hall.
    apply Z.eqb_neq in Hc. rewrite Hc in Hall. by apply bool_decide_eq_true in Hall. }
  split; [|done]. unfold b64_valid in H. apply in_map_iff. exists (Z.to_nat c).
  rewrite in_seq. lia.
Qed.

Lemma table_position c : b64_valid c = true -> c <> 61 ->
  position c alphabet = Some (b64_table c).
Proof.
  intros H Hc. pose proof (alphabet_valid c H Hc) as Hin.
  by apply (proj1 (Forall_forall _ _) alphabet_table c) in Hin as [? _].
Qed.

Lemma encoding_char_valid c : encoding_char c = b64_valid c.
Proof.
  unfold encoding_char. destruct (position c alphabet) as [v|] eqn:E.
  - apply position_some in E.
    by apply (proj1 (Forall_forall _ _) alphabet_table c) in E as (_ & -> & _).
  - apply position_none in E. destruct (Z.eqb_spec c 61) as [->|Hc]; [done|].
    destruct (b64_valid c) eqn:Hv; [|done]. by apply alphabet_valid in Hv.
Qed.

(** Filtering leaves characters of the alphabet only. *)
Lemma filtered_chars inp chars k :
  List.filter b64_valid inp = (chars ++ repeat 61 k)%list ->
  Forall (fun c => c <> 61) chars ->
  Forall (fun c => b64_valid c = true /\ c <> 61) chars.
Proof.
  intros E H. apply Forall_forall. intros c Hin. rewrite Forall_forall in H. split; [|by apply H].
  apply (proj2 (proj1 (filter_In b64_valid c inp) ltac:(rewrite E; apply in_app_iff; left;
    by apply list_elem_of_In))).
Qed.

Lemma sextet_table c : b64_valid c = true -> c <> 61 ->
  sextet c = map (Z.testbit (b64_table c)) [5; 4; 3; 2; 1; 0].
Proof. intros H Hc. unfold sextet. by rewrite table_position. Qed.

Lemma table_range c : 0 <= b64_table c < 64.
Proof. unfold b64_table. repeat (case_match; eqs_prop); lia. Qed.

(** What the bits of a sextet are worth, at the places where an octet ends. *)
Lemma sextet_parts v :
  0 <= v < 64 ->
  let t i := Z.b2z (Z.testbit v i) in
  2 * (2 * (2 * (2 * (2 * t 5 + t 4) + t 3) + t 2) + t 1) + t 0 = v /\
  2 * t 5 + t 4 = v / 16 /\
  2 * (2 * (2 * t 3 + t 2) + t 1) + t 0 = v mod 16 /\
  2 * (2 * (2 * t 5 + t 4) + t 3) + t 2 = v / 4 /\
  2 * t 1 + t 0 = v mod 4.
Proof.
  intros H t. unfold t. rewrite !Z.testbit_spec' by lia.
  Z.to_euclidean_division_equations. lia.
Qed.

Lemma octet_first a b : 0 <= a < 64 -> 0 <= b < 64 ->
  octet (Z.testbit a 5) (Z.testbit a 4) (Z.testbit a 3) (Z.testbit a 2) (Z.testbit a 1)
    (Z.testbit a 0) (Z.testbit b 5) (Z.testbit b 4) = a * 4 + b / 16.
Proof.
  intros Ha Hb. destruct (sextet_parts a Ha) as (E1 & _), (sextet_parts b Hb) as (_ & E2 & _).
  unfold octet. cbn [fold_left]. lia.
Qed.

Lemma octet_second b c : 0 <= b < 64 -> 0 <= c < 64 ->
  octet (Z.testbit b 3) (Z.testbit b 2) (Z.testbit b 1) (Z.testbit b 0) (Z.testbit c 5)
    (Z.testbit c 4) (Z.testbit c 3) (Z.testbit c 2) = b mod 16 * 16 + c / 4.
Proof.
  intros Hb Hc. destruct (sextet_parts b Hb) as (_ & _ & E1 & _),
    (sextet_parts c Hc) as (_ & _ & _ & E2 & _).
  unfold octet. cbn [fold_left]. lia.
Qed.

Lemma octet_third c d : 0 <= c < 64 -> 0 <= d < 64 ->
  octet (Z.testbit c 1) (Z.testbit c 0) (Z.testbit d 5) (Z.testbit d 4) (Z.testbit d 3)
    (Z.testbit d 2) (Z.testbit d 1) (Z.testbit d 0) = c mod 4 * 64 + d.
Proof.
  intros Hc Hd. destruct (sextet_parts c Hc) as (_ & _ & _ & _ & E1), (sextet_parts d Hd) as (E2 & _).
  unfold octet. cbn [fold_left]. lia.
Qed.

(** One quantum, with no, one or two characters of padding. *)
Lemma quantum_octets a b c d :
  Forall (fun c => b64_valid c = true /\ c <> 61) [a; b; c; d] ->
  b64_quantum a b c d = octets (bits_of [a; b; c; d]) /\
  b64_quantum a b c 61 = octets (bits_of [a; b; c]) /\
  b64_quantum a b 61 61 = octets (bits_of [a; b]).
Proof.
  rewrite !Forall_cons. intros ([Va Ha] & [Vb Hb] & [Vc Hc] & [Vd Hd] & _).
  pose proof (table_range a). pose proof (table_range b).
  pose proof (table_range c). pose proof (table_range d).
  unfold bits_of. cbn [flat_map]. rewrite !sextet_table by done. clear Va Vb Vc Vd Ha Hb.
  apply Z.eqb_neq in Hc, Hd. cbn [map app octets]. split_and!.
  - rewrite (b64_quantum_value (b64_table a) (b64_table b) (b64_table c) (b64_table d)),
      ?Hc, ?Hd by (done || by rewrite ?Hc, ?Hd).
    by rewrite octet_first, octet_second, octet_third.
  - rewrite (b64_quantum_value (b64_table a) (b64_table b) (b64_table c) 0),
      ?Hc by (done || by rewrite ?Hc).
    by rewrite octet_first, octet_second.
  - rewrite (b64_quantum_value (b64_table a) (b64_table b) 0 0) by done.
    by rewrite octet_first.
Qed.

Lemma octets_quantum a b c d bits :
  Forall (fun c => b64_valid c = true /\ c <> 61) [a; b; c; d] ->
  octets (sextet a ++ sextet b ++ sextet c ++ sextet d ++ bits)
  = (octets (bits_of [a; b; c; d]) ++ octets bits)%list.
Proof.
  rewrite !Forall_cons. intros ([Va Ha] & [Vb Hb] & [Vc Hc] & [Vd Hd] & _).
  unfold bits_of. cbn [flat_map]. by rewrite !sextet_table.
Qed.

(** The second loop on characters followed by padding. *)
Lemma quanta_octets chars : forall k,
  Forall (fun c => b64_valid c = true /\ c <> 61) chars -> (k <= 2)%nat ->
  Nat.modulo (List.length chars + k) 4 = 0%nat ->
  b64_quanta (chars ++ repeat 61 k) = octets (bits_of chars).
Proof.
  induction chars as [|a|a b|a b c|a b c d l IH] using list_ind4; intros k Hf Hk Hm.
  1-4: destruct k as [|[|[|k]]]; try done; try lia; cbn [repeat app b64_quanta]; rewrite app_nil_r.
  - apply (quantum_octets a b a a). rewrite !Forall_cons in *. naive_solver.
  - apply (quantum_octets a b c a). rewrite !Forall_cons in *. naive_solver.
  - assert (Forall (fun c => b64_valid c = true /\ c <> 61) [a; b; c; d]) as H4
      by (rewrite !Forall_cons in *; naive_solver).
    cbn [app b64_quanta]. destruct (quantum_octets a b c d H4) as [-> _].
    unfold bits_of at 2. cbn [flat_map]. rewrite octets_quantum by done. f_equal.
    apply IH; [by do 4 apply Forall_cons_1 in Hf as [_ Hf]|done|].
    etransitivity; [|exact Hm]. cbn [List.length].
    replace (S (S (S (S (List.length l)))) + k)%nat with (List.length l + k + 1 * 4)%nat by lia.
    by rewrite Nat.Div0.mod_add.
Qed.

(** C33. base64_decode is RFC 4648 decoding.  Take any text whose characters of the
    alphabet, other bytes between them left out, are followed by at most two
    characters of padding: the bytes written are the whole octets of the bits
    these characters stand for, six bits each, their places in the RFC's
    alphabet; and the result is -1 exactly when characters and padding are
    more than 4096 or do not make up quanta of four. *)
Theorem base64_reads_bits inp chars k :
  List.filter encoding_char inp = (chars ++ repeat 61 k)%list ->
  Forall (fun c => c <> 61) chars -> (k <= 2)%nat ->
  base64_decode inp =
  let n := (List.length chars + k)%nat in
  if (4096 <? n)%nat || negb (Nat.modulo n 4 =? 0)%nat then None
  else Some (octets (bits_of chars)).
Proof.
  rewrite (filter_ext _ _ encoding_char_valid). intros Hi Hf Hk. cbv zeta. unfold base64_decode.
  pose proof (filtered_chars _ _ _ Hi Hf) as Hv.
  rewrite b64_strip_filter, Hi by lia. cbv zeta. rewrite length_app, repeat_length. cbn [Nat.add].
  destruct (4096 <? _)%nat; [done|]. cbn [orb]. rewrite length_app, repeat_length.
  destruct (Nat.eqb_spec (Nat.modulo (List.length chars + k) 4) 0) as [Hm|]; [|done].
  cbn [negb]. by rewrite quanta_octets.
Qed.

(** "SGkh" and "SGk=", with a line break and a blank. *)
Lemma base64_reads_bits_witness :
  base64_decode [83; 71; 107; 104; 10; 83; 71; 32; 107; 61] = Some [72; 105; 33; 72; 105].
Proof.
  rewrite (base64_reads_bits _ [83; 71; 107; 104; 83; 71; 107] 1).
  - vm_compute. reflexivity.
  - reflexivity.
  - repeat constructor; discriminate.
  - lia.
Defined.
