(* ===== verification/Dom.v ===== *)
(** XML trees as the server sees them, the libxml2 calls it makes, and the
    DOM helpers of xml.c.

    The fields of [xmlNode] that the server reads directly (type, name, ns,
    nsDef, children) are the constructors' arguments of [xnode].  Every
    function of libxml2 is a field of the class [LibXml]; what the proofs need
    of them is a field of [LibXmlLaws], after libxml2's documentation.  A
    function that modifies a node returns the modified node; a child created
    by [xmlNewChild] is completed first and attached by [xmlAddChild], which
    leaves the same tree as completing it in place. *)

From S2P Require Import Prelude.
Open Scope Z_scope.

Record xns := mkNs { ns_href : string; ns_prefix : option string }.

Record xattr := mkAttr { at_ns : option xns; at_name : string; at_value : string }.

Inductive xnode :=
  | XElem (name : string) (ns : option xns) (nsDef : list xns)
      (props : list xattr) (children : list xnode)
  | XText (content : string)
  | XOther.

(** A SAX2 attribute: the five entries of its slot in the array, the value
    being what lies between its two pointers. *)
Record sax_attr := mkSaxAttr {
  sa_local : string;
  sa_prefix : option string;
  sa_uri : option string;
  sa_value : string
}.

(** The callbacks libxml2 makes on the server's SAX handler. *)
Inductive sax_event :=
  | SaxStart (localname : string) (prefix URI : option string)
      (namespaces : list (option string * string)) (attributes : list sax_attr)
  | SaxEnd (localname : string) (prefix URI : option string)
  | SaxChars (ch : string)
  | SaxError (level : Z).

#[export] Instance xns_eq_dec : EqDecision xns.
Proof. solve_decision. Defined.
#[export] Instance xattr_eq_dec : EqDecision xattr.
Proof. solve_decision. Defined.

(** ** The library's functions *)

Class LibXml := {
  xmlNewNode : string -> xnode;
  xmlNewProp : xnode -> string -> string -> xnode;
  xmlNewNsProp : xnode -> option xns -> string -> string -> xnode;
  xmlSetProp : xnode -> string -> string -> xnode;
  xmlGetProp : xnode -> string -> option string;
  xmlNodeGetContent : xnode -> option string;
  (** the node declares the namespace; the result of the call is the
      namespace, or null when the node declares the prefix already *)
  xmlNewNs : xnode -> string -> option string -> xnode * option xns;
  xmlSetNs : xnode -> option xns -> xnode;
  (** a child to be of the given parent: namespace, name, content *)
  xmlNewChild : xnode -> option xns -> string -> option string -> xnode;
  xmlAddChild : xnode -> xnode -> xnode;
  xmlNodeAddContentLen : xnode -> string -> xnode;
  xmlCopyNode : xnode -> xnode;
  (** the text, or [None] for a negative length *)
  xmlNodeDump : xnode -> option string;
  (** what [xmlReadFile] makes of the bytes of a file: no document, or a
      document with its root element, if any *)
  xmlReadDoc : string -> option (option xnode);
  (** the bytes [xmlSaveFormatFile] writes for a document with this root *)
  xmlDumpDoc : xnode -> string;
  (** a push parser: its state, a new one (null on failure), and what feeding
      it a chunk does: the callbacks it makes, in order *)
  pctx : Type;
  xmlCreatePushParserCtxt : option pctx;
  xmlParseChunk : pctx -> string -> pctx * list sax_event
}.

(** ** Reading a node *)

Definition is_element (n : xnode) : bool :=
  match n with XElem _ _ _ _ _ => true | _ => false end.

Definition xn_name (n : xnode) : string :=
  match n with XElem name _ _ _ _ => name | _ => "" end.

Definition xn_ns (n : xnode) : option xns :=
  match n with XElem _ ns _ _ _ => ns | _ => None end.

Definition xn_nsDef (n : xnode) : list xns :=
  match n with XElem _ _ d _ _ => d | _ => [] end.

Definition xn_props (n : xnode) : list xattr :=
  match n with XElem _ _ _ ps _ => ps | _ => [] end.

Definition xn_children (n : xnode) : list xnode :=
  match n with XElem _ _ _ _ cs => cs | _ => [] end.

(** [n->ns ? n->ns->href : ""] *)
Definition ns_of (n : xnode) : string :=
  match xn_ns n with Some ns => ns_href ns | None => "" end.

(** The first child that is an element. *)
Fixpoint first_element (cs : list xnode) : option xnode :=
  match cs with
  | [] => None
  | c :: cs' => if is_element c then Some c else first_element cs'
  end.

(** The namespace of the first child element, by which an IQ is dispatched;
    the empty string when there is none. *)
Definition child_ns (stanza : xnode) : string :=
  match first_element (xn_children stanza) with
  | Some c => ns_of c
  | None => ""
  end.

Section Helpers.
Context {LX : LibXml}.

(** [attr ? attr : dflt] for an attribute read with [xmlGetProp]. *)
Definition prop_or (n : xnode) (name dflt : string) : string :=
  match xmlGetProp n name with Some v => v | None => dflt end.

Definition xml_get_attr (node : option xnode) (name : string) : option string :=
  match node with
  | None => None
  | Some n => xmlGetProp n name
  end.

Fixpoint xml_find_in (cs : list xnode) (name : string) : option xnode :=
  match cs with
  | [] => None
  | c :: cs' =>
      if is_element c && (xn_name c =s name) then Some c else xml_find_in cs' name
  end.

Definition xml_find_child (node : option xnode) (name : string) : option xnode :=
  match node with
  | None => None
  | Some n => xml_find_in (xn_children n) name
  end.

Fixpoint xml_find_in_ns (cs : list xnode) (name ns : string) : option xnode :=
  match cs with
  | [] => None
  | c :: cs' =>
      if is_element c && (xn_name c =s name) &&
         match xn_ns c with Some n => ns_href n =s ns | None => false end
      then Some c else xml_find_in_ns cs' name ns
  end.

Definition xml_find_child_ns (node : option xnode) (name ns : string) : option xnode :=
  match node with
  | None => None
  | Some n => xml_find_in_ns (xn_children n) name ns
  end.

(** [xmlNewProp] for an attribute present only under a condition. *)
Definition xmlNewProp_opt (n : xnode) (name : string) (v : option string) : xnode :=
  match v with Some x => xmlNewProp n name x | None => n end.

(** [ns = xmlNewNs (node, href, NULL); xmlSetNs (node, ns);] *)
Definition xml_own_ns (n : xnode) (href : string) : xnode * option xns :=
  let '(n', ns) := xmlNewNs n href None in (xmlSetNs n' ns, ns).
End Helpers.

(** ** The library's laws *)

(** First attribute with that local name, whatever its namespace. *)
Definition find_attr (ps : list xattr) (name : string) : option string :=
  match List.find (fun a => at_name a =s name) ps with
  | Some a => Some (at_value a)
  | None => None
  end.

(** The value changes in place when the attribute exists, or it is added. *)
Fixpoint set_attr (ps : list xattr) (name v : string) : list xattr :=
  match ps with
  | [] => [mkAttr None name v]
  | a :: ps' =>
      if at_name a =s name then mkAttr (at_ns a) name v :: ps' else a :: set_attr ps' name v
  end.

(** The characters XML 1.0 allows in a document, by code point. *)
Definition xml_char (u : Z) : bool :=
  (u =? 9) || (u =? 10) || (u =? 13) || ((32 <=? u) && (u <=? 55295)) ||
  ((57344 <=? u) && (u <=? 65533)) || ((65536 <=? u) && (u <=? 1114111)).

(** The six low bits of a continuation byte. *)
Definition continuation (b : Z) : option Z :=
  if (128 <=? b) && (b <? 192) then Some (b - 128) else None.

(** Bytes that are UTF-8, each character in its shortest encoding, of
    characters that XML allows. *)
Fixpoint xml_chars (bs : list Z) : bool :=
  match bs with
  | [] => true
  | b :: r =>
      if b <? 128 then xml_char b && xml_chars r
      else match r with
      | [] => false
      | c1 :: r1 =>
          match continuation c1 with
          | None => false
          | Some k1 =>
              if (192 <=? b) && (b <? 224) then
                let u := (b - 192) * 64 + k1 in
                (128 <=? u) && xml_char u && xml_chars r1
              else match r1 with
              | [] => false
              | c2 :: r2 =>
                  match continuation c2 with
                  | None => false
                  | Some k2 =>
                      if (224 <=? b) && (b <? 240) then
                        let u := (b - 224) * 4096 + k1 * 64 + k2 in
                        (2048 <=? u) && xml_char u && xml_chars r2
                      else match r2 with
                      | [] => false
                      | c3 :: r3 =>
                          match continuation c3 with
                          | None => false
                          | Some k3 =>
                              let u := (b - 240) * 262144 + k1 * 4096 + k2 * 64 + k3 in
                              (240 <=? b) && (65536 <=? u) && xml_char u && xml_chars r3
                          end
                      end
                  end
              end
          end
      end
  end.

(** A string that a document can hold. *)
Definition xml_text (s : string) : bool := xml_chars (str_bytes s).

(** Lower-case ASCII letters are a name in every XML document, unless they
    begin with the reserved "xml". *)
Fixpoint letters (s : string) : bool :=
  match s with
  | EmptyString => true
  | String c s' => (97 <=? char_code c) && (char_code c <=? 122) && letters s'
  end.

Definition plain_name (s : string) : bool :=
  negb (str_empty s) && letters s && negb (String.prefix "xml" s).

(** An element with attributes and no content that libxml2 writes and reads:
    its names are names, no attribute is given twice, the values are text. *)
Definition plain_elem (c : xnode) : Prop :=
  exists k ps, c = XElem k None [] ps [] /\ plain_name k = true /\ NoDup (map at_name ps) /\
    Forall (fun a => at_ns a = None /\ plain_name (at_name a) = true /\
                     xml_text (at_value a) = true) ps.

(** Documented behaviour of the functions above. *)
Class LibXmlLaws (LX : LibXml) : Prop := {
  xmlNewNode_spec name : xmlNewNode name = XElem name None [] [] [];
  xmlNewProp_spec n ns d ps cs k v :
    xmlNewProp (XElem n ns d ps cs) k v = XElem n ns d (ps ++ [mkAttr None k v])%list cs;
  xmlSetProp_spec n ns d ps cs k v :
    xmlSetProp (XElem n ns d ps cs) k v = XElem n ns d (set_attr ps k v) cs;
  xmlNewNsProp_spec n ns d ps cs ans k v :
    xmlNewNsProp (XElem n ns d ps cs) ans k v =
    XElem n ns d (ps ++ [mkAttr ans k v])%list cs;
  xmlGetProp_spec n ns d ps cs k : xmlGetProp (XElem n ns d ps cs) k = find_attr ps k;
  xmlNewNs_spec n ns d ps cs href prefix :
    Forall (fun x => ns_prefix x <> prefix) d ->
    xmlNewNs (XElem n ns d ps cs) href prefix =
    (XElem n ns (d ++ [mkNs href prefix])%list ps cs, Some (mkNs href prefix));
  xmlSetNs_spec n ns d ps cs ns' : xmlSetNs (XElem n ns d ps cs) ns' = XElem n ns' d ps cs;
  xmlNewChild_spec p ns name :
    xmlNewChild p ns name None =
    XElem name (match ns with Some _ => ns | None => xn_ns p end) [] [] [];
  xmlAddChild_spec n ns d ps cs c :
    is_element c = true ->
    xmlAddChild (XElem n ns d ps cs) c = XElem n ns d ps (cs ++ [c])%list;
  xmlCopyNode_spec n : xmlCopyNode n = n;
  (** a document written with indentation and read again: the same root, its
      attributes, and the same elements among its children *)
  xmlReadDoc_dump name cs :
    plain_name name = true -> Forall plain_elem cs ->
    exists cs', xmlReadDoc (xmlDumpDoc (XElem name None [] [] cs)) =
      Some (Some (XElem name None [] [] cs')) /\
      List.filter is_element cs' = cs
}.

Lemma first_element_is_element cs c : first_element cs = Some c -> is_element c = true.
Proof.
  induction cs as [|d cs IH]; simpl; [done|].
  destruct (is_element d) eqn:E; [by intros [= <-]|done].
Qed.

Lemma xml_find_in_spec cs name c :
  xml_find_in cs name = Some c -> In c cs /\ is_element c = true /\ xn_name c = name.
Proof.
  induction cs as [|d cs IH]; simpl; [done|].
  destruct (is_element d && (xn_name d =s name)) eqn:E.
  - intros [= <-]. eqs_prop. auto.
  - intros H. destruct (IH H) as (? & ? & ?). auto.
Qed.
