(* ===== verification/World.v ===== *)
(** The state of the server: the configuration, the sessions and the tables of
    server.c, and the operating system behind them.

    A [session_t *] is an address ([sid]) in [w_heap]; a session that was
    freed has no entry, and touching it is the fault [FFreed].  The three
    parts of the operating system (files, sockets, clock and randomness) are
    abstract types of the class [Posix]. *)

From stdpp Require Import gmap.
From S2P Require Import Prelude Dom.
Open Scope Z_scope.

(** ** The operating system *)

(** [write (fd, buf, n)] *)
Inductive write_result :=
  | WOk (n : nat)
  | WAgain
  | WErr.

(** [read (fd, buf, n)] *)
Inductive read_result :=
  | RData (data : string)
  | REof
  | RErr.

(** [poll]: the [revents] it stores, one per entry, or how it failed. *)
Inductive poll_result :=
  | PReady (revents : list Z)
  | PIntr
  | PErr.

(** The fields of [struct tm] that the server prints. *)
Record tm := mkTm {
  tm_year : Z; tm_mon : Z; tm_mday : Z; tm_hour : Z; tm_min : Z; tm_sec : Z
}.

Class Posix := {
  fs_t : Type;
  fs_stat : fs_t -> string -> bool;
  fs_mkdir : fs_t -> string -> fs_t * bool;
  fs_read : fs_t -> string -> option string;
  (** opening for writing, writing all, closing; false when it cannot be opened *)
  fs_write : fs_t -> string -> string -> fs_t * bool;
  (** the names [readdir] yields, in the order it yields them *)
  fs_readdir : fs_t -> string -> option (list string);
  fs_unlink : fs_t -> string -> fs_t;
  fs_rmdir : fs_t -> string -> fs_t;
  net_t : Type;
  net_write : net_t -> Z -> string -> net_t * write_result;
  net_read : net_t -> Z -> nat -> net_t * read_result;
  net_close : net_t -> Z -> net_t;
  net_accept : net_t -> Z -> net_t * option Z;
  (** socket, inet_pton, bind and listen: the descriptor, or [None] when one
      of them fails *)
  net_listen : net_t -> string -> Z -> net_t * option Z;
  (** given the descriptors and the events asked for *)
  net_poll : net_t -> list (Z * Z) -> net_t * poll_result;
  os_t : Type;
  os_random : os_t -> nat -> os_t * list Z;
  os_gmtime : os_t -> os_t * tm;
  (** whether the allocator grants a request of that size, for a new object
      and for one that grows: one answer per size for a whole run.  Theorems
      hold whatever the answers are, so they cover a run in which requests of
      some sizes fail, but not one in which the same size is first granted
      and then refused *)
  malloc_ok : nat -> bool;
  realloc_ok : nat -> bool;
  sizeof_session : nat
}.

(** What the system promises of the calls the server relies on. *)
Class PosixLaws (PX : Posix) : Prop := {
  net_read_bound n fd size n' data :
    net_read n fd size = (n', RData data) -> (String.length data <= size)%nat;
  net_write_bound n fd data n' k :
    net_write n fd data = (n', WOk k) -> (k <= String.length data)%nat;
  fs_read_mkdir fs path fs' ok q :
    fs_mkdir fs path = (fs', ok) -> fs_read fs' q = fs_read fs q;
  fs_read_rmdir fs path q : fs_read (fs_rmdir fs path) q = fs_read fs q
}.

(** A disk without surprises, which POSIX does not promise.  It has room: what
    is written to a file that could be opened is there.  And different paths
    are different files: the data directory holds no links, nobody else
    writes to it, and no path of the server is a detour to another one.  The
    theorems that need this take it as an instance of its own. *)
Class IdealDisk (PX : Posix) : Prop := {
  fs_read_written fs path data fs' :
    fs_write fs path data = (fs', true) -> fs_read fs' path = Some data;
  fs_read_other fs path data fs' ok q :
    fs_write fs path data = (fs', ok) -> q <> path -> fs_read fs' q = fs_read fs q;
  fs_read_unlinked fs path q :
    q <> path -> fs_read (fs_unlink fs path) q = fs_read fs q
}.

(** A system on which objects can grow.  When one cannot, session_write frees
    a session that its callers go on using: what holds then is the subject of
    Recovery.v, and everything else assumes this law. *)
Class Reallocates (PX : Posix) : Prop := realloc_granted n : realloc_ok n = true.

(** ** config.h *)

Record config_t := mkConfig {
  domain : string;
  port : Z;
  bind_address : string;
  datadir : string;
  logfile : string;
  loglevel : Z
}.

(** ** session.h *)

Definition READ_BUF_SIZE : nat := Z.to_nat 8192.
Definition WRITE_BUF_INIT : nat := Z.to_nat 8192.
Definition MAX_ROSTER_ITEMS : nat := 128.

Inductive session_state :=
  | STATE_CONNECTED
  | STATE_STREAM_OPENED
  | STATE_AUTHENTICATED
  | STATE_BOUND
  | STATE_SESSION_ACTIVE
  | STATE_DISCONNECTED.

#[export] Instance session_state_eq_dec : EqDecision session_state.
Proof. solve_decision. Defined.

(** [jid], [name], [subscription] are buffers of 512, 256 and 16 characters. *)
Record roster_item := mkItem {
  ri_jid : string;
  ri_name : string;
  ri_subscription : string;
  ri_ask_subscribe : bool
}.

#[export] Instance roster_item_eq_dec : EqDecision roster_item.
Proof. solve_decision. Defined.

(** The first [count] of the [MAX_ROSTER_ITEMS] entries. *)
Record roster := mkRoster {
  r_items : list roster_item;
  r_loaded : bool
}.

Definition r_count (r : roster) : nat := List.length (r_items r).

(** The buffers are the strings they hold ([read_len], [write_len] are their
    lengths); [xml_ctx] is [None] for null.  [s_open] holds the elements of
    the stanza being built that are still open, the innermost first: its
    first element is [current_node], its last [current_stanza]. *)
Record session {LX : LibXml} := mkSession {
  s_fd : Z;
  s_state : session_state;
  s_poll_index : nat;
  s_read_buf : string;
  s_write_buf : string;
  s_write_cap : nat;
  s_jid_local : string;
  s_jid_domain : string;
  s_jid_resource : string;
  s_xml_ctx : option pctx;
  s_open : list xnode;
  s_stanza_depth : Z;
  s_authenticated : bool;
  s_parser_reset_pending : bool;
  s_teardown_pending : bool;
  s_in_xml_parse : bool;
  s_available : bool;
  s_initial_presence_sent : bool;
  s_presence_stanza : option xnode;
  s_roster : roster
}.
Arguments session : clear implicits.
Arguments session {LX}.
Arguments mkSession {LX}.

(** Assignments to one field. *)
Section Session_fields.
Context {LX : LibXml}.
Definition set_state (v : session_state) (s : session) : session :=
  mkSession (s_fd s) v (s_poll_index s) (s_read_buf s) (s_write_buf s) (s_write_cap s)
    (s_jid_local s) (s_jid_domain s) (s_jid_resource s) (s_xml_ctx s) (s_open s)
    (s_stanza_depth s) (s_authenticated s) (s_parser_reset_pending s) (s_teardown_pending
    s) (s_in_xml_parse s) (s_available s) (s_initial_presence_sent s) (s_presence_stanza
    s) (s_roster s).
Definition set_poll_index (v : nat) (s : session) : session :=
  mkSession (s_fd s) (s_state s) v (s_read_buf s) (s_write_buf s) (s_write_cap s)
    (s_jid_local s) (s_jid_domain s) (s_jid_resource s) (s_xml_ctx s) (s_open s)
    (s_stanza_depth s) (s_authenticated s) (s_parser_reset_pending s) (s_teardown_pending
    s) (s_in_xml_parse s) (s_available s) (s_initial_presence_sent s) (s_presence_stanza
    s) (s_roster s).
Definition set_read_buf (v : string) (s : session) : session :=
  mkSession (s_fd s) (s_state s) (s_poll_index s) v (s_write_buf s) (s_write_cap s)
    (s_jid_local s) (s_jid_domain s) (s_jid_resource s) (s_xml_ctx s) (s_open s)
    (s_stanza_depth s) (s_authenticated s) (s_parser_reset_pending s) (s_teardown_pending
    s) (s_in_xml_parse s) (s_available s) (s_initial_presence_sent s) (s_presence_stanza
    s) (s_roster s).
Definition set_write_buf (v : string) (s : session) : session :=
  mkSession (s_fd s) (s_state s) (s_poll_index s) (s_read_buf s) v (s_write_cap s)
    (s_jid_local s) (s_jid_domain s) (s_jid_resource s) (s_xml_ctx s) (s_open s)
    (s_stanza_depth s) (s_authenticated s) (s_parser_reset_pending s) (s_teardown_pending
    s) (s_in_xml_parse s) (s_available s) (s_initial_presence_sent s) (s_presence_stanza
    s) (s_roster s).
Definition set_write_cap (v : nat) (s : session) : session :=
  mkSession (s_fd s) (s_state s) (s_poll_index s) (s_read_buf s) (s_write_buf s) v
    (s_jid_local s) (s_jid_domain s) (s_jid_resource s) (s_xml_ctx s) (s_open s)
    (s_stanza_depth s) (s_authenticated s) (s_parser_reset_pending s) (s_teardown_pending
    s) (s_in_xml_parse s) (s_available s) (s_initial_presence_sent s) (s_presence_stanza
    s) (s_roster s).
Definition set_jid_local (v : string) (s : session) : session :=
  mkSession (s_fd s) (s_state s) (s_poll_index s) (s_read_buf s) (s_write_buf s)
    (s_write_cap s) v (s_jid_domain s) (s_jid_resource s) (s_xml_ctx s) (s_open s)
    (s_stanza_depth s) (s_authenticated s) (s_parser_reset_pending s) (s_teardown_pending
    s) (s_in_xml_parse s) (s_available s) (s_initial_presence_sent s) (s_presence_stanza
    s) (s_roster s).
Definition set_jid_domain (v : string) (s : session) : session :=
  mkSession (s_fd s) (s_state s) (s_poll_index s) (s_read_buf s) (s_write_buf s)
    (s_write_cap s) (s_jid_local s) v (s_jid_resource s) (s_xml_ctx s) (s_open s)
    (s_stanza_depth s) (s_authenticated s) (s_parser_reset_pending s) (s_teardown_pending
    s) (s_in_xml_parse s) (s_available s) (s_initial_presence_sent s) (s_presence_stanza
    s) (s_roster s).
Definition set_jid_resource (v : string) (s : session) : session :=
  mkSession (s_fd s) (s_state s) (s_poll_index s) (s_read_buf s) (s_write_buf s)
    (s_write_cap s) (s_jid_local s) (s_jid_domain s) v (s_xml_ctx s) (s_open s)
    (s_stanza_depth s) (s_authenticated s) (s_parser_reset_pending s) (s_teardown_pending
    s) (s_in_xml_parse s) (s_available s) (s_initial_presence_sent s) (s_presence_stanza
    s) (s_roster s).
Definition set_xml_ctx (v : option pctx) (s : session) : session :=
  mkSession (s_fd s) (s_state s) (s_poll_index s) (s_read_buf s) (s_write_buf s)
    (s_write_cap s) (s_jid_local s) (s_jid_domain s) (s_jid_resource s) v (s_open s)
    (s_stanza_depth s) (s_authenticated s) (s_parser_reset_pending s) (s_teardown_pending
    s) (s_in_xml_parse s) (s_available s) (s_initial_presence_sent s) (s_presence_stanza
    s) (s_roster s).
Definition set_open (v : list xnode) (s : session) : session :=
  mkSession (s_fd s) (s_state s) (s_poll_index s) (s_read_buf s) (s_write_buf s)
    (s_write_cap s) (s_jid_local s) (s_jid_domain s) (s_jid_resource s) (s_xml_ctx s) v
    (s_stanza_depth s) (s_authenticated s) (s_parser_reset_pending s) (s_teardown_pending
    s) (s_in_xml_parse s) (s_available s) (s_initial_presence_sent s) (s_presence_stanza
    s) (s_roster s).
Definition set_stanza_depth (v : Z) (s : session) : session :=
  mkSession (s_fd s) (s_state s) (s_poll_index s) (s_read_buf s) (s_write_buf s)
    (s_write_cap s) (s_jid_local s) (s_jid_domain s) (s_jid_resource s) (s_xml_ctx s)
    (s_open s) v (s_authenticated s) (s_parser_reset_pending s) (s_teardown_pending s)
    (s_in_xml_parse s) (s_available s) (s_initial_presence_sent s) (s_presence_stanza s)
    (s_roster s).
Definition set_authenticated (v : bool) (s : session) : session :=
  mkSession (s_fd s) (s_state s) (s_poll_index s) (s_read_buf s) (s_write_buf s)
    (s_write_cap s) (s_jid_local s) (s_jid_domain s) (s_jid_resource s) (s_xml_ctx s)
    (s_open s) (s_stanza_depth s) v (s_parser_reset_pending s) (s_teardown_pending s)
    (s_in_xml_parse s) (s_available s) (s_initial_presence_sent s) (s_presence_stanza s)
    (s_roster s).
Definition set_parser_reset_pending (v : bool) (s : session) : session :=
  mkSession (s_fd s) (s_state s) (s_poll_index s) (s_read_buf s) (s_write_buf s)
    (s_write_cap s) (s_jid_local s) (s_jid_domain s) (s_jid_resource s) (s_xml_ctx s)
    (s_open s) (s_stanza_depth s) (s_authenticated s) v (s_teardown_pending s)
    (s_in_xml_parse s) (s_available s) (s_initial_presence_sent s) (s_presence_stanza s)
    (s_roster s).
Definition set_teardown_pending (v : bool) (s : session) : session :=
  mkSession (s_fd s) (s_state s) (s_poll_index s) (s_read_buf s) (s_write_buf s)
    (s_write_cap s) (s_jid_local s) (s_jid_domain s) (s_jid_resource s) (s_xml_ctx s)
    (s_open s) (s_stanza_depth s) (s_authenticated s) (s_parser_reset_pending s) v
    (s_in_xml_parse s) (s_available s) (s_initial_presence_sent s) (s_presence_stanza s)
    (s_roster s).
Definition set_in_xml_parse (v : bool) (s : session) : session :=
  mkSession (s_fd s) (s_state s) (s_poll_index s) (s_read_buf s) (s_write_buf s)
    (s_write_cap s) (s_jid_local s) (s_jid_domain s) (s_jid_resource s) (s_xml_ctx s)
    (s_open s) (s_stanza_depth s) (s_authenticated s) (s_parser_reset_pending s)
    (s_teardown_pending s) v (s_available s) (s_initial_presence_sent s)
    (s_presence_stanza s) (s_roster s).
Definition set_available (v : bool) (s : session) : session :=
  mkSession (s_fd s) (s_state s) (s_poll_index s) (s_read_buf s) (s_write_buf s)
    (s_write_cap s) (s_jid_local s) (s_jid_domain s) (s_jid_resource s) (s_xml_ctx s)
    (s_open s) (s_stanza_depth s) (s_authenticated s) (s_parser_reset_pending s)
    (s_teardown_pending s) (s_in_xml_parse s) v (s_initial_presence_sent s)
    (s_presence_stanza s) (s_roster s).
Definition set_initial_presence_sent (v : bool) (s : session) : session :=
  mkSession (s_fd s) (s_state s) (s_poll_index s) (s_read_buf s) (s_write_buf s)
    (s_write_cap s) (s_jid_local s) (s_jid_domain s) (s_jid_resource s) (s_xml_ctx s)
    (s_open s) (s_stanza_depth s) (s_authenticated s) (s_parser_reset_pending s)
    (s_teardown_pending s) (s_in_xml_parse s) (s_available s) v (s_presence_stanza s)
    (s_roster s).
Definition set_presence_stanza (v : option xnode) (s : session) : session :=
  mkSession (s_fd s) (s_state s) (s_poll_index s) (s_read_buf s) (s_write_buf s)
    (s_write_cap s) (s_jid_local s) (s_jid_domain s) (s_jid_resource s) (s_xml_ctx s)
    (s_open s) (s_stanza_depth s) (s_authenticated s) (s_parser_reset_pending s)
    (s_teardown_pending s) (s_in_xml_parse s) (s_available s) (s_initial_presence_sent s)
    v (s_roster s).
Definition set_roster (v : roster) (s : session) : session :=
  mkSession (s_fd s) (s_state s) (s_poll_index s) (s_read_buf s) (s_write_buf s)
    (s_write_cap s) (s_jid_local s) (s_jid_domain s) (s_jid_resource s) (s_xml_ctx s)
    (s_open s) (s_stanza_depth s) (s_authenticated s) (s_parser_reset_pending s)
    (s_teardown_pending s) (s_in_xml_parse s) (s_available s) (s_initial_presence_sent s)
    (s_presence_stanza s) v.
End Session_fields.

(** ** server.c *)

Definition MAX_CLIENTS : nat := 16.

Definition POLLIN : Z := 1.
Definition POLLOUT : Z := 4.
Definition POLLERR : Z := 8.
Definition POLLHUP : Z := 16.

Record pollfd := mkPollfd { pfd_fd : Z; pfd_events : Z; pfd_revents : Z }.

Definition pollfd_zero : pollfd := mkPollfd 0 0 0.

(** An address in the heap of sessions. *)
Abbreviation sid := nat (only parsing).

Record world {LX : LibXml} {PX : Posix} := mkWorld {
  w_config : config_t;
  w_heap : gmap nat session;
  w_next : nat;
  w_pollfds : list pollfd;
  w_sessions : list (option sid);
  w_nfds : nat;
  w_listen_fd : Z;
  w_shutdown_flag : bool;
  w_fs : fs_t;
  w_net : net_t;
  w_os : os_t
}.
Arguments world : clear implicits.
Arguments world {LX PX}.
Arguments mkWorld {LX PX}.

Section World_fields.
Context {LX : LibXml} {PX : Posix}.
Definition set_heap (v : gmap nat session) (w : world) : world :=
  mkWorld (w_config w) v (w_next w) (w_pollfds w) (w_sessions w) (w_nfds w) (w_listen_fd
    w) (w_shutdown_flag w) (w_fs w) (w_net w) (w_os w).
Definition set_next (v : nat) (w : world) : world :=
  mkWorld (w_config w) (w_heap w) v (w_pollfds w) (w_sessions w) (w_nfds w) (w_listen_fd
    w) (w_shutdown_flag w) (w_fs w) (w_net w) (w_os w).
Definition set_pollfds (v : list pollfd) (w : world) : world :=
  mkWorld (w_config w) (w_heap w) (w_next w) v (w_sessions w) (w_nfds w) (w_listen_fd w)
    (w_shutdown_flag w) (w_fs w) (w_net w) (w_os w).
Definition set_sessions (v : list (option sid)) (w : world) : world :=
  mkWorld (w_config w) (w_heap w) (w_next w) (w_pollfds w) v (w_nfds w) (w_listen_fd w)
    (w_shutdown_flag w) (w_fs w) (w_net w) (w_os w).
Definition set_nfds (v : nat) (w : world) : world :=
  mkWorld (w_config w) (w_heap w) (w_next w) (w_pollfds w) (w_sessions w) v (w_listen_fd
    w) (w_shutdown_flag w) (w_fs w) (w_net w) (w_os w).
Definition set_listen_fd (v : Z) (w : world) : world :=
  mkWorld (w_config w) (w_heap w) (w_next w) (w_pollfds w) (w_sessions w) (w_nfds w) v
    (w_shutdown_flag w) (w_fs w) (w_net w) (w_os w).
Definition set_shutdown_flag (v : bool) (w : world) : world :=
  mkWorld (w_config w) (w_heap w) (w_next w) (w_pollfds w) (w_sessions w) (w_nfds w)
    (w_listen_fd w) v (w_fs w) (w_net w) (w_os w).
Definition set_fs (v : fs_t) (w : world) : world :=
  mkWorld (w_config w) (w_heap w) (w_next w) (w_pollfds w) (w_sessions w) (w_nfds w)
    (w_listen_fd w) (w_shutdown_flag w) v (w_net w) (w_os w).
Definition set_net (v : net_t) (w : world) : world :=
  mkWorld (w_config w) (w_heap w) (w_next w) (w_pollfds w) (w_sessions w) (w_nfds w)
    (w_listen_fd w) (w_shutdown_flag w) (w_fs w) v (w_os w).
Definition set_os (v : os_t) (w : world) : world :=
  mkWorld (w_config w) (w_heap w) (w_next w) (w_pollfds w) (w_sessions w) (w_nfds w)
    (w_listen_fd w) (w_shutdown_flag w) (w_fs w) (w_net w) v.
End World_fields.

Section Access.
Context {LX : LibXml} {PX : Posix}.

Definition M (A : Type) : Type := comp world A.

(** Reading through a [session_t *]. *)
Definition deref (s : sid) : M session :=
  fun w => match w_heap w !! s with
           | Some x => Ok (x, w)
           | None => Fault FFreed
           end.

(** An assignment to fields of a session. *)
Definition upd (s : sid) (f : session -> session) : M unit :=
  fun w => match w_heap w !! s with
           | Some x => Ok (tt, set_heap (<[s := f x]> (w_heap w)) w)
           | None => Fault FFreed
           end.

Definition g_config : M config_t := fun w => Ok (w_config w, w).

Definition do_fs {A} (f : fs_t -> fs_t * A) : M A :=
  fun w => let '(fs, a) := f (w_fs w) in Ok (a, set_fs fs w).

Definition do_net {A} (f : net_t -> net_t * A) : M A :=
  fun w => let '(n, a) := f (w_net w) in Ok (a, set_net n w).

Definition do_os {A} (f : os_t -> os_t * A) : M A :=
  fun w => let '(o, a) := f (w_os w) in Ok (a, set_os o w).

Definition get_fs : M fs_t := fun w => Ok (w_fs w, w).

(** Reading an array of server.c at an index. *)
Definition arr_get {A} (l : list A) (i : nat) : M A :=
  match l !! i with
  | Some a => ret a
  | None => raise FOob
  end.
End Access.

(** How session_write gets rid of a session whose buffer cannot grow: it calls
    [session_teardown], which is defined on top of it.  The knot is tied in
    Session.v. *)
Class Recovery {LX : LibXml} {PX : Posix} := recover : nat -> M unit.
