(* ===== verification/Config.v ===== *)
(** config.c: the defaults, the configuration file and the command-line
    options; the log levels of log.h. *)

From S2P Require Import Prelude CLib Dom World.
Open Scope Z_scope.

(** ** log.h *)

Definition LOG_DEBUG : Z := 0.
Definition LOG_INFO : Z := 1.
Definition LOG_WARN : Z := 2.
Definition LOG_ERROR : Z := 3.

(** ** config.c *)

Definition config_defaults : config_t :=
  mkConfig (snprintf 256 "localhost") 5222 (snprintf 256 "0.0.0.0") (snprintf 1024 "./data")
    (snprintf 1024 "./xmppd.log") LOG_INFO.

Definition parse_loglevel (s : string) : Z :=
  if strcaseeq s "DEBUG" then LOG_DEBUG
  else if strcaseeq s "INFO" then LOG_INFO
  else if strcaseeq s "WARN" then LOG_WARN
  else if strcaseeq s "ERROR" then LOG_ERROR
  else LOG_INFO.

Definition set_domain (v : string) (c : config_t) : config_t :=
  mkConfig (snprintf 256 v) (port c) (bind_address c) (datadir c) (logfile c) (loglevel c).
Definition set_port (v : string) (c : config_t) : config_t :=
  mkConfig (domain c) (atoi v) (bind_address c) (datadir c) (logfile c) (loglevel c).
Definition set_bind_address (v : string) (c : config_t) : config_t :=
  mkConfig (domain c) (port c) (snprintf 256 v) (datadir c) (logfile c) (loglevel c).
Definition set_datadir (v : string) (c : config_t) : config_t :=
  mkConfig (domain c) (port c) (bind_address c) (snprintf 1024 v) (logfile c) (loglevel c).
Definition set_logfile (v : string) (c : config_t) : config_t :=
  mkConfig (domain c) (port c) (bind_address c) (datadir c) (snprintf 1024 v) (loglevel c).
Definition set_loglevel (v : string) (c : config_t) : config_t :=
  mkConfig (domain c) (port c) (bind_address c) (datadir c) (logfile c) (parse_loglevel v).

(** The key and the value of a line, if it is a setting. *)
Definition config_entry (chunk : string) : option (string * string) :=
  let line := str_until (fun c => is_char c newline) (str_until (fun c => is_char c nul) chunk) in
  let s := trim line in
  match s with
  | EmptyString => None
  | String c _ =>
      if is_char c "#" then None
      else match strchr "=" s with
           | None => None
           | Some eq => Some (trim (str_take eq s), trim (str_drop (S eq) s))
           end
  end.

Definition config_set (key val : string) (c : config_t) : config_t :=
  if key =s "domain" then set_domain val c
  else if key =s "port" then set_port val c
  else if key =s "bind_address" then set_bind_address val c
  else if key =s "datadir" then set_datadir val c
  else if key =s "logfile" then set_logfile val c
  else if key =s "loglevel" then set_loglevel val c
  else c.

Definition config_line (c : config_t) (chunk : string) : config_t :=
  match config_entry chunk with
  | Some (key, val) => config_set key val c
  | None => c
  end.

(** [config_load] of a file with this content ([None]: it cannot be opened). *)
Definition config_load (content : option string) (c : config_t) : config_t * Z :=
  match content with
  | None => (c, -1)
  | Some s => (fold_left config_line (fgets_all 1024 s) c, 0)
  end.

(** What [getopt_long] returns, call after call: an option and its argument. *)
Inductive cli_option :=
  | OptConfig (arg : string)
  | OptDomain (arg : string)
  | OptPort (arg : string)
  | OptDatadir (arg : string)
  | OptLogfile (arg : string)
  | OptLoglevel (arg : string)
  | OptHelp
  | OptUnknown.

(** The first pass: the last [--config] wins. *)
Fixpoint find_config_path (opts : list cli_option) (path : option string) : option string :=
  match opts with
  | [] => path
  | OptConfig p :: opts' => find_config_path opts' (Some p)
  | _ :: opts' => find_config_path opts' path
  end.

(** The second pass: it stops at help (1) and at an unknown option (-1). *)
Fixpoint apply_options (opts : list cli_option) (c : config_t) : config_t * Z :=
  match opts with
  | [] => (c, 0)
  | OptConfig _ :: opts' => apply_options opts' c
  | OptDomain a :: opts' => apply_options opts' (set_domain a c)
  | OptPort a :: opts' => apply_options opts' (set_port a c)
  | OptDatadir a :: opts' => apply_options opts' (set_datadir a c)
  | OptLogfile a :: opts' => apply_options opts' (set_logfile a c)
  | OptLoglevel a :: opts' => apply_options opts' (set_loglevel a c)
  | OptHelp :: _ => (c, 1)
  | OptUnknown :: _ => (c, -1)
  end.

(** [read_file] gives the content of a file that can be opened. *)
Definition config_parse_args (read_file : string -> option string) (opts : list cli_option)
    (c : config_t) : config_t * Z :=
  let path := match find_config_path opts None with
              | Some p => p
              | None => "./xmppd.conf"
              end in
  apply_options opts (fst (config_load (read_file path) c)).
