(* ===== verification/Log.v ===== *)
(** log.c: the state of the logger, which messages reach the log file and what
    they look like there. *)

From S2P Require Import Prelude CLib World Config.
Open Scope Z_scope.

(** [log_fp] and [log_level]: what was appended through the open stream,
    nothing if it is null, and the threshold. *)
Record log_state := mkLog { log_fp : option string; log_level : Z }.

(** [strftime (buf, size, "%Y-%m-%d %H:%M:%S", &tm)], whose buffer is
    undefined when the text and its NUL do not fit. *)
Definition log_timestamp (size : nat) (t : tm) : res string :=
  let text := dec (tm_year t + 1900) ++ "-" ++ fmt_0d 2 (tm_mon t + 1) ++ "-" ++
    fmt_0d 2 (tm_mday t) ++ " " ++ fmt_0d 2 (tm_hour t) ++ ":" ++ fmt_0d 2 (tm_min t) ++ ":" ++
    fmt_0d 2 (tm_sec t) in
  if (String.length text <? size)%nat then Ok text else Fault FUninit.

(** [can_open]: whether [fopen] succeeds. *)
Definition log_init (can_open : bool) (level : Z) : log_state * Z :=
  if can_open then (mkLog (Some "") level, 0) else (mkLog None level, -1).

Definition log_close (st : log_state) : log_state := mkLog None (log_level st).

(** [level_names[level]] *)
Definition level_name (level : Z) : res string :=
  if (0 <=? level) && (level <=? 3)
  then Ok (nth (Z.to_nat level) ["DEBUG"; "INFO"; "WARN"; "ERROR"] "")
  else Fault FOob.

(** A message is logged when its level reaches the threshold and the file is
    open; [now] is the local time and [msg] what the format and its arguments
    amount to. *)
Definition log_write (now : tm) (level : Z) (msg : string) (st : log_state) : res log_state :=
  match log_fp st with
  | None => Ok st
  | Some out =>
      if level <? log_level st then Ok st
      else
        rbind (log_timestamp 32 now) (fun ts =>
        rbind (level_name level) (fun name =>
        Ok (mkLog (Some (out ++ "[" ++ ts ++ "] [" ++ name ++ "] " ++ msg ++ String newline ""))
              (log_level st))))
  end.

(** The data is printed with [%.*s], up to its first NUL. *)
Definition log_xml (arrow : string) (now : tm) (data : string) (st : log_state) : res log_state :=
  match log_fp st with
  | None => Ok st
  | Some out =>
      if LOG_DEBUG <? log_level st then Ok st
      else
        rbind (log_timestamp 32 now) (fun ts =>
        Ok (mkLog (Some (out ++ "[" ++ ts ++ "] [DEBUG] " ++ arrow ++ " " ++
                         str_until (fun c => is_char c nul) data ++ String newline ""))
              (log_level st)))
  end.

Definition log_xml_in : tm -> string -> log_state -> res log_state := log_xml "<--".
Definition log_xml_out : tm -> string -> log_state -> res log_state := log_xml "-->".

(** ** Properties *)

(** A broken-down time as localtime_r yields it, from year 0 to the last year
    an [int] can count from 1900. *)
Record tm_ok (t : tm) : Prop := {
  tm_year_ok : - 1900 <= tm_year t < 2 ^ 31 - 1900;
  tm_mon_ok : 0 <= tm_mon t <= 11;
  tm_mday_ok : 1 <= tm_mday t <= 31;
  tm_hour_ok : 0 <= tm_hour t <= 23;
  tm_min_ok : 0 <= tm_min t <= 59;
  tm_sec_ok : 0 <= tm_sec t <= 60
}.

Lemma two_digits k : 0 <= k <= 99 -> String.length (fmt_0d 2 k) = 2%nat.
Proof.
  intros Hk. assert (forallb (fun n => String.length (fmt_0d 2 (Z.of_nat n)) =? 2)%nat (seq 0 100) = true)
    as H by (vm_compute; reflexivity).
  rewrite forallb_forall in H. specialize (H (Z.to_nat k)). rewrite in_seq, Z2Nat.id in H by lia.
  apply Nat.eqb_eq, H. lia.
Qed.

(** A time stamp always fits the 32 bytes it is given. *)
Lemma log_timestamp_fits t : tm_ok t -> exists ts, log_timestamp 32 t = Ok ts.
Proof.
  intros [? ? ? ? ? ?]. unfold log_timestamp. rewrite (proj2 (Nat.ltb_lt _ _)); [by eexists|].
  pose proof (dec_length (tm_year t + 1900)).
  rewrite !str_length_app, !two_digits by lia. cbn [String.length]. lia.
Qed.

(** What a message adds to the log. *)
Definition log_entry (threshold : Z) (e : tm * Z * string) : string :=
  let '(now, level, msg) := e in
  if level <? threshold then ""
  else match log_timestamp 32 now, level_name level with
       | Ok ts, Ok name => "[" ++ ts ++ "] [" ++ name ++ "] " ++ msg ++ String newline ""
       | _, _ => ""
       end.

Fixpoint log_all (es : list (tm * Z * string)) (st : log_state) : res log_state :=
  match es with
  | [] => Ok st
  | (now, level, msg) :: es' => rbind (log_write now level msg st) (log_all es')
  end.

(** The log is the entries of the messages that reach the threshold, in the
    order in which they were written, after what was there; and writing never
    leaves the buffers of the logger. *)
Theorem log_in_order es : forall out threshold,
  Forall (fun e => tm_ok e.1.1 /\ 0 <= e.1.2 <= 3) es ->
  log_all es (mkLog (Some out) threshold) =
  Ok (mkLog (Some (out ++ fold_right append "" (map (log_entry threshold) es))) threshold).
Proof.
  induction es as [|[[now level] msg] es IH]; intros out threshold Hes; cbn [log_all map].
  { cbn. by rewrite str_app_nil_r. }
  apply Forall_cons_1 in Hes as [[Ht Hl] Hes]. cbn [fst snd] in Ht, Hl.
  destruct (log_timestamp_fits now Ht) as [ts Hts].
  assert (exists name, level_name level = Ok name) as [name Hname].
  { unfold level_name. rewrite (proj2 (Z.leb_le 0 _)), (proj2 (Z.leb_le _ 3)) by lia. by eexists. }
  unfold log_write, log_entry. cbn [log_fp log_level fold_right]. rewrite Hts, Hname.
  destruct (level <? threshold); cbn [rbind].
  - by rewrite IH.
  - rewrite IH by done. by rewrite !str_app_assoc.
Qed.

Lemma log_in_order_witness :
  log_all [(mkTm 125 0 15 14 32 1, LOG_DEBUG, "poll"); (mkTm 125 0 15 14 32 1, LOG_WARN, "full")]
    (mkLog (Some "") LOG_INFO)
  = Ok (mkLog (Some ("[2025-01-15 14:32:01] [WARN] full" ++ String newline "")) LOG_INFO).
Proof.
  rewrite (log_in_order _ "" LOG_INFO).
  - vm_compute. reflexivity.
  - repeat constructor; cbn; discriminate.
Defined.
