(* ===== verification/Concrete.v ===== *)
(** Concrete instances of [LibXml] and [Posix], on which the definitions
    evaluate: the witnesses of the other files run on them, and [LibXmlLaws],
    [PosixLaws] and [IdealDisk] are shown to be satisfiable by them.

    Documents are written as the bits of an injective encoding of the tree;
    the push parser of the instance reads each chunk as a list of callbacks, one
    per line.  Files are a finite map, what each descriptor was sent is
    kept, and reads and connections come from queues. *)

From stdpp Require Import gmap countable.
From S2P Require Import Prelude Dom World.
Open Scope Z_scope.

(** ** An encoding of trees as strings *)

Definition attr_code : Type := option (string * option string) * string * string.

Definition ns_enc (n : xns) : string * option string := (ns_href n, ns_prefix n).
Definition ns_dec (p : string * option string) : xns := mkNs p.1 p.2.
Definition attr_enc (a : xattr) : attr_code := (ns_enc <$> at_ns a, at_name a, at_value a).
Definition attr_dec (c : attr_code) : xattr := mkAttr (ns_dec <$> c.1.1) c.1.2 c.2.

#[export] Instance xns_countable : Countable xns.
Proof. apply (inj_countable' ns_enc ns_dec). by intros []. Defined.

#[export] Instance xattr_countable : Countable xattr.
Proof. apply (inj_countable' attr_enc attr_dec). by intros [[[]|] ??]. Defined.

Definition head_code : Type := string * option xns * list xns * list xattr.

Fixpoint tree_of (n : xnode) : gen_tree (head_code + option string) :=
  match n with
  | XElem name ns d ps cs => GenNode 0 (GenLeaf (inl (name, ns, d, ps)) :: map tree_of cs)
  | XText c => GenLeaf (inr (Some c))
  | XOther => GenLeaf (inr None)
  end.

Fixpoint of_tree (t : gen_tree (head_code + option string)) : xnode :=
  match t with
  | GenNode _ (GenLeaf (inl (name, ns, d, ps)) :: cs) => XElem name ns d ps (map of_tree cs)
  | GenLeaf (inr (Some c)) => XText c
  | _ => XOther
  end.

(** Induction that reaches the children. *)
Fixpoint xnode_rect' (P : xnode -> Prop)
    (He : forall name ns d ps cs, Forall P cs -> P (XElem name ns d ps cs))
    (Ht : forall c, P (XText c)) (Ho : P XOther) (n : xnode) : P n :=
  match n with
  | XElem name ns d ps cs =>
      He name ns d ps cs
        ((fix go (l : list xnode) : Forall P l :=
            match l with
            | [] => Forall_nil_2 P
            | c :: l' => Forall_cons_2 P c l' (xnode_rect' P He Ht Ho c) (go l')
            end) cs)
  | XText c => Ht c
  | XOther => Ho
  end.

Lemma of_tree_of n : of_tree (tree_of n) = n.
Proof.
  induction n as [name ns d ps cs IH|c|] using xnode_rect'; [|done..].
  simpl. f_equal. rewrite map_map. induction IH; simpl; congruence.
Qed.

#[export] Instance xnode_eq_dec : EqDecision xnode.
Proof.
  intros x y.
  destruct (decide (tree_of x = tree_of y)) as [H|H].
  - left. by rewrite <- (of_tree_of x), H, of_tree_of.
  - right. by intros ->.
Defined.

#[export] Instance xnode_countable : Countable xnode.
Proof. apply (inj_countable' tree_of of_tree). apply of_tree_of. Defined.

Fixpoint pos_bits (p : positive) : string :=
  match p with
  | xH => ""
  | xO p' => String "0" (pos_bits p')
  | xI p' => String "1" (pos_bits p')
  end.

Fixpoint bits_pos (s : string) : positive :=
  match s with
  | EmptyString => xH
  | String c s' => if Ascii.eqb c "0" then xO (bits_pos s') else xI (bits_pos s')
  end.

Lemma bits_pos_bits p : bits_pos (pos_bits p) = p.
Proof. induction p; simpl; congruence. Qed.

Definition show {A} `{Countable A} (a : A) : string := pos_bits (encode a).
Definition read {A} `{Countable A} (s : string) : option A := decode (bits_pos s).

Lemma read_show {A} `{Countable A} (a : A) : read (show a) = Some a.
Proof. unfold read, show. by rewrite bits_pos_bits, decode_encode. Qed.

(** Callbacks as chunks: one line each, its words separated by spaces.
    [S name k=v ...] and [N ns name k=v ...] start an element, [E] ends one,
    [C text] is text, [X] an error. *)
Fixpoint split_on (c : ascii) (s : string) : list string :=
  match s with
  | EmptyString => [""]
  | String d s' =>
      if Ascii.eqb c d then "" :: split_on c s'
      else match split_on c s' with
           | w :: ws => String d w :: ws
           | [] => [String d ""]
           end
  end.

Definition attr_of_word (w : string) : sax_attr :=
  match strchr "=" w with
  | Some i => mkSaxAttr (str_take i w) None None (str_drop (S i) w)
  | None => mkSaxAttr w None None ""
  end.

Definition event_of_line (l : string) : list sax_event :=
  match split_on " " l with
  | "S" :: name :: attrs => [SaxStart name None None [] (map attr_of_word attrs)]
  | "N" :: ns :: name :: attrs =>
      [SaxStart name None (Some ns) [(None, ns)] (map attr_of_word attrs)]
  | "E" :: _ => [SaxEnd "" None None]
  | "C" :: text :: _ => [SaxChars text]
  | "X" :: _ => [SaxError 3]
  | _ => []
  end.

Definition events_of_chunk (data : string) : list sax_event :=
  concat (map event_of_line (split_on "010" data)).

Fixpoint chunk (lines : list string) : string :=
  match lines with
  | [] => ""
  | [l] => l
  | l :: ls => l ++ String "010" (chunk ls)
  end.

(** ** The instances *)

Definition with_props (f : list xattr -> list xattr) (n : xnode) : xnode :=
  match n with XElem k ns d ps cs => XElem k ns d (f ps) cs | _ => n end.

Fixpoint text_content (n : xnode) : string :=
  match n with
  | XElem _ _ _ _ cs => fold_right (fun c acc => text_content c ++ acc) "" cs
  | XText c => c
  | XOther => ""
  end.

Definition add_child (n c : xnode) : xnode :=
  match n with XElem k ns d ps cs => XElem k ns d ps (cs ++ [c])%list | _ => n end.

#[export] Instance ConcreteXml : LibXml := {
  xmlNewNode name := XElem name None [] [] [];
  xmlNewProp n k v := with_props (fun ps => ps ++ [mkAttr None k v])%list n;
  xmlNewNsProp n ns k v := with_props (fun ps => ps ++ [mkAttr ns k v])%list n;
  xmlSetProp n k v := with_props (fun ps => set_attr ps k v) n;
  xmlGetProp n k := find_attr (xn_props n) k;
  xmlNodeGetContent n := Some (text_content n);
  xmlNewNs n href prefix :=
    match n with
    | XElem k ns d ps cs =>
        if decide (prefix ∈ map ns_prefix d) then (n, None)
        else (XElem k ns (d ++ [mkNs href prefix])%list ps cs, Some (mkNs href prefix))
    | _ => (n, None)
    end;
  xmlSetNs n ns := match n with XElem k _ d ps cs => XElem k ns d ps cs | _ => n end;
  xmlNewChild p ns name content :=
    XElem name (match ns with Some _ => ns | None => xn_ns p end) [] []
      (match content with Some c => [XText c] | None => [] end);
  xmlAddChild := add_child;
  xmlNodeAddContentLen n ch := add_child n (XText ch);
  xmlCopyNode n := n;
  xmlNodeDump n := Some (show n);
  xmlReadDoc s := Some <$> read s;
  xmlDumpDoc n := show n;
  pctx := unit;
  xmlCreatePushParserCtxt := Some tt;
  xmlParseChunk _ data := (tt, events_of_chunk data)
}.

Lemma concrete_xml_laws : LibXmlLaws ConcreteXml.
Proof.
  constructor; try done.
  - intros n ns d ps cs href prefix Hd. simpl. rewrite decide_False; [done|].
    rewrite Forall_forall in Hd. intros Hin.
    apply list_elem_of_In, in_map_iff in Hin as (x & Heq & Hx).
    apply (Hd x); [by apply list_elem_of_In|done].
  - intros name cs _ Hcs. exists cs.
    change (xmlReadDoc (xmlDumpDoc (XElem name None [] [] cs)))
      with (Some <$> read (A := xnode) (show (XElem name None [] [] cs))).
    rewrite read_show. split; [done|].
    induction Hcs as [|c cs (k & ps & -> & _) _ IH]; [done|]. simpl. by rewrite IH.
Qed.

(** Files ([None]: a directory), what was sent, what is to be read, the
    connections that wait. *)
Record net_state := mkNet {
  nt_sent : list (Z * string);
  nt_input : list (Z * string);
  nt_pending : list Z;
  nt_polls : list (list Z)
}.

Definition parent_of (p : string) : string -> bool :=
  fun q => String.prefix (q ++ "/") p.

Definition fs_names (m : gmap string (option string)) (dir : string) : list string :=
  let pre := dir ++ "/" in
  omap (fun e => if String.prefix pre e.1
                 then let r := str_drop (String.length pre) e.1 in
                      if str_mem "/" r then None else Some r
                 else None) (map_to_list m).

#[export] Instance ConcreteOs : Posix := {
  fs_t := gmap string (option string);
  fs_stat m p := bool_decide (is_Some (m !! p));
  fs_mkdir m p := match m !! p with Some _ => (m, false) | None => (<[p := None]> m, true) end;
  fs_read m p := match m !! p with Some (Some c) => Some c | _ => None end;
  fs_write m p c := match m !! p with
                    | Some None => (m, false)
                    | _ => (<[p := Some c]> m, true)
                    end;
  fs_readdir m p := match m !! p with Some None => Some (fs_names m p) | _ => None end;
  fs_unlink m p := match m !! p with Some (Some _) => delete p m | _ => m end;
  fs_rmdir m p := match m !! p, fs_names m p with Some None, [] => delete p m | _, _ => m end;
  net_t := net_state;
  net_write n fd s :=
    (mkNet (nt_sent n ++ [(fd, s)])%list (nt_input n) (nt_pending n) (nt_polls n),
     WOk (String.length s));
  net_read n fd size :=
    match nt_input n with
    | (fd', s) :: rest =>
        if fd' =? fd
        then (mkNet (nt_sent n) rest (nt_pending n) (nt_polls n), RData (str_take size s))
        else (n, REof)
    | [] => (n, REof)
    end;
  net_close n _ := n;
  net_accept n _ :=
    match nt_pending n with
    | fd :: rest => (mkNet (nt_sent n) (nt_input n) rest (nt_polls n), Some fd)
    | [] => (n, None)
    end;
  net_listen n _ _ := (n, Some 3);
  net_poll n _ :=
    match nt_polls n with
    | r :: rest => (mkNet (nt_sent n) (nt_input n) (nt_pending n) rest, PReady r)
    | [] => (n, PIntr)
    end;
  os_t := unit;
  os_random _ n := (tt, replicate n 0);
  os_gmtime _ := (tt, mkTm 125 0 15 14 32 1);
  malloc_ok _ := true;
  realloc_ok _ := true;
  sizeof_session := 0
}.

#[export] Instance concrete_os_laws : PosixLaws ConcreteOs.
Proof.
  constructor; simpl.
  - intros n fd size n' data H. destruct (nt_input n) as [|[fd' s] rest]; [done|].
    destruct (fd' =? fd); [|done]. inv H. rewrite str_take_length. lia.
  - intros n fd data n' k H. by inv H.
  - intros m p m' ok q H. destruct (m !! p) eqn:E; inv H; [done|].
    destruct (decide (p = q)) as [<-|]; [by rewrite lookup_insert_eq, E|].
    by rewrite lookup_insert_ne.
  - intros m p q. destruct (m !! p) as [[?|]|] eqn:E; [done| |done].
    destruct (fs_names m p); [|done]. destruct (decide (p = q)) as [<-|].
    + by rewrite lookup_delete_eq, E.
    + by rewrite lookup_delete_ne.
Qed.

#[export] Instance concrete_disk : IdealDisk ConcreteOs.
Proof.
  constructor; simpl.
  - intros m p c m' H. destruct (m !! p) as [[?|]|]; inv H; by rewrite lookup_insert_eq.
  - intros m p c m' ok q H Hq.
    destruct (m !! p) as [[?|]|]; inv H; try done; by rewrite lookup_insert_ne.
  - intros m p q Hq. destruct (m !! p) as [[?|]|]; [|done..]. by rewrite lookup_delete_ne.
Qed.

#[export] Instance concrete_reallocates : Reallocates ConcreteOs.
Proof. done. Qed.

Definition demo_config : config_t :=
  mkConfig "localhost" 5222 "0.0.0.0" "data" "xmppd.log" 1.

(** The world in which [server_init] starts. *)
Definition boot (cfg : config_t) (fs : gmap string (option string)) (pending : list Z)
    : world :=
  mkWorld cfg ∅ 0 [] [] 0 (-1) false fs (mkNet [] [] pending []) tt.

(** The same world with clients waiting, input for them and the answers of
    [poll]. *)
Definition boot_net (cfg : config_t) (fs : gmap string (option string)) (pending : list Z)
    (input : list (Z * string)) (polls : list (list Z)) : world :=
  mkWorld cfg ∅ 0 [] [] 0 (-1) false fs (mkNet [] input pending polls) tt.

(** The state a computation ends in. *)
Definition run {S A} (m : comp S A) (w : S) : S :=
  match m w with Ok (_, w') => w' | Fault _ => w end.

Definition outcome {S A} (m : comp S A) (w : S) : res A :=
  match m w with Ok (a, _) => Ok a | Fault f => Fault f end.

Lemma run_outcome {S A} (m : comp S A) w a : outcome m w = Ok a -> m w = Ok (a, run m w).
Proof. unfold outcome, run. destruct (m w) as [[b w']|]; [by intros [= ->]|done]. Qed.

Lemma outcome_is {S A} (m : comp S A) w a b w' : m w = Ok (a, w') -> outcome m w = Ok b -> a = b.
Proof. unfold outcome. intros ->. by intros [= ->]. Qed.
