(* ===== verification/SessionIo.v ===== *)
(** The life of a session object and its buffers: [session_create],
    [session_destroy], [session_write], [session_flush], [session_find_by_jid]
    of session.c, the parser life cycle of xml.c, and the session tables of
    server.c that they use. *)

From stdpp Require Import gmap.
From S2P Require Import Prelude Util Dom World.
Open Scope Z_scope.

Section Io.
Context {LX : LibXml} {PX : Posix} {RC : Recovery}.

(** ** server.c: the tables *)

(** [&pollfds[index]], or null out of range. *)
Definition server_get_pollfd (index : nat) : option nat :=
  if (index <? MAX_CLIENTS)%nat then Some index else None.

Definition upd_pollfd (i : nat) (f : pollfd -> pollfd) : M unit :=
  modify (fun w => set_pollfds (alter f i (w_pollfds w)) w).

Definition pfd_or (ev : Z) (p : pollfd) : pollfd :=
  mkPollfd (pfd_fd p) (Z.lor (pfd_events p) ev) (pfd_revents p).

Definition pfd_andnot (ev : Z) (p : pollfd) : pollfd :=
  mkPollfd (pfd_fd p) (Z.ldiff (pfd_events p) ev) (pfd_revents p).

(** The last entry moves into the slot of the session that goes. *)
Definition server_remove_session (s : sid) : M unit :=
  let! x := deref s in
  let idx := s_poll_index x in
  let! w := get in
  if (idx <? 1)%nat || (w_nfds w <=? idx)%nat then ret tt
  else
    let last := (w_nfds w - 1)%nat in
    (when negb (idx =? last)%nat then
       let! pfd := arr_get (w_pollfds w) last in
       let! t := arr_get (w_sessions w) last in
       modify (fun w => set_pollfds (<[idx := pfd]> (w_pollfds w)) w) ;;
       modify (fun w => set_sessions (<[idx := t]> (w_sessions w)) w) ;;
       match t with
       | Some t' => upd t' (set_poll_index idx)
       | None => ret tt
       end) ;;
    modify (fun w => set_pollfds (<[last := mkPollfd (-1) 0 0]> (w_pollfds w)) w) ;;
    modify (fun w => set_sessions (<[last := None]> (w_sessions w)) w) ;;
    modify (fun w => set_nfds (w_nfds w - 1)%nat w).

(** ** xml.c: the parser of a session *)

(** A parser that exists is freed first; [None] stands for null. *)
Definition xml_parser_create (s : sid) : M unit :=
  upd s (set_xml_ctx xmlCreatePushParserCtxt) ;;
  match xmlCreatePushParserCtxt with
  | None => ret tt
  | Some _ => upd s (fun x => set_open [] (set_stanza_depth 0 x))
  end.

Definition xml_parser_reset (s : sid) : M unit :=
  upd s (fun x => set_stanza_depth 0 (set_open [] (set_xml_ctx None x))) ;;
  xml_parser_create s.

Definition xml_parser_destroy (s : sid) : M unit :=
  upd s (fun x => set_stanza_depth 0 (set_open [] (set_xml_ctx None x))).

(** ** session.c: creation and destruction *)

Definition roster_zero : roster := mkRoster [] false.

(** [calloc], then the assignments that follow it. *)
Definition session_zero (fd : Z) : session :=
  mkSession fd STATE_CONNECTED 0 "" "" WRITE_BUF_INIT "" "" "" None [] 0
    false false false false false false None roster_zero.

Definition session_alloc (x : session) : M sid :=
  fun w => let s := w_next w in
           Ok (s, set_next (S s) (set_heap (<[s := x]> (w_heap w)) w)).

Definition session_create (fd : Z) : M (option sid) :=
  if negb (malloc_ok sizeof_session) then ret None
  else if negb (malloc_ok WRITE_BUF_INIT) then ret None
  else
    let! s := session_alloc (session_zero fd) in
    xml_parser_create s ;;
    ret (Some s).

Definition session_destroy (s : sid) : M unit :=
  let! x := deref s in
  (when (0 <=? s_fd x) then do_net (fun n => (net_close n (s_fd x), tt))) ;;
  modify (fun w => set_heap (delete s (w_heap w)) w).

(** ** session.c: the write buffer *)

Definition grown_cap (cap need : nat) : nat :=
  if (cap * 2 <? need)%nat then need else (cap * 2)%nat.

(** When [realloc] fails, the session is torn down and nothing is written; the
    callers are not told. *)
Definition session_write (s : sid) (data : string) : M unit :=
  if str_empty data then ret tt
  else
    let! x := deref s in
    let need := (String.length (s_write_buf x) + String.length data)%nat in
    let! room := (if (s_write_cap x <? need)%nat then
                    let new_cap := grown_cap (s_write_cap x) need in
                    if negb (realloc_ok new_cap) then recover s ;; ret false
                    else upd s (set_write_cap new_cap) ;; ret true
                  else ret true) in
    when room then
      (upd s (fun x => set_write_buf (s_write_buf x ++ data) x) ;;
       let! x := deref s in
       match server_get_pollfd (s_poll_index x) with
       | Some i => upd_pollfd i (pfd_or POLLOUT)
       | None => ret tt
       end).

Definition session_write_str (s : sid) (str : string) : M unit := session_write s str.

(** 0, or -1 when [write] failed for good. *)
Definition session_flush (s : sid) : M Z :=
  let! x := deref s in
  if str_empty (s_write_buf x) then ret 0
  else
    let! r := do_net (fun n => net_write n (s_fd x) (s_write_buf x)) in
    match r with
    | WErr => ret (-1)
    | WAgain => ret 0
    | WOk n =>
        upd s (fun x => set_write_buf (str_drop n (s_write_buf x)) x) ;;
        let! x := deref s in
        (when str_empty (s_write_buf x) then
           match server_get_pollfd (s_poll_index x) with
           | Some i => upd_pollfd i (pfd_andnot POLLOUT)
           | None => ret tt
           end) ;;
        ret 0
    end.

(** ** session.c: looking a session up *)

(** [sessions[1 .. nfds - 1]] *)
Definition active_slots (w : world) : list (option sid) :=
  take (w_nfds w - 1) (drop 1 (w_sessions w)).

Fixpoint find_by_jid_loop (slots : list (option sid)) (bare_jid : string)
    : M (option sid) :=
  match slots with
  | [] => ret None
  | None :: slots' => find_by_jid_loop slots' bare_jid
  | Some s :: slots' =>
      let! x := deref s in
      if str_empty (s_jid_local x) then find_by_jid_loop slots' bare_jid
      else if jid_bare (s_jid_local x) (s_jid_domain x) 512 =s bare_jid
      then ret (Some s)
      else find_by_jid_loop slots' bare_jid
  end.

Definition session_find_by_jid (bare_jid : string) : M (option sid) :=
  let! w := get in
  find_by_jid_loop (active_slots w) bare_jid.

(** [jid_parse] into local buffers, its return code ignored: using buffers
    it did not write reads uninitialised memory. *)
Definition parse_ignoring_rc (s : string) : M jid_bufs :=
  let! parsed := lift (jid_parse s 256 256 256) in
  match snd parsed with
  | Some b => ret b
  | None => raise FUninit
  end.

Definition bare_of (b : jid_bufs) : string := jid_bare (jb_local b) (jb_domain b) 512.

(** ** stanza.c: sending *)

Definition stanza_serialize (node : xnode) : option string :=
  match xmlNodeDump node with
  | Some xml => if malloc_ok (S (String.length xml)) then Some xml else None
  | None => None
  end.

Definition stanza_send (s : sid) (node : xnode) : M unit :=
  match stanza_serialize node with
  | Some xml => session_write s xml
  | None => ret tt
  end.

Definition full_jid_of (x : session) : string :=
  jid_full (s_jid_local x) (s_jid_domain x) (s_jid_resource x) 768.

Definition bare_jid_of (x : session) : string :=
  jid_bare (s_jid_local x) (s_jid_domain x) 512.

Definition stanza_error_node (x : session) (cfg : config_t) (original : xnode)
    (error_type condition : string) : xnode :=
  let err := xmlNewNode (xn_name original) in
  let err := xmlNewProp err "type" "error" in
  let err := xmlNewProp_opt err "id" (xmlGetProp original "id") in
  let err := xmlNewProp err "from" (domain cfg) in
  let err := xmlNewProp err "to" (full_jid_of x) in
  let error_el := xmlNewChild err None "error" None in
  let error_el := xmlNewProp error_el "type" error_type in
  let cond := xmlNewChild error_el None condition None in
  let '(cond, _) := xml_own_ns cond "urn:ietf:params:xml:ns:xmpp-stanzas" in
  xmlAddChild err (xmlAddChild error_el cond).

Definition stanza_send_error (s : sid) (original : xnode)
    (error_type condition : string) : M unit :=
  let! x := deref s in
  let! cfg := g_config in
  stanza_send s (stanza_error_node x cfg original error_type condition).
End Io.
