(* ===== verification/Inv.v ===== *)
(** The invariant of the server's tables and the notion of a quiet
    computation: one that keeps the invariant, frees and creates no session
    and never touches a freed one.  Every handler is shown quiet in its own
    file, except the few that tear a session down. *)

From stdpp Require Import gmap.
From S2P Require Import Prelude Util Dom World SessionIo.
Open Scope Z_scope.

Section Invariant.
Context {LX : LibXml} {PX : Posix} {RC : Recovery} {RA : Reallocates PX}.

(** ** One session *)

(** The buffers hold what fits them, and a session in the heap was not torn
    down. *)
Record sess_ok (x : session) : Prop := {
  so_cap : (String.length (s_write_buf x) <= s_write_cap x)%nat;
  so_read : (String.length (s_read_buf x) <= READ_BUF_SIZE)%nat;
  so_roster : (r_count (s_roster x) <= MAX_ROSTER_ITEMS)%nat;
  so_state : s_state x <> STATE_DISCONNECTED;
  so_local : (String.length (s_jid_local x) < jid_buf)%nat;
  so_domain : (String.length (s_jid_domain x) < jid_buf)%nat;
  so_resource : (String.length (s_jid_resource x) < jid_buf)%nat
}.

(** The entry of a session in the poll set asks for POLLOUT exactly when
    output waits. *)
Record entry_ok (x : session) (p : pollfd) : Prop := {
  eo_fd : pfd_fd p = s_fd x;
  eo_out : Z.testbit (pfd_events p) 2 = negb (str_empty (s_write_buf x))
}.

(** ** The tables *)

(** The slots 1 .. nfds-1 hold the sessions of the heap, each once, at the
    index the session knows; all other slots are empty. *)
Record wf (w : world) : Prop := {
  wf_nfds : (1 <= w_nfds w <= MAX_CLIENTS)%nat;
  wf_plen : List.length (w_pollfds w) = MAX_CLIENTS;
  wf_slen : List.length (w_sessions w) = MAX_CLIENTS;
  wf_slot i s : w_sessions w !! i = Some (Some s) ->
    (1 <= i < w_nfds w)%nat /\ exists x, w_heap w !! s = Some x /\ s_poll_index x = i;
  wf_full i : (1 <= i < w_nfds w)%nat -> exists s, w_sessions w !! i = Some (Some s);
  wf_heap s x : w_heap w !! s = Some x ->
    sess_ok x /\ w_sessions w !! s_poll_index x = Some (Some s) /\
    exists p, w_pollfds w !! s_poll_index x = Some p /\ entry_ok x p;
  wf_fresh s x : w_heap w !! s = Some x -> (s < w_next w)%nat
}.

Definition live (s : sid) (w : world) : Prop := is_Some (w_heap w !! s).

(** What a quiet computation does not change about a session. *)
Record keep (x y : session) : Prop := {
  kp_fd : s_fd y = s_fd x;
  kp_index : s_poll_index y = s_poll_index x;
  kp_parse : s_in_xml_parse y = s_in_xml_parse x
}.

Record frame (w0 w : world) : Prop := {
  fr_config : w_config w = w_config w0;
  fr_nfds : w_nfds w = w_nfds w0;
  fr_sessions : w_sessions w = w_sessions w0;
  fr_next : w_next w = w_next w0;
  fr_listen : w_listen_fd w = w_listen_fd w0;
  fr_flag : w_shutdown_flag w = w_shutdown_flag w0;
  fr_kept s x : w_heap w0 !! s = Some x -> exists y, w_heap w !! s = Some y /\ keep x y;
  fr_none s : w_heap w0 !! s = None -> w_heap w !! s = None
}.

Lemma keep_refl x : keep x x.
Proof. by constructor. Qed.

Lemma keep_trans x y z : keep x y -> keep y z -> keep x z.
Proof. intros [] []. constructor; congruence. Qed.

Lemma frame_refl w : frame w w.
Proof. constructor; eauto using keep_refl. Qed.

Lemma frame_trans w0 w1 w2 : frame w0 w1 -> frame w1 w2 -> frame w0 w2.
Proof.
  intros [] []. constructor; try congruence; [|by auto].
  intros s x (y & Hy & Hk)%fr_kept0. apply fr_kept1 in Hy as (z & Hz & Hk').
  eauto using keep_trans.
Qed.

Definition inside (w0 w : world) : Prop := wf w /\ frame w0 w.

Lemma inside_refl w : wf w -> inside w w.
Proof. intros. split; [done|apply frame_refl]. Qed.

Lemma inside_trans w0 w1 w2 : inside w0 w1 -> inside w1 w2 -> inside w0 w2.
Proof. intros [] []. split; eauto using frame_trans. Qed.

Lemma frame_live w0 w s : frame w0 w -> live s w0 <-> live s w.
Proof.
  intros Hf. split; intros [x Hx].
  - destruct (fr_kept _ _ Hf _ _ Hx) as (y & Hy & _). by exists y.
  - destruct (w_heap w0 !! s) eqn:E; [by eexists|].
    apply (fr_none _ _ Hf) in E. congruence.
Qed.

(** ** Quiet computations *)

(** Everything but a use after free or nesting beyond the stack. *)
Definition risk (f : fault) : Prop := f <> FFreed /\ f <> FStack.

Definition stable {A} (w0 : world) (m : M A) (R : A -> Prop) : Prop :=
  triple risk (inside w0) m (fun a w => inside w0 w /\ R a).

Abbreviation quiet w0 m := (stable w0 m (fun _ => True)).

Lemma stable_ret {A} w0 (a : A) (R : A -> Prop) : R a -> stable w0 (ret a) R.
Proof. intros HR. by apply triple_ret. Qed.

Lemma stable_bind {A B} w0 (m : M A) (k : A -> M B) R Q :
  stable w0 m R -> (forall a, R a -> stable w0 (k a) Q) -> stable w0 (bind m k) Q.
Proof.
  intros Hm Hk. eapply triple_bind; [exact Hm|]. intros a w [Hw Ha]. by apply Hk.
Qed.

Lemma stable_weaken {A} w0 (m : M A) (R Q : A -> Prop) :
  stable w0 m R -> (forall a, R a -> Q a) -> stable w0 m Q.
Proof. intros Hm H. eapply triple_conseq; [exact Hm|done|]. intros a w []. auto. Qed.

Lemma stable_raise {A} w0 f (R : A -> Prop) : risk f -> stable w0 (raise f) R.
Proof. intros. by apply triple_raise. Qed.

Lemma quiet_for_each {A} w0 (l : list A) (body : A -> M unit) :
  (forall x, quiet w0 (body x)) -> quiet w0 (for_each l body).
Proof.
  intros H. induction l as [|x l IH]; simpl; [by apply stable_ret|].
  eapply stable_bind; [apply H|]. intros _ _. apply IH.
Qed.

Lemma stable_lift {A} w0 (r : res A) :
  (forall f, r = Fault f -> risk f) -> stable w0 (lift r) (fun a => r = Ok a).
Proof. intros H w Hw. unfold lift. destruct r; [done|by apply H]. Qed.

Lemma stable_get w0 : stable w0 get (inside w0).
Proof. by apply triple_get. Qed.

Lemma stable_config w0 : stable w0 g_config (fun c => c = w_config w0).
Proof. intros w Hw. split; [done|]. by destruct Hw as [_ []]. Qed.

Lemma quiet_get_fs w0 : quiet w0 get_fs.
Proof. by intros w Hw. Qed.

Lemma inside_os_parts w0 w fs net os :
  inside w0 w -> inside w0 (set_fs fs (set_net net (set_os os w))).
Proof. intros [[] []]. by split; constructor. Qed.

Lemma quiet_do_fs {A} w0 (f : fs_t -> fs_t * A) : quiet w0 (do_fs f).
Proof.
  intros w Hw. unfold do_fs. destruct (f (w_fs w)) as [fs a]. split; [|done].
  by apply (inside_os_parts _ _ fs (w_net w) (w_os w)).
Qed.

Lemma quiet_do_net {A} w0 (f : net_t -> net_t * A) : quiet w0 (do_net f).
Proof.
  intros w Hw. unfold do_net. destruct (f (w_net w)) as [n a]. split; [|done].
  by apply (inside_os_parts _ _ (w_fs w) n (w_os w)).
Qed.

Lemma quiet_do_os {A} w0 (f : os_t -> os_t * A) : quiet w0 (do_os f).
Proof.
  intros w Hw. unfold do_os. destruct (f (w_os w)) as [o a]. split; [|done].
  by apply (inside_os_parts _ _ (w_fs w) (w_net w) o).
Qed.

(** What reading a session gives: it is in order, and agrees with the
    session of the initial state on what is kept. *)
Definition read_ok (w0 : world) (s : sid) (x : session) : Prop :=
  sess_ok x /\ exists x0, w_heap w0 !! s = Some x0 /\ keep x0 x.

Lemma inside_lookup w0 w s :
  inside w0 w -> live s w0 -> exists x, w_heap w !! s = Some x /\ read_ok w0 s x.
Proof.
  intros [Hwf Hf] [x0 Hx0]. destruct (fr_kept _ _ Hf _ _ Hx0) as (x & Hx & Hk).
  exists x. split; [done|]. split; [by apply (wf_heap _ Hwf) in Hx as []|eauto].
Qed.

Lemma stable_deref w0 s : live s w0 -> stable w0 (deref s) (read_ok w0 s).
Proof.
  intros Hl w Hw. unfold deref. by destruct (inside_lookup _ _ _ Hw Hl) as (x & -> & ?).
Qed.

(** An update that the invariant does not see. *)
Definition benign (f : session -> session) : Prop :=
  forall x, sess_ok x -> sess_ok (f x) /\ keep x (f x) /\ s_write_buf (f x) = s_write_buf x.

Lemma wf_upd w s x y :
  wf w -> w_heap w !! s = Some x -> sess_ok y ->
  s_fd y = s_fd x -> s_poll_index y = s_poll_index x ->
  s_write_buf y = s_write_buf x -> wf (set_heap (<[s := y]> (w_heap w)) w).
Proof.
  intros Hwf Hx Hy Hfd Hi Hb. destruct Hwf as [H1 H2 H3 H4 H5 H6 H7].
  constructor; simpl; try done.
  - intros i t Ht. destruct (H4 _ _ Ht) as (? & z & Hz & <-). split; [done|].
    destruct (decide (s = t)) as [<-|]; [|rewrite lookup_insert_ne by done; eauto].
    rewrite lookup_insert_eq. exists y. simplify_eq. by rewrite Hi.
  - intros t z. destruct (decide (s = t)) as [<-|];
      [|rewrite lookup_insert_ne by done; apply H6].
    rewrite lookup_insert_eq. intros [= <-].
    destruct (H6 _ _ Hx) as (_ & ? & p & Hpf & [E1 E2]). rewrite Hi.
    split_and!; [done..|]. exists p. split; [done|]. constructor; congruence.
  - intros t z. destruct (decide (s = t)) as [<-|];
      [|rewrite lookup_insert_ne by done; apply H7].
    intros _. by eapply H7.
Qed.

Lemma frame_upd w0 w s x y :
  frame w0 w -> w_heap w !! s = Some x -> keep x y ->
  frame w0 (set_heap (<[s := y]> (w_heap w)) w).
Proof.
  intros [] Hx Hk. constructor; simpl; try done.
  - intros t z Hz. destruct (fr_kept0 _ _ Hz) as (z' & Hz' & Hk').
    destruct (decide (s = t)) as [<-|]; [|rewrite lookup_insert_ne by done; eauto].
    rewrite lookup_insert_eq. simplify_eq. eauto using keep_trans.
  - intros t Ht. apply fr_none0 in Ht. rewrite lookup_insert_ne; [done|congruence].
Qed.

Lemma quiet_upd w0 s f : live s w0 -> benign f -> quiet w0 (upd s f).
Proof.
  intros Hl Hf w Hw. unfold upd.
  destruct (inside_lookup _ _ _ Hw Hl) as (x & Hx & Hok & _). rewrite Hx.
  destruct (Hf x Hok) as (Hok' & Hk & Hb). destruct Hw as [Hwf Hfr].
  split; [|done]. split; [|by eapply frame_upd]. destruct Hk. by eapply wf_upd.
Qed.

Lemma quiet_upd_bind {B} w0 s f (k : unit -> M B) Q :
  live s w0 -> benign f -> stable w0 (k tt) Q -> stable w0 (bind (upd s f) k) Q.
Proof.
  intros Hl Hf Hk. eapply stable_bind; [by apply quiet_upd|]. by intros [] _.
Qed.

(** ** The poll set *)

Lemma wf_index w s x :
  wf w -> w_heap w !! s = Some x -> (1 <= s_poll_index x < MAX_CLIENTS)%nat.
Proof.
  intros Hwf Hx. destruct (wf_heap _ Hwf _ _ Hx) as (_ & Hs & _).
  destruct (wf_slot _ Hwf _ _ Hs) as [? _]. pose proof (wf_nfds _ Hwf). lia.
Qed.

(** Two sessions of the heap have different slots. *)
Lemma wf_index_inj w s t x y :
  wf w -> w_heap w !! s = Some x -> w_heap w !! t = Some y ->
  s_poll_index x = s_poll_index y -> s = t.
Proof.
  intros Hwf Hx Hy Hi. apply (wf_heap _ Hwf) in Hx as (_ & Hx & _).
  apply (wf_heap _ Hwf) in Hy as (_ & Hy & _). congruence.
Qed.

(** The session and its poll entry change together. *)
Definition set_entry (s : sid) (y : session) (f : pollfd -> pollfd) (w : world) : world :=
  set_pollfds (alter f (s_poll_index y) (w_pollfds w))
    (set_heap (<[s := y]> (w_heap w)) w).

Lemma inside_set_entry w0 w s x y f :
  inside w0 w -> w_heap w !! s = Some x -> sess_ok y -> keep x y ->
  (forall p, entry_ok x p -> entry_ok y (f p)) ->
  inside w0 (set_entry s y f w).
Proof.
  intros [Hwf Hfr] Hx Hy Hk Hf. split; [|by destruct (frame_upd _ _ _ _ _ Hfr Hx Hk); constructor].
  destruct Hwf as [H1 H2 H3 H4 H5 H6 H7]. pose proof Hk as [Hfd Hi Hp].
  constructor; simpl; try done; [by rewrite length_alter| | |].
  - intros i t Ht. destruct (H4 _ _ Ht) as (? & z & Hz & <-). split; [done|].
    destruct (decide (s = t)) as [<-|]; [|rewrite lookup_insert_ne by done; eauto].
    rewrite lookup_insert_eq. exists y. simplify_eq. by rewrite Hi.
  - intros t z. destruct (decide (s = t)) as [<-|Hne].
    + rewrite lookup_insert_eq. intros [= <-].
      destruct (H6 _ _ Hx) as (_ & ? & p & Hpf & He). rewrite Hi.
      split_and!; [done..|]. exists (f p). rewrite list_lookup_alter_eq, Hpf.
      split; [done|]. by apply Hf.
    + rewrite lookup_insert_ne by done. intros Hz.
      destruct (H6 _ _ Hz) as (? & Hsl & p & Hpf & He). split_and!; [done..|].
      exists p. rewrite list_lookup_alter_ne; [done|]. rewrite Hi. intros Heq.
      apply (H6 _ _) in Hx as (_ & Hsx & _). congruence.
  - intros t z. destruct (decide (s = t)) as [<-|];
      [|rewrite lookup_insert_ne by done; apply H7].
    intros _. by eapply H7.
Qed.

(** ** Output *)

(** The session once data was queued. *)
Definition queued (x : session) (data : string) : session :=
  let need := (String.length (s_write_buf x) + String.length data)%nat in
  set_write_buf (s_write_buf x ++ data)
    (if (s_write_cap x <? need)%nat then set_write_cap (grown_cap (s_write_cap x) need) x
     else x).

Lemma grown_cap_ge cap need : (need <= grown_cap cap need)%nat.
Proof. unfold grown_cap. destruct (Nat.ltb_spec (cap * 2) need); lia. Qed.

Lemma session_write_eq w s x data :
  w_heap w !! s = Some x -> (s_poll_index x < MAX_CLIENTS)%nat -> str_empty data = false ->
  session_write s data w = Ok (tt, set_entry s (queued x data) (pfd_or POLLOUT) w).
Proof.
  intros Hx Hi Hd. unfold session_write, set_entry, queued. rewrite Hd.
  unfold bind at 1. unfold deref at 1. rewrite Hx. cbv zeta.
  set (need := (String.length (s_write_buf x) + String.length data)%nat).
  assert (server_get_pollfd (s_poll_index x) = Some (s_poll_index x)) as Hp.
  { unfold server_get_pollfd. by rewrite (proj2 (Nat.ltb_lt _ _)). }
  destruct (s_write_cap x <? need)%nat.
  - rewrite realloc_granted. cbn [negb]. unfold ret, bind, upd, deref, modify, upd_pollfd. rewrite Hx.
    repeat (cbn [w_heap set_heap]; rewrite lookup_insert_eq).
    cbn [w_heap set_heap s_poll_index set_write_buf set_write_cap]. rewrite Hp.
    by rewrite insert_insert_eq.
  - unfold bind, upd, deref, modify, upd_pollfd, ret. rewrite Hx.
    cbn [w_heap set_heap]. rewrite !lookup_insert_eq.
    cbn [w_heap set_heap s_poll_index set_write_buf set_write_cap]. by rewrite Hp.
Qed.

Lemma testbit_lor_pollout z : Z.testbit (Z.lor z POLLOUT) 2 = true.
Proof. rewrite Z.lor_spec. apply orb_true_r. Qed.

Lemma testbit_ldiff_pollout z : Z.testbit (Z.ldiff z POLLOUT) 2 = false.
Proof. rewrite Z.ldiff_spec. apply andb_false_r. Qed.

Lemma str_app_nonempty s t : str_empty t = false -> str_empty (s ++ t) = false.
Proof. by destruct s. Qed.

Lemma queued_ok x data : sess_ok x -> sess_ok (queued x data) /\ keep x (queued x data).
Proof.
  intros [H1 H2 H3 H4 H5 H6 H7]. unfold queued.
  destruct (Nat.ltb_spec (s_write_cap x) (String.length (s_write_buf x) + String.length data)).
  - split; constructor; simpl; try done. rewrite str_length_app. apply grown_cap_ge.
  - split; constructor; simpl; try done. rewrite str_length_app. lia.
Qed.

Lemma quiet_session_write w0 s data : live s w0 -> quiet w0 (session_write s data).
Proof.
  intros Hl w Hw. destruct (str_empty data) eqn:Hd; [by unfold session_write; rewrite Hd|].
  destruct (inside_lookup _ _ _ Hw Hl) as (x & Hx & Hok & _).
  rewrite (session_write_eq w s x) by (try done; by destruct (wf_index _ _ _ (proj1 Hw) Hx)).
  split; [|done].
  destruct (queued_ok x data Hok) as [Hok' Hk].
  eapply inside_set_entry; [done..|]. intros p [Hp1 Hp2]. constructor.
  - by rewrite (kp_fd _ _ Hk).
  - unfold pfd_or, queued. cbn [pfd_events s_write_buf set_write_buf].
    rewrite testbit_lor_pollout. by rewrite str_app_nonempty.
Qed.

(** The session once [n] bytes were accepted. *)
Definition drained (n : nat) (x : session) : session :=
  set_write_buf (str_drop n (s_write_buf x)) x.

Definition clear_if (b : bool) (p : pollfd) : pollfd :=
  if b then pfd_andnot POLLOUT p else p.

Lemma session_flush_eq w s x :
  w_heap w !! s = Some x -> (s_poll_index x < MAX_CLIENTS)%nat ->
  session_flush s w =
  if str_empty (s_write_buf x) then Ok (0, w)
  else let '(net, r) := net_write (w_net w) (s_fd x) (s_write_buf x) in
       let w' := set_net net w in
       match r with
       | WErr => Ok (-1, w')
       | WAgain => Ok (0, w')
       | WOk n => Ok (0, set_entry s (drained n x)
                          (clear_if (str_empty (str_drop n (s_write_buf x)))) w')
       end.
Proof.
  intros Hx Hi. unfold session_flush. unfold bind at 1. unfold deref at 1. rewrite Hx.
  destruct (str_empty (s_write_buf x)); [done|].
  unfold bind at 1. unfold do_net.
  destruct (net_write (w_net w) (s_fd x) (s_write_buf x)) as [net [n| |]]; [|done..].
  unfold set_entry, drained, bind, upd, deref, server_get_pollfd, upd_pollfd, modify, ret.
  simpl. rewrite Hx. simpl. rewrite lookup_insert_eq. simpl.
  destruct (str_empty (str_drop n (s_write_buf x))).
  - rewrite (proj2 (Nat.ltb_lt _ _)) by done. done.
  - replace (alter (clear_if false) (s_poll_index x) (w_pollfds w)) with (w_pollfds w); [done|].
    apply list_eq. intros i. destruct (decide (i = s_poll_index x)) as [->|].
    + rewrite list_lookup_alter_eq. by destruct (w_pollfds w !! s_poll_index x).
    + by rewrite list_lookup_alter_ne.
Qed.

Lemma drained_ok n x : sess_ok x -> sess_ok (drained n x) /\ keep x (drained n x).
Proof.
  intros []. split; constructor; simpl; try done. rewrite str_drop_length. lia.
Qed.

Lemma quiet_session_flush w0 s : live s w0 -> quiet w0 (session_flush s).
Proof.
  intros Hl w Hw. destruct (inside_lookup _ _ _ Hw Hl) as (x & Hx & Hok & _).
  rewrite (session_flush_eq w s x) by (try done; by destruct (wf_index _ _ _ (proj1 Hw) Hx)).
  destruct (str_empty (s_write_buf x)) eqn:Hne; [done|].
  destruct (net_write (w_net w) (s_fd x) (s_write_buf x)) as [net r].
  assert (inside w0 (set_net net w)) as Hw'
    by apply (inside_os_parts _ _ (w_fs w) net (w_os w) Hw).
  destruct r as [n| |]; [|done..]. split; [|done].
  destruct (drained_ok n x Hok) as [Hok' Hk].
  eapply inside_set_entry; [done|done|done|done|]. intros p [Hp1 Hp2].
  unfold drained, clear_if, pfd_andnot.
  destruct (str_empty (str_drop n (s_write_buf x))) eqn:He; constructor;
    cbn [pfd_fd pfd_events s_write_buf set_write_buf s_fd]; rewrite ?He.
  - by rewrite Hp1.
  - apply testbit_ldiff_pollout.
  - by rewrite Hp1.
  - by rewrite Hp2, Hne.
Qed.

(** ** Lookups *)

Definition slot_live (w0 : world) (o : option sid) : Prop :=
  forall t, o = Some t -> live t w0.

Lemma stable_find_loop w0 slots bare :
  Forall (slot_live w0) slots ->
  stable w0 (find_by_jid_loop slots bare) (slot_live w0).
Proof.
  induction 1 as [|[s|] slots Hs _ IH]; simpl; [by apply stable_ret| |done].
  eapply stable_bind; [apply stable_deref; by apply Hs|]. intros x _.
  destruct (str_empty _); [done|]. destruct (_ =s _); [|done].
  by apply stable_ret.
Qed.

Lemma active_slots_live w0 w : inside w0 w -> Forall (slot_live w0) (active_slots w).
Proof.
  intros [Hwf Hfr]. apply Forall_forall. intros o Ho t ->.
  unfold active_slots in Ho. apply list_elem_of_lookup in Ho as [i Hi].
  apply lookup_take_Some in Hi as [Hi _]. rewrite lookup_drop in Hi.
  apply (wf_slot _ Hwf) in Hi as (_ & x & Hx & _).
  apply (frame_live _ _ _ Hfr). by eexists.
Qed.

Lemma stable_session_find w0 bare : stable w0 (session_find_by_jid bare) (slot_live w0).
Proof.
  eapply stable_bind; [apply stable_get|]. intros w Hw.
  apply stable_find_loop. by apply active_slots_live.
Qed.
End Invariant.

Abbreviation quiet w0 m := (stable w0 m (fun _ => True)).

(** ** Automation: quietness of composite handlers *)

Create HintDb quiet.

#[export] Hint Resolve keep_refl frame_refl inside_refl : xmppd.
#[export] Hint Resolve stable_deref stable_config stable_get quiet_get_fs quiet_do_fs
  quiet_do_net quiet_do_os quiet_upd quiet_session_write quiet_session_flush
  stable_session_find : quiet.

#[export] Hint Extern 1 (stable _ (ret _) (fun _ => True)) => exact (stable_ret _ _ _ I) : quiet.
#[export] Hint Extern 1 (live _ _) => solve [eauto] : quiet.

Lemma snprintf_jid_buf s : (String.length (snprintf 256 s) < jid_buf)%nat.
Proof. apply snprintf_length. lia. Qed.

#[export] Hint Resolve snprintf_jid_buf : xmppd.

(** An update of fields the invariant does not constrain, or of the roster
    with one that is not too long. *)
Ltac solve_benign :=
  let x := fresh "x" in
  intros x [? ? ? ? ? ? ?];
  split; [constructor; simpl; first [done | eauto with xmppd | lia]|];
  split; [by constructor|done].

#[export] Hint Extern 1 (benign _) => solve [solve_benign] : quiet.

Ltac quiet_prim := first [solve [eauto with quiet nocore] | solve [eauto with quiet]].

Ltac quiet_go :=
  cbv zeta;
  lazymatch goal with
  | |- stable _ (bind _ _) _ =>
      first
        [ eapply stable_bind; [solve [quiet_prim]|]; intros ? ?; quiet_go
        | eapply (stable_bind _ _ _ (fun _ => True)); [solve [quiet_go]|]; intros ? _; quiet_go ]
  | |- stable _ (ret _) _ => by apply stable_ret
  | |- stable _ (raise _) _ => by apply stable_raise
  | |- stable _ (for_each _ _) _ => apply quiet_for_each; intros ?; quiet_go
  | |- stable _ (match ?x with _ => _ end) _ =>
      lazymatch x with
      | context [match ?y with _ => _ end] => destruct y eqn:?; quiet_go
      | _ => destruct x eqn:?; quiet_go
      end
  | |- _ => first [quiet_prim | eapply stable_weaken; [quiet_prim|done]]
  end.

Section Sending.
Context {LX : LibXml} {PX : Posix} {RC : Recovery} {RA : Reallocates PX}.

Lemma quiet_stanza_send w0 s n : live s w0 -> quiet w0 (stanza_send s n).
Proof. intros Hl. unfold stanza_send. quiet_go. Qed.

Lemma quiet_stanza_send_error w0 s n t c :
  live s w0 -> quiet w0 (stanza_send_error s n t c).
Proof.
  intros Hl. unfold stanza_send_error.
  do 2 (eapply stable_bind; [quiet_prim|]; intros ? ?). by apply quiet_stanza_send.
Qed.

Lemma jid_parse_risk s f : jid_parse s 256 256 256 = Fault f -> risk f.
Proof.
  unfold jid_parse, memcpy_str, rbind. intros H.
  repeat (case_hyp H; try done); by simplify_eq.
Qed.

Lemma quiet_parse_ignoring_rc w0 s : quiet w0 (parse_ignoring_rc s).
Proof.
  unfold parse_ignoring_rc.
  eapply stable_bind; [apply stable_lift, jid_parse_risk|]. intros p _.
  destruct (snd p); [by apply stable_ret|by apply stable_raise].
Qed.
End Sending.

#[export] Hint Resolve quiet_stanza_send quiet_stanza_send_error quiet_parse_ignoring_rc
  jid_parse_risk : quiet.
