(* ===== verification/Roster.v ===== *)
(** roster.c: the roster array, its file, roster IQs and roster pushes. *)

From stdpp Require Import gmap.
From S2P Require Import Prelude CLib Util Dom World SessionIo Inv.
Open Scope Z_scope.

(** ** The array of items *)

(** A [roster_item_t *] into a roster is the index of the item. *)
Fixpoint find_item_from (i : nat) (l : list roster_item) (jid : string) : option nat :=
  match l with
  | [] => None
  | it :: l' => if ri_jid it =s jid then Some i else find_item_from (S i) l' jid
  end.

Definition roster_find_item (r : roster) (jid : string) : option nat :=
  find_item_from 0 (r_items r) jid.

Definition set_items (l : list roster_item) (r : roster) : roster := mkRoster l (r_loaded r).

Definition set_item_name (n : string) (it : roster_item) : roster_item :=
  mkItem (ri_jid it) (snprintf 256 n) (ri_subscription it) (ri_ask_subscribe it).
Definition set_item_subscription (sub : string) (it : roster_item) : roster_item :=
  mkItem (ri_jid it) (ri_name it) (snprintf 16 sub) (ri_ask_subscribe it).
Definition set_item_ask (ask : bool) (it : roster_item) : roster_item :=
  mkItem (ri_jid it) (ri_name it) (ri_subscription it) ask.

Definition upd_item (i : nat) (f : roster_item -> roster_item) (r : roster) : roster :=
  set_items (alter f i (r_items r)) r.

(** [if (v) f (v)] for a string that may be null. *)
Definition opt_apply {A} (o : option string) (f : string -> A -> A) (x : A) : A :=
  match o with Some v => f v x | None => x end.

(** [roster_add_item]: the roster after it, and its return code. *)
Definition roster_add_item (r : roster) (jid : string) (name subscription : option string)
    (ask_subscribe : bool) : roster * Z :=
  match roster_find_item r jid with
  | Some i =>
      (upd_item i (fun it =>
         set_item_ask ask_subscribe
           (opt_apply subscription set_item_subscription
              (opt_apply name set_item_name it))) r, 0)
  | None =>
      if (MAX_ROSTER_ITEMS <=? r_count r)%nat then (r, -1)
      else
        let ri := mkItem (snprintf 512 jid)
                         (match name with Some n => snprintf 256 n | None => "" end)
                         (snprintf 16 (match subscription with Some s => s | None => "none" end))
                         ask_subscribe in
        (set_items (r_items r ++ [ri])%list r, 0)
  end.

Definition roster_remove_item (r : roster) (jid : string) : roster * Z :=
  match roster_find_item r jid with
  | Some i => (set_items (take i (r_items r) ++ drop (S i) (r_items r))%list r, 0)
  | None => (r, -1)
  end.

Section Roster.
Context {LX : LibXml} {PX : Posix} {RC : Recovery}.

(** ** The roster file *)

Definition item_of_node (item : xnode) : roster_item :=
  mkItem (match xmlGetProp item "jid" with Some v => snprintf 512 v | None => "" end)
         (match xmlGetProp item "name" with Some v => snprintf 256 v | None => "" end)
         (match xmlGetProp item "subscription" with
          | Some v => snprintf 16 v
          | None => snprintf 16 "none"
          end)
         (match xmlGetProp item "ask" with
          | Some v => v =s "subscribe"
          | None => false
          end).

Fixpoint load_items (count : nat) (children : list xnode) : list roster_item :=
  match children with
  | [] => []
  | item :: rest =>
      if negb (is_element item) then load_items count rest
      else if negb (xn_name item =s "item") then load_items count rest
      else if (MAX_ROSTER_ITEMS <=? count)%nat then []
      else item_of_node item :: load_items (S count) rest
  end.

(** The roster that a file holds; a missing or unreadable file is an empty
    roster. *)
Definition roster_of_file (content : option string) : roster :=
  match content with
  | None => mkRoster [] true
  | Some c =>
      match xmlReadDoc c with
      | None => mkRoster [] true
      | Some None => mkRoster [] true
      | Some (Some root) =>
          if negb (xn_name root =s "roster") then mkRoster [] true
          else mkRoster (load_items 0 (xn_children root)) true
      end
  end.

Definition roster_load_from_path (path : string) : M roster :=
  let! fs := get_fs in
  ret (roster_of_file (fs_read fs path)).

(** The attributes that roster files, results and pushes give an item. *)
Definition item_props (item : xnode) (ri : roster_item) : xnode :=
  let item := xmlNewProp item "jid" (ri_jid ri) in
  let item := if negb (str_empty (ri_name ri)) then xmlNewProp item "name" (ri_name ri)
              else item in
  let item := xmlNewProp item "subscription" (ri_subscription ri) in
  if ri_ask_subscribe ri then xmlNewProp item "ask" "subscribe" else item.

(** The child elements for a roster, under a parent. *)
Definition add_items (parent : xnode) (ns : option xns) (l : list roster_item) : xnode :=
  fold_left (fun p ri => xmlAddChild p (item_props (xmlNewChild p ns "item" None) ri))
    l parent.

Definition roster_doc (r : roster) : xnode :=
  add_items (xmlNewNode "roster") None (r_items r).

(** 0, or -1 when the file cannot be written. *)
Definition roster_save_to_path (path : string) (r : roster) : M Z :=
  let! ok := do_fs (fun fs => fs_write fs path (xmlDumpDoc (roster_doc r))) in
  ret (if ok : bool then 0 else -1).

Definition roster_path (cfg : config_t) (username : string) : string :=
  snprintf 1280 (datadir cfg ++ "/" ++ username ++ "/roster.xml").

Definition roster_load (s : sid) : M unit :=
  let! x := deref s in
  let! cfg := g_config in
  let! r := roster_load_from_path (roster_path cfg (s_jid_local x)) in
  upd s (set_roster r).

Definition roster_save (s : sid) : M Z :=
  let! x := deref s in
  let! cfg := g_config in
  roster_save_to_path (roster_path cfg (s_jid_local x)) (s_roster x).

Definition roster_load_for_user (username : string) : M roster :=
  let! cfg := g_config in
  roster_load_from_path (roster_path cfg username).

Definition roster_save_for_user (username : string) (r : roster) : M Z :=
  let! cfg := g_config in
  roster_save_to_path (roster_path cfg username) r.

(** [if (!s->roster.loaded) roster_load (s);] *)
Definition ensure_roster (s : sid) : M unit :=
  let! x := deref s in
  when negb (r_loaded (s_roster x)) then roster_load s.

(** ** Pushes *)

(** [item] may be the null pointer of a failed lookup. *)
Definition roster_push (s : sid) (item : option roster_item) : M unit :=
  let! bytes := do_os (fun o => os_random o 8) in
  let push_id := generate_id bytes in
  let! x := deref s in
  let iq := xmlNewNode "iq" in
  let iq := xmlNewProp iq "type" "set" in
  let iq := xmlNewProp iq "id" push_id in
  let iq := xmlNewProp iq "to" (full_jid_of x) in
  let query := xmlNewChild iq None "query" None in
  let '(query, ns) := xml_own_ns query "jabber:iq:roster" in
  let item_el := xmlNewChild query ns "item" None in
  match item with
  | None => raise FNull
  | Some ri =>
      stanza_send s (xmlAddChild iq (xmlAddChild query (item_props item_el ri)))
  end.

(** The item at an index of the roster of a session. *)
Definition item_at (x : session) (i : option nat) : option roster_item :=
  match i with Some n => r_items (s_roster x) !! n | None => None end.

(** ** Roster IQs *)

Definition plain_result (stanza : xnode) : xnode :=
  xmlNewProp_opt (xmlNewProp (xmlNewNode "iq") "type" "result") "id"
    (xmlGetProp stanza "id").

Definition roster_get (s : sid) (stanza : xnode) : M unit :=
  let! x := deref s in
  let result := xmlNewProp (plain_result stanza) "to" (full_jid_of x) in
  let query := xmlNewChild result None "query" None in
  let '(query, ns) := xml_own_ns query "jabber:iq:roster" in
  stanza_send s (xmlAddChild result (add_items query ns (r_items (s_roster x)))).

Definition roster_set_remove (s : sid) (stanza : xnode) (jid : string) : M unit :=
  upd s (fun x => set_roster (fst (roster_remove_item (s_roster x) jid)) x) ;;
  roster_save s ;;
  stanza_send s (plain_result stanza) ;;
  roster_push s (Some (mkItem (snprintf 512 jid) "" (snprintf 16 "remove") false)).

(** For an item that exists, [sub] is its own [subscription] buffer, which
    [roster_add_item] then copies to itself with [snprintf]: undefined. *)
Definition roster_set_update (s : sid) (stanza : xnode) (jid : string)
    (name : option string) : M unit :=
  let! x := deref s in
  let existing := roster_find_item (s_roster x) jid in
  let sub := match item_at x existing with
             | Some it => ri_subscription it
             | None => "none"
             end in
  let ask := match item_at x existing with
             | Some it => ri_ask_subscribe it
             | None => false
             end in
  match existing with
  | Some _ => raise FOverlap
  | None => ret tt
  end ;;
  upd s (fun x => set_roster (fst (roster_add_item (s_roster x) jid name (Some sub) ask)) x) ;;
  match name, existing with
  | Some n, Some i => upd s (fun x => set_roster (upd_item i (set_item_name n) (s_roster x)) x)
  | _, _ => ret tt
  end ;;
  roster_save s ;;
  stanza_send s (plain_result stanza) ;;
  let! x := deref s in
  match item_at x (roster_find_item (s_roster x) jid) with
  | Some it => roster_push s (Some it)
  | None => ret tt
  end.

Definition roster_handle_iq (s : sid) (stanza : xnode) : M unit :=
  let type := prop_or stanza "type" "" in
  ensure_roster s ;;
  if type =s "get" then roster_get s stanza
  else if type =s "set" then
    match xml_find_child (xml_find_child (Some stanza) "query") "item" with
    | None => stanza_send_error s stanza "modify" "bad-request"
    | Some item_el =>
        match xmlGetProp item_el "jid" with
        | None => stanza_send_error s stanza "modify" "bad-request"
        | Some jid =>
            if prop_or item_el "subscription" "" =s "remove"
            then roster_set_remove s stanza jid
            else roster_set_update s stanza jid (xmlGetProp item_el "name")
        end
    end
  else stanza_send_error s stanza "cancel" "feature-not-implemented".
End Roster.

(** ** The size of a roster *)

Lemma upd_item_count i f r : r_count (upd_item i f r) = r_count r.
Proof. unfold r_count. simpl. by rewrite length_alter. Qed.

Lemma add_item_count r jid name sub ask :
  (r_count r <= MAX_ROSTER_ITEMS)%nat ->
  (r_count (fst (roster_add_item r jid name sub ask)) <= MAX_ROSTER_ITEMS)%nat.
Proof.
  intros Hr. unfold roster_add_item.
  destruct (roster_find_item r jid); [by cbn [fst]; rewrite upd_item_count|].
  destruct (Nat.leb_spec MAX_ROSTER_ITEMS (r_count r)); [done|].
  unfold r_count in *. simpl. rewrite length_app. simpl. lia.
Qed.

Lemma remove_item_count r jid :
  (r_count (fst (roster_remove_item r jid)) <= r_count r)%nat.
Proof.
  unfold roster_remove_item. destruct (roster_find_item r jid); [|done].
  unfold r_count. simpl. rewrite length_app, length_take, length_drop. lia.
Qed.

Lemma remove_item_count_max r jid :
  (r_count r <= MAX_ROSTER_ITEMS)%nat ->
  (r_count (fst (roster_remove_item r jid)) <= MAX_ROSTER_ITEMS)%nat.
Proof. pose proof (remove_item_count r jid). lia. Qed.

Lemma upd_item_count_max i f r :
  (r_count r <= MAX_ROSTER_ITEMS)%nat -> (r_count (upd_item i f r) <= MAX_ROSTER_ITEMS)%nat.
Proof. by rewrite upd_item_count. Qed.

Section Quiet.
Context {LX : LibXml} {PX : Posix} {RC : Recovery} {RA : Reallocates PX}.

Lemma load_items_count n cs :
  (n <= MAX_ROSTER_ITEMS)%nat -> (n + List.length (load_items n cs) <= MAX_ROSTER_ITEMS)%nat.
Proof.
  revert n. induction cs as [|c cs IH]; intros n Hn; cbn [load_items]; [simpl; lia|].
  destruct (negb (is_element c)); [by apply IH|].
  destruct (negb (_ =s _)); [by apply IH|].
  destruct (Nat.leb_spec MAX_ROSTER_ITEMS n) as [?|Hlt]; cbn [List.length]; [lia|].
  specialize (IH (S n) Hlt). lia.
Qed.

Lemma roster_of_file_count c : (r_count (roster_of_file c) <= MAX_ROSTER_ITEMS)%nat.
Proof.
  assert (r_count (mkRoster [] true) <= MAX_ROSTER_ITEMS)%nat by (unfold r_count; simpl; lia).
  unfold roster_of_file. destruct c as [c|]; [|done].
  destruct (xmlReadDoc c) as [[root|]|]; [|done..].
  destruct (negb _); [done|].
  pose proof (load_items_count 0 (xn_children root)). unfold r_count. simpl. lia.
Qed.

Lemma stable_load_from_path w0 path :
  stable w0 (roster_load_from_path path) (fun r => (r_count r <= MAX_ROSTER_ITEMS)%nat).
Proof.
  eapply stable_bind; [apply quiet_get_fs|]. intros fs _.
  apply stable_ret, roster_of_file_count.
Qed.
End Quiet.

#[export] Hint Resolve add_item_count remove_item_count_max upd_item_count_max : xmppd.
#[export] Hint Resolve stable_load_from_path : quiet.

Section Quiet_handlers.
Context {LX : LibXml} {PX : Posix} {RC : Recovery} {RA : Reallocates PX}.

Lemma quiet_save_to_path w0 path r : quiet w0 (roster_save_to_path path r).
Proof. unfold roster_save_to_path. quiet_go. Qed.

Lemma quiet_roster_load w0 s : live s w0 -> quiet w0 (roster_load s).
Proof. intros. unfold roster_load. quiet_go. Qed.

Lemma quiet_roster_save w0 s : live s w0 -> quiet w0 (roster_save s).
Proof.
  intros. unfold roster_save.
  do 2 (eapply stable_bind; [quiet_prim|]; intros ? ?). apply quiet_save_to_path.
Qed.

Lemma quiet_ensure_roster w0 s : live s w0 -> quiet w0 (ensure_roster s).
Proof.
  intros. unfold ensure_roster. eapply stable_bind; [quiet_prim|]. intros x _.
  destruct (negb _); [by apply quiet_roster_load|by apply stable_ret].
Qed.

Lemma quiet_roster_push w0 s item : live s w0 -> quiet w0 (roster_push s item).
Proof. intros. unfold roster_push. quiet_go. Qed.
End Quiet_handlers.

#[export] Hint Resolve quiet_save_to_path quiet_roster_load quiet_roster_save
  quiet_ensure_roster quiet_roster_push : quiet.

Section Quiet_iq.
Context {LX : LibXml} {PX : Posix} {RC : Recovery} {RA : Reallocates PX}.

Lemma quiet_roster_handle_iq w0 s n : live s w0 -> quiet w0 (roster_handle_iq s n).
Proof.
  intros. unfold roster_handle_iq, roster_get, roster_set_remove, roster_set_update.
  quiet_go.
Qed.
End Quiet_iq.

#[export] Hint Resolve quiet_roster_handle_iq : quiet.
