(* ===== verification/User.v ===== *)
(** user.c and tools/useradd.c: accounts on disk. *)

From S2P Require Import Prelude CLib Util Dom World SessionIo Inv.
Open Scope Z_scope.

Definition user_get_datapath (cfg : config_t) (username : string) (pathsize : nat) : string :=
  snprintf pathsize (datadir cfg ++ "/" ++ username).

Fixpoint username_chars (s : string) : bool :=
  match s with
  | EmptyString => true
  | String c s' =>
      if negb (isalnum c) && negb (is_char c ".") && negb (is_char c "-") && negb (is_char c "_")
      then false else username_chars s'
  end.

Definition valid_username (s : string) : bool :=
  if str_empty s then false else username_chars s.

(** ["password = %s\n"] *)
Definition password_line (password : string) : string :=
  "password = " ++ password ++ String newline "".

Definition empty_roster_file : string :=
  "<?xml version=" ++ String "034" ("1.0" ++ String "034" ("?>" ++
    String newline ("<roster/>" ++ String newline ""))).

(** [user_check_password] on a line of user.conf: nothing to learn from it
    ([None]), or the value of its [password] key. *)
Definition password_of_line (chunk : string) : option string :=
  let line := str_until (fun c => is_char c newline || is_char c carriage_return)
                (str_until (fun c => is_char c nul) chunk) in
  let s := skip_space line in
  match s with
  | EmptyString => None
  | String c _ =>
      if is_char c "#" then None
      else match strchr "=" s with
           | None => None
           | Some eq =>
               let key := trim_end (str_take eq s) in
               let val := trim (str_drop (S eq) s) in
               if key =s "password" then Some val else None
           end
  end.

(** The first line with a [password] key decides. *)
Fixpoint check_password_lines (lines : list string) (password : string) : bool :=
  match lines with
  | [] => false
  | l :: lines' =>
      match password_of_line l with
      | Some val => val =s password
      | None => check_password_lines lines' password
      end
  end.

Section User.
Context {LX : LibXml} {PX : Posix}.

Definition conf_path (cfg : config_t) (username : string) : string :=
  snprintf 1280 (datadir cfg ++ "/" ++ username ++ "/user.conf").

Definition user_exists (username : string) : M bool :=
  let! cfg := g_config in
  let! fs := get_fs in
  ret (fs_stat fs (conf_path cfg username)).

(** The steps after the checks, shared with useradd.c: the directory, its
    two files, the directory of offline messages.  Stops at the first that
    fails. *)
Definition make_account (userdir password : string) : M Z :=
  let! ok := do_fs (fun fs => fs_mkdir fs userdir) in
  if negb ok then ret (-3)
  else
    let! ok := do_fs (fun fs =>
      fs_write fs (snprintf 1536 (userdir ++ "/user.conf")) (password_line password)) in
    if negb ok then ret (-3)
    else
      let! ok := do_fs (fun fs =>
        fs_write fs (snprintf 1536 (userdir ++ "/roster.xml")) empty_roster_file) in
      if negb ok then ret (-3)
      else
        let! ok := do_fs (fun fs => fs_mkdir fs (snprintf 1536 (userdir ++ "/offline"))) in
        if negb ok then ret (-3) else ret 0.

(** 0; -1 conflict, -2 invalid username, -3 I/O error. *)
Definition user_create (username password : string) : M Z :=
  if negb (valid_username username) then ret (-2)
  else
    let! exists_ := user_exists username in
    if exists_ : bool then ret (-1)
    else
      let! cfg := g_config in
      make_account (user_get_datapath cfg username 1280) password.

Definition user_change_password (username password : string) : M Z :=
  let! cfg := g_config in
  let! ok := do_fs (fun fs => fs_write fs (conf_path cfg username) (password_line password)) in
  ret (if ok : bool then 0 else -1).

Definition is_dot_name (name : string) : bool :=
  match name with String c _ => is_char c "." | EmptyString => false end.

Definition do_unlink (path : string) : M unit := do_fs (fun fs => (fs_unlink fs path, tt)).
Definition do_rmdir (path : string) : M unit := do_fs (fun fs => (fs_rmdir fs path, tt)).

Definition user_delete (username : string) : M Z :=
  let! cfg := g_config in
  let userdir := user_get_datapath cfg username 1280 in
  let offlinedir := snprintf 1536 (userdir ++ "/offline") in
  let! fs := get_fs in
  match fs_readdir fs offlinedir with
  | Some names =>
      for_each names (fun name =>
        if is_dot_name name then ret tt
        else do_unlink (snprintf 1792 (offlinedir ++ "/" ++ name)))
  | None => ret tt
  end ;;
  do_rmdir offlinedir ;;
  do_unlink (snprintf 1536 (userdir ++ "/user.conf")) ;;
  do_unlink (snprintf 1536 (userdir ++ "/roster.xml")) ;;
  do_rmdir userdir ;;
  ret 0.

Definition user_check_password (username password : string) : M bool :=
  let! cfg := g_config in
  let! fs := get_fs in
  match fs_read fs (conf_path cfg username) with
  | None => ret false
  | Some content => ret (check_password_lines (fgets_all 1024 content) password)
  end.

(** ** tools/useradd.c *)

(** [main] once the options are parsed: the exit status. *)
Definition useradd_main (datadir_ username password : option string) : M Z :=
  match datadir_, username, password with
  | Some d, Some u, Some p =>
      if negb (valid_username u) then ret 1
      else
        let userdir := snprintf 1280 (d ++ "/" ++ u) in
        let! fs := get_fs in
        if fs_stat fs userdir then ret 1
        else
          let! rc := make_account userdir p in
          ret (if rc =? 0 then 0 else 1)
  | _, _, _ => ret 1
  end.
End User.

Section Quiet.
Context {LX : LibXml} {PX : Posix} {RC : Recovery} {RA : Reallocates PX}.

Lemma quiet_user_exists w0 u : quiet w0 (user_exists u).
Proof. unfold user_exists. quiet_go. Qed.

Lemma quiet_make_account w0 d p : quiet w0 (make_account d p).
Proof. unfold make_account. quiet_go. Qed.

Lemma quiet_user_check_password w0 u p : quiet w0 (user_check_password u p).
Proof. unfold user_check_password. quiet_go. Qed.

Lemma quiet_user_change_password w0 u p : quiet w0 (user_change_password u p).
Proof. unfold user_change_password. quiet_go. Qed.

Lemma quiet_do_unlink w0 p : quiet w0 (do_unlink p).
Proof. apply quiet_do_fs. Qed.

Lemma quiet_do_rmdir w0 p : quiet w0 (do_rmdir p).
Proof. apply quiet_do_fs. Qed.
End Quiet.

#[export] Hint Resolve quiet_user_exists quiet_make_account quiet_user_check_password
  quiet_user_change_password quiet_do_unlink quiet_do_rmdir : quiet.

Section Quiet_accounts.
Context {LX : LibXml} {PX : Posix} {RC : Recovery} {RA : Reallocates PX}.

Lemma quiet_user_create w0 u p : quiet w0 (user_create u p).
Proof. unfold user_create. quiet_go. Qed.

Lemma quiet_user_delete w0 u : quiet w0 (user_delete u).
Proof. unfold user_delete. quiet_go. Qed.
End Quiet_accounts.

#[export] Hint Resolve quiet_user_create quiet_user_delete : quiet.
