(* ===== verification/Message.v ===== *)
(** message.c: routing of messages, the offline store and its delivery. *)

From stdpp Require Import gmap.
From S2P Require Import Prelude CLib Util Dom World SessionIo Inv User.
Open Scope Z_scope.

(** ** Names of offline files *)

(** [atoi] of the largest numbered file, 0 if none. *)
Fixpoint max_seq_loop (names : list string) (max_seq : Z) : Z :=
  match names with
  | [] => max_seq
  | n :: names' =>
      if is_dot_name n then max_seq_loop names' max_seq
      else
        let seq := atoi n in
        max_seq_loop names' (if max_seq <? seq then seq else max_seq)
  end.

Definition offline_name (seq : Z) : string := fmt_0d 4 seq ++ ".xml".

(** The files to deliver: the first 256 names that end in [.xml] with
    something before it, cut to the 64 characters of an entry. *)
Fixpoint collect_names (names : list string) (count : nat) : list string :=
  match names with
  | [] => []
  | n :: names' =>
      if (256 <=? count)%nat then []
      else if is_dot_name n then collect_names names' count
      else
        let len := String.length n in
        if (len <? 5)%nat || negb (str_drop (len - 4) n =s ".xml")
        then collect_names names' count
        else snprintf 64 n :: collect_names names' (S count)
  end.

(** [strcmp (s, t) > 0] *)
Definition str_gt (s t : string) : bool := String.ltb t s.

(** The inner loop of the sort: position [i] holds [x], the positions from
    [j] on hold [l]. *)
Fixpoint sort_inner (x : string) (l : list string) : string * list string :=
  match l with
  | [] => (x, [])
  | y :: l' =>
      if str_gt x y
      then let '(m, r) := sort_inner y l' in (m, x :: r)
      else let '(m, r) := sort_inner x l' in (m, y :: r)
  end.

(** The outer loop: [n] positions are left to fill. *)
Fixpoint sort_outer (n : nat) (l : list string) : list string :=
  match n, l with
  | S n', x :: l' => let '(m, r) := sort_inner x l' in m :: sort_outer n' r
  | _, _ => l
  end.

Definition sort_names (l : list string) : list string := sort_outer (List.length l - 1) l.

(** ["%Y-%m-%dT%H:%M:%SZ"] *)
Definition stamp_of (t : tm) : string :=
  dec (tm_year t + 1900) ++ "-" ++ fmt_0d 2 (tm_mon t + 1) ++ "-" ++ fmt_0d 2 (tm_mday t) ++
  "T" ++ fmt_0d 2 (tm_hour t) ++ ":" ++ fmt_0d 2 (tm_min t) ++ ":" ++ fmt_0d 2 (tm_sec t) ++ "Z".

Section Message.
Context {LX : LibXml} {PX : Posix} {RC : Recovery}.

Definition offline_dir (cfg : config_t) (username : string) : string :=
  snprintf 1280 (datadir cfg ++ "/" ++ username ++ "/offline").

Definition add_delay (cfg : config_t) (stanza : xnode) (t : tm) : xnode :=
  let delay := xmlNewChild stanza None "delay" None in
  let '(delay, _) := xml_own_ns delay "urn:xmpp:delay" in
  let delay := xmlNewProp delay "from" (domain cfg) in
  let delay := xmlNewProp delay "stamp" (stamp_of t) in
  xmlAddChild stanza delay.

Definition message_store_offline (username : string) (stanza : xnode) : M unit :=
  let! cfg := g_config in
  let dir := offline_dir cfg username in
  do_fs (fun fs => fs_mkdir fs dir) ;;
  let! fs := get_fs in
  let max_seq := match fs_readdir fs dir with
                 | Some names => max_seq_loop names 0
                 | None => 0
                 end in
  let! t := do_os os_gmtime in
  match stanza_serialize (add_delay cfg stanza t) with
  | None => ret tt
  | Some xml =>
      let path := snprintf 1536 (dir ++ "/" ++ offline_name (int_wrap (max_seq + 1))) in
      do_fs (fun fs => fs_write fs path xml) ;;
      ret tt
  end.

(** One file: parsed, its root sent, the file removed in any case. *)
Definition deliver_file (s : sid) (dir name : string) : M unit :=
  let path := snprintf 1536 (dir ++ "/" ++ name) in
  let! fs := get_fs in
  match match fs_read fs path with Some c => xmlReadDoc c | None => None end with
  | None => do_unlink path
  | Some root =>
      match root with
      | Some r => stanza_send s r
      | None => ret tt
      end ;;
      do_unlink path
  end.

Definition message_deliver_offline (s : sid) : M unit :=
  let! x := deref s in
  let! cfg := g_config in
  let dir := offline_dir cfg (s_jid_local x) in
  let! fs := get_fs in
  match fs_readdir fs dir with
  | None => ret tt
  | Some names =>
      for_each (sort_names (collect_names names 0)) (deliver_file s dir)
  end.

(** The domain test and the user test of [handle_message] have the same
    answer; [jid_parse] may read out of bounds. *)
Definition handle_message (s : sid) (stanza : xnode) : M unit :=
  let to := prop_or stanza "to" "" in
  let type := prop_or stanza "type" "normal" in
  let! cfg := g_config in
  let! parsed := lift (jid_parse to 256 256 256) in
  let '(rc, bufs) := parsed in
  match (if rc <? 0 then None else bufs) with
  | None => stanza_send_error s stanza "modify" "jid-malformed"
  | Some b =>
      if str_empty (jb_local b) then stanza_send_error s stanza "modify" "jid-malformed"
      else if negb (jb_domain b =s domain cfg) then
        stanza_send_error s stanza "cancel" "item-not-found"
      else
        let! known := user_exists (jb_local b) in
        if negb known then stanza_send_error s stanza "cancel" "item-not-found"
        else
          let! x := deref s in
          let stanza := xmlSetProp stanza "from" (full_jid_of x) in
          let! target := session_find_by_jid (jid_bare (jb_local b) (jb_domain b) 512) in
          match target with
          | Some t => stanza_send t stanza
          | None =>
              if negb (type =s "error") then message_store_offline (jb_local b) stanza
              else ret tt
          end
  end.
End Message.

Section Quiet.
Context {LX : LibXml} {PX : Posix} {RC : Recovery} {RA : Reallocates PX}.

Lemma quiet_store_offline w0 u n : quiet w0 (message_store_offline u n).
Proof. unfold message_store_offline. quiet_go. Qed.

Lemma quiet_deliver_file w0 s d n : live s w0 -> quiet w0 (deliver_file s d n).
Proof. intros. unfold deliver_file. quiet_go. Qed.
End Quiet.

#[export] Hint Resolve quiet_store_offline quiet_deliver_file : quiet.

Section Quiet_handlers.
Context {LX : LibXml} {PX : Posix} {RC : Recovery} {RA : Reallocates PX}.

Lemma quiet_deliver_offline w0 s : live s w0 -> quiet w0 (message_deliver_offline s).
Proof. intros. unfold message_deliver_offline. quiet_go. Qed.

Lemma stable_lift_jid w0 to :
  quiet w0 (lift (jid_parse to 256 256 256)).
Proof. eapply stable_weaken; [apply stable_lift, jid_parse_risk|done]. Qed.

Lemma quiet_handle_message w0 s n : live s w0 -> quiet w0 (handle_message s n).
Proof.
  intros. unfold handle_message. cbv zeta.
  eapply stable_bind; [quiet_prim|]. intros cfg _.
  eapply stable_bind; [apply stable_lift_jid|]. intros p _. quiet_go.
Qed.
End Quiet_handlers.

#[export] Hint Resolve quiet_deliver_offline quiet_handle_message : quiet.
