(* ===== verification/Presence.v ===== *)
(** presence.c: availability broadcasts and the subscription handshake. *)

From stdpp Require Import gmap.
From S2P Require Import Prelude CLib Util Dom World SessionIo Inv Roster User Message.
Open Scope Z_scope.

Definition sub_has_to (sub : string) : bool := (sub =s "to") || (sub =s "both").
Definition sub_has_from (sub : string) : bool := (sub =s "from") || (sub =s "both").

(** ** What the four subscription stanzas do to a subscription

    [if (strcmp (sub, a) == 0) sub = b; else if (strcmp (sub, c) == 0) sub = d;] *)
Definition sub_switch (a b c d : string) (it : roster_item) : roster_item :=
  if ri_subscription it =s a then set_item_subscription b it
  else if ri_subscription it =s c then set_item_subscription d it
  else it.

(** subscribed: none->from, to->both on the side of the sender; none->to,
    from->both, and no pending request, on the side of the target. *)
Definition subscribed_sender : roster_item -> roster_item := sub_switch "none" "from" "to" "both".
Definition subscribed_target (it : roster_item) : roster_item :=
  set_item_ask false (sub_switch "none" "to" "from" "both" it).

(** unsubscribe: to->none, both->from, no pending request; from->none, both->to. *)
Definition unsubscribe_sender (it : roster_item) : roster_item :=
  set_item_ask false (sub_switch "to" "none" "both" "from" it).
Definition unsubscribe_target : roster_item -> roster_item := sub_switch "from" "none" "both" "to".

(** unsubscribed: from->none, both->to; to->none, both->from, no pending request. *)
Definition unsubscribed_sender : roster_item -> roster_item := sub_switch "from" "none" "both" "to".
Definition unsubscribed_target (it : roster_item) : roster_item :=
  set_item_ask false (sub_switch "to" "none" "both" "from" it).

Section Presence.
Context {LX : LibXml} {PX : Posix} {RC : Recovery}.

(** The session of the contact a roster item names. *)
Definition contact_session (ri : roster_item) : M (option sid) :=
  let! b := parse_ignoring_rc (ri_jid ri) in
  session_find_by_jid (bare_of b).

Definition presence_node (type from : string) (to : option string) : xnode :=
  xmlNewProp_opt
    (xmlNewProp (xmlNewProp (xmlNewNode "presence") "type" type) "from" from) "to" to.

(** ** Availability *)

Definition presence_broadcast_unavailable (s : sid) : M unit :=
  let! x := deref s in
  if negb (s_available x) && negb (s_initial_presence_sent x) then ret tt
  else
    let pres := presence_node "unavailable" (full_jid_of x) None in
    ensure_roster s ;;
    let! x := deref s in
    for_each (r_items (s_roster x)) (fun ri =>
      if negb (sub_has_from (ri_subscription ri)) then ret tt
      else
        let! contact := contact_session ri in
        match contact with
        | Some c => when negb (c =? s)%nat then stanza_send c pres
        | None => ret tt
        end) ;;
    upd s (set_available false).

(** Scans the rosters of the other sessions for requests to us. *)
Definition redeliver_from (s : sid) (our_bare : string) (slot : option sid) : M unit :=
  match slot with
  | None => ret tt
  | Some o =>
      if (o =? s)%nat then ret tt
      else
        let! other := deref o in
        if str_empty (s_jid_local other) then ret tt
        else if negb (r_loaded (s_roster other)) then ret tt
        else
          for_each (r_items (s_roster other)) (fun ri =>
            if negb (ri_ask_subscribe ri) then ret tt
            else if negb (ri_jid ri =s our_bare) then ret tt
            else stanza_send s
                   (presence_node "subscribe" (bare_jid_of other) (Some our_bare)))
  end.

Definition presence_redeliver_pending_subscribes (s : sid) : M unit :=
  let! x := deref s in
  let our_bare := bare_jid_of x in
  let! w := get in
  for_each (active_slots w) (redeliver_from s our_bare).

Definition presence_handle_available (s : sid) (stanza : xnode) : M unit :=
  let! x := deref s in
  let is_initial := negb (s_available x) in
  let pres := xmlSetProp (xmlCopyNode stanza) "from" (full_jid_of x) in
  upd s (fun x => set_presence_stanza (Some pres) (set_available true x)) ;;
  ensure_roster s ;;
  let! x := deref s in
  for_each (r_items (s_roster x)) (fun ri =>
    if negb (sub_has_from (ri_subscription ri)) then ret tt
    else
      let! contact := contact_session ri in
      match contact with
      | Some c => stanza_send c pres
      | None => ret tt
      end) ;;
  for_each (r_items (s_roster x)) (fun ri =>
    if negb (sub_has_to (ri_subscription ri)) then ret tt
    else
      let! contact := contact_session ri in
      match contact with
      | Some c =>
          let! y := deref c in
          match s_available y, s_presence_stanza y with
          | true, Some p => stanza_send s p
          | _, _ => ret tt
          end
      | None => ret tt
      end) ;;
  if is_initial then
    upd s (set_initial_presence_sent true) ;;
    message_deliver_offline s ;;
    presence_redeliver_pending_subscribes s
  else ret tt.

Definition presence_handle_unavailable (s : sid) : M unit :=
  presence_broadcast_unavailable s ;;
  upd s (set_available false).

(** ** Subscriptions *)

Definition presence_handle_subscribe (s : sid) (to : string) : M unit :=
  let! b := parse_ignoring_rc to in
  let bare := bare_of b in
  ensure_roster s ;;
  let! x := deref s in
  match roster_find_item (s_roster x) bare with
  | None =>
      upd s (fun x => set_roster
        (fst (roster_add_item (s_roster x) bare None (Some "none") true)) x)
  | Some i => upd s (fun x => set_roster (upd_item i (set_item_ask true) (s_roster x)) x)
  end ;;
  roster_save s ;;
  let! x := deref s in
  roster_push s (item_at x (roster_find_item (s_roster x) bare)) ;;
  let! target := session_find_by_jid bare in
  match target with
  | Some t =>
      stanza_send t (presence_node "subscribe" (bare_jid_of x) (Some bare))
  | None => ret tt
  end.

(** [target && target->roster.loaded] *)
Definition target_loaded (target : option sid) : M bool :=
  match target with
  | Some t => let! y := deref t in ret (r_loaded (s_roster y))
  | None => ret false
  end.

(** The cached roster of a target that is online.  [always_save]: saved even
    when the item is absent. *)
Definition update_cached (t : sid) (sender_bare : string)
    (f : roster_item -> roster_item) (always_save : bool) : M unit :=
  let! y := deref t in
  match roster_find_item (s_roster y) sender_bare with
  | Some i =>
      upd t (fun y => set_roster (upd_item i f (s_roster y)) y) ;;
      roster_save t ;;
      let! y := deref t in
      roster_push t (item_at y (Some i))
  | None => when always_save then (roster_save t ;; ret tt)
  end.

(** The roster file of a target that is not. *)
Definition update_file (local sender_bare : string)
    (f : roster_item -> roster_item) (always_save : bool) : M unit :=
  let! r := roster_load_for_user local in
  match roster_find_item r sender_bare with
  | Some i => roster_save_for_user local (upd_item i f r) ;; ret tt
  | None => when always_save then (roster_save_for_user local r ;; ret tt)
  end.

Definition update_target (target : option sid) (loaded : bool) (local sender_bare : string)
    (f : roster_item -> roster_item) (always_save : bool) : M unit :=
  match target, loaded with
  | Some t, true => update_cached t sender_bare f always_save
  | _, _ => update_file local sender_bare f always_save
  end.

Definition presence_handle_subscribed (s : sid) (to : string) : M unit :=
  let! b := parse_ignoring_rc to in
  let target_bare := bare_of b in
  let! x := deref s in
  let sender_bare := bare_jid_of x in
  ensure_roster s ;;
  let! x := deref s in
  match roster_find_item (s_roster x) target_bare with
  | None =>
      upd s (fun x => set_roster
        (fst (roster_add_item (s_roster x) target_bare None (Some "from") false)) x)
  | Some i => upd s (fun x => set_roster (upd_item i subscribed_sender (s_roster x)) x)
  end ;;
  roster_save s ;;
  let! x := deref s in
  roster_push s (item_at x (roster_find_item (s_roster x) target_bare)) ;;
  let! target := session_find_by_jid target_bare in
  let! loaded := target_loaded target in
  update_target target loaded (jb_local b) sender_bare subscribed_target true ;;
  match target with
  | None => ret tt
  | Some t =>
      let! x := deref s in
      match s_available x, s_presence_stanza x with
      | true, Some p => stanza_send t p
      | _, _ => ret tt
      end ;;
      stanza_send t (presence_node "subscribed" sender_bare (Some target_bare))
  end.

(** The sender's side of unsubscribe and unsubscribed: nothing happens
    without an item. *)
Definition update_sender (s : sid) (target_bare : string)
    (f : roster_item -> roster_item) : M unit :=
  let! x := deref s in
  match roster_find_item (s_roster x) target_bare with
  | None => ret tt
  | Some i =>
      upd s (fun x => set_roster (upd_item i f (s_roster x)) x) ;;
      roster_save s ;;
      let! x := deref s in
      roster_push s (item_at x (Some i))
  end.

(** What a target whose roster is loaded is sent. *)
Definition notify_withdrawal (s : sid) (target : option sid) (loaded : bool)
    (type sender_bare target_bare : string) : M unit :=
  match target, loaded with
  | Some t, true =>
      stanza_send t (presence_node type sender_bare (Some target_bare)) ;;
      let! x := deref s in
      when s_available x then
        stanza_send t (presence_node "unavailable" (full_jid_of x) None)
  | _, _ => ret tt
  end.

Definition presence_handle_unsubscribe (s : sid) (to : string) : M unit :=
  let! b := parse_ignoring_rc to in
  let target_bare := bare_of b in
  let! x := deref s in
  let sender_bare := bare_jid_of x in
  ensure_roster s ;;
  update_sender s target_bare unsubscribe_sender ;;
  let! target := session_find_by_jid target_bare in
  let! loaded := target_loaded target in
  update_target target loaded (jb_local b) sender_bare unsubscribe_target false ;;
  notify_withdrawal s target loaded "unsubscribe" sender_bare target_bare.

Definition presence_handle_unsubscribed (s : sid) (to : string) : M unit :=
  let! b := parse_ignoring_rc to in
  let target_bare := bare_of b in
  let! x := deref s in
  let sender_bare := bare_jid_of x in
  ensure_roster s ;;
  update_sender s target_bare unsubscribed_sender ;;
  let! target := session_find_by_jid target_bare in
  let! loaded := target_loaded target in
  update_target target loaded (jb_local b) sender_bare unsubscribed_target false ;;
  notify_withdrawal s target loaded "unsubscribed" sender_bare target_bare.

(** ** The dispatcher; an unknown type is only logged *)

Definition handle_presence (s : sid) (stanza : xnode) : M unit :=
  let type := prop_or stanza "type" "" in
  let to := prop_or stanza "to" "" in
  if str_empty type then presence_handle_available s stanza
  else if type =s "unavailable" then presence_handle_unavailable s
  else if type =s "subscribe" then presence_handle_subscribe s to
  else if type =s "subscribed" then presence_handle_subscribed s to
  else if type =s "unsubscribe" then presence_handle_unsubscribe s to
  else if type =s "unsubscribed" then presence_handle_unsubscribed s to
  else ret tt.
End Presence.

Section Quiet.
Context {LX : LibXml} {PX : Posix} {RC : Recovery} {RA : Reallocates PX}.

Lemma stable_contact_session w0 ri : stable w0 (contact_session ri) (slot_live w0).
Proof.
  unfold contact_session. eapply stable_bind; [quiet_prim|]. intros b _. quiet_prim.
Qed.

Lemma stable_target_loaded w0 t : slot_live w0 t -> quiet w0 (target_loaded t).
Proof. intros H. unfold target_loaded. quiet_go. Qed.

Lemma quiet_update_cached w0 t b f a : live t w0 -> quiet w0 (update_cached t b f a).
Proof. intros. unfold update_cached. quiet_go. Qed.

Lemma quiet_update_file w0 l b f a : quiet w0 (update_file l b f a).
Proof. unfold update_file, roster_load_for_user, roster_save_for_user. quiet_go. Qed.

Lemma quiet_redeliver_from w0 s b o :
  live s w0 -> slot_live w0 o -> quiet w0 (redeliver_from s b o).
Proof. intros. unfold redeliver_from. quiet_go. Qed.
End Quiet.

#[export] Hint Resolve stable_contact_session stable_target_loaded quiet_update_cached
  quiet_update_file quiet_redeliver_from : quiet.

Section Quiet_parts.
Context {LX : LibXml} {PX : Posix} {RC : Recovery} {RA : Reallocates PX}.

Lemma quiet_broadcast_unavailable w0 s :
  live s w0 -> quiet w0 (presence_broadcast_unavailable s).
Proof. intros. unfold presence_broadcast_unavailable. quiet_go. Qed.

Lemma quiet_redeliver w0 s : live s w0 -> quiet w0 (presence_redeliver_pending_subscribes s).
Proof.
  intros. unfold presence_redeliver_pending_subscribes.
  eapply stable_bind; [quiet_prim|]. intros x _.
  eapply stable_bind; [quiet_prim|]. intros w Hw. cbv beta.
  pose proof (active_slots_live _ _ Hw) as Hslots.
  induction Hslots as [|o slots Ho _ IH]; simpl; [by apply stable_ret|].
  eapply stable_bind; [by apply quiet_redeliver_from|]. intros _ _. apply IH.
Qed.

Lemma quiet_update_target w0 t ld l b f a :
  slot_live w0 t -> quiet w0 (update_target t ld l b f a).
Proof. intros. unfold update_target. quiet_go. Qed.

Lemma quiet_update_sender w0 s b f : live s w0 -> quiet w0 (update_sender s b f).
Proof. intros. unfold update_sender. quiet_go. Qed.

Lemma quiet_notify_withdrawal w0 s t ld ty sb tb :
  live s w0 -> slot_live w0 t -> quiet w0 (notify_withdrawal s t ld ty sb tb).
Proof. intros. unfold notify_withdrawal. quiet_go. Qed.
End Quiet_parts.

#[export] Hint Resolve quiet_broadcast_unavailable quiet_redeliver quiet_update_target
  quiet_update_sender quiet_notify_withdrawal : quiet.

Section Quiet_handlers.
Context {LX : LibXml} {PX : Posix} {RC : Recovery} {RA : Reallocates PX}.

Lemma quiet_handle_available w0 s n : live s w0 -> quiet w0 (presence_handle_available s n).
Proof. intros. unfold presence_handle_available. quiet_go. Qed.

Lemma quiet_handle_presence w0 s n : live s w0 -> quiet w0 (handle_presence s n).
Proof.
  intros. unfold handle_presence, presence_handle_unavailable, presence_handle_subscribe,
    presence_handle_subscribed, presence_handle_unsubscribe, presence_handle_unsubscribed.
  pose proof (quiet_handle_available w0 s n). quiet_go.
Qed.
End Quiet_handlers.

#[export] Hint Resolve quiet_handle_presence : quiet.
