(* ===== verification/Session.v ===== *)
(** session.c and stream.c: teardown, stream open, close and errors, resource
    binding, session establishment. *)

From stdpp Require Import gmap.
From S2P Require Import Prelude Util Dom World SessionIo Presence.
Open Scope Z_scope.

Section Destruction.
Context {LX : LibXml} {PX : Posix} {RC : Recovery}.

Definition session_teardown (s : sid) : M unit :=
  let! x := deref s in
  if bool_decide (s_state x = STATE_DISCONNECTED) then ret tt
  else
    (when s_available x || s_initial_presence_sent x then
       presence_broadcast_unavailable s) ;;
    upd s (set_state STATE_DISCONNECTED) ;;
    server_remove_session s ;;
    session_destroy s.

End Destruction.

(** The recovery of session_write is [session_teardown], the writes of whose
    broadcast may have to recover in turn, to the depth of the stack. *)
Fixpoint teardown_within {LX : LibXml} {PX : Posix} (depth : nat) : Recovery :=
  match depth with
  | O => fun _ => raise FStack
  | S depth' => fun s => session_teardown (RC := teardown_within depth') s
  end.

Section Session.
Context {LX : LibXml} {PX : Posix} {RC : Recovery}.

(** ** stream.c *)

(** While the parser of the session is on the call stack, teardown waits. *)
Definition teardown_or_defer (s : sid) : M unit :=
  let! x := deref s in
  if s_in_xml_parse x then upd s (set_teardown_pending true)
  else session_teardown s.

Definition stream_error_text (condition : string) : string :=
  snprintf 512
    ("<stream:error>" ++ "<" ++ condition ++ " xmlns='urn:ietf:params:xml:ns:xmpp-streams'/>" ++
     "</stream:error>" ++ "</stream:stream>").

Definition stream_send_error (s : sid) (condition : string) : M unit :=
  session_write_str s (stream_error_text condition) ;;
  session_flush s ;;
  teardown_or_defer s.

Definition stream_handle_close (s : sid) : M unit :=
  session_write_str s "</stream:stream>" ;;
  teardown_or_defer s.

Definition stream_header (domain stream_id : string) : string :=
  snprintf 1024
    ("<?xml version='1.0'?>" ++
     "<stream:stream from='" ++ domain ++ "' id='" ++ stream_id ++ "' " ++
     "xmlns='jabber:client' " ++
     "xmlns:stream='http://etherx.jabber.org/streams' " ++
     "version='1.0'>").

Definition features_authenticated : string :=
  "<stream:features>" ++
  "<bind xmlns='urn:ietf:params:xml:ns:xmpp-bind'/>" ++
  "<session xmlns='urn:ietf:params:xml:ns:xmpp-session'>" ++
  "<optional/>" ++
  "</session>" ++
  "</stream:features>".

Definition features_initial : string :=
  "<stream:features>" ++
  "<mechanisms xmlns='urn:ietf:params:xml:ns:xmpp-sasl'>" ++
  "<mechanism>PLAIN</mechanism>" ++
  "</mechanisms>" ++
  "<register xmlns='http://jabber.org/features/iq-register'/>" ++
  "</stream:features>".

(** The third argument of the C function, the namespace, is not used. *)
Definition stream_handle_open (s : sid) (to : string) : M unit :=
  let! cfg := g_config in
  if negb (to =s domain cfg) then stream_send_error s "host-unknown"
  else
    let! bytes := do_os (fun o => os_random o 16) in
    session_write_str s (stream_header (domain cfg) (generate_id bytes)) ;;
    let! x := deref s in
    (if s_authenticated x then session_write_str s features_authenticated
     else session_write_str s features_initial) ;;
    upd s (set_state STATE_STREAM_OPENED).

(** ** Binding and session IQs *)

Definition random_resource : M string :=
  let! bytes := do_os (fun o => os_random o 8) in
  ret (generate_id bytes).

Definition requested_resource (stanza : xnode) : option string :=
  match xml_find_child (xml_find_child (Some stanza) "bind") "resource" with
  | Some res_el => xmlNodeGetContent res_el
  | None => None
  end.

Definition bind_result (stanza : xnode) (full_jid : string) : xnode :=
  let result := xmlNewProp (xmlNewNode "iq") "type" "result" in
  let result := xmlNewProp_opt result "id" (xmlGetProp stanza "id") in
  let bind_resp := xmlNewChild result None "bind" None in
  let '(bind_resp, bind_ns) := xml_own_ns bind_resp "urn:ietf:params:xml:ns:xmpp-bind" in
  let jid := xmlNewChild bind_resp bind_ns "jid" (Some full_jid) in
  xmlAddChild result (xmlAddChild bind_resp jid).

Definition session_handle_bind (s : sid) (stanza : xnode) : M unit :=
  let! x := deref s in
  if negb (bool_decide (s_state x = STATE_AUTHENTICATED)) &&
     negb (bool_decide (s_state x = STATE_STREAM_OPENED))
  then stanza_send_error s stanza "cancel" "not-allowed"
  else
    let! resource := match requested_resource stanza with
                     | Some content => ret (snprintf 256 content)
                     | None => random_resource
                     end in
    let! existing := session_find_by_jid (bare_jid_of x) in
    match existing with
    | Some e => when negb (e =? s)%nat then stream_send_error e "conflict"
    | None => ret tt
    end ;;
    upd s (fun x => set_state STATE_BOUND (set_jid_resource (snprintf 256 resource) x)) ;;
    let! x := deref s in
    stanza_send s (bind_result stanza (full_jid_of x)).

Definition session_handle_session_iq (s : sid) (stanza : xnode) : M unit :=
  upd s (set_state STATE_SESSION_ACTIVE) ;;
  stanza_send s (xmlNewProp_opt (xmlNewProp (xmlNewNode "iq") "type" "result") "id"
                   (xmlGetProp stanza "id")).
End Session.
