(* ===== verification/Teardown.v ===== *)
(** Removal of a session: what [server_remove_session] and [session_destroy]
    do to the tables, and that a teardown keeps the invariant. *)

From stdpp Require Import gmap.
From S2P Require Import Prelude Util Dom World SessionIo Inv Presence Session.
Open Scope Z_scope.

Section Removal.
Context {LX : LibXml} {PX : Posix} {RC : Recovery} {RA : Reallocates PX}.

(** The tables without the session in slot [idx]: the session [t] of the
    last slot and its poll entry [p] took its place. *)
Definition compacted (idx last : nat) (t : sid) (y : session) (p : pollfd) (w : world) : world :=
  let moved := if (idx =? last)%nat then w
               else set_heap (<[t := set_poll_index idx y]> (w_heap w))
                      (set_sessions (<[idx := Some t]> (w_sessions w))
                        (set_pollfds (<[idx := p]> (w_pollfds w)) w)) in
  set_nfds (w_nfds w - 1)
    (set_sessions (<[last := None]> (w_sessions moved))
      (set_pollfds (<[last := mkPollfd (-1) 0 0]> (w_pollfds moved)) moved)).

Lemma remove_session_eq w s x idx last t y p :
  w_heap w !! s = Some x -> s_poll_index x = idx -> (1 <= idx < w_nfds w)%nat ->
  last = (w_nfds w - 1)%nat ->
  w_sessions w !! last = Some (Some t) -> w_heap w !! t = Some y ->
  w_pollfds w !! last = Some p ->
  server_remove_session s w = Ok (tt, compacted idx last t y p w).
Proof.
  intros Hx Hi Hidx Hlast Ht Hy Hp. unfold server_remove_session, compacted.
  unfold bind at 1. unfold deref. rewrite Hx. unfold bind at 1, get. rewrite Hi.
  rewrite (proj2 (Nat.ltb_ge idx 1)), (proj2 (Nat.leb_gt (w_nfds w) idx)) by lia.
  cbn [orb]. cbv zeta. rewrite <- Hlast.
  destruct (idx =? last)%nat; cbn [negb]; [by subst last|].
  unfold bind at 1 2 3, arr_get. rewrite Hp, Ht.
  unfold ret, modify, upd, bind. cbn [w_heap set_sessions set_pollfds]. rewrite Hy.
  by subst last.
Qed.

(** [w'] is [w] without [s], which was in slot [idx]: the session [t] of the
    last slot, with its poll entry [p], took its place. *)
Record compaction (w w' : world) (s : sid) (idx last : nat) (t : sid) (y : session)
    (p : pollfd) : Prop := {
  cp_heap u : w_heap w' !! u =
    if decide (u = s) then None
    else if decide (u = t) then Some (set_poll_index idx y) else w_heap w !! u;
  cp_sessions i : w_sessions w' !! i =
    if decide (i = last) then Some None
    else if decide (i = idx) then Some (Some t) else w_sessions w !! i;
  cp_pollfds i : i <> last ->
    w_pollfds w' !! i = if decide (i = idx) then Some p else w_pollfds w !! i;
  cp_plen : List.length (w_pollfds w') = MAX_CLIENTS;
  cp_slen : List.length (w_sessions w') = MAX_CLIENTS;
  cp_nfds : w_nfds w' = last;
  cp_next : w_next w' = w_next w
}.

Lemma sess_ok_index i x : sess_ok x -> sess_ok (set_poll_index i x).
Proof. by intros []; constructor. Qed.

Lemma slot_of w s x :
  wf w -> w_heap w !! s = Some x ->
  w_sessions w !! s_poll_index x = Some (Some s) /\ (1 <= s_poll_index x < w_nfds w)%nat.
Proof.
  intros Hwf Hx. apply (wf_heap _ Hwf) in Hx as (_ & Hs & _). split; [done|].
  by destruct (wf_slot _ Hwf _ _ Hs).
Qed.

Lemma index_of w i t y :
  wf w -> w_sessions w !! i = Some (Some t) -> w_heap w !! t = Some y -> s_poll_index y = i.
Proof.
  intros Hwf Ht Hy. destruct (wf_slot _ Hwf _ _ Ht) as (_ & y' & Hy' & <-). congruence.
Qed.

Section Wf_compaction.
Context (w w' : world) (s idx last t : nat) (x y : session) (p : pollfd).
Context (Hwf : wf w) (Hx : w_heap w !! s = Some x) (Hidx : s_poll_index x = idx).
Context (Hlast : last = (w_nfds w - 1)%nat) (Ht : w_sessions w !! last = Some (Some t)).
Context (Hy : w_heap w !! t = Some y) (Hp : w_pollfds w !! last = Some p).
Context (Hc : compaction w w' s idx last t y p).
Context (Hs : w_sessions w !! idx = Some (Some s)) (Hr : (1 <= idx < w_nfds w)%nat).
Context (Hyi : s_poll_index y = last) (Hts : t = s <-> idx = last).

Local Lemma compaction_slot i u :
  w_sessions w' !! i = Some (Some u) ->
  (1 <= i < w_nfds w')%nat /\ exists z, w_heap w' !! u = Some z /\ s_poll_index z = i.
Proof.
  rewrite (cp_sessions _ _ _ _ _ _ _ _ Hc), (cp_nfds _ _ _ _ _ _ _ _ Hc).
  rewrite (cp_heap _ _ _ _ _ _ _ _ Hc).
  case_decide as E1; [done|]. case_decide as E2; intros Hu.
  - inv Hu. split; [lia|]. rewrite decide_False by (rewrite Hts; lia).
    rewrite decide_True by done. by eexists.
  - destruct (wf_slot _ Hwf _ _ Hu) as (Hi & z & Hz & Hzi). split; [lia|].
    exists z. split; [|done].
    assert (u <> s) by (intros ->; rewrite Hx in Hz; simplify_eq).
    assert (u <> t) by (intros ->; congruence).
    by rewrite !decide_False.
Qed.

Local Lemma compaction_heap u z :
  w_heap w' !! u = Some z ->
  sess_ok z /\ w_sessions w' !! s_poll_index z = Some (Some u) /\
  exists q, w_pollfds w' !! s_poll_index z = Some q /\ entry_ok z q.
Proof.
  rewrite (cp_heap _ _ _ _ _ _ _ _ Hc).
  case_decide as E1; [done|]. rewrite (cp_sessions _ _ _ _ _ _ _ _ Hc).
  destruct (wf_heap _ Hwf _ _ Hy) as (Hoky & _ & q & Hq & Hqe).
  rewrite Hyi in Hq. case_decide as E2.
  - intros [= <-]. cbn [s_poll_index set_poll_index].
    rewrite (cp_pollfds _ _ _ _ _ _ _ _ Hc) by (rewrite <- Hts; congruence).
    rewrite decide_False by (rewrite <- Hts; congruence).
    rewrite !decide_True by done. split_and!; [by apply sess_ok_index|by rewrite E2|].
    exists p. split; [done|]. simplify_eq. by destruct Hqe; constructor.
  - intros Hz. destruct (wf_heap _ Hwf _ _ Hz) as (Hok & Hzs & qz & Hqz & He).
    assert (s_poll_index z <> last) by congruence.
    assert (s_poll_index z <> idx) by congruence.
    rewrite (cp_pollfds _ _ _ _ _ _ _ _ Hc), !decide_False by done. eauto.
Qed.

Lemma wf_compaction : wf w'.
Proof.
  pose proof (wf_nfds _ Hwf).
  constructor; [| | | | |apply compaction_heap|].
  - rewrite (cp_nfds _ _ _ _ _ _ _ _ Hc). lia.
  - apply (cp_plen _ _ _ _ _ _ _ _ Hc).
  - apply (cp_slen _ _ _ _ _ _ _ _ Hc).
  - apply compaction_slot.
  - intros i Hi. rewrite (cp_nfds _ _ _ _ _ _ _ _ Hc) in Hi.
    rewrite (cp_sessions _ _ _ _ _ _ _ _ Hc). rewrite decide_False by lia.
    case_decide; [eauto|]. apply (wf_full _ Hwf). lia.
  - intros u z. rewrite (cp_heap _ _ _ _ _ _ _ _ Hc), (cp_next _ _ _ _ _ _ _ _ Hc).
    case_decide; [done|]. case_decide; intros Hz; [|by eapply wf_fresh].
    subst u. by eapply wf_fresh.
Qed.
End Wf_compaction.

(** [server_remove_session] compacts: [w1] agrees with [w] but for [s]. *)
Lemma compacted_compaction w w1 s idx last t y p net :
  last = (w_nfds w - 1)%nat -> (1 <= w_nfds w)%nat -> (idx <= last)%nat ->
  w_heap w !! t = Some y -> (t = s <-> idx = last) ->
  (forall u, u <> s -> w_heap w1 !! u = w_heap w !! u) ->
  w_pollfds w1 = w_pollfds w -> w_sessions w1 = w_sessions w ->
  w_nfds w1 = w_nfds w -> w_next w1 = w_next w ->
  List.length (w_pollfds w) = MAX_CLIENTS -> List.length (w_sessions w) = MAX_CLIENTS ->
  (last < MAX_CLIENTS)%nat ->
  let w2 := set_net net (compacted idx last t y p w1) in
  compaction w (set_heap (delete s (w_heap w2)) w2) s idx last t y p.
Proof.
  intros Hlast Hpos Hle Hy Hts Hh Hp Hs Hn Hnx Hpl Hsl Hb. unfold compacted.
  destruct (Nat.eqb_spec idx last) as [E|E]; cbv zeta; constructor;
    cbn [w_heap w_sessions w_pollfds w_nfds w_next set_heap set_sessions set_pollfds
         set_nfds set_net]; rewrite ?Hp, ?Hs, ?Hn, ?Hnx, ?length_insert; try done; try lia.
  - intros u. case_decide; [subst; apply lookup_delete_eq|].
    rewrite lookup_delete_ne by done. rewrite Hh by done. case_decide; [|done]. naive_solver.
  - intros i. case_decide; [subst; by rewrite list_lookup_insert_eq by lia|].
    rewrite list_lookup_insert_ne by done. case_decide; [|done]. congruence.
  - intros i Hi. rewrite list_lookup_insert_ne by done. case_decide; [|done]. congruence.
  - intros u. case_decide; [subst; apply lookup_delete_eq|].
    rewrite lookup_delete_ne by done. case_decide as E2.
    + subst u. by rewrite lookup_insert_eq.
    + rewrite lookup_insert_ne by done. by apply Hh.
  - intros i. case_decide; [subst; by rewrite list_lookup_insert_eq by (rewrite length_insert; lia)|].
    rewrite list_lookup_insert_ne by done.
    case_decide; [subst; by rewrite list_lookup_insert_eq by lia|].
    by rewrite list_lookup_insert_ne.
  - intros i Hi. rewrite list_lookup_insert_ne by done.
    case_decide; [subst; by rewrite list_lookup_insert_eq by lia|].
    by rewrite list_lookup_insert_ne.
Qed.

(** ** Teardown *)

(** The state after the session [s] is gone: one slot less, the other
    sessions where they were or moved into the slot that was freed. *)
Record gone (w w' : world) (s : sid) : Prop := {
  gn_live : live s w;
  gn_dead : w_heap w' !! s = None;
  gn_nfds : S (w_nfds w') = w_nfds w;
  gn_next : w_next w' = w_next w;
  gn_config : w_config w' = w_config w;
  gn_listen : w_listen_fd w' = w_listen_fd w;
  gn_kept t x : t <> s -> w_heap w !! t = Some x ->
    exists y, w_heap w' !! t = Some y /\ s_fd y = s_fd x /\
              s_in_xml_parse y = s_in_xml_parse x;
  gn_none t : w_heap w !! t = None -> w_heap w' !! t = None
}.

Lemma gone_inside w0 w w' s : inside w0 w -> gone w w' s -> gone w0 w' s.
Proof.
  intros [_ Hf] Hg. destruct Hg as [G1 G2 G3 G4 G5 G6 G7 G8]. constructor.
  - by apply (frame_live _ _ _ Hf).
  - done.
  - by rewrite G3, (fr_nfds _ _ Hf).
  - by rewrite G4, (fr_next _ _ Hf).
  - by rewrite G5, (fr_config _ _ Hf).
  - by rewrite G6, (fr_listen _ _ Hf).
  - intros t x Ht Hx. destruct (fr_kept _ _ Hf _ _ Hx) as (y & Hy & [K1 K2 K3]).
    destruct (G7 _ _ Ht Hy) as (z & Hz & ? & ?). exists z. split_and!; congruence.
  - intros t Ht. by apply G8, (fr_none _ _ Hf).
Qed.

Definition free_session (s : sid) : M unit :=
  upd s (set_state STATE_DISCONNECTED) ;;
  server_remove_session s ;;
  session_destroy s.

(** [close] happens or not according to the descriptor. *)
Lemma session_destroy_eq w s x :
  w_heap w !! s = Some x ->
  exists net, session_destroy s w =
    let w' := set_net net w in Ok (tt, set_heap (delete s (w_heap w')) w').
Proof.
  intros Hx. unfold session_destroy, bind, deref. rewrite Hx.
  destruct (0 <=? s_fd x); unfold do_net, modify, ret.
  - eexists. reflexivity.
  - exists (w_net w). by destruct w.
Qed.

Lemma compacted_heap_self w s idx last t y p :
  w_heap w !! t = Some y ->
  (exists x, w_heap w !! s = Some x) ->
  exists x, w_heap (compacted idx last t y p w) !! s = Some x.
Proof.
  intros Hy [x Hx]. unfold compacted. destruct (idx =? last)%nat; cbn; [eauto|].
  destruct (decide (t = s)) as [->|].
  - rewrite lookup_insert_eq. eauto.
  - rewrite lookup_insert_ne by done. eauto.
Qed.

Lemma free_session_ok w s :
  wf w -> live s w -> exists w', free_session s w = Ok (tt, w') /\ wf w' /\ gone w w' s.
Proof.
  intros Hwf [x Hx]. destruct (slot_of _ _ _ Hwf Hx) as [Hs Hr].
  set (idx := s_poll_index x) in *. set (last := (w_nfds w - 1)%nat).
  pose proof (wf_nfds _ Hwf) as Hn.
  destruct (wf_full _ Hwf last) as [t Ht]; [lia|].
  destruct (wf_slot _ Hwf _ _ Ht) as (_ & y & Hy & Hyi).
  destruct (wf_heap _ Hwf _ _ Hy) as (_ & _ & p & Hp & _). rewrite Hyi in Hp.
  assert (t = s <-> idx = last) as Hts.
  { split; [intros ->; by simplify_eq|]. intros E. rewrite E in Hs. by simplify_eq. }
  set (x1 := set_state STATE_DISCONNECTED x).
  set (w1 := set_heap (<[s := x1]> (w_heap w)) w).
  assert (exists y1, w_heap w1 !! t = Some y1 /\ (t <> s -> y1 = y)) as (y1 & Hy1 & Hyy).
  { unfold w1. cbn [w_heap set_heap]. destruct (decide (t = s)) as [->|].
    - rewrite lookup_insert_eq. by eexists.
    - rewrite lookup_insert_ne by done. eauto. }
  assert (server_remove_session s w1 = Ok (tt, compacted idx last t y1 p w1)) as Hrem.
  { apply (remove_session_eq w1 s x1); try done. by apply lookup_insert_eq. }
  destruct (compacted_heap_self w1 s idx last t y1 p Hy1) as [x2 Hx2].
  { exists x1. by apply lookup_insert_eq. }
  destruct (session_destroy_eq _ _ _ Hx2) as [net Hdes].
  eexists. split.
  { unfold free_session, bind, upd. rewrite Hx. fold x1 w1. rewrite Hrem. exact Hdes. }
  assert (compacted idx last t y1 p w1 = compacted idx last t y p w1) as ->.
  { unfold compacted. destruct (Nat.eqb_spec idx last) as [E|E]; [done|].
    rewrite Hyy; [done|]. tauto. }
  assert (compaction w (set_heap (delete s (w_heap (set_net net (compacted idx last t y p w1))))
                          (set_net net (compacted idx last t y p w1))) s idx last t y p) as Hc.
  { apply compacted_compaction; try done; try lia.
    - intros u Hu. unfold w1. cbn [w_heap set_heap]. rewrite lookup_insert_ne by congruence. done.
    - apply (wf_plen _ Hwf).
    - apply (wf_slen _ Hwf). }
  split; [by apply (wf_compaction w _ s idx last t x y p)|].
  constructor.
  - by exists x.
  - cbn. apply lookup_delete_eq.
  - rewrite (cp_nfds _ _ _ _ _ _ _ _ Hc). lia.
  - apply (cp_next _ _ _ _ _ _ _ _ Hc).
  - unfold compacted. by destruct (idx =? last)%nat.
  - unfold compacted. by destruct (idx =? last)%nat.
  - intros u z Hu Hz. rewrite (cp_heap _ _ _ _ _ _ _ _ Hc), decide_False by done.
    case_decide; [|eauto]. subst u. eexists. split; [done|]. by simplify_eq.
  - intros u Hu. rewrite (cp_heap _ _ _ _ _ _ _ _ Hc).
    case_decide; [done|]. case_decide; [congruence|done].
Qed.

(** A teardown either meets a fault that is not a use after free, or leaves
    well-formed tables without the session, every other session alive. *)
Lemma teardown_ok w s :
  wf w -> live s w ->
  match session_teardown s w with
  | Ok (_, w') => wf w' /\ gone w w' s
  | Fault f => risk f
  end.
Proof.
  intros Hwf Hl. unfold session_teardown. unfold bind at 1. unfold deref.
  destruct Hl as [x Hx]. rewrite Hx.
  rewrite bool_decide_eq_false_2 by (by apply (wf_heap _ Hwf) in Hx as [[] _]).
  assert (live s w) as Hl by by eexists.
  set (m := if _ || _ then _ else _).
  assert (quiet w m) as Hm.
  { subst m. destruct (_ || _)%bool; [by apply quiet_broadcast_unavailable|by apply stable_ret]. }
  specialize (Hm w (inside_refl w Hwf)). unfold bind at 1.
  destruct (m w) as [[[] w1]|f]; [|done]. destruct Hm as [Hin _].
  assert (live s w1) as Hl1 by by apply (frame_live _ _ _ (proj2 Hin)).
  destruct (free_session_ok w1 s (proj1 Hin) Hl1) as (w2 & Hfree & Hwf2 & Hg).
  unfold free_session in Hfree. rewrite Hfree. split; [done|]. by eapply gone_inside.
Qed.
End Removal.
