(* ===== verification/Auth.v ===== *)
(** auth.c, register.c and disco.c: SASL PLAIN, in-band registration and
    service discovery. *)

From S2P Require Import Prelude CLib Util Dom World SessionIo User Roster.
Open Scope Z_scope.

(** ** The SASL PLAIN payload *)

(** [while (i < decoded_len && decoded[i] != 0) i++;] on what follows [i]. *)
Fixpoint skip_to_nul (bs : list Z) : list Z :=
  match bs with
  | b :: bs' => if b =? 0 then bs else skip_to_nul bs'
  | [] => []
  end.

(** The bytes after the next NUL; [None] when [i] reaches [decoded_len]. *)
Definition after_nul (bs : list Z) : option (list Z) :=
  match skip_to_nul bs with
  | [] => None
  | _ :: [] => None
  | _ :: rest => Some rest
  end.

(** [authcid] and [passwd] of a payload of at least three bytes; its buffer
    has a NUL after the last byte. *)
Definition parse_plain (decoded : list Z) : option (string * string) :=
  match after_nul decoded with
  | None => None
  | Some at_authcid =>
      match after_nul at_authcid with
      | None => None
      | Some at_passwd => Some (c_str at_authcid, c_str at_passwd)
      end
  end.

Definition sasl_failure (condition : string) : string :=
  "<failure xmlns='urn:ietf:params:xml:ns:xmpp-sasl'>" ++ "<" ++ condition ++ "/>" ++ "</failure>".

Definition sasl_success : string := "<success xmlns='urn:ietf:params:xml:ns:xmpp-sasl'/>".

Section Auth.
Context {LX : LibXml} {PX : Posix} {RC : Recovery}.

Definition auth_handle_sasl (s : sid) (stanza : xnode) : M unit :=
  if negb (match xmlGetProp stanza "mechanism" with
           | Some m => m =s "PLAIN"
           | None => false
           end)
  then session_write_str s (sasl_failure "invalid-mechanism")
  else
    let content := match xmlNodeGetContent stanza with Some c => c | None => "" end in
    if str_empty content then session_write_str s (sasl_failure "not-authorized")
    else
      match base64_decode (str_bytes content) with
      | None => session_write_str s (sasl_failure "not-authorized")
      | Some decoded =>
          if (List.length decoded <? 3)%nat
          then session_write_str s (sasl_failure "not-authorized")
          else
            match parse_plain decoded with
            | None => session_write_str s (sasl_failure "not-authorized")
            | Some (authcid, passwd) =>
                let! ok := user_check_password authcid passwd in
                if negb ok then session_write_str s (sasl_failure "not-authorized")
                else
                  let! cfg := g_config in
                  upd s (fun x =>
                    set_state STATE_AUTHENTICATED (set_authenticated true
                      (set_jid_domain (snprintf 256 (domain cfg))
                        (set_jid_local (snprintf 256 authcid) x)))) ;;
                  session_write_str s sasl_success ;;
                  upd s (set_parser_reset_pending true)
            end
      end.

(** ** register.c *)

Definition send_result_iq (s : sid) (id : string) (include_to : bool) : M unit :=
  let! x := deref s in
  let! cfg := g_config in
  let result := xmlNewProp (xmlNewNode "iq") "type" "result" in
  let result := if negb (str_empty id) then xmlNewProp result "id" id else result in
  let result := xmlNewProp result "from" (domain cfg) in
  let result := if include_to then xmlNewProp result "to" (full_jid_of x) else result in
  stanza_send s result.

Definition registration_form (x : session) (cfg : config_t) (id : string) : xnode :=
  let result := xmlNewProp (xmlNewNode "iq") "type" "result" in
  let result := if negb (str_empty id) then xmlNewProp result "id" id else result in
  let result := xmlNewProp result "from" (domain cfg) in
  let result := if s_authenticated x then xmlNewProp result "to" (full_jid_of x)
                else result in
  let query := xmlNewChild result None "query" None in
  let '(query, ns) := xml_own_ns query "jabber:iq:register" in
  let query := xmlAddChild query
    (xmlNewChild query ns "instructions" (Some "Choose a username and password.")) in
  let query := xmlAddChild query (xmlNewChild query ns "username" None) in
  let query := xmlAddChild query (xmlNewChild query ns "password" None) in
  xmlAddChild result query.

Definition query_children (stanza : xnode) : list xnode :=
  match first_element (xn_children stanza) with
  | Some query => xn_children query
  | None => []
  end.

Definition has_remove (cs : list xnode) : bool :=
  existsb (fun n => is_element n && (xn_name n =s "remove")) cs.

(** The last element of each name wins. *)
Fixpoint credentials (cs : list xnode) (uname pw : option string)
    : option string * option string :=
  match cs with
  | [] => (uname, pw)
  | n :: cs' =>
      if negb (is_element n) then credentials cs' uname pw
      else if xn_name n =s "username" then credentials cs' (xmlNodeGetContent n) pw
      else if xn_name n =s "password" then credentials cs' uname (xmlNodeGetContent n)
      else credentials cs' uname pw
  end.

Definition nonempty (o : option string) : option string :=
  match o with
  | Some v => if str_empty v then None else Some v
  | None => None
  end.

Definition register_remove (s : sid) (stanza : xnode) (id : string) : M unit :=
  let! x := deref s in
  if negb (s_authenticated x) then stanza_send_error s stanza "cancel" "not-allowed"
  else
    send_result_iq s id true ;;
    user_delete (snprintf 256 (s_jid_local x)) ;;
    upd s (set_teardown_pending true).

Definition register_set (s : sid) (stanza : xnode) (id uname pw : string) : M unit :=
  let! x := deref s in
  if negb (s_authenticated x) then
    let! rc := user_create uname pw in
    if rc =? 0 then send_result_iq s id false
    else if rc =? -1 then stanza_send_error s stanza "cancel" "conflict"
    else if rc =? -2 then stanza_send_error s stanza "modify" "not-acceptable"
    else stanza_send_error s stanza "wait" "internal-server-error"
  else if negb (uname =s s_jid_local x) then stanza_send_error s stanza "cancel" "not-allowed"
  else
    let! rc := user_change_password uname pw in
    if rc =? 0 then send_result_iq s id true
    else stanza_send_error s stanza "wait" "internal-server-error".

Definition register_handle_iq (s : sid) (stanza : xnode) : M unit :=
  let type := prop_or stanza "type" "" in
  let id := prop_or stanza "id" "" in
  if type =s "get" then
    let! x := deref s in
    let! cfg := g_config in
    stanza_send s (registration_form x cfg id)
  else if type =s "set" then
    let cs := query_children stanza in
    if has_remove cs then register_remove s stanza id
    else
      let '(uname, pw) := credentials cs None None in
      match nonempty uname, nonempty pw with
      | Some u, Some p => register_set s stanza id u p
      | _, _ => stanza_send_error s stanza "modify" "bad-request"
      end
  else stanza_send_error s stanza "cancel" "bad-request".

(** ** disco.c *)

Definition disco_features : list string :=
  ["http://jabber.org/protocol/disco#info"; "http://jabber.org/protocol/disco#items";
   "jabber:iq:roster"; "jabber:iq:register"; "urn:xmpp:delay"].

Definition disco_result (x : session) (cfg : config_t) (stanza : xnode) : xnode :=
  let result := xmlNewProp (xmlNewNode "iq") "type" "result" in
  let result := xmlNewProp result "from" (domain cfg) in
  let result := xmlNewProp result "to" (full_jid_of x) in
  xmlNewProp_opt result "id" (xmlGetProp stanza "id").

Definition disco_handle_info (s : sid) (stanza : xnode) : M unit :=
  let! x := deref s in
  let! cfg := g_config in
  let result := disco_result x cfg stanza in
  let query := xmlNewChild result None "query" None in
  let '(query, ns) := xml_own_ns query "http://jabber.org/protocol/disco#info" in
  let identity := xmlNewChild query ns "identity" None in
  let identity := xmlNewProp identity "category" "server" in
  let identity := xmlNewProp identity "type" "im" in
  let identity := xmlNewProp identity "name" "xmppd" in
  let query := xmlAddChild query identity in
  let query := fold_left (fun q f =>
    xmlAddChild q (xmlNewProp (xmlNewChild q ns "feature" None) "var" f))
    disco_features query in
  stanza_send s (xmlAddChild result query).

Definition disco_handle_items (s : sid) (stanza : xnode) : M unit :=
  let! x := deref s in
  let! cfg := g_config in
  let result := disco_result x cfg stanza in
  let query := xmlNewChild result None "query" None in
  let '(query, _) := xml_own_ns query "http://jabber.org/protocol/disco#items" in
  stanza_send s (xmlAddChild result query).
End Auth.
