(* ===== verification/Stanza.v ===== *)
(** stanza.c: routing of stanzas, before and after authentication. *)

From S2P Require Import Prelude Util Dom World SessionIo Roster Message Presence Session Auth.
Open Scope Z_scope.

Definition is_server_jid (to : string) (cfg : config_t) : bool :=
  if str_empty to then true else to =s domain cfg.

(** [state == STATE_SESSION_ACTIVE || state == STATE_BOUND] *)
Definition state_active (st : session_state) : bool :=
  bool_decide (st = STATE_SESSION_ACTIVE) || bool_decide (st = STATE_BOUND).

(** The handlers of [handle_iq], by the namespace of the child. *)
Inductive iq_handler :=
  | IqBind | IqSession | IqRoster | IqDiscoInfo | IqDiscoItems | IqRegister | IqUnknown.

#[export] Instance iq_handler_eq_dec : EqDecision iq_handler.
Proof. solve_decision. Defined.

Definition iq_handler_of (ns : string) : iq_handler :=
  if ns =s "urn:ietf:params:xml:ns:xmpp-bind" then IqBind
  else if ns =s "urn:ietf:params:xml:ns:xmpp-session" then IqSession
  else if ns =s "jabber:iq:roster" then IqRoster
  else if ns =s "http://jabber.org/protocol/disco#info" then IqDiscoInfo
  else if ns =s "http://jabber.org/protocol/disco#items" then IqDiscoItems
  else if ns =s "jabber:iq:register" then IqRegister
  else IqUnknown.

Section Stanza.
Context {LX : LibXml} {PX : Posix} {RC : Recovery}.

(** Hands a stanza to the session of the user it is addressed to, its sender
    stamped on it; [otherwise] when that user is not connected. *)
Definition route_to_user (s : sid) (stanza : xnode) (to : string) (otherwise : M unit)
    : M unit :=
  let! b := parse_ignoring_rc to in
  let! target := session_find_by_jid (bare_of b) in
  match target with
  | Some t =>
      let! x := deref s in
      stanza_send t (xmlSetProp stanza "from" (full_jid_of x))
  | None => otherwise
  end.

Definition require_active (s : sid) (stanza : xnode) (k : M unit) : M unit :=
  let! x := deref s in
  if negb (state_active (s_state x)) then stanza_send_error s stanza "cancel" "not-allowed"
  else k.

Definition handle_iq (s : sid) (stanza : xnode) : M unit :=
  let type := prop_or stanza "type" "" in
  let to := prop_or stanza "to" "" in
  let! cfg := g_config in
  if (type =s "result") || (type =s "error") then
    if negb (str_empty to) && negb (is_server_jid to cfg)
    then route_to_user s stanza to (ret tt)
    else ret tt
  else
    match iq_handler_of (child_ns stanza) with
    | IqBind => session_handle_bind s stanza
    | IqSession => session_handle_session_iq s stanza
    | IqRoster => require_active s stanza (roster_handle_iq s stanza)
    | IqDiscoInfo => require_active s stanza (disco_handle_info s stanza)
    | IqDiscoItems => require_active s stanza (disco_handle_items s stanza)
    | IqRegister => register_handle_iq s stanza
    | IqUnknown =>
        let! x := deref s in
        if negb (str_empty to) && negb (is_server_jid to cfg) && state_active (s_state x)
        then route_to_user s stanza to
               (stanza_send_error s stanza "cancel" "service-unavailable")
        else stanza_send_error s stanza "cancel" "service-unavailable"
    end.

Definition stanza_route (s : sid) (stanza : xnode) : M unit :=
  let name := xn_name stanza in
  let ns := ns_of stanza in
  let! x := deref s in
  if bool_decide (s_state x = STATE_STREAM_OPENED) && negb (s_authenticated x) then
    if (name =s "auth") && (ns =s "urn:ietf:params:xml:ns:xmpp-sasl")
    then auth_handle_sasl s stanza
    else if name =s "iq" then
      if child_ns stanza =s "jabber:iq:register" then register_handle_iq s stanza
      else stanza_send_error s stanza "cancel" "not-allowed"
    else stream_send_error s "not-authorized"
  else if name =s "iq" then handle_iq s stanza
  else if name =s "message" then
    if negb (state_active (s_state x)) then stream_send_error s "not-authorized"
    else handle_message s stanza
  else if name =s "presence" then
    if negb (state_active (s_state x)) then stream_send_error s "not-authorized"
    else handle_presence s stanza
  else stream_send_error s "unsupported-stanza-type".
End Stanza.
