(* ===== verification/Xml.v ===== *)
(** xml.c: the SAX callbacks that build a stanza and dispatch it, and the
    reading side of session.c that feeds them. *)

From S2P Require Import Prelude Dom World SessionIo Session Stanza.
Open Scope Z_scope.

(** [XML_ERR_ERROR] of [xmlErrorLevel]. *)
Definition XML_ERR_ERROR : Z := 2.

Definition sax_get_attribute (attributes : list sax_attr) (name : string) : option string :=
  match List.find (fun a => sa_local a =s name) attributes with
  | Some a => Some (sa_value a)
  | None => None
  end.

Definition opt_eqb (a b : option string) : bool :=
  match a, b with
  | None, None => true
  | Some x, Some y => x =s y
  | _, _ => false
  end.

(** The first declaration of a node for a namespace name. *)
Definition find_ns (defs : list xns) (href : string) : option xns :=
  List.find (fun n => ns_href n =s href) defs.

Section Sax.
Context {LX : LibXml} {PX : Posix} {RC : Recovery}.

(** One namespace declaration of the element; it is the element's own when
    name and prefix agree. *)
Definition attach_ns (prefix URI : option string) (node : xnode)
    (decl : option string * string) : xnode :=
  let '(ns_prefix, ns_uri) := decl in
  let '(node, ns) := xmlNewNs node ns_uri ns_prefix in
  match URI with
  | Some u => if (ns_uri =s u) && opt_eqb prefix ns_prefix then xmlSetNs node ns else node
  | None => node
  end.

Definition ensure_ns (prefix URI : option string) (node : xnode) : xnode :=
  match xn_ns node, URI with
  | None, Some u =>
      match find_ns (xn_nsDef node) u with
      | Some ns => xmlSetNs node (Some ns)
      | None => let '(node, ns) := xmlNewNs node u prefix in xmlSetNs node ns
      end
  | _, _ => node
  end.

Definition copy_attr (node : xnode) (a : sax_attr) : xnode :=
  match sa_uri a with
  | Some u =>
      if str_empty u then xmlNewProp node (sa_local a) (sa_value a)
      else
        match find_ns (xn_nsDef node) u with
        | Some ns => xmlNewNsProp node (Some ns) (sa_local a) (sa_value a)
        | None =>
            let '(node, ns) := xmlNewNs node u (sa_prefix a) in
            xmlNewNsProp node ns (sa_local a) (sa_value a)
        end
  | None => xmlNewProp node (sa_local a) (sa_value a)
  end.

Definition build_node (localname : string) (prefix URI : option string)
    (namespaces : list (option string * string)) (attributes : list sax_attr) : xnode :=
  let node := xmlNewNode localname in
  let node := fold_left (attach_ns prefix URI) namespaces node in
  let node := ensure_ns prefix URI node in
  fold_left copy_attr attributes node.

(** A new element: the root of a stanza at depth 2, otherwise the child of
    the current node; the current node from now on. *)
Definition on_start_element_ns (s : sid) (localname : string) (prefix URI : option string)
    (namespaces : list (option string * string)) (attributes : list sax_attr) : M unit :=
  upd s (fun x => set_stanza_depth (s_stanza_depth x + 1) x) ;;
  let! x := deref s in
  if s_stanza_depth x =? 1 then
    stream_handle_open s
      (match sax_get_attribute attributes "to" with Some t => t | None => "" end)
  else
    let node := build_node localname prefix URI namespaces attributes in
    if s_stanza_depth x =? 2 then upd s (set_open [node])
    else upd s (fun x => set_open (node :: s_open x) x).

(** Closes the innermost open element: it is complete and its parent is the
    current node again.  The root of the stanza stays. *)
Definition close_current (open : list xnode) : list xnode :=
  match open with
  | c :: p :: rest => xmlAddChild p c :: rest
  | _ => open
  end.

(** The stanza whose open elements are these. *)
Fixpoint current_stanza_from (c : xnode) (rest : list xnode) : xnode :=
  match rest with
  | [] => c
  | p :: rest' => current_stanza_from (xmlAddChild p c) rest'
  end.

Definition current_stanza (open : list xnode) : option xnode :=
  match open with
  | [] => None
  | c :: rest => Some (current_stanza_from c rest)
  end.

Definition on_end_element_ns (s : sid) : M unit :=
  upd s (fun x => set_stanza_depth (s_stanza_depth x - 1) x) ;;
  let! x := deref s in
  if s_stanza_depth x =? 0 then stream_handle_close s
  else if s_stanza_depth x =? 1 then
    match current_stanza (s_open x) with
    | Some stanza =>
        stanza_route s stanza ;;
        upd s (set_open [])
    | None => ret tt
    end
  else upd s (fun x => set_open (close_current (s_open x)) x).

Definition add_text (ch : string) (open : list xnode) : list xnode :=
  match open with
  | c :: rest => xmlNodeAddContentLen c ch :: rest
  | [] => []
  end.

Definition on_characters (s : sid) (ch : string) : M unit :=
  let! x := deref s in
  if 2 <=? s_stanza_depth x then upd s (fun x => set_open (add_text ch (s_open x)) x)
  else ret tt.

Definition on_structured_error (s : sid) (level : Z) : M unit :=
  if level <? XML_ERR_ERROR then ret tt
  else teardown_or_defer s.

(** The handler table [xml_init_sax_handler] installs. *)
Definition sax_handler (s : sid) (ev : sax_event) : M unit :=
  match ev with
  | SaxStart localname prefix URI namespaces attributes =>
      on_start_element_ns s localname prefix URI namespaces attributes
  | SaxEnd _ _ _ => on_end_element_ns s
  | SaxChars ch => on_characters s ch
  | SaxError level => on_structured_error s level
  end.

(** [xmlParseChunk (s->xml_ctx, data, len, 0)] when there is a parser: its
    callbacks run on the session, in order. *)
Definition xml_feed (s : sid) (data : string) : M unit :=
  let! x := deref s in
  match s_xml_ctx x with
  | None => ret tt
  | Some ctx =>
      if str_empty data then ret tt
      else
        let '(ctx', events) := xmlParseChunk ctx data in
        upd s (set_xml_ctx (Some ctx')) ;;
        for_each events (sax_handler s)
  end.

(** ** session.c: readable and writable sockets *)

Definition has_parser (x : session) : bool :=
  match s_xml_ctx x with Some _ => true | None => false end.

Definition session_on_readable (s : sid) : M unit :=
  let! x := deref s in
  let! r := do_net (fun n =>
    net_read n (s_fd x) (READ_BUF_SIZE - String.length (s_read_buf x))%nat) in
  match r with
  | RErr | REof | RData "" => session_teardown s
  | RData data =>
      upd s (fun x => set_read_buf (s_read_buf x ++ data) x) ;;
      let! x := deref s in
      if (READ_BUF_SIZE <=? String.length (s_read_buf x))%nat then session_teardown s
      else
        (when has_parser x then
           upd s (set_in_xml_parse true) ;;
           xml_feed s (s_read_buf x) ;;
           upd s (fun x => set_read_buf "" (set_in_xml_parse false x))) ;;
        let! x := deref s in
        (when s_parser_reset_pending x then
           upd s (set_parser_reset_pending false) ;;
           xml_parser_reset s) ;;
        let! x := deref s in
        when s_teardown_pending x then
          session_flush s ;;
          session_teardown s
  end.

Definition session_on_writable (s : sid) : M unit :=
  let! rc := session_flush s in
  when rc <? 0 then session_teardown s.
End Sax.
