(* ===== verification/Safety.v ===== *)
(** Memory safety of stanza processing: while a session is being parsed, no
    stanza it sends frees it, and nothing freed is used. *)

From stdpp Require Import gmap.
From S2P Require Import Prelude Util Dom World SessionIo Inv Roster User Message Presence.
From S2P Require Import Session Teardown Auth Stanza Xml.
Open Scope Z_scope.

Section Handlers.
Context {LX : LibXml} {PX : Posix} {RC : Recovery} {RA : Reallocates PX}.

Lemma quiet_auth w0 s n : live s w0 -> quiet w0 (auth_handle_sasl s n).
Proof.
  intros. unfold auth_handle_sasl, session_write_str. quiet_go.
Qed.

Lemma quiet_send_result_iq w0 s i b : live s w0 -> quiet w0 (send_result_iq s i b).
Proof. intros. unfold send_result_iq. quiet_go. Qed.
End Handlers.

#[export] Hint Resolve quiet_auth quiet_send_result_iq : quiet.

Section Handlers2.
Context {LX : LibXml} {PX : Posix} {RC : Recovery} {RA : Reallocates PX}.

Lemma quiet_register w0 s n : live s w0 -> quiet w0 (register_handle_iq s n).
Proof.
  intros. unfold register_handle_iq, register_remove, register_set. quiet_go.
Qed.

Lemma quiet_disco_info w0 s n : live s w0 -> quiet w0 (disco_handle_info s n).
Proof. intros. unfold disco_handle_info. quiet_go. Qed.

Lemma quiet_disco_items w0 s n : live s w0 -> quiet w0 (disco_handle_items s n).
Proof. intros. unfold disco_handle_items. quiet_go. Qed.

Lemma quiet_session_iq w0 s n : live s w0 -> quiet w0 (session_handle_session_iq s n).
Proof. intros. unfold session_handle_session_iq. quiet_go. Qed.

Lemma quiet_route_to_user w0 s n to m :
  live s w0 -> quiet w0 m -> quiet w0 (route_to_user s n to m).
Proof. intros. unfold route_to_user. quiet_go. Qed.

(** The session is live and its parser is on the call stack. *)
Definition parsing (s : sid) (w : world) : Prop :=
  exists x, w_heap w !! s = Some x /\ s_in_xml_parse x = true.

Lemma parsing_live s w : parsing s w -> live s w.
Proof. intros (x & Hx & _). by exists x. Qed.

Lemma quiet_teardown_or_defer w0 s : parsing s w0 -> quiet w0 (teardown_or_defer s).
Proof.
  intros Hp. pose proof (parsing_live _ _ Hp) as Hl. unfold teardown_or_defer.
  eapply stable_bind; [quiet_prim|]. intros x [_ (x0 & Hx0 & Hk)].
  destruct Hp as (x1 & Hx1 & Hp). simplify_eq. rewrite (kp_parse _ _ Hk), Hp. quiet_go.
Qed.
End Handlers2.

#[export] Hint Resolve quiet_register quiet_disco_info quiet_disco_items quiet_session_iq
  quiet_route_to_user parsing_live quiet_teardown_or_defer : quiet.

Section Handlers3.
Context {LX : LibXml} {PX : Posix} {RC : Recovery} {RA : Reallocates PX}.

Lemma quiet_stream_send_error w0 s c : parsing s w0 -> quiet w0 (stream_send_error s c).
Proof. intros Hp. pose proof (parsing_live _ _ Hp). unfold stream_send_error, session_write_str. quiet_go. Qed.

Lemma quiet_stream_handle_close w0 s : parsing s w0 -> quiet w0 (stream_handle_close s).
Proof. intros Hp. pose proof (parsing_live _ _ Hp). unfold stream_handle_close, session_write_str. quiet_go. Qed.
End Handlers3.

#[export] Hint Resolve quiet_stream_send_error quiet_stream_handle_close : quiet.

Section Held.
Context {LX : LibXml} {PX : Posix} {RC : Recovery} {RA : Reallocates PX}.

Lemma quiet_stream_handle_open w0 s to : parsing s w0 -> quiet w0 (stream_handle_open s to).
Proof.
  intros Hp. pose proof (parsing_live _ _ Hp).
  unfold stream_handle_open, session_write_str. quiet_go.
Qed.

Hint Resolve quiet_stream_handle_open : quiet.

(** ** What a session being parsed can count on *)

(** [w], reached from [w0]: the tables are in order, sessions may have gone,
    none has come, and those that are left have their descriptor and are
    being parsed if they were. *)
Record since (w0 w : world) : Prop := {
  sn_wf : wf w;
  sn_nfds : (w_nfds w <= w_nfds w0)%nat;
  sn_config : w_config w = w_config w0;
  sn_heap t y : w_heap w !! t = Some y -> exists x, w_heap w0 !! t = Some x /\
    s_fd y = s_fd x /\ s_in_xml_parse y = s_in_xml_parse x
}.

(** Besides, [s] is still there and still being parsed. *)
Definition during (w0 : world) (s : sid) (w : world) : Prop := since w0 w /\ parsing s w.

Definition held {A} (w0 : world) (s : sid) (m : M A) : Prop :=
  triple risk (during w0 s) m (fun _ => during w0 s).

Lemma since_inside w0 w w' : since w0 w -> inside w w' -> since w0 w'.
Proof.
  intros [S1 S2 S3 S4] [Hwf Hf]. constructor; [done|..].
  - by rewrite (fr_nfds _ _ Hf).
  - by rewrite (fr_config _ _ Hf).
  - intros t z Hz. destruct (w_heap w !! t) as [y|] eqn:E;
      [|apply (fr_none _ _ Hf) in E; congruence].
    destruct (fr_kept _ _ Hf _ _ E) as (z' & Hz' & Hk). destruct Hk.
    destruct (S4 _ _ E) as (x & ? & ? & ?). exists x. split_and!; congruence.
Qed.

Lemma since_gone w0 w w' e : since w0 w -> wf w' -> gone w w' e -> since w0 w'.
Proof.
  intros [S1 S2 S3 S4] Hwf Hg. constructor; [done|..].
  - pose proof (gn_nfds _ _ _ Hg). lia.
  - by rewrite (gn_config _ _ _ Hg).
  - intros t z Hz. destruct (w_heap w !! t) as [y|] eqn:E;
      [|apply (gn_none _ _ _ Hg) in E; congruence].
    assert (t <> e) by (intros ->; rewrite (gn_dead _ _ _ Hg) in Hz; done).
    destruct (gn_kept _ _ _ Hg _ _ H E) as (z' & Hz' & ? & ?).
    destruct (S4 _ _ E) as (x & ? & ? & ?). exists x. split_and!; congruence.
Qed.

Lemma since_refl w : wf w -> since w w.
Proof. constructor; eauto. Qed.

Lemma since_trans w0 w1 w2 : since w0 w1 -> since w1 w2 -> since w0 w2.
Proof.
  intros [S1 S2 S3 S4] [T1 T2 T3 T4]. constructor; [done|lia|congruence|].
  intros t z (y & (x & ? & ? & ?)%S4 & ? & ?)%T4. exists x. split_and!; congruence.
Qed.

Lemma during_inside w0 s w w' : during w0 s w -> inside w w' -> during w0 s w'.
Proof.
  intros [Hs (x & Hx & Hp)] Hin. split; [by eapply since_inside|].
  destruct (fr_kept _ _ (proj2 Hin) _ _ Hx) as (y & Hy & Hk). exists y.
  by rewrite (kp_parse _ _ Hk).
Qed.

Lemma during_gone w0 s w w' e :
  during w0 s w -> wf w' -> gone w w' e -> e <> s -> during w0 s w'.
Proof.
  intros [Hs (x & Hx & Hp)] Hwf Hg Hne. split; [by eapply since_gone|].
  destruct (gn_kept _ _ _ Hg s x) as (y & Hy & _ & Hk); [congruence|done|].
  exists y. by rewrite Hk.
Qed.

Lemma du_wf w0 s w : during w0 s w -> wf w.
Proof. by intros [[] _]. Qed.

Lemma du_parsing w0 s w : during w0 s w -> parsing s w.
Proof. by intros [_ ?]. Qed.

(** From a quiet computation, whatever it returns. *)
Lemma held_quiet {A} w0 s (m : M A) :
  (forall w, parsing s w -> quiet w m) -> held w0 s m.
Proof.
  intros H w Hd. specialize (H w (du_parsing _ _ _ Hd) w (inside_refl _ (du_wf _ _ _ Hd))).
  destruct (m w) as [[a w']|f]; [|done]. destruct H. by eapply during_inside.
Qed.

Lemma held_bind {A B} w0 s (m : M A) (k : A -> M B) :
  held w0 s m -> (forall a, held w0 s (k a)) -> held w0 s (bind m k).
Proof. intros Hm Hk. eapply triple_bind; [exact Hm|done]. Qed.

Lemma held_ret {A} w0 s (a : A) : held w0 s (ret a).
Proof. by apply triple_ret. Qed.

(** Taking the session [e] down while [s] is being parsed. *)
Lemma held_evict w0 s e c :
  e <> s -> triple risk (fun w => during w0 s w /\ live e w) (stream_send_error e c)
              (fun _ => during w0 s).
Proof.
  intros Hne w0' [Hd Hl]. unfold stream_send_error, session_write_str.
  eapply (triple_bind _ (inside w0') _ _ (fun _ => inside w0')).
  { eapply triple_conseq; [by apply quiet_session_write|done|]. by intros ? ? []. }
  { intros _. eapply (triple_bind _ _ _ _ (fun _ => inside w0')).
    { eapply triple_conseq; [by apply quiet_session_flush|done|]. by intros ? ? []. }
    intros _ w Hin. unfold teardown_or_defer, bind, deref.
    pose proof (proj1 (frame_live _ _ _ (proj2 Hin)) Hl) as [x Hx]. rewrite Hx.
    assert (live e w) as Hlw by by exists x.
    destruct (s_in_xml_parse x).
    - assert (quiet w (upd e (set_teardown_pending true))) as Hq by quiet_prim.
      specialize (Hq w (inside_refl _ (proj1 Hin))). destruct (upd _ _ w) as [[? w1]|]; [|done].
      destruct Hq. eauto using during_inside.
    - pose proof (teardown_ok w e (proj1 Hin) Hlw) as Ht.
      destruct (session_teardown e w) as [[? w1]|]; [|done]. destruct Ht.
      eapply (during_gone _ _ w); [by eapply during_inside|done..]. }
  apply inside_refl. by eapply du_wf.
Qed.

Lemma held_session_handle_bind w0 s n : held w0 s (session_handle_bind s n).
Proof.
  unfold session_handle_bind.
  apply held_bind; [apply held_quiet; intros; quiet_go|]. intros x.
  destruct (_ && _)%bool; [apply held_quiet; intros; quiet_go|].
  apply held_bind.
  { apply held_quiet. intros. unfold random_resource. quiet_go. }
  intros res. eapply triple_bind with (R := fun o w => during w0 s w /\ slot_live w o).
  - intros w Hd.
    pose proof (stable_session_find w (bare_jid_of x) w (inside_refl _ (du_wf _ _ _ Hd))) as H.
    destruct (session_find_by_jid _ w) as [[o w']|]; [|done]. destruct H as [Hin Ho].
    split; [by eapply during_inside|]. intros t Ht. apply (frame_live _ _ _ (proj2 Hin)). auto.
  - intros o. eapply triple_bind with (R := fun _ => during w0 s).
    + destruct o as [e|]; [|by intros w []]. destruct (Nat.eqb_spec e s); cbn [negb].
      { by intros w []. }
      eapply triple_conseq; [by apply (held_evict w0)| |done]. intros w [? Ho]. split; [done|by apply Ho].
    + intros []. apply held_quiet. intros. quiet_go.
Qed.

Lemma held_handle_iq w0 s n : held w0 s (handle_iq s n).
Proof.
  unfold handle_iq. cbv zeta. apply held_bind; [apply held_quiet; intros; quiet_go|]. intros cfg.
  destruct (_ || _)%bool; [apply held_quiet; intros; quiet_go|].
  destruct (iq_handler_of _); [apply held_session_handle_bind|..];
    apply held_quiet; unfold require_active; intros; quiet_go.
Qed.

(** Whatever a stanza asks for. *)
Lemma held_stanza_route w0 s n : held w0 s (stanza_route s n).
Proof.
  unfold stanza_route. cbv zeta. apply held_bind; [apply held_quiet; intros; quiet_go|].
  intros x. destruct (_ && _)%bool; [apply held_quiet; intros; quiet_go|].
  destruct (_ =s _); [apply held_handle_iq|].
  apply held_quiet. intros. quiet_go.
Qed.

Lemma held_sax_handler w0 s ev : held w0 s (sax_handler s ev).
Proof.
  destruct ev; simpl.
  - apply held_quiet. intros. unfold on_start_element_ns. quiet_go.
  - unfold on_end_element_ns. apply held_bind; [apply held_quiet; intros; quiet_go|]. intros _.
    apply held_bind; [apply held_quiet; intros; quiet_go|]. intros x.
    destruct (_ =? 0); [apply held_quiet; intros; quiet_go|].
    destruct (_ =? 1); [|apply held_quiet; intros; quiet_go].
    destruct (current_stanza _); [|by apply held_ret].
    apply held_bind; [apply held_stanza_route|]. intros _. apply held_quiet. intros. quiet_go.
  - apply held_quiet. intros. unfold on_characters. quiet_go.
  - apply held_quiet. intros. unfold on_structured_error. quiet_go.
Qed.

Lemma held_xml_feed w0 s data : held w0 s (xml_feed s data).
Proof.
  unfold xml_feed. apply held_bind; [apply held_quiet; intros; quiet_go|]. intros x.
  destruct (s_xml_ctx x) as [ctx|]; [|by apply held_ret].
  destruct (str_empty data); [by apply held_ret|].
  destruct (xmlParseChunk ctx data) as [ctx' events].
  apply held_bind; [apply held_quiet; intros; quiet_go|]. intros _.
  apply triple_for_each. intros ev. apply held_sax_handler.
Qed.
End Held.
