(* ===== verification/Server.v ===== *)
(** server.c: the listening socket, accepting clients, the poll loop and
    shutdown. *)

From stdpp Require Import gmap.
From S2P Require Import Prelude Dom World SessionIo Session Xml.
Open Scope Z_scope.

Section Server.
Context {LX : LibXml} {PX : Posix} {RC : Recovery}.

Definition server_init : M Z :=
  let! cfg := g_config in
  let! fd := do_net (fun n => net_listen n (bind_address cfg) (port cfg mod 2 ^ 16)) in
  match fd with
  | None => ret (-1)
  | Some lfd =>
      modify (set_listen_fd lfd) ;;
      modify (set_pollfds (<[0%nat := mkPollfd lfd POLLIN 0]>
                             (replicate MAX_CLIENTS pollfd_zero))) ;;
      modify (set_sessions (replicate MAX_CLIENTS None)) ;;
      modify (set_nfds 1) ;;
      ret 0
  end.

(** The client's address and the non-blocking flag play no part. *)
Definition server_accept : M unit :=
  let! w := get in
  let! fd := do_net (fun n => net_accept n (w_listen_fd w)) in
  match fd with
  | None => ret tt
  | Some client_fd =>
      let! w := get in
      if (MAX_CLIENTS <=? w_nfds w)%nat
      then do_net (fun n => (net_close n client_fd, tt))
      else
        let! s := session_create client_fd in
        match s with
        | None => do_net (fun n => (net_close n client_fd, tt))
        | Some s =>
            let n := w_nfds w in
            upd s (set_poll_index n) ;;
            modify (fun w => set_pollfds (<[n := mkPollfd client_fd POLLIN 0]> (w_pollfds w)) w) ;;
            modify (fun w => set_sessions (<[n := Some s]> (w_sessions w)) w) ;;
            modify (fun w => set_nfds (w_nfds w + 1)%nat w)
        end
  end.

(** [!sessions[i] || sessions[i]->state == STATE_DISCONNECTED] *)
Definition slot_gone (i : nat) : M bool :=
  let! w := get in
  let! o := arr_get (w_sessions w) i in
  match o with
  | None => ret true
  | Some t => let! y := deref t in ret (bool_decide (s_state y = STATE_DISCONNECTED))
  end.

Definition has_event (revents ev : Z) : bool := negb (Z.land revents ev =? 0).

(** The body of the loop at index [i], where a session is; the next index.
    The events are read again after each handler, as the slot may hold
    another session by then. *)
Definition process_slot (i : nat) (s : sid) : M nat :=
  let! w := get in
  let! p := arr_get (w_pollfds w) i in
  if has_event (pfd_revents p) (Z.lor POLLERR POLLHUP) then
    session_teardown s ;; ret i
  else
    let! gone := (if has_event (pfd_revents p) POLLIN then
                    session_on_readable s ;; slot_gone i
                  else ret false) in
    if gone : bool then ret i
    else
      let! w := get in
      let! p := arr_get (w_pollfds w) i in
      let! gone := (if has_event (pfd_revents p) POLLOUT then
                      let! o := arr_get (w_sessions w) i in
                      match o with
                      | Some t => session_on_writable t ;; slot_gone i
                      | None => raise FNull
                      end
                    else ret false) in
      if gone : bool then ret i else ret (S i).

(** [for (i = 1; i < nfds; i++)]; false when the fuel runs out. *)
Fixpoint process_clients (fuel : nat) (i : nat) : M bool :=
  match fuel with
  | O => ret false
  | S fuel' =>
      let! w := get in
      if (w_nfds w <=? i)%nat then ret true
      else
        let! o := arr_get (w_sessions w) i in
        match o with
        | None => process_clients fuel' (S i)
        | Some s =>
            let! i' := process_slot i s in
            process_clients fuel' i'
        end
  end.

(** Between two rounds the loop index and [nfds] allow at most this many
    turns: each advances the index or loses a session. *)
Definition round_fuel : nat := 2 * MAX_CLIENTS.

Definition poll_args (w : world) : list (Z * Z) :=
  map (fun p => (pfd_fd p, pfd_events p)) (take (w_nfds w) (w_pollfds w)).

Definition store_revents (revents : list Z) (l : list pollfd) : list pollfd :=
  imap (fun i p => match revents !! i with
                   | Some r => mkPollfd (pfd_fd p) (pfd_events p) r
                   | None => p
                   end) l.

(** One turn of [server_run]: false when the loop is left. *)
Definition server_round : M bool :=
  let! w := get in
  let! r := do_net (fun n => net_poll n (poll_args w)) in
  match r with
  | PIntr => ret true
  | PErr => ret false
  | PReady revents =>
      modify (fun w => set_pollfds (store_revents revents (w_pollfds w)) w) ;;
      let! w := get in
      let! p := arr_get (w_pollfds w) 0 in
      (when has_event (pfd_revents p) POLLIN then server_accept) ;;
      process_clients round_fuel 1
  end.

(** [signal_handler], for SIGINT and SIGTERM. *)
Definition signal_handler : M unit := modify (set_shutdown_flag true).

Definition deliver_signal (sig : bool) : M unit := when sig then signal_handler.

(** [server_run], for one test of the shutdown flag per element: it says
    whether a signal arrives before that test.  The result is false when the
    loop is still running then. *)
Fixpoint server_run (signals : list bool) : M bool :=
  match signals with
  | [] => ret false
  | sig :: signals' =>
      deliver_signal sig ;;
      let! w := get in
      if w_shutdown_flag w then ret true
      else
        let! go := server_round in
        if go : bool then server_run signals' else ret true
  end.

(** ** Shutdown *)

Definition shutdown_text : string :=
  "<stream:error>" ++
  "<system-shutdown xmlns='urn:ietf:params:xml:ns:xmpp-streams'/>" ++
  "</stream:error>" ++
  "</stream:stream>".

Definition shutdown_slot (i : nat) : M unit :=
  let! w := get in
  let! o := arr_get (w_sessions w) i in
  match o with
  | None => ret tt
  | Some s =>
      session_write_str s shutdown_text ;;
      session_flush s ;;
      session_destroy s ;;
      modify (fun w => set_sessions (<[i := None]> (w_sessions w)) w)
  end.

Definition server_shutdown : M unit :=
  let! w := get in
  for_each (seq 1 (w_nfds w - 1)) shutdown_slot ;;
  modify (set_nfds 1) ;;
  let! w := get in
  when 0 <=? w_listen_fd w then
    do_net (fun n => (net_close n (w_listen_fd w), tt)) ;;
    modify (set_listen_fd (-1)).
End Server.
