(* ===== verification/Rounds.v ===== *)
(** The poll loop: reading and writing keep the invariant, one pass over the
    clients ends, and the states of a running server are all well formed. *)

From stdpp Require Import gmap.
From S2P Require Import Prelude Util Dom World SessionIo Inv Session Teardown Stanza Xml Safety.
From S2P Require Import Server.
Open Scope Z_scope.

Section Io.
Context {LX : LibXml} {PX : Posix} {RC : Recovery} {RA : Reallocates PX} {PL : PosixLaws PX}.

Definition calm (w0 : world) (s : sid) (w : world) : Prop := since w0 w /\ live s w.

(** The session is still there, or a slot was freed. *)
Definition settled (w0 : world) (s : sid) (w : world) : Prop :=
  since w0 w /\ (live s w \/ (w_nfds w < w_nfds w0)%nat).

Lemma calm_settled w0 s w : calm w0 s w -> settled w0 s w.
Proof. intros []. split; auto. Qed.

Lemma calm_refl w s : wf w -> live s w -> calm w s w.
Proof. split; [by apply since_refl|done]. Qed.

Lemma calm_inside w0 s w w' : calm w0 s w -> inside w w' -> calm w0 s w'.
Proof.
  intros [Hs Hl] Hin. split; [by eapply since_inside|].
  by apply (frame_live _ _ _ (proj2 Hin)).
Qed.

Lemma calm_quiet {A} w0 s (m : M A) :
  (forall w, live s w -> quiet w m) -> triple risk (calm w0 s) m (fun _ => calm w0 s).
Proof.
  intros H w Hc. destruct Hc as [Hs Hl].
  specialize (H w Hl w (inside_refl _ (sn_wf _ _ Hs))).
  destruct (m w) as [[a w']|f]; [|done]. destruct H. by eapply calm_inside.
Qed.

Lemma calm_teardown_lt w0 s :
  triple risk (calm w0 s) (session_teardown s)
    (fun _ w => since w0 w /\ (w_nfds w < w_nfds w0)%nat).
Proof.
  intros w [Hs Hl]. pose proof (teardown_ok w s (sn_wf _ _ Hs) Hl) as H.
  destruct (session_teardown s w) as [[? w']|]; [|done]. destruct H as [Hwf Hg].
  split; [by eapply since_gone|].
  pose proof (gn_nfds _ _ _ Hg). pose proof (sn_nfds _ _ Hs). lia.
Qed.

Lemma calm_teardown w0 s :
  triple risk (calm w0 s) (session_teardown s) (fun _ => settled w0 s).
Proof.
  eapply triple_conseq; [apply calm_teardown_lt|done|]. intros ? w []. split; auto.
Qed.

(** An update the invariant accepts, whatever it does to the parsing flag. *)
Lemma upd_wf w s x f :
  wf w -> w_heap w !! s = Some x -> sess_ok (f x) -> s_fd (f x) = s_fd x ->
  s_poll_index (f x) = s_poll_index x -> s_write_buf (f x) = s_write_buf x ->
  upd s f w = Ok (tt, set_heap (<[s := f x]> (w_heap w)) w) /\
  wf (set_heap (<[s := f x]> (w_heap w)) w).
Proof. intros Hwf Hx **. split; [unfold upd; by rewrite Hx|by eapply wf_upd]. Qed.

(** The time the parser of [s] is on the stack. *)
Lemma calm_parse w0 s x0 data :
  w_heap w0 !! s = Some x0 -> s_in_xml_parse x0 = false ->
  triple risk (calm w0 s)
    (upd s (set_in_xml_parse true) ;;
     xml_feed s data ;;
     upd s (fun x => set_read_buf "" (set_in_xml_parse false x)))
    (fun _ => calm w0 s).
Proof.
  intros Hx0 Hp0 w [[S1 S2 S3 S4] [x Hx]]. destruct (wf_heap _ S1 _ _ Hx) as [Hok _].
  destruct (upd_wf w s x (set_in_xml_parse true)) as [E1 Hwf1];
    [done|done|by destruct Hok; constructor|done..|].
  unfold bind at 1. rewrite E1. set (w1 := set_heap _ w) in *.
  assert (during w1 s w1) as Hd.
  { split; [by apply since_refl|]. eexists. split; [apply lookup_insert_eq|done]. }
  unfold bind at 1. pose proof (held_xml_feed w1 s data w1 Hd) as Hf.
  destruct (xml_feed s data w1) as [[? w2]|]; [|done]. destruct Hf as [[T1 T2 T3 T4] (y & Hy & Hyp)].
  destruct (wf_heap _ T1 _ _ Hy) as [Hoky _].
  destruct (upd_wf w2 s y (fun x => set_read_buf "" (set_in_xml_parse false x))) as [E2 Hwf2];
    [done|done|destruct Hoky; constructor; try done; simpl; lia|done..|].
  rewrite E2. split; [|eexists; apply lookup_insert_eq]. constructor; [done|..].
  - simpl. simpl in T2. lia.
  - simpl. by rewrite T3.
  - intros t z. cbn [w_heap set_heap]. destruct (decide (s = t)) as [<-|Hne].
    + rewrite lookup_insert_eq. intros [= <-]. exists x0. split; [done|].
      split; [|by rewrite Hp0]. destruct (T4 _ _ Hy) as (x1 & Hx1 & Hfd & _).
      unfold w1 in Hx1. cbn [w_heap set_heap] in Hx1. rewrite lookup_insert_eq in Hx1.
      destruct (S4 _ _ Hx) as (x0' & ? & ? & _). simplify_eq. simpl in *. congruence.
    + rewrite lookup_insert_ne by done. intros Hz.
      destruct (T4 _ _ Hz) as (x1 & Hx1 & ? & ?). unfold w1 in Hx1.
      cbn [w_heap set_heap] in Hx1. rewrite lookup_insert_ne in Hx1 by done.
      destruct (S4 _ _ Hx1) as (x2 & ? & ? & ?). exists x2. split_and!; congruence.
Qed.

Lemma quiet_xml_parser_reset w s : live s w -> quiet w (xml_parser_reset s).
Proof. intros. unfold xml_parser_reset, xml_parser_create. quiet_go. Qed.

(** What follows the read, once the data is in the buffer. *)
Lemma calm_after_read w0 s x0 :
  w_heap w0 !! s = Some x0 -> s_in_xml_parse x0 = false ->
  triple risk (calm w0 s)
    (let! x := deref s in
     if (READ_BUF_SIZE <=? String.length (s_read_buf x))%nat then session_teardown s
     else
       (when has_parser x then
          upd s (set_in_xml_parse true) ;;
          xml_feed s (s_read_buf x) ;;
          upd s (fun x => set_read_buf "" (set_in_xml_parse false x))) ;;
       let! x := deref s in
       (when s_parser_reset_pending x then
          upd s (set_parser_reset_pending false) ;;
          xml_parser_reset s) ;;
       let! x := deref s in
       when s_teardown_pending x then
         session_flush s ;;
         session_teardown s)
    (fun _ => settled w0 s).
Proof.
  intros Hx0 Hp0.
  eapply triple_bind; [apply calm_quiet; intros; quiet_go|]. intros x.
  destruct (_ <=? _)%nat; [apply calm_teardown|].
  eapply (triple_bind _ _ _ _ (fun _ => calm w0 s)).
  { destruct (has_parser x); [by eapply calm_parse|by apply triple_ret]. }
  intros _. eapply triple_bind; [apply calm_quiet; intros; quiet_go|]. intros x'.
  eapply (triple_bind _ _ _ _ (fun _ => calm w0 s)).
  { apply calm_quiet. intros w Hl. destruct (s_parser_reset_pending x'); [|quiet_go].
    eapply stable_bind; [quiet_prim|]. intros _ _. by apply quiet_xml_parser_reset. }
  intros _. eapply triple_bind; [apply calm_quiet; intros; quiet_go|]. intros x''.
  destruct (s_teardown_pending x''); [|apply triple_ret, calm_settled].
  eapply triple_bind; [apply calm_quiet; intros; quiet_go|]. intros ?. apply calm_teardown.
Qed.

Lemma settled_readable w s x :
  wf w -> w_heap w !! s = Some x -> s_in_xml_parse x = false ->
  match session_on_readable s w with
  | Ok (_, w') => settled w s w'
  | Fault f => risk f
  end.
Proof.
  intros Hwf Hx Hp. unfold session_on_readable, bind at 1, deref at 1. rewrite Hx.
  unfold bind at 1, do_net.
  destruct (net_read _ _ _) as [net r] eqn:Er.
  assert (inside w (set_net net w)) as Hin.
  { apply (inside_os_parts _ _ (w_fs w) net (w_os w)). by apply inside_refl. }
  assert (live s w) as Hl by by exists x.
  assert (calm w s (set_net net w)) as Hc by (eapply calm_inside; [by apply calm_refl|done]).
  destruct r as [data| |]; [|by apply calm_teardown..].
  destruct data as [|c data]; [by apply calm_teardown|].
  apply net_read_bound in Er. destruct (wf_heap _ Hwf _ _ Hx) as [Hok _].
  set (f := fun x => set_read_buf (s_read_buf x ++ String c data) x).
  destruct (upd_wf (set_net net w) s x f) as [E1 Hwf1]; [apply Hin|done| |done..|].
  { destruct Hok. constructor; try done. unfold f. cbn [s_read_buf set_read_buf].
    rewrite str_length_app. lia. }
  unfold bind at 1. rewrite E1. apply (calm_after_read w s x Hx Hp).
  split; [|eexists; apply lookup_insert_eq]. constructor; [done|done|done|].
  intros t z. cbn [w_heap set_heap set_net]. destruct (decide (s = t)) as [<-|].
  - rewrite lookup_insert_eq. intros [= <-]. eauto.
  - rewrite lookup_insert_ne by done. eauto.
Qed.

Lemma settled_writable w s :
  wf w -> live s w ->
  match session_on_writable s w with
  | Ok (_, w') => settled w s w'
  | Fault f => risk f
  end.
Proof.
  intros Hwf Hl. unfold session_on_writable.
  enough (triple risk (calm w s) (session_on_writable s) (fun _ => settled w s)) as H
    by by apply H, calm_refl.
  eapply triple_bind; [apply calm_quiet; intros; quiet_go|]. intros rc.
  destruct (rc <? 0); [apply calm_teardown|apply triple_ret, calm_settled].
Qed.
End Io.

Section Loop.
Context {LX : LibXml} {PX : Posix} {RC : Recovery} {RA : Reallocates PX} {PL : PosixLaws PX}.

(** No parser is on the stack. *)
Definition idle (w : world) : Prop :=
  forall s x, w_heap w !! s = Some x -> s_in_xml_parse x = false.

(** Between two rounds of the loop. *)
Definition steady (w : world) : Prop := wf w /\ idle w.

Lemma since_steady w w' : steady w -> since w w' -> steady w'.
Proof.
  intros [Hwf Hid] Hs. split; [by eapply sn_wf|]. intros s y Hy.
  destruct (sn_heap _ _ Hs _ _ Hy) as (x & Hx & _ & ->). eauto.
Qed.

Lemma slot_gone_ok w i :
  wf w -> (1 <= i < MAX_CLIENTS)%nat ->
  exists b, slot_gone i w = Ok (b, w) /\
    if b : bool then (w_nfds w <= i)%nat
    else exists t, w_sessions w !! i = Some (Some t).
Proof.
  intros Hwf Hi. unfold slot_gone, bind, get, arr_get.
  destruct (lookup_lt_is_Some_2 (w_sessions w) i) as [[t|] Ho];
    [rewrite (wf_slen _ Hwf); lia| |]; rewrite Ho.
  - destruct (wf_slot _ Hwf _ _ Ho) as (_ & x & Hx & _). cbn. unfold deref. rewrite Hx.
    exists false. split; [|eauto].
    rewrite bool_decide_eq_false_2 by (by apply (wf_heap _ Hwf) in Hx as [[] _]). done.
  - exists true. split; [done|]. destruct (decide (i < w_nfds w)%nat); [|lia].
    destruct (wf_full _ Hwf i) as [t Ht]; [lia|congruence].
Qed.

(** After a handler ran on slot [i] (the state is now [w]). *)
Definition progress (w0 : world) (i i' : nat) (w : world) : Prop :=
  since w0 w /\ (i' = S i \/ i' = i /\ (w_nfds w < w_nfds w0)%nat).

(** What [slot_gone] says after a handler. *)
Definition gone_or_not (w0 : world) (i : nat) (b : bool) (w : world) : Prop :=
  since w0 w /\
  if b then (w_nfds w <= i)%nat else exists t, w_sessions w !! i = Some (Some t).

Lemma then_slot_gone {A} w i (m : M A) :
  (1 <= i < MAX_CLIENTS)%nat ->
  match m w with Ok (_, w') => since w w' | Fault f => risk f end ->
  match (m ;; slot_gone i) w with
  | Ok (b, w') => gone_or_not w i b w'
  | Fault f => risk f
  end.
Proof.
  intros Hi Hm. unfold bind. destruct (m w) as [[? w']|]; [|done].
  destruct (slot_gone_ok w' i (sn_wf _ _ Hm) Hi) as (b & -> & Hb). by split.
Qed.

Lemma slot_session w i s :
  wf w -> w_sessions w !! i = Some (Some s) ->
  (1 <= i < MAX_CLIENTS)%nat /\
  exists x p, w_heap w !! s = Some x /\ w_pollfds w !! i = Some p.
Proof.
  intros Hwf Hi. destruct (wf_slot _ Hwf _ _ Hi) as (Hr & x & Hx & Hxi).
  pose proof (wf_nfds _ Hwf). split; [lia|].
  destruct (wf_heap _ Hwf _ _ Hx) as (_ & _ & p & Hp & _). rewrite Hxi in Hp. eauto.
Qed.

Lemma reading_ok w i s (b : bool) :
  steady w -> w_sessions w !! i = Some (Some s) ->
  match (if b then session_on_readable s ;; slot_gone i else ret false) w with
  | Ok (b', w') => gone_or_not w i b' w'
  | Fault f => risk f
  end.
Proof.
  intros [Hwf Hid] Hi. destruct (slot_session _ _ _ Hwf Hi) as (Hr & x & p & Hx & _).
  destruct b; [|by split; [apply since_refl|eauto]].
  apply then_slot_gone; [done|]. pose proof (settled_readable w s x Hwf Hx (Hid _ _ Hx)) as H.
  destruct (session_on_readable s w) as [[? w']|]; [by destruct H|done].
Qed.

Lemma writing_ok w i s (b : bool) :
  steady w -> w_sessions w !! i = Some (Some s) ->
  match (if b then
           let! o := arr_get (w_sessions w) i in
           match o with
           | Some t => session_on_writable t ;; slot_gone i
           | None => raise FNull
           end
         else ret false) w with
  | Ok (b', w') => gone_or_not w i b' w'
  | Fault f => risk f
  end.
Proof.
  intros [Hwf Hid] Hi. destruct (slot_session _ _ _ Hwf Hi) as (Hr & x & p & Hx & _).
  destruct b; [|by split; [apply since_refl|eauto]].
  unfold arr_get, bind at 1. rewrite Hi. cbn [ret].
  apply then_slot_gone; [done|].
  pose proof (settled_writable w s Hwf ltac:(by exists x)) as H.
  destruct (session_on_writable s w) as [[? w']|]; [by destruct H|done].
Qed.

Lemma process_slot_ok w i s :
  steady w -> w_sessions w !! i = Some (Some s) ->
  match process_slot i s w with
  | Ok (i', w') => progress w i i' w'
  | Fault f => risk f
  end.
Proof.
  intros Hst Hi. pose proof Hst as [Hwf Hid].
  destruct (slot_session _ _ _ Hwf Hi) as (Hr & x & p & Hx & Hp).
  destruct (wf_slot _ Hwf _ _ Hi) as [Hin _].
  unfold process_slot. unfold bind at 1, get at 1. unfold bind at 1, arr_get at 1. rewrite Hp.
  cbn [ret]. destruct (has_event (pfd_revents p) (Z.lor POLLERR POLLHUP)).
  { pose proof (calm_teardown_lt w s w (calm_refl w s Hwf ltac:(by exists x))) as Ht.
    unfold bind. destruct (session_teardown s w) as [[? w1]|]; [|done]. destruct Ht.
    split; auto. }
  pose proof (reading_ok w i s (has_event (pfd_revents p) POLLIN) Hst Hi) as H1.
  unfold bind at 1.
  lazymatch type of H1 with match ?m with _ => _ end => destruct m as [[b1 w1]|] end; [|done].
  destruct H1 as [S1 G1].
  destruct b1; [split; [done|]; right; split; [done|lia]|]. destruct G1 as [s1 Hi1].
  pose proof (since_steady _ _ Hst S1) as Hst1. pose proof Hst1 as [Hwf1 _].
  destruct (slot_session _ _ _ Hwf1 Hi1) as (_ & x1 & p1 & Hx1 & Hp1).
  unfold bind at 1, get at 1. unfold bind at 1, arr_get at 1. rewrite Hp1. cbn [ret].
  pose proof (writing_ok w1 i s1 (has_event (pfd_revents p1) POLLOUT) Hst1 Hi1) as H2.
  unfold bind at 1.
  lazymatch type of H2 with match ?m with _ => _ end => destruct m as [[b2 w2]|] end; [|done].
  destruct H2 as [S2 G2].
  pose proof (since_trans _ _ _ S1 S2).
  destruct b2; (split; [done|]); [right; split; [done|lia]|by left].
Qed.

(** The loop ends within its fuel. *)
Lemma process_clients_ok fuel : forall i w,
  steady w -> (1 <= i)%nat -> (2 * w_nfds w - i < fuel)%nat ->
  match process_clients fuel i w with
  | Ok (b, w') => b = true /\ since w w'
  | Fault f => risk f
  end.
Proof.
  induction fuel as [|fuel IH]; intros i w Hst Hi Hf; [lia|]. pose proof Hst as [Hwf _].
  cbn [process_clients]. unfold bind at 1, get.
  destruct (Nat.leb_spec (w_nfds w) i) as [|Hlt]; [by split; [|apply since_refl]|].
  destruct (wf_full _ Hwf i) as [s Hs]; [lia|].
  unfold bind at 1, arr_get at 1. rewrite Hs. cbn [ret].
  pose proof (process_slot_ok w i s Hst Hs) as Hp. unfold bind.
  destruct (process_slot i s w) as [[i' w1]|]; [|done]. destruct Hp as [S1 Hp].
  pose proof (sn_nfds _ _ S1).
  specialize (IH i' w1 (since_steady _ _ Hst S1)).
  destruct (process_clients fuel i' w1) as [[b w2]|].
  - destruct IH; [lia|lia|]. split; [done|]. by eapply since_trans.
  - apply IH; lia.
Qed.
End Loop.

Section Running.
Context {LX : LibXml} {PX : Posix} {RC : Recovery} {RA : Reallocates PX} {PL : PosixLaws PX}.

(** The session [session_create] makes, in slot [n]. *)
Definition new_session (fd : Z) (n : nat) : session :=
  set_poll_index n (set_xml_ctx xmlCreatePushParserCtxt (session_zero fd)).

(** The tables with a client more. *)
Definition admitted (fd : Z) (w : world) : world :=
  let n := w_nfds w in
  set_nfds (n + 1)%nat
    (set_sessions (<[n := Some (w_next w)]> (w_sessions w))
      (set_pollfds (<[n := mkPollfd fd POLLIN 0]> (w_pollfds w))
        (set_next (S (w_next w))
          (set_heap (<[w_next w := new_session fd n]> (w_heap w)) w)))).

Lemma server_accept_eq w :
  server_accept w =
  let '(net, fd) := net_accept (w_net w) (w_listen_fd w) in
  let w1 := set_net net w in
  match fd with
  | None => Ok (tt, w1)
  | Some fd =>
      if (MAX_CLIENTS <=? w_nfds w)%nat || negb (malloc_ok sizeof_session)
         || negb (malloc_ok WRITE_BUF_INIT)
      then Ok (tt, set_net (net_close net fd) w1)
      else Ok (tt, admitted fd w1)
  end.
Proof.
  unfold server_accept, bind at 1, get at 1. unfold bind at 1, do_net at 1.
  destruct (net_accept _ _) as [net [fd|]]; [|done]. cbv zeta.
  unfold bind at 1, get at 1. cbn [w_nfds set_net].
  destruct (MAX_CLIENTS <=? w_nfds w)%nat; [done|]. cbn [orb].
  unfold bind at 1, session_create.
  destruct (malloc_ok sizeof_session); cbn [negb orb]; [|done].
  destruct (malloc_ok WRITE_BUF_INIT); cbn [negb orb]; [|done].
  unfold bind at 1, session_alloc at 1. cbv beta iota.
  unfold xml_parser_create, admitted, new_session.
  destruct xmlCreatePushParserCtxt;
    unfold bind, upd, modify, ret; simpl;
    repeat (rewrite lookup_insert_eq; simpl); by rewrite ?insert_insert_eq.
Qed.

Lemma new_session_ok fd n : sess_ok (new_session fd n).
Proof. constructor; first [apply Nat.le_0_l | done | apply Nat.lt_0_succ]. Qed.

Lemma wf_admitted fd w : wf w -> (w_nfds w < MAX_CLIENTS)%nat -> wf (admitted fd w).
Proof.
  intros Hwf Hn. pose proof (wf_nfds _ Hwf). unfold admitted.
  assert (w_heap w !! w_next w = None) as Hnone.
  { destruct (w_heap w !! w_next w) eqn:E; [|done].
    apply (wf_fresh _ Hwf) in E. lia. }
  constructor; cbn [w_nfds w_pollfds w_sessions w_heap w_next set_nfds set_sessions
                    set_pollfds set_next set_heap]; rewrite ?length_insert.
  - lia.
  - apply (wf_plen _ Hwf).
  - apply (wf_slen _ Hwf).
  - intros i s. destruct (decide (i = w_nfds w)) as [->|].
    + rewrite list_lookup_insert_eq by (rewrite (wf_slen _ Hwf); lia). intros [= <-].
      split; [lia|]. eexists. by rewrite lookup_insert_eq.
    + rewrite list_lookup_insert_ne by done. intros Hs.
      destruct (wf_slot _ Hwf _ _ Hs) as (Hr & x & Hx & Hi). split; [lia|].
      exists x. by rewrite lookup_insert_ne by congruence.
  - intros i Hi. destruct (decide (i = w_nfds w)) as [->|].
    + rewrite list_lookup_insert_eq by (rewrite (wf_slen _ Hwf); lia). eauto.
    + rewrite list_lookup_insert_ne by done. apply (wf_full _ Hwf). lia.
  - intros s x. destruct (decide (s = w_next w)) as [->|].
    + rewrite lookup_insert_eq. intros [= <-]. split; [apply new_session_ok|].
      cbn [s_poll_index new_session set_poll_index].
      rewrite !list_lookup_insert_eq by (rewrite ?(wf_slen _ Hwf), ?(wf_plen _ Hwf); lia).
      split; [done|]. by eexists.
    + rewrite lookup_insert_ne by done. intros Hx.
      destruct (wf_heap _ Hwf _ _ Hx) as (Hok & Hs & p & Hp & He). split; [done|].
      assert (s_poll_index x <> w_nfds w).
      { destruct (wf_slot _ Hwf _ _ Hs) as [? _]. lia. }
      rewrite !list_lookup_insert_ne by done. eauto.
  - intros s x. destruct (decide (s = w_next w)) as [->|]; [lia|].
    rewrite lookup_insert_ne by done. intros Hx%(wf_fresh _ Hwf). lia.
Qed.

Lemma steady_net w net : steady w -> steady (set_net net w).
Proof. intros [[] ?]. split; [by constructor|done]. Qed.

Lemma steady_admitted fd w :
  steady w -> (w_nfds w < MAX_CLIENTS)%nat -> steady (admitted fd w).
Proof.
  intros [Hwf Hid] Hn. split; [by apply wf_admitted|]. intros s x. unfold admitted.
  cbn [w_heap set_nfds set_sessions set_pollfds set_next set_heap].
  destruct (decide (s = w_next w)) as [->|].
  - rewrite lookup_insert_eq. by intros [= <-].
  - rewrite lookup_insert_ne by done. apply Hid.
Qed.

Lemma steady_accept w : steady w -> exists w', server_accept w = Ok (tt, w') /\ steady w'.
Proof.
  intros Hst. rewrite server_accept_eq.
  destruct (net_accept _ _) as [net [fd|]]; cbv zeta; [|eauto using steady_net].
  destruct (Nat.leb_spec MAX_CLIENTS (w_nfds w)); cbn [orb]; [eauto using steady_net|].
  destruct (_ || _)%bool; [eauto using steady_net|].
  eexists. split; [done|]. apply steady_admitted; [by apply steady_net|done].
Qed.

Lemma store_revents_lookup revs l i :
  store_revents revs l !! i =
  (fun p => match revs !! i with Some r => mkPollfd (pfd_fd p) (pfd_events p) r | None => p end)
    <$> l !! i.
Proof. unfold store_revents. by rewrite list_lookup_imap. Qed.

Lemma steady_revents w revs :
  steady w -> steady (set_pollfds (store_revents revs (w_pollfds w)) w).
Proof.
  intros [[H1 H2 H3 H4 H5 H6 H7] Hid]. split; [|done].
  constructor; cbn [w_nfds w_pollfds w_sessions w_heap w_next set_pollfds]; try done.
  - unfold store_revents. by rewrite length_imap.
  - intros s x Hx. destruct (H6 _ _ Hx) as (? & ? & p & Hp & []).
    split_and!; [done..|]. rewrite store_revents_lookup, Hp. eexists. split; [done|].
    destruct (revs !! _); by constructor.
Qed.

Lemma steady_clients w :
  steady w ->
  match process_clients round_fuel 1 w with
  | Ok (_, w') => steady w'
  | Fault f => risk f
  end.
Proof.
  intros Hst. pose proof (wf_nfds _ (proj1 Hst)).
  pose proof (process_clients_ok round_fuel 1 w Hst ltac:(lia)
                ltac:(unfold round_fuel; lia)) as H'.
  destruct (process_clients _ _ _) as [[b w3]|]; [|done]. destruct H'.
  by eapply since_steady.
Qed.

Lemma steady_round w :
  steady w ->
  match server_round w with
  | Ok (_, w') => steady w'
  | Fault f => risk f
  end.
Proof.
  intros Hst. unfold server_round, bind at 1, get at 1. unfold bind at 1, do_net at 1.
  destruct (net_poll _ _) as [net [revs| |]]; [|by apply steady_net..].
  unfold bind at 1, modify at 1. unfold bind at 1, get at 1.
  set (w1 := set_pollfds _ _).
  assert (steady w1) as Hst1 by apply (steady_revents (set_net net w)), steady_net, Hst.
  pose proof Hst1 as [Hwf1 _].
  destruct (lookup_lt_is_Some_2 (w_pollfds w1) 0%nat) as [p Hp];
    [rewrite (wf_plen _ Hwf1); unfold MAX_CLIENTS; lia|].
  unfold bind at 1, arr_get at 1. rewrite Hp. cbn [ret].
  destruct (has_event _ _); [|by apply steady_clients].
  destruct (steady_accept w1 Hst1) as (w2 & E & Hst2).
  unfold bind. rewrite E. by apply steady_clients.
Qed.

Lemma Ok_inj {A} (a b : A) : Ok a = Ok b -> a = b.
Proof. congruence. Qed.

Lemma steady_init w w' :
  w_heap w = ∅ -> server_init w = Ok (0, w') -> steady w'.
Proof.
  intros Hh. unfold server_init, bind at 1, g_config at 1. unfold bind at 1, do_net at 1.
  destruct (net_listen _ _ _) as [net [lfd|]]; [|done].
  unfold bind, modify, ret. intros H. apply Ok_inj, (f_equal snd) in H. cbn [snd] in H. subst w'.
  split; [constructor|]; cbn [w_nfds w_pollfds w_sessions w_heap set_nfds set_sessions
                              set_pollfds set_listen_fd set_net]; rewrite ?Hh.
  - unfold MAX_CLIENTS. lia.
  - by rewrite length_insert, length_replicate.
  - by rewrite length_replicate.
  - intros i s. rewrite lookup_replicate. by intros [].
  - intros i Hi. lia.
  - intros s x. by rewrite lookup_empty.
  - intros s x. by rewrite lookup_empty.
  - intros s x. simpl. rewrite Hh. by rewrite lookup_empty.
Qed.
End Running.

(** ** The server as a transition system *)

Section Reach.
Context {LX : LibXml} {PX : Posix} {RC : Recovery} {RA : Reallocates PX}.

(** [main] from [server_init] on: rounds of [server_run] while the shutdown
    flag is down, which the signal handler may raise at any time. *)
Inductive reachable (w0 : world) : world -> Prop :=
  | reach_init w : server_init w0 = Ok (0, w) -> reachable w0 w
  | reach_round w b w' :
      reachable w0 w -> w_shutdown_flag w = false ->
      server_round w = Ok (b, w') -> reachable w0 w'
  | reach_signal w : reachable w0 w -> reachable w0 (set_shutdown_flag true w).

Lemma reachable_steady {PL : PosixLaws PX} w0 w : w_heap w0 = ∅ -> reachable w0 w -> steady w.
Proof.
  intros Hh. induction 1 as [w Hi|w b w' _ IH _ Hr|w _ [[] ?]].
  - by eapply steady_init.
  - pose proof (steady_round w IH) as H. by rewrite Hr in H.
  - split; [by constructor|done].
Qed.
End Reach.
