(* ===== verification/Demo.v ===== *)
(** Concrete runs: states the server reaches on the instances of Concrete.v,
    which the witnesses of the properties start from. *)

From stdpp Require Import gmap.
From S2P Require Import Prelude Util Dom World Concrete SessionIo Inv User Auth Session Xml.
From S2P Require Import Server Rounds.
Open Scope Z_scope.

(** The session at an address, where there is one. *)
Definition sess_at (s : sid) (w : world) : session := default (session_zero 0) (w_heap w !! s).

Definition has_sess (s : sid) (w : world) : bool := bool_decide (is_Some (w_heap w !! s)).

Lemma sess_at_some s w : has_sess s w = true -> w_heap w !! s = Some (sess_at s w).
Proof.
  unfold has_sess, sess_at. intros H%bool_decide_eq_true_1. by destruct H as [x ->].
Qed.

(** A stack of four nested recoveries; the runs below need none. *)
#[export] Instance demo_recovery : Recovery := teardown_within 4.

(** Two clients connect; the first opens a stream. *)
Definition demo_boot : world :=
  boot_net demo_config ∅ [7; 8] [(7, chunk ["S stream to=localhost"])]
    [[1]; [1; 0]; [0; 1]].
Definition demo_init : world := run server_init demo_boot.
Definition demo_one : world := run server_round demo_init.
Definition demo_two : world := run server_round demo_one.
Definition demo_open : world := run server_round demo_two.

Lemma reach_start w0 : outcome server_init w0 = Ok 0 -> reachable w0 (run server_init w0).
Proof. intros H. apply reach_init. by apply run_outcome. Qed.

Lemma reach_step w0 w b :
  reachable w0 w -> w_shutdown_flag w = false -> outcome server_round w = Ok b ->
  reachable w0 (run server_round w).
Proof. intros Hw Hf H. apply (reach_round _ w b); [done|done|]. by apply run_outcome. Qed.

Lemma demo_reachable : reachable demo_boot demo_open.
Proof.
  unfold demo_open, demo_two, demo_one, demo_init.
  repeat (eapply reach_step; [|vm_compute; reflexivity|vm_compute; reflexivity]).
  eapply reach_start. vm_compute. reflexivity.
Qed.

Lemma demo_wf : wf demo_open.
Proof. apply (reachable_steady demo_boot demo_open); [reflexivity|apply demo_reachable]. Qed.

Lemma demo_reachable_one : reachable demo_boot demo_one.
Proof.
  unfold demo_one, demo_init.
  repeat (eapply reach_step; [|vm_compute; reflexivity|vm_compute; reflexivity]).
  eapply reach_start. vm_compute. reflexivity.
Qed.

(** [authzid NUL authcid NUL passwd] *)
Definition plain_message (authzid authcid passwd : string) : list Z :=
  (str_bytes authzid ++ 0 :: str_bytes authcid ++ 0 :: str_bytes passwd)%list.

(** The string of these bytes. *)
Fixpoint string_of_bytes (bs : list Z) : string :=
  match bs with [] => "" | b :: bs' => String (byte_char b) (string_of_bytes bs') end.

(** An account for alice. *)
Definition demo_account : world := run (user_create "alice" "secret") demo_open.

Definition auth_stanza (name passwd : string) : xnode :=
  XElem "auth" (Some (mkNs "urn:ietf:params:xml:ns:xmpp-sasl" None)) []
    [mkAttr None "mechanism" "PLAIN"]
    [XText (string_of_bytes (b64_encode (plain_message "" name passwd)))].

(** ** Two users online *)

Definition login (fd : Z) (name passwd : string) : list (Z * string) :=
  [(fd, chunk ["S stream to=localhost"]);
   (fd, chunk ["N urn:ietf:params:xml:ns:xmpp-sasl auth mechanism=PLAIN";
               "C " ++ string_of_bytes (b64_encode (plain_message "" name passwd)); "E"]);
   (fd, chunk ["S stream to=localhost"]);
   (fd, chunk ["S iq type=set id=1"; "N urn:ietf:params:xml:ns:xmpp-bind bind";
               "S resource"; "C home"; "E"; "E"; "E"]);
   (fd, chunk ["S iq type=set id=2"; "N urn:ietf:params:xml:ns:xmpp-session session";
               "E"; "E"]);
   (fd, chunk ["S presence"; "E"])].

Definition users_fs : gmap string (option string) :=
  w_fs (run (user_create "alice" "secret" ;; user_create "bob" "hunter2")
          (boot demo_config {["data" := None]} [])).

Definition users_boot : world :=
  boot_net demo_config users_fs [7; 8] (login 7 "alice" "secret" ++ login 8 "bob" "hunter2")%list
    ([[1]; [1; 0]] ++ replicate 6 [0; 1; 0] ++ replicate 6 [0; 0; 1])%list.

Fixpoint rounds (n : nat) (w : world) : world :=
  match n with O => w | S n' => rounds n' (run server_round w) end.

(** Alice is the session 0, bob the session 1; both sent initial presence. *)
Definition users_online : world := rounds 14 (run server_init users_boot).

(** Every round of the run ends normally. *)
Fixpoint rounds_ok (n : nat) (w : world) : bool :=
  match n with
  | O => true
  | S n' =>
      match server_round w with
      | Ok (_, w') => negb (w_shutdown_flag w) && rounds_ok n' w'
      | Fault _ => false
      end
  end.

Lemma rounds_reachable n : forall w0 w,
  reachable w0 w -> rounds_ok n w = true -> reachable w0 (rounds n w).
Proof.
  induction n as [|n IH]; intros w0 w Hw H; [done|]. cbn [rounds rounds_ok] in *.
  unfold run at 1. destruct (server_round w) as [[b w']|] eqn:E; [|done]. eqs_prop.
  apply IH; [|done]. by apply (reach_round _ w b).
Qed.

Lemma users_reachable : reachable users_boot users_online.
Proof.
  unfold users_online. apply rounds_reachable; [|vm_compute; reflexivity].
  apply reach_start. vm_compute. reflexivity.
Qed.

Lemma users_wf : wf users_online.
Proof. apply (reachable_steady users_boot users_online); [reflexivity|apply users_reachable]. Qed.

(** The first client's parser is on the stack. *)
Definition demo_parsing : world := run (upd 0%nat (set_in_xml_parse true)) demo_open.
