(* ===== verification/Lifecycle.v ===== *)
(** The server as a transition system: the states it reaches between two
    rounds of the poll loop, and what holds in all of them; shutdown. *)

From stdpp Require Import gmap.
From S2P Require Import Prelude Util Dom World Concrete SessionIo Inv Session Teardown Stanza.
From S2P Require Import Xml Safety Server Rounds Demo.
Open Scope Z_scope.

(** ** Shutdown *)

Section Shutdown.
Context {LX : LibXml} {PX : Posix} {RC : Recovery} {RA : Reallocates PX}.

(** Only the session [s], which keeps its slot, may have changed. *)
Record touched (s : sid) (w w' : world) : Prop := {
  tc_heap t : t <> s -> w_heap w' !! t = w_heap w !! t;
  tc_self x : w_heap w !! s = Some x ->
    exists y, w_heap w' !! s = Some y /\ s_poll_index y = s_poll_index x;
  tc_sessions : w_sessions w' = w_sessions w;
  tc_nfds : w_nfds w' = w_nfds w
}.

Lemma touched_entry s x y f w :
  w_heap w !! s = Some x -> s_poll_index y = s_poll_index x -> touched s w (set_entry s y f w).
Proof.
  intros Hx Hi. constructor; cbn [set_entry w_heap w_sessions w_nfds set_pollfds set_heap]; try done.
  - intros t Ht. by rewrite lookup_insert_ne.
  - intros x' Hx'. exists y. rewrite lookup_insert_eq. split; [done|congruence].
Qed.

Lemma touched_refl s w : touched s w w.
Proof. constructor; eauto. Qed.

Lemma touched_trans s w w1 w2 : touched s w w1 -> touched s w1 w2 -> touched s w w2.
Proof.
  intros [H1 H2 H3 H4] [I1 I2 I3 I4]. constructor; try congruence.
  - intros t Ht. by rewrite I1, H1.
  - intros x (y & Hy & E1)%H2. destruct (I2 _ Hy) as (z & Hz & E2). exists z. split; congruence.
Qed.

Lemma write_touches s x data w :
  w_heap w !! s = Some x -> (s_poll_index x < MAX_CLIENTS)%nat ->
  match session_write s data w with Ok (_, w') => touched s w w' | Fault _ => False end.
Proof.
  intros Hx Hi. destruct (str_empty data) eqn:E;
    [unfold session_write; rewrite E; apply touched_refl|].
  rewrite (session_write_eq w s x) by done.
  eapply touched_entry; [done|]. unfold queued. by destruct (_ <? _)%nat.
Qed.

Lemma touched_net s w net : touched s w (set_net net w).
Proof. constructor; eauto. Qed.

Lemma flush_touches s x w :
  w_heap w !! s = Some x -> (s_poll_index x < MAX_CLIENTS)%nat ->
  exists rc w', session_flush s w = Ok (rc, w') /\ touched s w w'.
Proof.
  intros Hx Hi. rewrite (session_flush_eq w s x) by done.
  destruct (str_empty _); [eauto using touched_refl|].
  destruct (net_write _ _ _) as [net [n| |]]; cbv zeta; eauto using touched_net.
  eexists _, _. split; [done|]. eapply touched_trans; [apply touched_net|].
  by apply (touched_entry s x (drained n x)).
Qed.

(** One turn of the loop frees the session of the slot and empties it. *)
Lemma shutdown_slot_ok i s x w :
  w_sessions w !! i = Some (Some s) -> w_heap w !! s = Some x ->
  (s_poll_index x < MAX_CLIENTS)%nat ->
  match shutdown_slot i w with
  | Ok (_, w') => w_heap w' = delete s (w_heap w) /\
                  w_sessions w' = <[i := None]> (w_sessions w) /\ w_nfds w' = w_nfds w
  | Fault _ => False
  end.
Proof.
  intros Hs Hx Hi. unfold shutdown_slot, bind at 1, get at 1. unfold bind at 1, arr_get at 1.
  rewrite Hs. cbn [ret]. unfold session_write_str, bind at 1.
  pose proof (write_touches s x shutdown_text w Hx Hi) as H1.
  destruct (session_write s shutdown_text w) as [[? w1]|]; [|done].
  destruct (tc_self _ _ _ H1 _ Hx) as (x1 & Hx1 & E1).
  destruct (flush_touches s x1 w1 Hx1 ltac:(lia)) as (rc & w2 & E2 & H2).
  unfold bind at 1. rewrite E2. pose proof (touched_trans _ _ _ _ H1 H2) as [T1 T2 T3 T4].
  destruct (T2 _ Hx) as (x2 & Hx2 & _).
  destruct (session_destroy_eq _ _ _ Hx2) as [net Hd]. unfold bind at 1. rewrite Hd.
  cbv zeta. cbn [w_heap w_sessions w_nfds set_sessions set_heap set_net modify].
  rewrite T3, T4. split_and!; [|done..]. apply map_eq. intros t.
  destruct (decide (t = s)) as [->|]; [by rewrite !lookup_delete_eq|].
  rewrite !lookup_delete_ne by done. by apply T1.
Qed.

(** The slots from [i] on, [n] of them, hold the sessions that are left. *)
Definition remaining (i n : nat) (w : world) : Prop :=
  (forall j, (i <= j < i + n)%nat -> exists s x,
     w_sessions w !! j = Some (Some s) /\ w_heap w !! s = Some x /\ s_poll_index x = j) /\
  (forall s x, w_heap w !! s = Some x -> (i <= s_poll_index x < i + n)%nat /\
     w_sessions w !! s_poll_index x = Some (Some s)).

Lemma shutdown_loop n : forall i w,
  remaining i n w -> (i + n <= MAX_CLIENTS)%nat ->
  match for_each (seq i n) shutdown_slot w with
  | Ok (_, w') => w_heap w' = ∅
  | Fault _ => False
  end.
Proof.
  induction n as [|n IH]; intros i w [R1 R2] Hn; cbn [seq for_each].
  { cbn [ret]. apply map_empty. intros s. destruct (w_heap w !! s) eqn:E; [|done].
    apply R2 in E as [? _]. lia. }
  destruct (R1 i) as (s & x & Hs & Hx & Hi); [lia|].
  pose proof (shutdown_slot_ok i s x w Hs Hx ltac:(lia)) as H. unfold bind.
  destruct (shutdown_slot i w) as [[? w1]|]; [|done]. destruct H as (Hh & Hse & Hnf).
  apply IH; [|lia]. split.
  - intros j Hj. destruct (R1 j) as (t & y & Ht & Hy & Hyj); [lia|].
    exists t, y. rewrite Hh, Hse, list_lookup_insert_ne by lia.
    rewrite lookup_delete_ne; [done|]. intros ->. simplify_eq. lia.
  - intros t y. rewrite Hh. intros [Hne Hy]%lookup_delete_Some. destruct (R2 _ _ Hy) as [? Ht].
    assert (s_poll_index y <> i) by congruence.
    rewrite Hse, list_lookup_insert_ne by done. split; [lia|done].
Qed.

Lemma wf_remaining w : wf w -> remaining 1 (w_nfds w - 1) w.
Proof.
  intros Hwf. pose proof (wf_nfds _ Hwf). split.
  - intros j Hj. destruct (wf_full _ Hwf j) as [s Hs]; [lia|].
    destruct (wf_slot _ Hwf _ _ Hs) as (_ & x & Hx & Hi). eauto.
  - intros s x Hx. destruct (slot_of _ _ _ Hwf Hx). split; [lia|done].
Qed.

Lemma shutdown_ok w :
  wf w ->
  match server_shutdown w with
  | Ok (_, w') => w_heap w' = ∅ /\ w_nfds w' = 1%nat /\ w_listen_fd w' < 0
  | Fault _ => False
  end.
Proof.
  intros Hwf. pose proof (wf_nfds _ Hwf).
  pose proof (shutdown_loop (w_nfds w - 1) 1 w (wf_remaining w Hwf) ltac:(lia)) as Hs.
  unfold server_shutdown, bind at 1, get at 1. unfold bind at 1.
  destruct (for_each _ _ w) as [[? w1]|]; [|done]. unfold bind, modify, get, do_net, ret.
  cbn [w_listen_fd set_nfds]. destruct (Z.leb_spec 0 (w_listen_fd w1)); by split_and!.
Qed.
End Shutdown.

(** ** Properties *)

Section Properties.
Context {LX : LibXml} {PX : Posix} {RC : Recovery} {RA : Reallocates PX} {PL : PosixLaws PX}.

(** C1. No round of a running server uses a session that was freed: from any
    state the server reaches, whatever the clients send, a round either
    ends normally in a state that is again well formed, or meets a fault
    that is neither a use after free nor calls nested without bound: it reads
    through a null pointer, reads a buffer never written, leaves an object or
    copies a string onto itself. *)
Theorem no_use_after_free w0 w :
  w_heap w0 = ∅ -> reachable w0 w ->
  match server_round w with
  | Ok (_, w') => wf w' /\ idle w'
  | Fault f => f <> FFreed /\ f <> FStack
  end.
Proof. intros Hh Hr. by apply steady_round, (reachable_steady w0). Qed.

(** C2. In every state the server reaches, the tables agree: the sessions
    that exist are those of the slots 1 .. nfds-1, each in the one slot its
    [poll_index] names, and that entry of the poll set has its descriptor
    and asks for POLLOUT exactly when output is waiting. *)
Theorem tables_agree w0 w :
  w_heap w0 = ∅ -> reachable w0 w ->
  (1 <= w_nfds w <= MAX_CLIENTS)%nat /\
  (forall i, (1 <= i < w_nfds w)%nat -> exists s, w_sessions w !! i = Some (Some s)) /\
  (forall i s, w_sessions w !! i = Some (Some s) ->
     (1 <= i < w_nfds w)%nat /\ exists x, w_heap w !! s = Some x /\ s_poll_index x = i) /\
  (forall s x, w_heap w !! s = Some x ->
     w_sessions w !! s_poll_index x = Some (Some s) /\
     exists p, w_pollfds w !! s_poll_index x = Some p /\ pfd_fd p = s_fd x /\
       Z.testbit (pfd_events p) 2 = negb (str_empty (s_write_buf x))).
Proof.
  intros Hh Hr. destruct (reachable_steady w0 w Hh Hr) as [[H1 H2 H3 H4 H5 H6 H7] _].
  split_and!; try done; [lia..|]. intros s x Hx.
  destruct (H6 _ _ Hx) as (_ & ? & p & ? & []). eauto.
Qed.

(** C34. In every state the server reaches, each buffer of a session holds no
    more than its size, and a roster at most 128 items. *)
Theorem buffers_bounded w0 w s x :
  w_heap w0 = ∅ -> reachable w0 w -> w_heap w !! s = Some x ->
  (String.length (s_write_buf x) <= s_write_cap x)%nat /\
  (String.length (s_read_buf x) <= READ_BUF_SIZE)%nat /\
  (r_count (s_roster x) <= MAX_ROSTER_ITEMS)%nat /\
  (String.length (s_jid_local x) < 256)%nat /\
  (String.length (s_jid_domain x) < 256)%nat /\
  (String.length (s_jid_resource x) < 256)%nat.
Proof.
  intros Hh Hr Hx. destruct (reachable_steady w0 w Hh Hr) as [Hwf _].
  by destruct (wf_heap _ Hwf _ _ Hx) as [[] _].
Qed.

(** C12. The pass over the clients ends, whatever its handlers do to the
    table it walks: [2 * MAX_CLIENTS] turns are enough. *)
Theorem clients_loop_ends w0 w :
  w_heap w0 = ∅ -> reachable w0 w ->
  match process_clients round_fuel 1 w with
  | Ok (done_, w') => done_ = true /\ (w_nfds w' <= w_nfds w)%nat
  | Fault f => f <> FFreed /\ f <> FStack
  end.
Proof.
  intros Hh Hr. pose proof (reachable_steady w0 w Hh Hr) as Hst.
  pose proof (wf_nfds _ (proj1 Hst)).
  pose proof (process_clients_ok round_fuel 1 w Hst ltac:(lia) ltac:(unfold round_fuel; lia)).
  destruct (process_clients _ _ _) as [[b w']|]; [|done]. destruct H0 as [? []]. by split.
Qed.

(** C11. While the parser of a session is on the call stack, nothing the
    parsed bytes ask for frees that session: after [xml_feed] it is still
    there, still marked as being parsed, and the tables are well formed. *)
Theorem parsing_keeps_session s data w x :
  wf w -> w_heap w !! s = Some x -> s_in_xml_parse x = true ->
  match xml_feed s data w with
  | Ok (_, w') => wf w' /\ exists y, w_heap w' !! s = Some y /\ s_in_xml_parse y = true /\
                                     s_fd y = s_fd x
  | Fault f => f <> FFreed /\ f <> FStack
  end.
Proof.
  intros Hwf Hx Hp.
  pose proof (held_xml_feed w s data w) as H. unfold during, parsing in H.
  specialize (H (conj (since_refl _ Hwf) (ex_intro _ x (conj Hx Hp)))).
  destruct (xml_feed s data w) as [[? w']|]; [|done]. destruct H as [[H1 _ _ H2] (y & Hy & ?)].
  split; [done|]. exists y. destruct (H2 _ _ Hy) as (x' & ? & ? & _). by simplify_eq.
Qed.

(** C29. [session_teardown] frees the session and nothing else: one slot
    less, every other session where its [poll_index] says, with its
    descriptor. *)
Theorem teardown_frees_one s w w' :
  wf w -> live s w -> session_teardown s w = Ok (tt, w') ->
  w_heap w' !! s = None /\ S (w_nfds w') = w_nfds w /\
  forall t x, t <> s -> w_heap w !! t = Some x ->
    exists y, w_heap w' !! t = Some y /\ s_fd y = s_fd x /\
              w_sessions w' !! s_poll_index y = Some (Some t).
Proof.
  intros Hwf Hl Ht. pose proof (teardown_ok w s Hwf Hl) as H. rewrite Ht in H.
  destruct H as [Hwf' Hg]. split_and!; [apply Hg..|]. intros t x Hne Hx.
  destruct (gn_kept _ _ _ Hg _ _ Hne Hx) as (y & Hy & ? & _). exists y.
  split_and!; [done..|]. by apply (slot_of w' t y).
Qed.

(** [server_accept] never fails, and adds at most the client it accepted:
    with a free slot the new session is in the slot after the last one, in
    state CONNECTED, polled for input only; with all slots taken the tables
    stay as they are. *)
Theorem accept_admits w0 w net fd :
  w_heap w0 = ∅ -> reachable w0 w -> net_accept (w_net w) (w_listen_fd w) = (net, Some fd) ->
  malloc_ok sizeof_session = true -> malloc_ok WRITE_BUF_INIT = true ->
  exists w', server_accept w = Ok (tt, w') /\ wf w' /\
    if (MAX_CLIENTS <=? w_nfds w)%nat
    then w_sessions w' = w_sessions w /\ w_heap w' = w_heap w
    else w_nfds w' = S (w_nfds w) /\
         w_sessions w' !! w_nfds w = Some (Some (w_next w)) /\
         w_pollfds w' !! w_nfds w = Some (mkPollfd fd POLLIN 0) /\
         exists x, w_heap w' = <[w_next w := x]> (w_heap w) /\ s_fd x = fd /\
                   s_state x = STATE_CONNECTED /\ s_write_buf x = "".
Proof.
  intros Hh Hr Ha M1 M2. pose proof (reachable_steady w0 w Hh Hr) as Hst.
  destruct (steady_accept w Hst) as (w' & E & [Hwf' _]). exists w'. split_and!; [done..|].
  rewrite server_accept_eq, Ha, M1, M2 in E. cbn [negb] in E. rewrite !orb_false_r in E.
  destruct (Nat.leb_spec MAX_CLIENTS (w_nfds w)); apply Ok_inj, (f_equal snd) in E;
    cbn [snd] in E; subst w'; [done|].
  unfold admitted. cbn [w_nfds w_sessions w_pollfds w_heap w_next set_net set_nfds set_sessions
                        set_pollfds set_next set_heap].
  destruct (proj1 Hst). rewrite !list_lookup_insert_eq by lia.
  split_and!; [lia|done..|]. by eexists.
Qed.

(** [server_shutdown] closes everything: no
    session is left, one slot of the poll set is in use and the listening
    socket is gone. *)
Theorem shutdown_frees_all w0 w :
  w_heap w0 = ∅ -> reachable w0 w ->
  match server_shutdown w with
  | Ok (_, w') => w_heap w' = ∅ /\ w_nfds w' = 1%nat /\ w_listen_fd w' < 0
  | Fault _ => False
  end.
Proof. intros Hh Hr. apply shutdown_ok, (reachable_steady w0 w Hh Hr). Qed.
End Properties.

(** ** Instances of the properties *)

Lemma no_use_after_free_witness :
  match server_round demo_open with
  | Ok (_, w') => wf w' /\ idle w'
  | Fault f => f <> FFreed /\ f <> FStack
  end.
Proof. apply (no_use_after_free demo_boot); [reflexivity|apply demo_reachable]. Defined.

Lemma tables_agree_witness : (1 <= w_nfds demo_open <= MAX_CLIENTS)%nat.
Proof. apply (tables_agree demo_boot); [reflexivity|apply demo_reachable]. Defined.

Lemma buffers_bounded_witness :
  exists x, w_heap demo_open !! 0%nat = Some x /\
            (String.length (s_write_buf x) <= s_write_cap x)%nat.
Proof.
  assert (w_heap demo_open !! 0%nat = Some (sess_at 0 demo_open)) as E
    by (apply sess_at_some; vm_compute; reflexivity).
  eexists. split; [exact E|].
  destruct (buffers_bounded demo_boot demo_open 0%nat _ eq_refl demo_reachable E) as [H _].
  exact H.
Defined.

Lemma clients_loop_ends_witness :
  match process_clients round_fuel 1 demo_open with
  | Ok (done_, w') => done_ = true /\ (w_nfds w' <= w_nfds demo_open)%nat
  | Fault f => f <> FFreed /\ f <> FStack
  end.
Proof. apply (clients_loop_ends demo_boot); [reflexivity|apply demo_reachable]. Defined.

Lemma wf_run_parse s w : wf w -> wf (run (upd s (set_in_xml_parse true)) w).
Proof.
  intros Hwf. unfold run, upd. destruct (w_heap w !! s) as [x|] eqn:Hx; [|done].
  destruct (wf_heap _ Hwf _ _ Hx) as [Hok _]. eapply wf_upd; try done.
  by destruct Hok; constructor.
Qed.

Lemma parsing_keeps_session_witness :
  match xml_feed 0%nat (chunk ["S message"; "E"; "X"]) demo_parsing with
  | Ok (_, w') => wf w' /\ exists y, w_heap w' !! 0%nat = Some y /\ s_in_xml_parse y = true /\
                                     s_fd y = s_fd (sess_at 0 demo_parsing)
  | Fault f => f <> FFreed /\ f <> FStack
  end.
Proof.
  apply parsing_keeps_session.
  - apply wf_run_parse, demo_wf.
  - apply sess_at_some. vm_compute. reflexivity.
  - vm_compute. reflexivity.
Defined.

Lemma teardown_frees_one_witness :
  w_heap (run (session_teardown 0%nat) demo_open) !! 0%nat = None.
Proof.
  apply (teardown_frees_one 0%nat demo_open).
  - apply demo_wf.
  - exists (sess_at 0 demo_open). apply sess_at_some. vm_compute. reflexivity.
  - apply run_outcome. vm_compute. reflexivity.
Defined.

Lemma accept_admits_witness :
  exists w', server_accept demo_one = Ok (tt, w') /\ wf w' /\ w_nfds w' = 3%nat.
Proof.
  destruct (accept_admits demo_boot demo_one (fst (net_accept (w_net demo_one) 3)) 8)
    as (w' & E & Hwf & H).
  - reflexivity.
  - apply demo_reachable_one.
  - vm_compute. reflexivity.
  - reflexivity.
  - reflexivity.
  - exists w'. assert ((MAX_CLIENTS <=? w_nfds demo_one)%nat = false) as Hn by (vm_compute; reflexivity).
    rewrite Hn in H. destruct H as [H _]. split; [exact E|]. split; [exact Hwf|].
    rewrite H. vm_compute. reflexivity.
Defined.

Lemma shutdown_frees_all_witness :
  match server_shutdown demo_open with
  | Ok (_, w') => w_heap w' = ∅ /\ w_nfds w' = 1%nat /\ w_listen_fd w' < 0
  | Fault _ => False
  end.
Proof. apply (shutdown_frees_all demo_boot); [reflexivity|apply demo_reachable]. Defined.
