(* ===== verification/Main.v ===== *)
(** main.c: start-up from the command line to the event loop, and the end of
    the process. *)

From stdpp Require Import gmap.
From S2P Require Import Prelude Dom World Config Log Concrete SessionIo Inv Server Rounds Demo.
From S2P Require Import Lifecycle.
Open Scope Z_scope.

Section Main.
Context {LX : LibXml} {PX : Posix} {RC : Recovery}.

Definition set_g_config (c : config_t) (w : world) : world :=
  mkWorld c (w_heap w) (w_next w) (w_pollfds w) (w_sessions w) (w_nfds w) (w_listen_fd w)
    (w_shutdown_flag w) (w_fs w) (w_net w) (w_os w).

(** [main]: its exit status, or [None] when the event loop is still running
    after the tests of the shutdown flag that [signals] lists.  [log_opens]:
    whether a log file can be opened for appending. *)
Definition main (log_opens : string -> bool) (opts : list cli_option) (signals : list bool)
    : M (option Z) :=
  let! fs := get_fs in
  let '(cfg, r) := config_parse_args (fs_read fs) opts config_defaults in
  modify (set_g_config cfg) ;;
  if negb (r =? 0) then ret (Some (if 0 <? r then 0 else 1))
  else
    let '(_, rc) := log_init (log_opens (logfile cfg)) (loglevel cfg) in
    if rc <? 0 then ret (Some 1)
    else
      let! rc := server_init in
      if rc <? 0 then ret (Some 1)
      else
        let! ended := server_run signals in
        if ended : bool then server_shutdown ;; ret (Some 0) else ret None.

(** ** The event loop *)

Context {PL : PosixLaws PX} {RA : Reallocates PX}.

Lemma server_run_ok w0 signals : forall w,
  w_heap w0 = ∅ -> reachable w0 w ->
  match server_run signals w with
  | Ok (ended, w') => reachable w0 w' /\ (true ∈ signals -> ended = true)
  | Fault f => risk f /\ exists w', reachable w0 w' /\ server_round w' = Fault f
  end.
Proof.
  induction signals as [|sig signals IH]; intros w Hh Hr; cbn [server_run].
  { split; [done|]. intros H. by apply not_elem_of_nil in H. }
  set (w1 := if sig then set_shutdown_flag true w else w).
  assert (reachable w0 w1) as Hr1 by (unfold w1; destruct sig; [by apply reach_signal|done]).
  assert (deliver_signal sig w = Ok (tt, w1)) as E by (by destruct sig).
  unfold bind at 1. rewrite E. unfold bind at 1, get.
  destruct (w_shutdown_flag w1) eqn:Ef; [by split|]. assert (sig = false) as -> by (by destruct sig).
  pose proof (steady_round w1 (reachable_steady w0 w1 Hh Hr1)) as Hs. unfold bind.
  destruct (server_round w1) as [[go w2]|] eqn:E2; [|eauto].
  assert (reachable w0 w2) as Hr2 by (by eapply reach_round).
  destruct go; [|by split]. specialize (IH w2 Hh Hr2).
  destruct (server_run signals w2) as [[ended w3]|]; [|done]. destruct IH as [? IH].
  split; [done|]. intros [?|?]%elem_of_cons; [done|by apply IH].
Qed.

Lemma server_init_codes w :
  exists rc w', server_init w = Ok (rc, w') /\ (rc = 0 \/ rc = -1 /\ w_heap w' = w_heap w).
Proof.
  unfold server_init, bind, g_config, do_net. destruct (net_listen _ _ _) as [net [fd|]].
  - eexists _, _. split; [reflexivity|]. by left.
  - eexists _, _. split; [reflexivity|]. by right.
Qed.

(** C13. The process ends when it is told to.  If a signal arrives, [main]
    either returns, with status 0 or 1 and every session freed, or is cut
    short by a fault in a round of the event loop: never at start-up, between
    rounds or at shutdown, and the fault is not a use of a freed session nor
    calls nested without bound.  (A client can cause the other faults; see
    RosterIq.) *)
Theorem main_ends_on_signal log_opens opts signals w :
  w_heap w = ∅ -> true ∈ signals ->
  match main log_opens opts signals w with
  | Ok (status, w') => (status = Some 0 \/ status = Some 1) /\ w_heap w' = ∅
  | Fault f =>
      f <> FFreed /\ f <> FStack /\
      exists w0 w', w_heap w0 = ∅ /\ reachable w0 w' /\ server_round w' = Fault f
  end.
Proof.
  intros Hh Hsig. unfold main, bind at 1, get_fs.
  destruct (config_parse_args _ _ _) as [cfg r]. unfold bind at 1, modify.
  destruct (r =? 0); cbn [negb]; [|cbn; split; [destruct (0 <? r); auto|done]].
  destruct (log_init _ _) as [? lrc]. destruct (lrc <? 0); [cbn; auto|].
  set (w1 := set_g_config cfg w). unfold bind at 1.
  destruct (server_init_codes w1) as (rc & w2 & E & [->|[-> Hh2]]); rewrite E;
    [|cbn; rewrite Hh2; auto]. change (0 <? 0) with false. cbn [negb].
  pose proof (server_run_ok w1 signals w2 Hh (reach_init _ _ E)) as H. unfold bind at 1.
  destruct (server_run signals w2) as [[ended w3]|];
    [|destruct H as ([? ?] & w' & ? & ?); split_and!; [done..|]; by exists w1, w'].
  destruct H as [Hr ->]; [|done].
  pose proof (shutdown_ok w3 (proj1 (reachable_steady w1 w3 Hh Hr))) as Hs. unfold bind.
  destruct (server_shutdown w3) as [[? w4]|]; [|done].
  cbn. destruct Hs as (? & _). auto.
Qed.
End Main.

Definition demo_main_boot : world :=
  boot_net demo_config ∅ [7] [(7, chunk ["S stream to=localhost"])] [[1]; [0; 1]; [0; 4]].

Definition demo_signals : list bool := [false; false; false; true].

Definition demo_main : M (option Z) := main (fun _ => true) [OptDomain "localhost"] demo_signals.

(** A client connects, opens a stream and is answered; then SIGTERM arrives. *)
Lemma main_ends_on_signal_witness :
  demo_main demo_main_boot = Ok (Some 0, run demo_main demo_main_boot) /\
  w_heap (run demo_main demo_main_boot) = ∅.
Proof.
  assert (demo_main demo_main_boot = Ok (Some 0, run demo_main demo_main_boot)) as E
    by (apply run_outcome; vm_compute; reflexivity).
  split; [exact E|].
  assert (true ∈ demo_signals) as Hs by (unfold demo_signals; do 3 right; left).
  assert (w_heap demo_main_boot = ∅) as Hh by reflexivity.
  generalize (main_ends_on_signal (fun _ => true) [OptDomain "localhost"] demo_signals
                demo_main_boot Hh Hs).
  change (main (fun _ => true) [OptDomain "localhost"] demo_signals) with demo_main.
  rewrite E. intros [_ H]. exact H.
Defined.
