(* ===== verification/Output.v ===== *)
(** The write buffer as a queue: what [session_write] and [session_flush] do
    to it and to the poll set. *)

From stdpp Require Import gmap.
From S2P Require Import Prelude Util Dom World Concrete SessionIo Inv Teardown Rounds Demo.
Open Scope Z_scope.

Section Output.
Context {LX : LibXml} {PX : Posix} {RC : Recovery} {RA : Reallocates PX}.

(** The session after a write; only its buffer and the room for it change. *)
Definition written (x : session) (data : string) (cap : nat) : session :=
  set_write_buf (s_write_buf x ++ data) (set_write_cap cap x).

(** What does not change when a session is written to. *)
Record same_rest (w w' : world) : Prop := {
  sr_fs : w_fs w' = w_fs w;
  sr_os : w_os w' = w_os w;
  sr_net : w_net w' = w_net w;
  sr_config : w_config w' = w_config w;
  sr_sessions : w_sessions w' = w_sessions w;
  sr_nfds : w_nfds w' = w_nfds w
}.

Lemma same_rest_refl w : same_rest w w.
Proof. done. Qed.

Lemma same_rest_trans w w1 w2 : same_rest w w1 -> same_rest w1 w2 -> same_rest w w2.
Proof. intros [] []. constructor; congruence. Qed.

Lemma session_write_spec s data x w :
  w_heap w !! s = Some x ->
  match session_write s data w with
  | Ok (_, w') => exists cap, w_heap w' = <[s := written x data cap]> (w_heap w) /\
                              same_rest w w'
  | Fault _ => False
  end.
Proof.
  intros Hx. unfold session_write. destruct (str_empty data) eqn:Ed.
  { apply str_empty_true in Ed as ->. exists (s_write_cap x). split; [|done].
    unfold written. rewrite str_app_nil_r. rewrite insert_id; [done|].
    rewrite Hx. by destruct x. }
  erewrite bind_ok by (unfold deref; by rewrite Hx).
  destruct (s_write_cap x <? _)%nat.
  - cbv zeta. rewrite realloc_granted. cbn [negb].
    rewrite bind_ok with (a := true)
      (w' := set_heap (<[s := set_write_cap (grown_cap (s_write_cap x)
                (String.length (s_write_buf x) + String.length data)) x]> (w_heap w)) w)
      by (unfold bind, upd; by rewrite Hx).
    erewrite bind_ok by (unfold upd; cbn [w_heap set_heap]; by rewrite lookup_insert_eq).
    erewrite bind_ok by (unfold deref; cbn [w_heap set_heap]; by rewrite lookup_insert_eq).
    destruct (server_get_pollfd _); eexists; (split; [cbn; by rewrite insert_insert_eq|done]).
  - rewrite bind_ok with (a := true) (w' := w) by done.
    erewrite bind_ok by (unfold upd; by rewrite Hx).
    erewrite bind_ok by (unfold deref; cbn [w_heap set_heap]; by rewrite lookup_insert_eq).
    destruct (server_get_pollfd _); (exists (s_write_cap x);
      split; [unfold written; by destruct x|done]).
Qed.

(** The write buffer is a queue that grows: the data goes
    behind what is waiting, the capacity stays while the data fits and is
    otherwise doubled or made to fit, whichever is more, and the entry of
    the session asks for POLLOUT from then on. *)
Theorem write_enqueues s data x w :
  wf w -> w_heap w !! s = Some x -> data <> "" ->
  exists w' y p, session_write s data w = Ok (tt, w') /\ wf w' /\
    w_heap w' !! s = Some y /\ s_write_buf y = s_write_buf x ++ data /\
    (let need := (String.length (s_write_buf x) + String.length data)%nat in
     s_write_cap y = if (need <=? s_write_cap x)%nat then s_write_cap x
                     else Nat.max (2 * s_write_cap x) need) /\
    w_pollfds w' !! s_poll_index x = Some p /\ Z.testbit (pfd_events p) 2 = true.
Proof.
  intros Hwf Hx Hd. pose proof (wf_index _ _ _ Hwf Hx) as Hi.
  assert (str_empty data = false) as Hne by (by destruct data).
  pose proof (quiet_session_write w s data ltac:(by exists x) w (inside_refl _ Hwf)) as Hq.
  rewrite (session_write_eq w s x) in Hq |- * by (done || lia).
  destruct Hq as [[Hwf' _] _].
  destruct (wf_heap _ Hwf _ _ Hx) as (_ & _ & p & Hp & _).
  eexists _, _, (pfd_or POLLOUT p). split; [done|]. split; [done|].
  unfold set_entry, queued in *.
  cbn [w_heap w_pollfds set_pollfds set_heap]. rewrite lookup_insert_eq.
  split; [done|]. split; [done|]. cbn [s_poll_index set_write_buf s_write_cap]. cbv zeta.
  unfold grown_cap. split.
  - destruct (Nat.ltb_spec (s_write_cap x) (String.length (s_write_buf x) + String.length data)),
      (Nat.leb_spec (String.length (s_write_buf x) + String.length data) (s_write_cap x));
      cbn [s_write_cap set_write_buf set_write_cap]; try done; try lia.
    destruct (Nat.ltb_spec (s_write_cap x * 2) (String.length (s_write_buf x) + String.length data));
      lia.
  - destruct (_ <? _)%nat; cbn [s_poll_index set_write_buf set_write_cap];
      rewrite list_lookup_alter_eq, Hp; (split; [done|]); apply testbit_lor_pollout.
Qed.

(** The state after a flush of which the kernel took [k] bytes. *)
Lemma flush_takes s x w net k :
  wf w -> w_heap w !! s = Some x -> s_write_buf x <> "" ->
  net_write (w_net w) (s_fd x) (s_write_buf x) = (net, WOk k) ->
  exists w', session_flush s w = Ok (0, w') /\ wf w' /\ w_heap w' !! s = Some (drained k x) /\
    w_net w' = net.
Proof.
  intros Hwf Hx Hd Hn. pose proof (wf_index _ _ _ Hwf Hx) as Hi.
  assert (str_empty (s_write_buf x) = false) as Hne by (by destruct (s_write_buf x)).
  pose proof (quiet_session_flush w s ltac:(by exists x) w (inside_refl _ Hwf)) as Hq.
  rewrite (session_flush_eq w s x), Hne, Hn in Hq |- * by (done || lia). cbv zeta in *.
  destruct Hq as [[Hwf' _] _]. eexists. split; [done|]. split; [done|].
  split; [cbn; by rewrite lookup_insert_eq|done].
Qed.

(** A flush loses and duplicates nothing: what the kernel took is a
    prefix of the queue, the rest is still queued in order, and POLLOUT stays
    asked for exactly when something is left. *)
Theorem flush_keeps_order s x w net k :
  wf w -> w_heap w !! s = Some x -> s_write_buf x <> "" ->
  net_write (w_net w) (s_fd x) (s_write_buf x) = (net, WOk k) ->
  exists w' y p, session_flush s w = Ok (0, w') /\ wf w' /\ w_heap w' !! s = Some y /\
    s_write_buf x = str_take k (s_write_buf x) ++ s_write_buf y /\
    (String.length (s_write_buf y) = String.length (s_write_buf x) - k)%nat /\
    w_pollfds w' !! s_poll_index x = Some p /\
    Z.testbit (pfd_events p) 2 = negb (str_empty (s_write_buf y)).
Proof.
  intros Hwf Hx Hd Hn. destruct (flush_takes s x w net k) as (w' & E & Hwf' & Hx' & _); [done..|].
  destruct (wf_heap _ Hwf' _ _ Hx') as (_ & _ & p & Hp & [_ He]).
  exists w', (drained k x), p. split_and!; try done.
  - symmetry. apply str_take_drop.
  - apply str_drop_length.
Qed.

(** Flush after flush. *)
Fixpoint flush_times (n : nat) (s : sid) : M unit :=
  match n with
  | O => ret tt
  | S n' => session_flush s ;; flush_times n' s
  end.

(** What the kernel takes in a row of writes that offer it [data], then what
    is left, and so on, until nothing is. *)
Inductive sends (fd : Z) : net_t -> string -> string -> net_t -> Prop :=
  | sends_done n : sends fd n "" "" n
  | sends_some n data n1 k sent n2 :
      data <> "" -> net_write n fd data = (n1, WOk k) -> sends fd n1 (str_drop k data) sent n2 ->
      sends fd n data (str_take k data ++ sent) n2.

Lemma flush_empty s x w : w_heap w !! s = Some x -> s_write_buf x = "" -> session_flush s w = Ok (0, w).
Proof. intros Hx He. unfold session_flush, bind, deref. by rewrite Hx, He. Qed.

(** C26. The queue drains.  As long as every write takes a byte at least, as many
    flushes as there are bytes leave the queue empty; what was sent is the
    queue, in order, each byte once; and POLLOUT is no longer asked for. *)
Theorem output_drains n : forall s x w,
  wf w -> w_heap w !! s = Some x -> (String.length (s_write_buf x) <= n)%nat ->
  (forall net data, data <> "" ->
    exists net' k, net_write net (s_fd x) data = (net', WOk (S k))) ->
  match flush_times n s w with
  | Ok (_, w') => exists y p, w_heap w' !! s = Some y /\ s_write_buf y = "" /\
      sends (s_fd x) (w_net w) (s_write_buf x) (s_write_buf x) (w_net w') /\
      w_pollfds w' !! s_poll_index x = Some p /\ Z.testbit (pfd_events p) 2 = false
  | Fault _ => False
  end.
Proof.
  induction n as [|n IH]; intros s x w Hwf Hx Hn Htakes; cbn [flush_times].
  all: destruct (wf_heap _ Hwf _ _ Hx) as (_ & _ & p & Hp & [_ Hev]).
  all: destruct (decide (s_write_buf x = "")) as [He|Hne].
  - exists x, p. rewrite He in *. split_and!; try done. constructor.
  - destruct (s_write_buf x); [done|cbn in Hn; lia].
  - rewrite (bind_ok _ _ _ _ _ (flush_empty s x w Hx He)).
    apply IH; try done. rewrite He. cbn. lia.
  - destruct (Htakes (w_net w) _ Hne) as (net & k & Hk).
    destruct (flush_takes s x w net (S k) Hwf Hx Hne Hk) as (w1 & E & Hwf1 & Hx1 & Hnet).
    rewrite (bind_ok _ _ _ _ _ E).
    specialize (IH s (drained (S k) x) w1 Hwf1 Hx1). cbn [drained s_fd s_write_buf s_poll_index set_write_buf] in IH.
    rewrite str_drop_length in IH. specialize (IH ltac:(lia) Htakes).
    destruct (flush_times n s w1) as [[? w2]|]; [|done]. destruct IH as (y & p2 & Hy & Hb & Hs & Hp2 & Ht).
    exists y, p2. split_and!; [done|done| |done|done]. rewrite Hnet in Hs.
    rewrite <- (str_take_drop (S k) (s_write_buf x)) at 2. by eapply sends_some.
Qed.
End Output.

Lemma write_enqueues_witness :
  exists w', session_write 0%nat "<presence/>" demo_open = Ok (tt, w') /\ wf w'.
Proof.
  destruct (write_enqueues 0%nat "<presence/>" (sess_at 0 demo_open) demo_open)
    as (w' & y & p & E & Hwf & _).
  - apply demo_wf.
  - apply sess_at_some. vm_compute. reflexivity.
  - discriminate.
  - exists w'. split; [exact E|exact Hwf].
Defined.

Lemma flush_keeps_order_witness : exists w', session_flush 0%nat demo_open = Ok (0, w') /\ wf w'.
Proof.
  destruct (flush_keeps_order 0%nat (sess_at 0 demo_open) demo_open
    (fst (net_write (w_net demo_open) 7 (s_write_buf (sess_at 0 demo_open))))
    (String.length (s_write_buf (sess_at 0 demo_open)))) as (w' & y & p & E & Hwf & _).
  - apply demo_wf.
  - apply sess_at_some. vm_compute. reflexivity.
  - intros H. apply (f_equal str_empty) in H. vm_compute in H. discriminate H.
  - vm_compute. reflexivity.
  - exists w'. split; [exact E|exact Hwf].
Defined.

Lemma output_drains_witness :
  match flush_times (String.length (s_write_buf (sess_at 0 demo_open))) 0%nat demo_open with
  | Ok (_, w') => exists y p, w_heap w' !! 0%nat = Some y /\ s_write_buf y = "" /\
      sends (s_fd (sess_at 0 demo_open)) (w_net demo_open) (s_write_buf (sess_at 0 demo_open))
        (s_write_buf (sess_at 0 demo_open)) (w_net w') /\
      w_pollfds w' !! s_poll_index (sess_at 0 demo_open) = Some p /\
      Z.testbit (pfd_events p) 2 = false
  | Fault _ => False
  end.
Proof.
  apply (output_drains (String.length (s_write_buf (sess_at 0 demo_open))) 0%nat (sess_at 0 demo_open)).
  - apply demo_wf.
  - apply sess_at_some. vm_compute. reflexivity.
  - apply Nat.le_refl.
  - intros net data Hd. destruct data as [|c data]; [done|]. eexists _, _. reflexivity.
Defined.
