(* ===== verification/Silent.v ===== *)
(** Computations that change nothing but output queues: sending stanzas,
    looking sessions up, pushing roster items.  The effect of a handler is
    then the effect of its other steps. *)

From stdpp Require Import gmap.
From S2P Require Import Prelude Util Dom World SessionIo Inv Roster Output.
Open Scope Z_scope.

Section Silent.
Context {LX : LibXml} {PX : Posix} {RC : Recovery} {RA : Reallocates PX}.

(** A session to which data was written, any number of times. *)
Definition wrote (x y : session) : Prop := exists d cap, y = written x d cap.

(** Every session of [w] is in [w'], with nothing but its output changed. *)
Record output_only (w w' : world) : Prop := {
  oo_fs : w_fs w' = w_fs w;
  oo_config : w_config w' = w_config w;
  oo_sessions : w_sessions w' = w_sessions w;
  oo_nfds : w_nfds w' = w_nfds w;
  oo_heap s x : w_heap w !! s = Some x -> exists y, w_heap w' !! s = Some y /\ wrote x y
}.

Lemma wrote_refl x : wrote x x.
Proof.
  exists "", (s_write_cap x). unfold written. rewrite str_app_nil_r. by destruct x.
Qed.

Lemma wrote_trans x y z : wrote x y -> wrote y z -> wrote x z.
Proof.
  intros (d & c & ->) (d' & c' & ->). exists (d ++ d'), c'. unfold written. cbn.
  by rewrite str_app_assoc.
Qed.

Lemma output_only_refl w : output_only w w.
Proof. constructor; eauto using wrote_refl. Qed.

Lemma output_only_trans w w1 w2 :
  output_only w w1 -> output_only w1 w2 -> output_only w w2.
Proof.
  intros [H1 H2 H3 H4 H5] [I1 I2 I3 I4 I5]. constructor; try congruence.
  intros s x (y & Hy & Hxy)%H5. destruct (I5 _ _ Hy) as (z & Hz & Hyz).
  eauto using wrote_trans.
Qed.

(** Whatever state it starts in. *)
Definition silent {A} (m : M A) : Prop :=
  forall w a w', m w = Ok (a, w') -> output_only w w'.

Lemma silent_ret {A} (a : A) : silent (ret a).
Proof. intros w b w' [= <- <-]. apply output_only_refl. Qed.

Lemma silent_bind {A B} (m : M A) (k : A -> M B) :
  silent m -> (forall a, silent (k a)) -> silent (bind m k).
Proof.
  intros Hm Hk w b w'. unfold bind. destruct (m w) as [[a w1]|] eqn:E; [|done].
  intros H. eapply output_only_trans; [by eapply Hm|by eapply Hk].
Qed.

Lemma silent_raise {A} f : silent (raise (A := A) f).
Proof. done. Qed.

Lemma silent_lift {A} (r : res A) : silent (lift r).
Proof. intros w a w'. unfold lift. destruct r; [|done]. intros [= <- <-]. apply output_only_refl. Qed.

Lemma silent_for_each {A} (l : list A) (body : A -> M unit) :
  (forall x, silent (body x)) -> silent (for_each l body).
Proof.
  intros H. induction l; simpl; [apply silent_ret|]. apply silent_bind; [apply H|done].
Qed.

Lemma silent_get : silent get.
Proof. intros w a w' [= <- <-]. apply output_only_refl. Qed.

Lemma silent_get_fs : silent get_fs.
Proof. intros w a w' [= <- <-]. apply output_only_refl. Qed.

Lemma silent_config : silent g_config.
Proof. intros w a w' [= <- <-]. apply output_only_refl. Qed.

Lemma silent_deref s : silent (deref s).
Proof.
  intros w a w'. unfold deref. destruct (w_heap w !! s); [|done].
  intros [= <- <-]. apply output_only_refl.
Qed.

Lemma silent_do_os {A} (f : os_t -> os_t * A) : silent (do_os f).
Proof.
  intros w a w'. unfold do_os. destruct (f (w_os w)). intros [= <- <-].
  constructor; try done. intros s x. eauto using wrote_refl.
Qed.

Lemma silent_session_write s data : silent (session_write s data).
Proof.
  intros w a w' H. destruct (w_heap w !! s) as [x|] eqn:Hx.
  - pose proof (session_write_spec s data x w Hx) as Hs. rewrite H in Hs.
    destruct Hs as (cap & Hh & []). constructor; try done. intros t y Hy. rewrite Hh.
    destruct (decide (s = t)) as [->|].
    + rewrite lookup_insert_eq. simplify_eq. eexists. split; [done|]. by eexists _, _.
    + rewrite lookup_insert_ne by done. eauto using wrote_refl.
  - unfold session_write in H. destruct (str_empty data).
    + inv H. apply output_only_refl.
    + unfold bind at 1, deref in H. by rewrite Hx in H.
Qed.
End Silent.

Create HintDb silent.
#[export] Hint Resolve silent_ret silent_raise silent_lift silent_get silent_get_fs
  silent_config silent_deref silent_do_os silent_session_write : silent.

Ltac silent_go :=
  cbv zeta;
  lazymatch goal with
  | |- silent (bind _ _) => apply silent_bind; [silent_go|intros ?; silent_go]
  | |- silent (for_each _ _) => apply silent_for_each; intros ?; silent_go
  | |- silent (match ?x with _ => _ end) => destruct x; silent_go
  | |- _ => eauto with silent
  end.

Section Silent_ops.
Context {LX : LibXml} {PX : Posix} {RC : Recovery} {RA : Reallocates PX}.

Lemma silent_stanza_send s n : silent (stanza_send s n).
Proof. unfold stanza_send. silent_go. Qed.

Lemma silent_find_loop l bare : silent (find_by_jid_loop l bare).
Proof. induction l as [|[t|] l IH]; simpl; [silent_go|silent_go|done]. Qed.

Lemma silent_session_find bare : silent (session_find_by_jid bare).
Proof. pose proof silent_find_loop. unfold session_find_by_jid. silent_go. Qed.

Lemma silent_parse s : silent (parse_ignoring_rc s).
Proof. unfold parse_ignoring_rc. silent_go. Qed.
End Silent_ops.

#[export] Hint Resolve silent_stanza_send silent_session_find silent_parse : silent.

Section Silent_more.
Context {LX : LibXml} {PX : Posix} {RC : Recovery} {RA : Reallocates PX}.

Lemma silent_stanza_send_error s n t c : silent (stanza_send_error s n t c).
Proof. unfold stanza_send_error. silent_go. Qed.

Lemma silent_roster_push s it : silent (roster_push s it).
Proof. unfold roster_push, xml_own_ns. silent_go. Qed.
End Silent_more.

#[export] Hint Resolve silent_stanza_send_error silent_roster_push : silent.

(** ** Sending does not fail

    [delivers w0 m R]: run when nothing but output happened since [w0], [m]
    ends, without a fault, having done nothing but output. *)

Section Delivers.
Context {LX : LibXml} {PX : Posix} {RC : Recovery} {RA : Reallocates PX}.

Definition delivers {A} (w0 : world) (m : M A) (R : A -> Prop) : Prop :=
  triple (fun _ => False) (output_only w0) m (fun a w => output_only w0 w /\ R a).

Lemma delivers_ret {A} w0 (a : A) (R : A -> Prop) : R a -> delivers w0 (ret a) R.
Proof. intros HR. by apply triple_ret. Qed.

Lemma delivers_bind {A B} w0 (m : M A) (k : A -> M B) R Q :
  delivers w0 m R -> (forall a, R a -> delivers w0 (k a) Q) -> delivers w0 (bind m k) Q.
Proof.
  intros Hm Hk. eapply triple_bind; [exact Hm|]. intros a w [Hw Ha]. by apply Hk.
Qed.

Lemma delivers_deref w0 s x : w_heap w0 !! s = Some x -> delivers w0 (deref s) (wrote x).
Proof.
  intros Hx w Hw. unfold deref. by destruct (oo_heap _ _ Hw _ _ Hx) as (y & -> & Hy).
Qed.

Lemma delivers_do_os {A} w0 (f : os_t -> os_t * A) : delivers w0 (do_os f) (fun _ => True).
Proof.
  intros w Hw. pose proof (silent_do_os f w) as H. unfold do_os in *. destruct (f (w_os w)).
  split; [|done]. eapply output_only_trans; [exact Hw|by eapply H].
Qed.

Lemma delivers_stanza_send w0 s x n :
  w_heap w0 !! s = Some x -> delivers w0 (stanza_send s n) (fun _ => True).
Proof.
  intros Hx w Hw. pose proof (silent_stanza_send s n w) as H. revert H. unfold stanza_send.
  destruct (stanza_serialize n) as [d|]; [|done]. intros H.
  destruct (oo_heap _ _ Hw _ _ Hx) as (y & Hy & _).
  pose proof (session_write_spec s d y w Hy) as Hs.
  destruct (session_write s d w) as [[[] w']|]; [|done]. split; [|done].
  eapply output_only_trans; [exact Hw|by eapply H].
Qed.

Lemma delivers_roster_push w0 s x it :
  w_heap w0 !! s = Some x -> delivers w0 (roster_push s (Some it)) (fun _ => True).
Proof.
  intros Hx. unfold roster_push. eapply delivers_bind; [apply delivers_do_os|]. intros b _.
  eapply delivers_bind; [by eapply delivers_deref|]. intros y _. cbv zeta.
  destruct (xml_own_ns _ _). by eapply delivers_stanza_send.
Qed.

(** From the state it starts in. *)
Lemma delivers_run {A} w (m : M A) R :
  delivers w m R -> exists a w', m w = Ok (a, w') /\ output_only w w' /\ R a.
Proof.
  intros H. specialize (H w (output_only_refl w)). destruct (m w) as [[a w']|]; [|done]. eauto.
Qed.
End Delivers.

(** ** Saving *)

Section Saving.
Context {LX : LibXml} {PX : Posix}.

(** The file system once a session's roster was written to its file, whether
    that went well or not. *)
Definition fs_saved (cfg : config_t) (fs : fs_t) (user : string) (r : roster) : fs_t :=
  fst (fs_write fs (roster_path cfg user) (xmlDumpDoc (roster_doc r))).

Lemma roster_save_eq s x w :
  w_heap w !! s = Some x ->
  exists rc, roster_save s w =
    Ok (rc, set_fs (fs_saved (w_config w) (w_fs w) (s_jid_local x) (s_roster x)) w).
Proof.
  intros Hx. unfold roster_save, bind at 1, deref. rewrite Hx.
  unfold bind, g_config, roster_save_to_path, bind, do_fs, ret, fs_saved.
  destruct (fs_write _ _ _) as [fs ok]. by eexists.
Qed.

Lemma wrote_roster x y : wrote x y -> s_roster y = s_roster x /\ s_jid_local y = s_jid_local x /\
  s_jid_domain y = s_jid_domain x.
Proof. by intros (d & c & ->). Qed.
End Saving.
