(* ===== verification/Offline.v ===== *)
(** The offline store: the order in which files are delivered, the number a
    new one gets, and what storing and delivering do. *)

From Stdlib Require Import Sorting.Sorted Structures.OrdersEx.
From stdpp Require Import gmap pretty sorting.
From S2P Require Import Prelude CLib Util Dom World Concrete SessionIo Inv User Message Rounds.
From S2P Require Import Demo Output Silent.
Open Scope Z_scope.

(** ** The sort *)

Definition str_le (x y : string) : Prop := str_gt x y = false.
Definition str_lt (x y : string) : Prop := str_gt y x = true.

Lemma compare_agrees x y : String.compare x y = String_as_OT.compare x y.
Proof. revert y. induction x as [|c x IH]; intros [|d y]; simpl; [done..|]. by rewrite IH. Qed.

Lemma str_lt_trans x y z : str_lt x y -> str_lt y z -> str_lt x z.
Proof.
  unfold str_lt, str_gt, String.ltb.
  rewrite (compare_agrees x y), (compare_agrees y z), (compare_agrees x z).
  destruct (String_as_OT.compare x y) eqn:E1, (String_as_OT.compare y z) eqn:E2;
    simpl; intros ? ?; try discriminate. pose proof (String_as_OT.lt_strorder) as [_ Ht].
  by rewrite (Ht x y z E1 E2).
Qed.

Lemma str_le_lt_eq x y : str_le x y <-> str_lt x y \/ x = y.
Proof.
  unfold str_le, str_lt, str_gt, String.ltb. rewrite (String.compare_antisym y x).
  destruct (String.compare x y) eqn:E; simpl.
  - apply String.compare_eq_iff in E as ->. tauto.
  - tauto.
  - split; [done|]. intros [?| ->]; [done|].
    assert (String.compare y y = Eq) as E' by (rewrite compare_agrees;
      destruct (String_as_OT.compare_spec y y) as [|H|H]; [done|..];
      by destruct (StrictOrder_Irreflexive y H)).
    congruence.
Qed.

Lemma str_le_trans x y z : str_le x y -> str_le y z -> str_le x z.
Proof.
  rewrite !str_le_lt_eq. intros [H1| ->] [H2| ->]; auto. left. by eapply str_lt_trans.
Qed.

Lemma str_lt_irrefl x : ~ str_lt x x.
Proof.
  intros H. assert (str_le x x) as Hr by (apply str_le_lt_eq; auto).
  unfold str_lt, str_le in *. congruence.
Qed.

Lemma str_gt_le x y : str_gt x y = true -> str_le y x.
Proof. intros H. apply str_le_lt_eq. by left. Qed.

Lemma sort_inner_spec l : forall x m r,
  sort_inner x l = (m, r) ->
  Permutation (m :: r) (x :: l) /\ str_le m x /\ Forall (str_le m) r /\ List.length r = List.length l.
Proof.
  induction l as [|y l IH]; intros x m r H; simpl in H.
  - inv H. split_and!; [done|by apply str_le_lt_eq; auto|done|done].
  - destruct (str_gt x y) eqn:E.
    + destruct (sort_inner y l) as [m' r'] eqn:Es. inv H.
      destruct (IH _ _ _ Es) as (Hp & Hm & Hr & Hlen). apply str_gt_le in E.
      split_and!; [|by eapply str_le_trans|constructor; [by eapply str_le_trans|done]|simpl; congruence].
      etransitivity; [apply perm_swap|]. by apply perm_skip.
    + destruct (sort_inner x l) as [m' r'] eqn:Es. inv H.
      destruct (IH _ _ _ Es) as (Hp & Hm & Hr & Hlen).
      split_and!; [|done|constructor; [by eapply str_le_trans|done]|simpl; congruence].
      etransitivity; [apply perm_swap|]. rewrite Hp. apply perm_swap.
Qed.

Lemma sort_outer_spec n : forall l,
  (List.length l <= S n)%nat ->
  Permutation (sort_outer n l) l /\ StronglySorted str_le (sort_outer n l).
Proof.
  induction n as [|n IH]; intros [|x l] Hl; simpl in *; [split; [done|constructor]| | |].
  - destruct l; [|simpl in Hl; lia]. split; [done|]. repeat constructor.
  - split; [done|constructor].
  - destruct (sort_inner x l) as [m r] eqn:E.
    destruct (sort_inner_spec _ _ _ _ E) as (Hp & _ & Hr & Hlen).
    destruct (IH r) as [Hp' Hs]; [lia|]. split.
    + by rewrite Hp'.
    + constructor; [done|]. by rewrite Hp'.
Qed.

Lemma sort_names_spec l : Permutation (sort_names l) l /\ StronglySorted str_le (sort_names l).
Proof. apply sort_outer_spec. lia. Qed.


Lemma atoi_offline_name k : 0 <= k < 2 ^ 31 -> atoi (offline_name k) = k.
Proof. intros Hk. apply atoi_fmt; [done|]. by intros c t' [= <- _]. Qed.

Lemma offline_name_not_dot k : 0 <= k -> is_dot_name (offline_name k) = false.
Proof.
  intros Hk. unfold offline_name. destruct (fmt_head 4 k Hk) as (c & s & -> & Hc).
  by destruct (digit_not_sign c Hc) as (_ & _ & ?).
Qed.

Lemma max_seq_ge names : forall m,
  m <= max_seq_loop names m /\
  forall n, n ∈ names -> is_dot_name n = false -> atoi n <= max_seq_loop names m.
Proof.
  induction names as [|n names IH]; intros m; cbn [max_seq_loop].
  - split; [lia|]. intros n Hn. by apply not_elem_of_nil in Hn.
  - destruct (is_dot_name n) eqn:Ed.
    + destruct (IH m) as [H1 H2]. split; [done|]. intros n' Hn' Hd.
      apply elem_of_cons in Hn' as [->|Hn']; [congruence|auto].
    + cbv zeta. destruct (IH (if m <? atoi n then atoi n else m)) as [H1 H2].
      destruct (Z.ltb_spec m (atoi n)).
      * split; [lia|]. intros n' Hn' Hd.
        apply elem_of_cons in Hn' as [->|Hn']; [lia|auto].
      * split; [lia|]. intros n' Hn' Hd.
        apply elem_of_cons in Hn' as [->|Hn']; [lia|auto].
Qed.

(** Consecutive names of four digits are in order. *)
Definition names_ascend (n : nat) : bool :=
  forallb (fun i => str_gt (offline_name (Z.of_nat (S i))) (offline_name (Z.of_nat i)))
    (seq 0 n).

Lemma names_ascend_9999 : names_ascend (Z.to_nat 9999) = true.
Proof. vm_compute. reflexivity. Qed.

Lemma offline_names_lt a b : 0 <= a -> a < b -> b <= 9999 -> str_lt (offline_name a) (offline_name b).
Proof.
  intros Ha Hab Hb. pose proof names_ascend_9999 as H. unfold names_ascend in H.
  rewrite forallb_forall in H.
  replace b with (a + Z.of_nat (S (Z.to_nat (b - a - 1)))) in * by lia.
  generalize dependent (Z.to_nat (b - a - 1)). intros d Hab Hb.
  assert (forall k, 0 <= k < 9999 -> str_lt (offline_name k) (offline_name (k + 1))) as Hstep.
  { intros k Hk. specialize (H (Z.to_nat k)). rewrite in_seq in H.
    rewrite Z2Nat.id in H by lia. replace (k + 1) with (Z.of_nat (S (Z.to_nat k))) by lia.
    apply H. lia. }
  clear H Hab. induction d as [|d IH].
  - apply Hstep. lia.
  - apply (str_lt_trans _ (offline_name (a + Z.of_nat (S d)))); [apply IH; lia|].
    replace (a + Z.of_nat (S (S d))) with (a + Z.of_nat (S d) + 1) by lia. apply Hstep. lia.
Qed.

Lemma offline_name_length k : 0 <= k < 2 ^ 31 -> (String.length (offline_name k) <= 20)%nat.
Proof.
  intros Hk. unfold offline_name, fmt_0d. rewrite (proj2 (Z.ltb_ge _ _)) by lia.
  pose proof (dec_length k Hk).
  assert (forall n, String.length (str_rep n "0") = n) as Hrep by (induction n; simpl; congruence).
  unfold pad0. rewrite !str_length_app, Hrep. cbn [String.length]. lia.
Qed.

(** ** Storing *)

Section Store.
Context {LX : LibXml} {PX : Posix} {RC : Recovery} {RA : Reallocates PX} {PL : PosixLaws PX} {ID : IdealDisk PX}.

(** The number a message stored now gets. *)
Definition next_seq (names : list string) : Z := max_seq_loop names 0 + 1.

Lemma next_name_fresh names :
  next_seq names < 2 ^ 31 -> offline_name (next_seq names) ∉ names.
Proof.
  intros Hlt Hin. destruct (max_seq_ge names 0) as [H0 H]. unfold next_seq in *.
  specialize (H _ Hin). rewrite atoi_offline_name in H by lia.
  rewrite offline_name_not_dot in H by lia. specialize (H eq_refl). lia.
Qed.

Lemma store_offline_eq u n w names :
  let dir := offline_dir (w_config w) u in
  let fs := fst (fs_mkdir (w_fs w) dir) in
  fs_readdir fs dir = Some names ->
  exists os t,
    message_store_offline u n w =
    Ok (tt, set_os os (set_fs
      match stanza_serialize (add_delay (w_config w) n t) with
      | None => fs
      | Some xml =>
          fst (fs_write fs (snprintf 1536 (dir ++ "/" ++
                 offline_name (int_wrap (next_seq names)))) xml)
      end w)).
Proof.
  intros dir fs Hr. unfold message_store_offline, bind at 1, g_config. cbv zeta. fold dir.
  unfold bind at 1, do_fs. destruct (fs_mkdir (w_fs w) dir) as [f ok] eqn:E. cbn [fst] in fs.
  subst fs. unfold bind at 1, get_fs. cbn [w_fs set_fs]. rewrite Hr.
  unfold bind at 1, do_os. cbn [w_os set_fs].
  destruct (os_gmtime (w_os w)) as [os t]. exists os, t.
  destruct (stanza_serialize _) as [xml|]; [|done].
  unfold bind, do_fs, ret. cbn [w_fs set_fs set_os].
  by destruct (fs_write _ _ xml) as [f' ok'].
Qed.

(** What an offline directory holds under a name. *)
Definition offline_file (fs : fs_t) (dir name : string) : option string :=
  fs_read fs (dir ++ "/" ++ name).

Lemma offline_path_fits cfg u k :
  0 <= k < 2 ^ 31 ->
  snprintf 1536 (offline_dir cfg u ++ "/" ++ offline_name k) =
  offline_dir cfg u ++ "/" ++ offline_name k.
Proof.
  intros Hk. pose proof (offline_name_length k Hk).
  assert (String.length (offline_dir cfg u) <= Z.to_nat 1279)%nat as Hd.
  { unfold offline_dir, snprintf. rewrite str_take_length.
    change (1280 - 1)%nat with (Z.to_nat 1279). apply Nat.le_min_l. }
  change 1536%nat with (Z.to_nat 1536). apply snprintf_fits. str_len.
Qed.

(** C25. Storing a message never touches the messages that are waiting: the
    new file's number is above every number in the directory, so each file
    that was there reads as before, and the new one, if it could be written,
    holds the stanza with its delay element.  The next number is below 2^31,
    and different paths are different files. *)
Theorem store_keeps_waiting u n w names :
  let dir := offline_dir (w_config w) u in
  fs_readdir (fst (fs_mkdir (w_fs w) dir)) dir = Some names -> next_seq names < 2 ^ 31 ->
  exists t w', message_store_offline u n w = Ok (tt, w') /\
    (forall name, name ∈ names ->
       offline_file (w_fs w') dir name = offline_file (w_fs w) dir name) /\
    forall xml, stanza_serialize (add_delay (w_config w) n t) = Some xml ->
      snd (fs_write (fst (fs_mkdir (w_fs w) dir))
             (dir ++ "/" ++ offline_name (next_seq names)) xml) = true ->
      offline_file (w_fs w') dir (offline_name (next_seq names)) = Some xml.
Proof.
  intros dir Hr Hlt. destruct (store_offline_eq u n w names Hr) as (os & t & E).
  fold dir in E. assert (1 <= next_seq names) as Hpos.
  { unfold next_seq. destruct (max_seq_ge names 0). lia. }
  rewrite int_wrap_small in E by lia.
  pose proof (offline_path_fits (w_config w) u (next_seq names) ltac:(lia)) as Hpf.
  fold dir in Hpf. rewrite Hpf in E.
  eexists t, _. split; [exact E|]. unfold offline_file. cbn [w_fs set_fs set_os].
  destruct (fs_mkdir (w_fs w) dir) as [f ok] eqn:Em. cbn [fst] in *. split.
  - intros name Hin. rewrite <- (fs_read_mkdir _ _ _ _ (dir ++ "/" ++ name) Em).
    destruct (stanza_serialize _) as [xml|]; [|done].
    destruct (fs_write f _ xml) as [f' ok'] eqn:Ew. cbn [fst].
    apply (fs_read_other _ _ _ _ _ _ Ew). intros Heq%str_app_inj%str_app_inj. subst name.
    by apply (next_name_fresh names Hlt).
  - intros xml -> Hok. destruct (fs_write f _ xml) as [f' ok'] eqn:Ew. cbn [fst snd] in *. subst ok'.
    by apply (fs_read_written _ _ _ _ Ew).
Qed.
End Store.

(** ** Delivering *)

Section Deliver.
Context {LX : LibXml} {PX : Posix} {RC : Recovery} {RA : Reallocates PX} {PL : PosixLaws PX} {ID : IdealDisk PX}.

(** What is sent for a file: its root element; nothing when it cannot be
    parsed or written out. *)
Definition text_of (fs : fs_t) (path : string) : string :=
  match fs_read fs path with
  | Some c =>
      match xmlReadDoc c with
      | Some (Some r) => match stanza_serialize r with Some xml => xml | None => "" end
      | _ => ""
      end
  | None => ""
  end.

Definition file_path (dir name : string) : string := snprintf 1536 (dir ++ "/" ++ name).

Lemma deliver_file_spec s dir name x w :
  w_heap w !! s = Some x ->
  match deliver_file s dir name w with
  | Ok (_, w') => exists cap,
      w_heap w' = <[s := written x (text_of (w_fs w) (file_path dir name)) cap]> (w_heap w) /\
      w_fs w' = fs_unlink (w_fs w) (file_path dir name)
  | Fault _ => False
  end.
Proof.
  intros Hx. unfold deliver_file, text_of. cbv zeta. fold (file_path dir name).
  set (path := file_path dir name).
  unfold bind at 1, get_fs. unfold do_unlink.
  assert (exists cap, w_heap w = <[s := written x "" cap]> (w_heap w)) as Hnothing.
  { exists (s_write_cap x). unfold written. rewrite str_app_nil_r, insert_id; [done|].
    rewrite Hx. by destruct x. }
  destruct (fs_read (w_fs w) path) as [c|]; [|destruct Hnothing as [cap ?]; by exists cap].
  destruct (xmlReadDoc c) as [[r|]|]; [|destruct Hnothing as [cap ?]; by exists cap..].
  unfold stanza_send. destruct (stanza_serialize r) as [xml|];
    [|destruct Hnothing as [cap ?]; by exists cap].
  pose proof (session_write_spec s xml x w Hx) as H. unfold bind.
  destruct (session_write s xml w) as [[? w1]|]; [|done].
  destruct H as (cap & Hh & []). exists cap. cbn [do_fs w_heap w_fs set_fs]. split; [done|].
  congruence.
Qed.

Fixpoint str_concat (l : list string) : string :=
  match l with [] => "" | s :: l' => s ++ str_concat l' end.

Lemma text_of_unlinked fs p q : q <> p -> text_of (fs_unlink fs p) q = text_of fs q.
Proof. intros. unfold text_of. by rewrite fs_read_unlinked. Qed.

Lemma deliver_loop s dir names : forall x w,
  w_heap w !! s = Some x -> NoDup (map (file_path dir) names) ->
  match for_each names (deliver_file s dir) w with
  | Ok (_, w') => exists y, w_heap w' !! s = Some y /\
      s_write_buf y = s_write_buf x ++
        str_concat (map (fun n => text_of (w_fs w) (file_path dir n)) names)
  | Fault _ => False
  end.
Proof.
  induction names as [|n names IH]; intros x w Hx Hnd; cbn [for_each map str_concat].
  { exists x. by rewrite str_app_nil_r. }
  cbn [map] in Hnd. apply NoDup_cons in Hnd as [Hni Hnd].
  pose proof (deliver_file_spec s dir n x w Hx) as H. unfold bind.
  destruct (deliver_file s dir n w) as [[? w1]|]; [|done].
  destruct H as (cap & Hh & Hfs).
  specialize (IH (written x (text_of (w_fs w) (file_path dir n)) cap) w1).
  rewrite Hh, lookup_insert_eq in IH. specialize (IH eq_refl Hnd).
  destruct (for_each names _ w1) as [[? w2]|]; [|done].
  destruct IH as (y & Hy & Hb). exists y. split; [done|]. rewrite Hb, Hfs.
  unfold written. cbn [s_write_buf set_write_buf]. rewrite str_app_assoc. do 3 f_equal.
  apply map_ext_in. intros m Hm. apply text_of_unlinked. intros Heq. apply Hni.
  rewrite <- Heq. apply list_elem_of_fmap. exists m. split; [done|]. by apply list_elem_of_In.
Qed.

Lemma collect_names_spec names : forall k,
  Forall (fun n => String.length n < 64)%nat names -> NoDup names ->
  NoDup (collect_names names k) /\ (forall n, n ∈ collect_names names k -> n ∈ names).
Proof.
  induction names as [|n names IH]; intros k Hl Hnd; cbn [collect_names]; [done|].
  apply Forall_cons in Hl as [Hn Hl]. apply NoDup_cons in Hnd as [Hni Hnd].
  assert (forall k', NoDup (collect_names names k') /\
            (forall m, m ∈ collect_names names k' -> m ∈ n :: names)) as Hskip.
  { intros k'. destruct (IH k' Hl Hnd) as [H1 H2]. split; [done|]. intros m Hm.
    apply elem_of_cons. auto. }
  destruct (256 <=? k)%nat; [split; [constructor|]; intros m Hm; by apply not_elem_of_nil in Hm|].
  destruct (is_dot_name n); [apply Hskip|]. cbv zeta. destruct (_ || _)%bool; [apply Hskip|].
  rewrite snprintf_fits by done. destruct (IH (S k) Hl Hnd) as [H1 H2].
  split; [apply NoDup_cons; auto|]. intros m. rewrite !elem_of_cons. intros [->|?]; auto.
Qed.

End Deliver.

(** ** Order of the names *)

#[local] Instance str_le_dec x y : Decision (str_le x y).
Proof. unfold str_le. apply _. Defined.

#[local] Instance str_le_transitive : Transitive str_le.
Proof. intros x y z. apply str_le_trans. Qed.

#[local] Instance str_le_total : Total str_le.
Proof. intros x y. unfold str_le at 1. destruct (str_gt x y) eqn:E; [right; by apply str_gt_le|by left]. Qed.

#[local] Instance str_le_antisymm : AntiSymm (=) str_le.
Proof.
  intros x y H1 H2. apply str_le_lt_eq in H1 as [H1|]; [|done].
  unfold str_lt in H1. unfold str_le in H2. congruence.
Qed.

(** C23. The exchange sort of [message_deliver_offline] is a sort: it computes the
    same list as merge sort under [strcmp]. *)
Theorem sort_names_merge l : sort_names l = merge_sort str_le l.
Proof.
  apply (StronglySorted_unique str_le); 
    [apply sort_names_spec|apply StronglySorted_merge_sort; apply _|].
  transitivity l; [apply sort_names_spec|symmetry; apply merge_sort_Permutation].
Qed.

(** A permutation of its input, each name at most the ones after it. *)
Theorem sort_names_sorts l : Permutation (sort_names l) l /\ StronglySorted str_le (sort_names l).
Proof. apply sort_names_spec. Qed.

Lemma sorted_offline_names seqs :
  StronglySorted Z.lt seqs -> Forall (fun k => 1 <= k <= 9999) seqs ->
  StronglySorted str_le (map offline_name seqs).
Proof.
  induction 1 as [|k seqs _ IH Hk]; intros Hf; [constructor|].
  apply Forall_cons in Hf as [Hk1 Hf]. simpl. constructor; [by apply IH|].
  apply Forall_map. rewrite Forall_forall in Hk, Hf |- *. intros j Hj.
  apply str_le_lt_eq. left. specialize (Hk j Hj). specialize (Hf j Hj).
  apply offline_names_lt; lia.
Qed.

(** C24. Up to number 9999 the order of delivery is the order of storage:
    whatever order [readdir] yields the files in, the sort puts them in the
    order of their numbers. *)
Theorem delivery_order_is_storage_order seqs l :
  StronglySorted Z.lt seqs -> Forall (fun k => 1 <= k <= 9999) seqs ->
  Permutation l (map offline_name seqs) -> sort_names l = map offline_name seqs.
Proof.
  intros Hs Hf Hp. destruct (sort_names_spec l) as [Hp' Hs'].
  apply (StronglySorted_unique str_le); [done|by apply sorted_offline_names|]. by rewrite Hp'.
Qed.

(** From number 10000 on it is not: the name of message 10000 sorts
    before that of message 9999. *)
Theorem delivery_order_breaks_at_10000 :
  sort_names [offline_name 9999; offline_name 10000] = [offline_name 10000; offline_name 9999].
Proof. vm_compute. reflexivity. Qed.

(** ** Instances *)

Lemma delivery_order_is_storage_order_witness :
  sort_names ["0010.xml"; "0002.xml"; "9999.xml"] = ["0002.xml"; "0010.xml"; "9999.xml"].
Proof.
  apply (delivery_order_is_storage_order [2; 10; 9999]).
  - repeat constructor.
  - repeat constructor; discriminate.
  - apply perm_swap.
Defined.

Definition hello : xnode := XElem "message" None [] [mkAttr None "to" "bob@localhost"]
  [XElem "body" None [] [] [XText "hello"]].

(** Two messages wait for bob. *)
Definition demo_stored : world :=
  run (message_store_offline "bob" hello ;; message_store_offline "bob" hello) users_online.

Definition demo_names : list string :=
  match fs_readdir (fst (fs_mkdir (w_fs demo_stored) "data/bob/offline")) "data/bob/offline" with
  | Some names => names
  | None => []
  end.

Lemma store_keeps_waiting_witness :
  exists w', message_store_offline "bob" hello demo_stored = Ok (tt, w') /\
    offline_file (w_fs w') "data/bob/offline" "0001.xml" =
    offline_file (w_fs demo_stored) "data/bob/offline" "0001.xml".
Proof.
  destruct (store_keeps_waiting "bob" hello demo_stored demo_names
              ltac:(vm_compute; reflexivity) ltac:(vm_compute; reflexivity))
    as (t & w' & E & H & _).
  exists w'. split; [exact E|]. apply H.
  apply (bool_decide_unpack _). vm_compute. exact I.
Defined.

