(* ===== verification/SaxTree.v ===== *)
(** The stanza builder: the callbacks that the parser makes for an element
    build its tree and route it exactly once. *)

From stdpp Require Import gmap.
From S2P Require Import Prelude Util Dom World Concrete SessionIo Inv Session Stanza Xml Rounds.
From S2P Require Import Demo.
Open Scope Z_scope.

(** An element as it stands in the stream. *)
Inductive element :=
  | Element (localname : string) (prefix URI : option string)
      (namespaces : list (option string * string)) (attributes : list sax_attr)
      (contents : list content)
with content :=
  | Text (ch : string)
  | Child (e : element).

(** The callbacks for it, in document order. *)
Fixpoint events_of (e : element) : list sax_event :=
  match e with
  | Element l p u nss ats cs =>
      SaxStart l p u nss ats ::
      (concat (map (fun c => match c with
                             | Text ch => [SaxChars ch]
                             | Child e' => events_of e'
                             end) cs)
       ++ [SaxEnd l p u])%list
  end.

Section Tree.
Context {LX : LibXml} {PX : Posix} {RC : Recovery} {RA : Reallocates PX}.

(** Its tree: the node with its attributes and namespaces, then the contents
    added in order, each child complete. *)
Fixpoint dom_of (e : element) : xnode :=
  match e with
  | Element l p u nss ats cs =>
      fold_left (fun n c => match c with
                            | Text ch => xmlNodeAddContentLen n ch
                            | Child e' => xmlAddChild n (dom_of e')
                            end) cs (build_node l p u nss ats)
  end.

Definition add_content (n : xnode) (c : content) : xnode :=
  match c with
  | Text ch => xmlNodeAddContentLen n ch
  | Child e => xmlAddChild n (dom_of e)
  end.

Definition content_events (c : content) : list sax_event :=
  match c with Text ch => [SaxChars ch] | Child e => events_of e end.

Lemma dom_of_eq l p u nss ats cs :
  dom_of (Element l p u nss ats cs) = fold_left add_content cs (build_node l p u nss ats).
Proof. done. Qed.

Lemma events_of_eq l p u nss ats cs :
  events_of (Element l p u nss ats cs) =
  (SaxStart l p u nss ats :: concat (map content_events cs) ++ [SaxEnd l p u])%list.
Proof. done. Qed.

(** Induction over elements and their contents. *)
Fixpoint element_ind' (P : element -> Prop)
    (H : forall l p u nss ats cs,
       Forall (fun c => match c with Text _ => True | Child e => P e end) cs ->
       P (Element l p u nss ats cs)) (e : element) : P e :=
  match e with
  | Element l p u nss ats cs =>
      H l p u nss ats cs
        ((fix go (cs : list content) :
              Forall (fun c => match c with Text _ => True | Child e => P e end) cs :=
            match cs with
            | [] => Forall_nil_2 _
            | c :: cs' =>
                Forall_cons_2 (fun c => match c with Text _ => True | Child e => P e end) c cs'
                  (match c with Text _ => I | Child e => element_ind' P H e end) (go cs')
            end) cs)
  end.

(** The session with another depth and other open elements. *)
Definition at_depth (d : Z) (open : list xnode) (x : session) : session :=
  set_open open (set_stanza_depth d x).

Definition with_sess (s : sid) (y : session) (w : world) : world :=
  set_heap (<[s := y]> (w_heap w)) w.

Lemma with_sess_lookup s y w : w_heap (with_sess s y w) !! s = Some y.
Proof. apply lookup_insert_eq. Qed.

Lemma with_sess_twice s y z w : with_sess s z (with_sess s y w) = with_sess s z w.
Proof. unfold with_sess. cbn. by rewrite insert_insert_eq. Qed.

Lemma upd_with s f y w : upd s f (with_sess s y w) = Ok (tt, with_sess s (f y) w).
Proof. unfold upd. rewrite with_sess_lookup. f_equal. f_equal. apply with_sess_twice. Qed.

Lemma deref_with s y w : deref s (with_sess s y w) = Ok (y, with_sess s y w).
Proof. unfold deref. by rewrite with_sess_lookup. Qed.

Lemma for_each_app {A} (l1 l2 : list A) (body : A -> M unit) w :
  for_each (l1 ++ l2)%list body w = bind (for_each l1 body) (fun _ => for_each l2 body) w.
Proof.
  revert w. induction l1 as [|a l1 IH]; intros w; simpl; [done|].
  unfold bind at 1 2 3. destruct (body a w) as [[[] w1]|]; [|done]. by rewrite IH.
Qed.

(** Below the stanza's root: the element is added to its parent. *)
Lemma child_events s x w e : forall d n rest,
  2 <= d ->
  for_each (events_of e) (sax_handler s) (with_sess s (at_depth d (n :: rest) x) w) =
  Ok (tt, with_sess s (at_depth d (xmlAddChild n (dom_of e) :: rest) x) w).
Proof.
  induction e as [l p u nss ats cs IH] using element_ind'. intros d n rest Hd.
  rewrite events_of_eq, dom_of_eq. cbn [for_each]. cbn [sax_handler].
  set (b := build_node l p u nss ats).
  assert (on_start_element_ns s l p u nss ats (with_sess s (at_depth d (n :: rest) x) w) =
          Ok (tt, with_sess s (at_depth (d + 1) (b :: n :: rest) x) w)) as Hstart.
  { unfold on_start_element_ns. rewrite (bind_ok _ _ _ _ _ (upd_with _ _ _ _)).
    rewrite (bind_ok _ _ _ _ _ (deref_with _ _ _)). cbn [at_depth s_stanza_depth set_open set_stanza_depth].
    rewrite (proj2 (Z.eqb_neq _ _)), (proj2 (Z.eqb_neq (d + 1) 2)) by lia. by rewrite upd_with. }
  rewrite (bind_ok _ _ _ _ _ Hstart). rewrite for_each_app.
  assert (forall b, for_each (concat (map content_events cs)) (sax_handler s)
            (with_sess s (at_depth (d + 1) (b :: n :: rest) x) w) =
          Ok (tt, with_sess s (at_depth (d + 1) (fold_left add_content cs b :: n :: rest) x) w))
    as Hcs.
  { clear Hstart. clear b. induction IH as [|c cs Hc _ IHcs]; intros b; cbn [map concat fold_left]; [done|].
    rewrite for_each_app.
    rewrite bind_ok with (a := tt) (w' := with_sess s (at_depth (d + 1) (add_content b c :: n :: rest) x) w).
    { apply IHcs. }
    destruct c as [ch|e]; cbn [content_events add_content]; [|apply Hc; lia].
    cbn [for_each sax_handler]. unfold on_characters.
    rewrite bind_ok with (a := tt) (w' := with_sess s (at_depth (d + 1) (xmlNodeAddContentLen b ch :: n :: rest) x) w); [done|].
    rewrite (bind_ok _ _ _ _ _ (deref_with _ _ _)). cbn [at_depth s_stanza_depth set_open set_stanza_depth].
    rewrite (proj2 (Z.leb_le _ _)) by lia. by rewrite upd_with. }
  rewrite (bind_ok _ _ _ _ _ (Hcs b)). cbn [for_each sax_handler].
  unfold on_end_element_ns.
  rewrite bind_ok with (a := tt) (w' := with_sess s (at_depth d (xmlAddChild n (fold_left add_content cs b) :: rest) x) w); [done|].
  rewrite (bind_ok _ _ _ _ _ (upd_with _ _ _ _)).
  rewrite (bind_ok _ _ _ _ _ (deref_with _ _ _)).
  cbn [at_depth s_stanza_depth set_open set_stanza_depth].
  rewrite (proj2 (Z.eqb_neq _ _)), (proj2 (Z.eqb_neq (d + 1 - 1) 1)) by lia.
  rewrite upd_with. do 3 f_equal. unfold at_depth. simpl. by replace (d + 1 - 1) with d by lia.
Qed.

Lemma contents_events s x w cs : forall d n rest,
  2 <= d ->
  for_each (concat (map content_events cs)) (sax_handler s)
    (with_sess s (at_depth d (n :: rest) x) w) =
  Ok (tt, with_sess s (at_depth d (fold_left add_content cs n :: rest) x) w).
Proof.
  induction cs as [|c cs IH]; intros d n rest Hd; cbn [map concat fold_left]; [done|].
  rewrite for_each_app.
  rewrite bind_ok with (a := tt) (w' := with_sess s (at_depth d (add_content n c :: rest) x) w);
    [by apply IH|].
  destruct c as [ch|e]; cbn [content_events add_content]; [|by apply child_events].
  cbn [for_each sax_handler]. unfold on_characters.
  rewrite bind_ok with (a := tt)
    (w' := with_sess s (at_depth d (xmlNodeAddContentLen n ch :: rest) x) w); [done|].
  rewrite (bind_ok _ _ _ _ _ (deref_with _ _ _)).
  cbn [at_depth s_stanza_depth set_open set_stanza_depth].
  rewrite (proj2 (Z.leb_le _ _)) by lia. by rewrite upd_with.
Qed.

(** C6. A stanza is built as it was sent and routed once: the callbacks for
    a whole element at stream level amount to routing the element's tree,
    with its attributes, text and children in document order, and to
    forgetting it. *)
Theorem element_routed_once s x w e :
  w_heap w !! s = Some x -> s_stanza_depth x = 1 ->
  for_each (events_of e) (sax_handler s) w =
  (stanza_route s (dom_of e) ;; upd s (set_open [])) (with_sess s (at_depth 1 [dom_of e] x) w).
Proof.
  intros Hx Hd. destruct e as [l p u nss ats cs]. rewrite events_of_eq, dom_of_eq.
  assert (w = with_sess s x w) as Hw.
  { unfold with_sess. rewrite insert_id by done. by destruct w. }
  cbn [for_each sax_handler]. set (b := build_node l p u nss ats).
  rewrite bind_ok with (a := tt) (w' := with_sess s (at_depth 2 [b] x) w).
  2:{ rewrite Hw at 1. unfold on_start_element_ns.
      rewrite (bind_ok _ _ _ _ _ (upd_with _ _ _ _)).
      rewrite (bind_ok _ _ _ _ _ (deref_with _ _ _)).
      cbn [s_stanza_depth set_stanza_depth]. rewrite Hd.
      change (1 + 1 =? 1) with false. change (1 + 1 =? 2) with true. cbv iota zeta.
      by rewrite upd_with. }
  rewrite for_each_app.
  rewrite (bind_ok _ _ _ _ _ (contents_events s x w cs 2 b [] ltac:(lia))).
  cbn [for_each sax_handler]. unfold on_end_element_ns.
  set (n := fold_left add_content cs b).
  unfold bind at 1. rewrite (bind_ok _ _ _ _ _ (upd_with _ _ _ _)).
  rewrite (bind_ok _ _ _ _ _ (deref_with _ _ _)).
  change (set_stanza_depth (s_stanza_depth (at_depth 2 [n] x) - 1) (at_depth 2 [n] x))
    with (at_depth 1 [n] x).
  change (s_stanza_depth (at_depth 1 [n] x)) with 1. cbn [Z.eqb Pos.eqb].
  change (current_stanza (s_open (at_depth 1 [n] x))) with (Some n). cbv iota beta.
  unfold bind at 1 2. destruct (stanza_route s n _) as [[[] w1]|]; [|done].
  unfold upd. by destruct (w_heap w1 !! s).
Qed.
End Tree.

(** A message with a body and an empty child. *)
Definition demo_element : element :=
  Element "message" None (Some "jabber:client") [(None, "jabber:client")]
    [mkSaxAttr "to" None None "bob@localhost"]
    [Child (Element "body" None (Some "jabber:client") [] [] [Text "hi"; Text "!"]);
     Child (Element "x" None (Some "jabber:client") [] [] [])].

Lemma element_routed_once_witness :
  outcome (for_each (events_of demo_element) (sax_handler 0%nat)) users_online =
  outcome (stanza_route 0%nat (dom_of demo_element) ;; upd 0%nat (set_open []))
    (with_sess 0%nat (at_depth 1 [dom_of demo_element] (sess_at 0 users_online)) users_online).
Proof.
  unfold outcome.
  rewrite (element_routed_once 0%nat (sess_at 0 users_online) users_online demo_element).
  - reflexivity.
  - apply sess_at_some. vm_compute. reflexivity.
  - vm_compute. reflexivity.
Defined.
