(* ===== verification/Routing.v ===== *)
(** Routing: finding a session by its address, delivering a message, what a
    client may do before it is authenticated, and taking over a resource. *)

From stdpp Require Import gmap.
From S2P Require Import Prelude Util Dom World Concrete SessionIo Inv Roster User Message.
From S2P Require Import Presence Session Teardown Auth Stanza Xml Safety Server Rounds Demo.
From S2P Require Import Output Silent.
Open Scope Z_scope.

(** ** Finding a session *)

Section Find.
Context {LX : LibXml} {PX : Posix} {RC : Recovery} {RA : Reallocates PX}.

(** The session is logged in under this bare JID. *)
Definition owns (x : session) (bare : string) : bool :=
  negb (str_empty (s_jid_local x)) && (bare_jid_of x =s bare).

(** The answer of the scan from slot [i] on. *)
Definition found_from (w : world) (i : nat) (bare : string) (o : option sid) : Prop :=
  match o with
  | Some t => exists x, w_heap w !! t = Some x /\ owns x bare = true /\
      forall u y, w_heap w !! u = Some y -> (i <= s_poll_index y)%nat -> owns y bare = true ->
                  (s_poll_index x <= s_poll_index y)%nat
  | None => forall u y, w_heap w !! u = Some y -> (i <= s_poll_index y)%nat ->
                        owns y bare = false
  end.

(** The head and the rest of what is left of a table. *)
Lemma slice_cons {A} (l : list A) n i o slots :
  o :: slots = take (n - i) (drop i l) ->
  l !! i = Some o /\ (i < n)%nat /\ slots = take (n - S i) (drop (S i) l).
Proof.
  intros Hsl. assert (l !! i = Some o) as Ho.
  { assert (take (n - i) (drop i l) !! 0%nat = Some o) as H by (by rewrite <- Hsl).
    apply lookup_take_Some in H as [H _]. rewrite lookup_drop in H.
    by replace (i + 0)%nat with i in H by lia. }
  assert (i < n)%nat as Hlt by (destruct (n - i)%nat eqn:E; [done|lia]).
  split_and!; [done|done|]. rewrite (drop_S _ _ _ Ho) in Hsl.
  replace (n - i)%nat with (S (n - S i)) in Hsl by lia. cbn [firstn] in Hsl. by injection Hsl.
Qed.

Lemma find_loop_spec w bare slots : forall i,
  wf w -> (1 <= i)%nat -> slots = take (w_nfds w - i) (drop i (w_sessions w)) ->
  exists o, find_by_jid_loop slots bare w = Ok (o, w) /\ found_from w i bare o.
Proof.
  induction slots as [|o slots IH]; intros i Hwf Hi Hsl.
  - exists None. split; [done|]. intros u y Hy Hiy. exfalso.
    destruct (wf_heap _ Hwf _ _ Hy) as (_ & Hs & _).
    destruct (wf_slot _ Hwf _ _ Hs) as [? _].
    assert (take (w_nfds w - i) (drop i (w_sessions w)) !! (s_poll_index y - i)%nat
            = Some (Some u)) as Hu.
    { rewrite lookup_take_lt by lia. rewrite lookup_drop.
      by replace (i + (s_poll_index y - i))%nat with (s_poll_index y) by lia. }
    by rewrite <- Hsl in Hu.
  - apply slice_cons in Hsl as (Ho & Hlt & Hsl').
    destruct (wf_full _ Hwf i) as [s Hs]; [lia|].
    assert (o = Some s) as -> by congruence.
    destruct (wf_slot _ Hwf _ _ Ho) as (_ & x & Hx & Hxi).
    destruct (IH (S i) Hwf ltac:(lia) Hsl') as (o & E & Hf).
    cbn [find_by_jid_loop]. unfold bind at 1, deref. rewrite Hx.
    assert (forall u y, w_heap w !! u = Some y -> s_poll_index y = i -> y = x) as Hu.
    { intros u y Hy Hyi. destruct (wf_heap _ Hwf _ _ Hy) as (_ & Hsy & _).
      rewrite Hyi in Hsy. congruence. }
    destruct (owns x bare) eqn:Eo.
    + unfold owns, bare_jid_of in Eo. apply andb_true_iff in Eo as [E1 E2].
      apply negb_true_iff in E1. rewrite E1, E2. exists (Some s). split; [done|].
      exists x. split; [done|]. split; [unfold owns, bare_jid_of; by rewrite E1, E2|].
      intros u y Hy Hiy _. lia.
    + exists o. split.
      { unfold owns, bare_jid_of in Eo. destruct (str_empty (s_jid_local x)); [done|].
        simpl in Eo. by rewrite Eo. }
      destruct o as [t|]; simpl in Hf |- *.
      * destruct Hf as (z & Hz & Hzo & Hmin). exists z. split_and!; [done..|].
        intros u y Hy Hiy Hyo. destruct (decide (s_poll_index y = i)) as [Hyi|].
        { rewrite (Hu _ _ Hy Hyi) in Hyo. congruence. }
        apply (Hmin u); [done|lia|done].
      * intros u y Hy Hiy. destruct (decide (s_poll_index y = i)) as [Hyi|].
        { by rewrite (Hu _ _ Hy Hyi). }
        apply (Hf u); [done|lia].
Qed.

Lemma session_find_spec w bare :
  wf w -> exists o, session_find_by_jid bare w = Ok (o, w) /\ found_from w 1 bare o.
Proof.
  intros Hwf. unfold session_find_by_jid, bind at 1, get.
  by apply find_loop_spec.
Qed.

(** C27. [session_find_by_jid] finds the session that is logged in under a
    bare JID, the one in the lowest slot if there are several, and finds
    none only if there is none. *)
Theorem session_find_correct w bare :
  wf w ->
  exists o, session_find_by_jid bare w = Ok (o, w) /\
    match o with
    | Some t => exists x, w_heap w !! t = Some x /\ owns x bare = true /\
        forall u y, w_heap w !! u = Some y -> owns y bare = true ->
                    (s_poll_index x <= s_poll_index y)%nat
    | None => forall u y, w_heap w !! u = Some y -> owns y bare = false
    end.
Proof.
  intros Hwf. destruct (session_find_spec w bare Hwf) as (o & E & Hf). exists o. split; [done|].
  assert (forall u y, w_heap w !! u = Some y -> (1 <= s_poll_index y)%nat) as H.
  { intros u y Hy. by destruct (wf_index _ _ _ Hwf Hy). }
  destruct o as [t|]; simpl in Hf; [|eauto].
  destruct Hf as (x & ? & ? & Hmin). exists x. split_and!; eauto.
Qed.
End Find.

(** ** Messages *)

Section Messages.
Context {LX : LibXml} {PX : Posix} {RC : Recovery} {RA : Reallocates PX}.

(** The recipient the handler makes out: a local part at the server's domain. *)
Definition addressed (w : world) (to : string) (b : jid_bufs) : Prop :=
  jid_parse to 256 256 256 = Ok (0, Some b) /\ str_empty (jb_local b) = false /\
  jb_domain b = domain (w_config w).

Lemma message_addressed s stanza b w :
  addressed w (prop_or stanza "to" "") b ->
  handle_message s stanza w =
  (let! known := user_exists (jb_local b) in
   if negb known then stanza_send_error s stanza "cancel" "item-not-found"
   else
     let! x := deref s in
     let! target := session_find_by_jid (jid_bare (jb_local b) (jb_domain b) 512) in
     match target with
     | Some t => stanza_send t (xmlSetProp stanza "from" (full_jid_of x))
     | None =>
         if negb (prop_or stanza "type" "normal" =s "error")
         then message_store_offline (jb_local b) (xmlSetProp stanza "from" (full_jid_of x))
         else ret tt
     end) w.
Proof.
  intros (Hp & Hl & Hd). unfold handle_message. cbv zeta.
  unfold bind at 1, g_config. unfold bind at 1, lift. rewrite Hp. cbn [Z.ltb Z.compare].
  by rewrite Hl, Hd, eqs_refl.
Qed.

Lemma user_exists_eq u w :
  user_exists u w = Ok (fs_stat (w_fs w) (conf_path (w_config w) u), w).
Proof. done. Qed.

(** For a recipient who is connected. *)
Lemma deliver_message s x stanza b w t y xml :
  w_heap w !! s = Some x -> addressed w (prop_or stanza "to" "") b ->
  fs_stat (w_fs w) (conf_path (w_config w) (jb_local b)) = true ->
  session_find_by_jid (jid_bare (jb_local b) (jb_domain b) 512) w = Ok (Some t, w) ->
  w_heap w !! t = Some y ->
  stanza_serialize (xmlSetProp stanza "from" (full_jid_of x)) = Some xml ->
  match handle_message s stanza w with
  | Ok (_, w') => exists cap, w_heap w' = <[t := written y xml cap]> (w_heap w) /\
                              w_fs w' = w_fs w
  | Fault _ => False
  end.
Proof.
  intros Hx Ha Hk Hf Ht Hxml. rewrite (message_addressed _ _ b) by done.
  unfold bind at 1. rewrite user_exists_eq, Hk. cbn [negb].
  unfold bind at 1, deref. rewrite Hx. unfold bind at 1. rewrite Hf.
  unfold stanza_send. rewrite Hxml.
  pose proof (session_write_spec t xml y w Ht) as H.
  destruct (session_write t xml w) as [[? w']|]; [|done].
  destruct H as (cap & Hh & []). by exists cap.
Qed.


(** A message to a user who exists and is not connected is stored, with
    the sender's full JID, and no session is touched; an error message is
    dropped. *)
Theorem message_stored s x stanza b w w' :
  wf w -> w_heap w !! s = Some x -> addressed w (prop_or stanza "to" "") b ->
  fs_stat (w_fs w) (conf_path (w_config w) (jb_local b)) = true ->
  session_find_by_jid (jid_bare (jb_local b) (jb_domain b) 512) w = Ok (None, w) ->
  handle_message s stanza w = Ok (tt, w') ->
  w_heap w' = w_heap w /\
  if prop_or stanza "type" "normal" =s "error" then w' = w
  else message_store_offline (jb_local b) (xmlSetProp stanza "from" (full_jid_of x)) w
       = Ok (tt, w').
Proof.
  intros Hwf Hx Ha Hk Hf. rewrite (message_addressed _ _ b) by done.
  unfold bind at 1. rewrite user_exists_eq, Hk. cbn [negb].
  unfold bind at 1, deref. rewrite Hx. unfold bind at 1. rewrite Hf.
  destruct (_ =s _); cbn [negb]; [by intros [= <-]|]. intros E. split; [|done].
  revert E. unfold message_store_offline, bind, g_config, do_fs, get_fs, do_os, ret. cbv zeta.
  destruct (fs_mkdir _ _) as [f ok]. destruct (os_gmtime _) as [os tm].
  destruct (stanza_serialize _); [|by intros [= <-]].
  destruct (fs_write _ _ _). by intros [= <-].
Qed.
End Messages.

(** ** Before authentication *)

Section Gate.
Context {LX : LibXml} {PX : Posix} {RC : Recovery} {RA : Reallocates PX}.

(** What two states have in common when only a session and output differ. *)
Definition same_tables (w w' : world) : Prop :=
  w_config w' = w_config w /\ w_sessions w' = w_sessions w /\ w_nfds w' = w_nfds w.

(** Only the session [s] may have changed, and neither in its standing nor
    in its roster. *)
Definition self_only (s : sid) (x : session) (w w' : world) : Prop :=
  w_fs w' = w_fs w /\ exists y, w_heap w' = <[s := y]> (w_heap w) /\
    s_state y = s_state x /\ s_authenticated y = s_authenticated x /\
    s_jid_local y = s_jid_local x /\ s_roster y = s_roster x /\
    s_in_xml_parse y = s_in_xml_parse x /\
    s_jid_domain y = s_jid_domain x /\ s_jid_resource y = s_jid_resource x /\
    same_tables w w'.

Lemma same_tables_trans w w1 w2 : same_tables w w1 -> same_tables w1 w2 -> same_tables w w2.
Proof. unfold same_tables. intuition congruence. Qed.

Lemma self_only_refl s x w : w_heap w !! s = Some x -> self_only s x w w.
Proof. intros Hx. split; [done|]. exists x. by rewrite insert_id. Qed.

Lemma self_only_trans s x w w1 w2 :
  self_only s x w w1 ->
  (forall y, w_heap w1 !! s = Some y -> self_only s y w1 w2) -> self_only s x w w2.
Proof.
  intros (F1 & y & Hy & H1 & H2 & H3 & H4 & H5 & H6 & H7 & T1) H.
  destruct (H y) as (F2 & z & Hz & I1 & I2 & I3 & I4 & I5 & I6 & I7 & T2);
    [rewrite Hy; apply lookup_insert_eq|].
  split; [congruence|]. exists z. rewrite Hz, Hy, insert_insert_eq.
  split_and!; try congruence. by eapply same_tables_trans.
Qed.

Lemma write_self s text x w :
  w_heap w !! s = Some x ->
  match session_write s text w with Ok (_, w') => self_only s x w w' | Fault _ => False end.
Proof.
  intros Hx. pose proof (session_write_spec s text x w Hx) as H.
  destruct (session_write s text w) as [[? w']|]; [|done]. destruct H as (cap & Hh & []).
  split; [done|]. by eexists.
Qed.

Lemma send_self s n x w :
  w_heap w !! s = Some x ->
  match stanza_send s n w with Ok (_, w') => self_only s x w w' | Fault _ => False end.
Proof.
  intros Hx. unfold stanza_send. destruct (stanza_serialize n); [by apply write_self|].
  by apply self_only_refl.
Qed.

Lemma flush_self s x w :
  w_heap w !! s = Some x ->
  exists rc w', session_flush s w = Ok (rc, w') /\ self_only s x w w'.
Proof.
  intros Hx. unfold session_flush, bind at 1, deref. rewrite Hx.
  destruct (str_empty _); [eauto using self_only_refl|].
  unfold bind at 1, do_net.
  destruct (net_write _ _ _) as [net [n| |]];
    [|eexists _, _; split; [done|]; split; [done|]; exists x; by rewrite insert_id..].
  unfold bind at 1, upd. cbn [w_heap set_net]. rewrite Hx.
  unfold bind at 1, deref. cbn [w_heap set_heap]. rewrite lookup_insert_eq.
  destruct (str_empty _); [destruct (server_get_pollfd _)|];
    (eexists _, _; split; [done|]; split; [done|]; by eexists).
Qed.

Lemma stream_error_self s c x w :
  w_heap w !! s = Some x -> s_in_xml_parse x = true ->
  match stream_send_error s c w with Ok (_, w') => self_only s x w w' | Fault _ => False end.
Proof.
  intros Hx Hp. unfold stream_send_error, session_write_str, bind at 1.
  pose proof (write_self s (stream_error_text c) x w Hx) as H1.
  destruct (session_write _ _ _) as [[? w1]|]; [|done].
  pose proof H1 as (_ & x1 & Hh1 & _).
  assert (w_heap w1 !! s = Some x1) as Hx1 by (rewrite Hh1; apply lookup_insert_eq).
  destruct (flush_self s x1 w1 Hx1) as (rc & w2 & E2 & H2). unfold bind at 1. rewrite E2.
  assert (self_only s x w w2) as H12.
  { eapply self_only_trans; [exact H1|]. intros y Hy. by simplify_eq. }
  pose proof H12 as (_ & x2 & Hh2 & _ & _ & _ & _ & Hp2 & _).
  assert (w_heap w2 !! s = Some x2) as Hx2 by (rewrite Hh2; apply lookup_insert_eq).
  unfold teardown_or_defer, bind, deref. rewrite Hx2, Hp2, Hp. unfold upd. rewrite Hx2.
  eapply self_only_trans; [exact H12|]. intros y Hy. simplify_eq.
  split; [done|]. by eexists.
Qed.

(** The stanzas a client may send before it is authenticated. *)
Definition login_stanza (stanza : xnode) : bool :=
  ((xn_name stanza =s "auth") && (ns_of stanza =s "urn:ietf:params:xml:ns:xmpp-sasl")) ||
  ((xn_name stanza =s "iq") && (child_ns stanza =s "jabber:iq:register")).

(** C3. Before it is authenticated a client can log in, register, or
    nothing: on an open stream, any other stanza leaves every other session
    and the disk untouched, and its own session as unauthenticated as it
    was. *)
Theorem unauthenticated_confined s stanza x w :
  w_heap w !! s = Some x -> s_in_xml_parse x = true ->
  s_state x = STATE_STREAM_OPENED -> s_authenticated x = false ->
  login_stanza stanza = false ->
  match stanza_route s stanza w with
  | Ok (_, w') => w_fs w' = w_fs w /\ exists y, w_heap w' = <[s := y]> (w_heap w) /\
      s_state y = STATE_STREAM_OPENED /\ s_authenticated y = false
  | Fault _ => False
  end.
Proof.
  intros Hx Hp Hs Ha Hl.
  enough (match stanza_route s stanza w with Ok (_, w') => self_only s x w w'
          | Fault _ => False end) as H.
  { destruct (stanza_route s stanza w) as [[? w']|]; [|done].
    destruct H as (? & y & ? & E1 & E2 & _). split; [done|]. exists y.
    split_and!; congruence. }
  unfold stanza_route. cbv zeta. unfold bind at 1, deref. rewrite Hx, Hs, Ha.
  rewrite bool_decide_eq_true_2 by done. cbn [negb andb].
  unfold login_stanza in Hl. apply orb_false_iff in Hl as [Hl1 Hl2]. rewrite Hl1.
  destruct (xn_name stanza =s "iq").
  - cbn [andb] in Hl2. rewrite Hl2. unfold stanza_send_error, bind, deref. rewrite Hx.
    unfold g_config. by apply send_self.
  - by apply stream_error_self.
Qed.
End Gate.

(** ** Binding a resource that is in use *)

Section Takeover.
Context {LX : LibXml} {PX : Posix} {RC : Recovery} {RA : Reallocates PX}.

(** An error sent to a session that is not being parsed takes it down. *)
Lemma evict_ok e c w z :
  wf w -> w_heap w !! e = Some z -> s_in_xml_parse z = false ->
  match stream_send_error e c w with
  | Ok (_, w') => wf w' /\ gone w w' e
  | Fault f => risk f
  end.
Proof.
  intros Hwf Hz Hp. assert (live e w) as Hl by by exists z.
  unfold stream_send_error, session_write_str, bind at 1.
  pose proof (quiet_session_write w e (stream_error_text c) Hl w (inside_refl _ Hwf)) as H1.
  destruct (session_write _ _ _) as [[? w1]|]; [|done]. destruct H1 as [H1 _].
  pose proof (quiet_session_flush w e Hl w1 H1) as H2. unfold bind at 1.
  destruct (session_flush e w1) as [[? w2]|]; [|done]. destruct H2 as [H2 _].
  destruct (fr_kept _ _ (proj2 H2) _ _ Hz) as (z2 & Hz2 & Hk).
  unfold teardown_or_defer, bind, deref. rewrite Hz2, (kp_parse _ _ Hk), Hp.
  pose proof (teardown_ok w2 e (proj1 H2) ltac:(by exists z2)) as Ht.
  destruct (session_teardown e w2) as [[? w3]|]; [|done]. destruct Ht. split; [done|].
  by eapply gone_inside.
Qed.

End Takeover.

(** ** Instances *)

Definition bob_message : xnode :=
  XElem "message" None [] [mkAttr None "to" "bob@localhost"; mkAttr None "from" "mallory@localhost"]
    [XElem "body" None [] [] [XText "hi"]].

Lemma session_find_correct_witness :
  exists x, w_heap users_online !! 1%nat = Some x /\ owns x "bob@localhost" = true.
Proof.
  destruct (session_find_correct users_online "bob@localhost" users_wf) as (o & E & H).
  assert (outcome (session_find_by_jid "bob@localhost") users_online = Ok (Some 1%nat)) as Ho
    by (vm_compute; reflexivity).
  pose proof (outcome_is _ _ _ _ _ E Ho) as ->.
  destruct H as (x & Hx & Hw & _). exists x. split; [exact Hx|exact Hw].
Defined.

Lemma find_bob : session_find_by_jid (jid_bare "bob" "localhost" 512) users_online =
  Ok (Some 1%nat, users_online).
Proof.
  destruct (session_find_spec users_online (jid_bare "bob" "localhost" 512) users_wf) as (o & E & _).
  assert (outcome (session_find_by_jid (jid_bare "bob" "localhost" 512)) users_online
          = Ok (Some 1%nat)) as Ho by (vm_compute; reflexivity).
  rewrite <- (outcome_is _ _ _ _ _ E Ho). exact E.
Qed.


(** Bob is not connected. *)
Definition carol_message : xnode :=
  XElem "message" None [] [mkAttr None "to" "carol@localhost"] [].
Definition carol_known : world := run (user_create "carol" "pw") users_online.

Lemma carol_wf : wf carol_known.
Proof.
  pose proof (quiet_user_create users_online "carol" "pw" users_online
                (inside_refl _ users_wf)) as H.
  unfold carol_known, run. destruct (user_create "carol" "pw" users_online) as [[rc w']|].
  - apply H.
  - apply users_wf.
Qed.

Lemma find_carol : session_find_by_jid (jid_bare "carol" "localhost" 512) carol_known =
  Ok (None, carol_known).
Proof.
  destruct (session_find_spec carol_known (jid_bare "carol" "localhost" 512) carol_wf) as (o & E & _).
  assert (outcome (session_find_by_jid (jid_bare "carol" "localhost" 512)) carol_known
          = Ok None) as Ho by (vm_compute; reflexivity).
  rewrite <- (outcome_is _ _ _ _ _ E Ho). exact E.
Qed.

Lemma message_stored_witness :
  w_heap (run (handle_message 0%nat carol_message) carol_known) = w_heap carol_known.
Proof.
  apply (message_stored 0%nat (sess_at 0 carol_known) carol_message (mkJid "carol" "localhost" "")
    carol_known).
  - apply carol_wf.
  - apply sess_at_some. vm_compute. reflexivity.
  - split; [vm_compute; reflexivity|split; [reflexivity|vm_compute; reflexivity]].
  - vm_compute. reflexivity.
  - apply find_carol.
  - apply run_outcome. vm_compute. reflexivity.
Defined.

Lemma unauthenticated_confined_witness :
  match stanza_route 0%nat bob_message demo_parsing with
  | Ok (_, w') => w_fs w' = w_fs demo_parsing
  | Fault _ => False
  end.
Proof.
  pose proof (unauthenticated_confined 0%nat bob_message (sess_at 0 demo_parsing) demo_parsing
    ltac:(apply sess_at_some; vm_compute; reflexivity) ltac:(vm_compute; reflexivity)
    ltac:(vm_compute; reflexivity) ltac:(vm_compute; reflexivity) ltac:(reflexivity)) as H.
  destruct (stanza_route 0%nat bob_message demo_parsing) as [[u w']|f].
  - apply H.
  - exact H.
Defined.

(** Alice logs in a second time, up to her new stream. *)
Definition twice_boot : world :=
  boot_net demo_config users_fs [7; 9]
    (login 7 "alice" "secret" ++ take 3 (login 9 "alice" "secret"))%list
    ([[1]; [1; 0]] ++ replicate 6 [0; 1; 0] ++ replicate 3 [0; 0; 1])%list.
Definition alice_twice : world := rounds 11 (run server_init twice_boot).

Definition bind_iq : xnode :=
  XElem "iq" None [] [mkAttr None "type" "set"]
    [XElem "bind" None [] [] [XElem "resource" None [] [] [XText "work"]]].

Lemma alice_twice_wf : wf alice_twice.
Proof.
  apply (reachable_steady twice_boot alice_twice); [reflexivity|].
  unfold alice_twice. apply rounds_reachable; [|vm_compute; reflexivity].
  apply reach_start. vm_compute. reflexivity.
Qed.

Lemma find_alice :
  session_find_by_jid (bare_jid_of (sess_at 1 alice_twice)) alice_twice = Ok (Some 0%nat, alice_twice).
Proof.
  destruct (session_find_spec alice_twice (bare_jid_of (sess_at 1 alice_twice)) alice_twice_wf)
    as (o & E & _).
  assert (outcome (session_find_by_jid (bare_jid_of (sess_at 1 alice_twice))) alice_twice
          = Ok (Some 0%nat)) as Ho by (vm_compute; reflexivity).
  rewrite <- (outcome_is _ _ _ _ _ E Ho). exact E.
Qed.

