(* ===== verification/Broadcast.v ===== *)
(** Who learns of a client's presence: the broadcasts of presence.c, contact
    by contact. *)

From stdpp Require Import gmap.
From S2P Require Import Prelude Util Dom World Concrete SessionIo Inv Roster User Message.
From S2P Require Import Presence Rounds Demo Output Silent Routing.
Open Scope Z_scope.

(** [n] copies of a text. *)
Fixpoint copies (n : nat) (d : string) : string :=
  match n with O => "" | S n' => d ++ copies n' d end.

Section Contacts.
Context {LX : LibXml} {PX : Posix} {RC : Recovery} {RA : Reallocates PX}.

(** The two states have the same sessions, under the same names, in the same
    slots. *)
Record same_names (w w' : world) : Prop := {
  nm_sessions : w_sessions w' = w_sessions w;
  nm_nfds : w_nfds w' = w_nfds w;
  nm_heap s x : w_heap w !! s = Some x -> exists y, w_heap w' !! s = Some y /\
    s_jid_local y = s_jid_local x /\ s_jid_domain y = s_jid_domain x
}.

Lemma same_names_refl w : same_names w w.
Proof. constructor; eauto. Qed.

Lemma same_names_trans w w1 w2 : same_names w w1 -> same_names w1 w2 -> same_names w w2.
Proof.
  intros [A1 A2 A3] [B1 B2 B3]. constructor; try congruence.
  intros s x (y & Hy & ? & ?)%A3. destruct (B3 _ _ Hy) as (z & Hz & ? & ?).
  exists z. split_and!; congruence.
Qed.

Lemma output_names w w' : output_only w w' -> same_names w w'.
Proof.
  intros [H1 H2 H3 H4 H5]. constructor; [done..|]. intros s x (y & Hy & Hw)%H5. exists y.
  split; [done|]. by apply wrote_roster in Hw as (_ & ? & ?).
Qed.

Lemma upd_names s f x w :
  w_heap w !! s = Some x -> s_jid_local (f x) = s_jid_local x ->
  s_jid_domain (f x) = s_jid_domain x -> same_names w (set_heap (<[s := f x]> (w_heap w)) w).
Proof.
  intros Hx Hl Hd. constructor; [done..|]. intros t y Hy. cbn [w_heap set_heap].
  destruct (decide (s = t)) as [->|].
  - rewrite lookup_insert_eq. simplify_eq. eauto.
  - rewrite lookup_insert_ne by done. eauto.
Qed.

Lemma find_loop_names l bare w w' o w1 :
  same_names w w' -> find_by_jid_loop l bare w = Ok (o, w1) ->
  w1 = w /\ find_by_jid_loop l bare w' = Ok (o, w').
Proof.
  intros Hn. induction l as [|[t|] l IH]; cbn [find_by_jid_loop]; [by intros [= <- <-]| |done].
  unfold bind, deref. destruct (w_heap w !! t) as [x|] eqn:Hx; [|done].
  destruct (nm_heap _ _ Hn _ _ Hx) as (y & -> & -> & ->).
  destruct (str_empty _); [done|]. destruct (_ =s _); [by intros [= <- <-]|done].
Qed.

(** Lookups do not depend on what was sent or saved in between. *)
Lemma find_names w w2 bare o :
  same_names w w2 -> session_find_by_jid bare w = Ok (o, w) ->
  session_find_by_jid bare w2 = Ok (o, w2).
Proof.
  intros Hn. unfold session_find_by_jid, bind, get, active_slots.
  rewrite (nm_sessions _ _ Hn), (nm_nfds _ _ Hn). intros E.
  by destruct (find_loop_names _ _ _ _ _ _ Hn E).
Qed.

(** A lookup that was evaluated. *)
Lemma find_outcome bare w o :
  outcome (session_find_by_jid bare) w = Ok o -> session_find_by_jid bare w = Ok (o, w).
Proof.
  intros H%run_outcome. revert H. unfold session_find_by_jid, bind, get. intros E.
  destruct (find_loop_names _ _ _ _ _ _ (same_names_refl w) E) as [E1 _]. by rewrite E, E1.
Qed.

(** The session a roster item leads to. *)
Definition contact_of (w : world) (ri : roster_item) : option sid :=
  match contact_session ri w with Ok (o, _) => o | Fault _ => None end.

(** Looking a contact up depends on names alone, and changes nothing; what
    fails are the item's JIDs that cannot be parsed. *)
Lemma contact_session_names w0 w ri o w1 :
  wf w0 -> same_names w0 w -> contact_session ri w = Ok (o, w1) ->
  w1 = w /\ o = contact_of w0 ri /\
  (forall t, o = Some t -> exists x, w_heap w !! t = Some x).
Proof.
  intros Hwf Hn. unfold contact_of, contact_session, parse_ignoring_rc, bind, lift.
  destruct (jid_parse _ _ _ _) as [[rc [b|]]|]; cbn [snd ret raise]; [|done..].
  destruct (session_find_spec w0 (bare_of b) Hwf) as (o' & E & Hf). rewrite E.
  revert E. unfold session_find_by_jid, bind, get, active_slots. intros E.
  destruct (find_loop_names _ _ _ _ _ _ Hn E) as [_ E'].
  rewrite (nm_sessions _ _ Hn), (nm_nfds _ _ Hn), E'. intros [= <- <-].
  split; [done|]. split; [done|]. intros t ->. destruct Hf as (x & Hx & _).
  destruct (nm_heap _ _ Hn _ _ Hx) as (y & Hy & _). eauto.
Qed.
End Contacts.

(** ** The loop *)

Section Broadcast.
Context {LX : LibXml} {PX : Posix} {RC : Recovery} {RA : Reallocates PX}.

(** The items through which a broadcast reaches the session [t]: those that
    grant the contact our presence and lead to [t]. *)
Definition reaches (w : world) (t : sid) (ri : roster_item) : bool :=
  sub_has_from (ri_subscription ri) && bool_decide (contact_of w ri = Some t).

Definition reach_count (w : world) (t : sid) (l : list roster_item) : nat :=
  List.length (List.filter (reaches w t) l).

Definition broadcast_item (pres : xnode) (to : sid -> bool) (ri : roster_item) : M unit :=
  if negb (sub_has_from (ri_subscription ri)) then ret tt
  else
    let! contact := contact_session ri in
    match contact with
    | Some c => when to c then stanza_send c pres
    | None => ret tt
    end.

Lemma send_adds t pres xml w w' :
  stanza_serialize pres = Some xml -> (exists x, w_heap w !! t = Some x) ->
  stanza_send t pres w = Ok (tt, w') ->
  output_only w w' /\
  (forall u, u <> t -> w_heap w' !! u = w_heap w !! u) /\
  forall y, w_heap w !! t = Some y -> exists y', w_heap w' !! t = Some y' /\
    s_write_buf y' = s_write_buf y ++ xml.
Proof.
  intros Hs [x Hx] H. split; [by eapply silent_stanza_send|]. revert H.
  unfold stanza_send. rewrite Hs. intros H.
  pose proof (session_write_spec t xml x w Hx) as Hw. rewrite H in Hw.
  destruct Hw as (cap & -> & _). split.
  - intros u Hu. by rewrite lookup_insert_ne.
  - intros y Hy. simplify_eq. rewrite lookup_insert_eq. by eexists.
Qed.

Lemma broadcast_loop pres xml to w0 items : forall w w',
  wf w0 -> same_names w0 w -> stanza_serialize pres = Some xml ->
  for_each items (broadcast_item pres to) w = Ok (tt, w') ->
  output_only w w' /\
  forall t y, w_heap w !! t = Some y -> exists y', w_heap w' !! t = Some y' /\
    s_write_buf y' = s_write_buf y ++ copies (if to t then reach_count w0 t items else 0) xml.
Proof.
  induction items as [|ri items IH]; intros w w' Hwf Hn Hs; cbn [for_each].
  { intros [= <-]. split; [apply output_only_refl|]. intros t y Hy. exists y.
    split; [done|]. by destruct (to t); cbn; rewrite str_app_nil_r. }
  unfold bind at 1. destruct (broadcast_item pres to ri w) as [[[] w1]|] eqn:E; [|done].
  intros Hrest.
  assert (output_only w w1 /\ forall t y, w_heap w !! t = Some y ->
    exists y', w_heap w1 !! t = Some y' /\
      s_write_buf y' = s_write_buf y ++ copies (if to t && reaches w0 t ri then 1 else 0) xml)
    as [Ho1 H1].
  { revert E. unfold broadcast_item, reaches.
    destruct (sub_has_from _); cbn [negb andb].
    2:{ intros [= <-]. split; [apply output_only_refl|]. intros t y Hy. exists y.
        rewrite andb_false_r. cbn. by rewrite str_app_nil_r. }
    unfold bind. destruct (contact_session ri w) as [[o w2]|] eqn:Ec; [|done].
    destruct (contact_session_names w0 w ri o w2 Hwf Hn Ec) as (-> & Ho & Hlive).
    rewrite <- Ho. destruct o as [c|].
    2:{ intros [= <-]. split; [apply output_only_refl|]. intros t y Hy. exists y.
        rewrite bool_decide_eq_false_2, andb_false_r by done. cbn. by rewrite str_app_nil_r. }
    destruct (to c) eqn:Et.
    - intros Hsend. destruct (send_adds c pres xml w w1 Hs (Hlive c eq_refl) Hsend) as (? & Hoff & Hon).
      split; [done|]. intros t y Hy. destruct (decide (t = c)) as [->|Hne].
      + rewrite Et, bool_decide_eq_true_2 by done. cbn. rewrite str_app_nil_r. eauto.
      + rewrite bool_decide_eq_false_2, andb_false_r by congruence. rewrite Hoff by done.
        exists y. cbn. by rewrite str_app_nil_r.
    - intros [= <-]. split; [apply output_only_refl|]. intros t y Hy. exists y. split; [done|].
      case_bool_decide; simplify_eq; rewrite ?Et, ?andb_false_r; cbn; by rewrite str_app_nil_r. }
  destruct (IH w1 w' Hwf (same_names_trans _ _ _ Hn (output_names _ _ Ho1)) Hs Hrest) as [Ho2 H2].
  split; [by eapply output_only_trans|]. intros t y Hy.
  destruct (H1 t y Hy) as (y1 & Hy1 & E1). destruct (H2 t y1 Hy1) as (y2 & Hy2 & E2).
  exists y2. split; [done|]. rewrite E2, E1, str_app_assoc. unfold reach_count. f_equal.
  cbn [List.filter]. destruct (to t), (reaches w0 t ri); cbn [andb copies List.length];
    by rewrite ?str_app_nil_r.
Qed.
End Broadcast.

(** ** What a handler does to the other sessions *)

Section Elsewhere.
Context {LX : LibXml} {PX : Posix} {RC : Recovery} {RA : Reallocates PX}.

(** Every session but [s] is as it was. *)
Definition off (s : sid) (w w' : world) : Prop :=
  forall t, t <> s -> w_heap w' !! t = w_heap w !! t.

Definition stays {A} (s : sid) (m : M A) : Prop :=
  forall w a w', m w = Ok (a, w') -> off s w w'.

Lemma stays_ret {A} s (a : A) : stays s (ret a).
Proof. by intros w b w' [= <- <-]. Qed.

Lemma stays_raise {A} s f : stays s (raise (A := A) f).
Proof. done. Qed.

Lemma stays_bind {A B} s (m : M A) (k : A -> M B) :
  stays s m -> (forall a, stays s (k a)) -> stays s (bind m k).
Proof.
  intros Hm Hk w b w'. unfold bind. destruct (m w) as [[a w1]|] eqn:E; [|done].
  intros H t Ht. rewrite (Hk a _ _ _ H t Ht). by apply (Hm _ _ _ E).
Qed.

Lemma stays_for_each {A} s (l : list A) (body : A -> M unit) :
  (forall x, stays s (body x)) -> stays s (for_each l body).
Proof.
  intros H. induction l; cbn [for_each]; [apply stays_ret|]. by apply stays_bind.
Qed.

(** A computation that leaves the heap alone. *)
Lemma stays_heap {A} s (m : M A) :
  (forall w a w', m w = Ok (a, w') -> w_heap w' = w_heap w) -> stays s m.
Proof. intros H w a w' E t _. by rewrite (H _ _ _ E). Qed.

Lemma stays_get s : stays s get.
Proof. apply stays_heap. by intros w a w' [= <- <-]. Qed.

Lemma stays_get_fs s : stays s get_fs.
Proof. apply stays_heap. by intros w a w' [= <- <-]. Qed.

Lemma stays_config s : stays s g_config.
Proof. apply stays_heap. by intros w a w' [= <- <-]. Qed.

Lemma stays_do_fs {A} s (f : fs_t -> fs_t * A) : stays s (do_fs f).
Proof. apply stays_heap. intros w a w'. unfold do_fs. destruct (f _). by intros [= <- <-]. Qed.

Lemma stays_deref s t : stays s (deref t).
Proof. apply stays_heap. intros w a w'. unfold deref. destruct (_ !! _); by intros [= <- <-]. Qed.

Lemma stays_lift {A} s (r : res A) : stays s (lift r).
Proof. apply stays_heap. intros w a w'. unfold lift. destruct r; by intros [= <- <-]. Qed.

Lemma stays_upd s f : stays s (upd s f).
Proof.
  intros w a w'. unfold upd. destruct (_ !! _); [|done]. intros [= <- <-] t Ht.
  cbn [w_heap set_heap]. by rewrite lookup_insert_ne.
Qed.

Lemma stays_send s n : stays s (stanza_send s n).
Proof.
  intros w [] w'. unfold stanza_send. destruct (stanza_serialize n) as [xml|]; [|by intros [= <-]].
  destruct (w_heap w !! s) as [x|] eqn:Hx.
  - intros H. pose proof (session_write_spec s xml x w Hx) as Hw. rewrite H in Hw.
    destruct Hw as (cap & Hh & _). intros t Ht. rewrite Hh. by rewrite lookup_insert_ne.
  - unfold session_write. destruct (str_empty xml); [by intros [= <-]|].
    unfold bind at 1, deref. by rewrite Hx.
Qed.

Lemma stays_find s bare : stays s (session_find_by_jid bare).
Proof.
  apply stays_heap. unfold session_find_by_jid, bind, get. intros w o w'.
  generalize (active_slots w). intros l E. f_equal.
  by destruct (find_loop_names _ _ _ _ _ _ (same_names_refl w) E) as [-> _].
Qed.
End Elsewhere.

Create HintDb stays.
#[export] Hint Resolve stays_ret stays_raise stays_get stays_get_fs stays_config stays_do_fs
  stays_deref stays_lift stays_upd stays_send stays_find : stays.

Ltac stays_go :=
  cbv zeta;
  lazymatch goal with
  | |- stays _ (bind _ _) => apply stays_bind; [stays_go|intros ?; stays_go]
  | |- stays _ (for_each _ _) => apply stays_for_each; intros ?; stays_go
  | |- stays _ (match ?x with _ => _ end) => destruct x; stays_go
  | |- _ => eauto with stays
  end.

(** ** Properties *)

Section Visibility.
Context {LX : LibXml} {PX : Posix} {RC : Recovery} {RA : Reallocates PX}.

Lemma stays_receive s ri :
  stays s (if negb (sub_has_to (ri_subscription ri)) then ret tt
           else
             let! contact := contact_session ri in
             match contact with
             | Some c =>
                 let! y := deref c in
                 match s_available y, s_presence_stanza y with
                 | true, Some p => stanza_send s p
                 | _, _ => ret tt
                 end
             | None => ret tt
             end).
Proof. unfold contact_session, parse_ignoring_rc. stays_go. Qed.

Lemma stays_first_presence s :
  stays s (upd s (set_initial_presence_sent true) ;;
           message_deliver_offline s ;;
           presence_redeliver_pending_subscribes s).
Proof.
  unfold message_deliver_offline, deliver_file, do_unlink,
    presence_redeliver_pending_subscribes, redeliver_from. stays_go.
Qed.

Lemma ensure_loaded s x w :
  w_heap w !! s = Some x -> r_loaded (s_roster x) = true -> ensure_roster s w = Ok (tt, w).
Proof. intros Hx Hl. unfold ensure_roster, bind, deref. by rewrite Hx, Hl. Qed.

(** C20. Presence is shown to those who may see it: when a client comes online or
    changes its presence, every other session is sent the stanza, with the
    client's full JID as its [from], once for each roster item that leads to
    it and has the subscription "from" or "both", and nothing else. *)
Theorem available_reaches_subscribers s stanza x w w' xml :
  wf w -> w_heap w !! s = Some x -> r_loaded (s_roster x) = true ->
  stanza_serialize (xmlSetProp (xmlCopyNode stanza) "from" (full_jid_of x)) = Some xml ->
  presence_handle_available s stanza w = Ok (tt, w') ->
  forall t y, t <> s -> w_heap w !! t = Some y -> exists y', w_heap w' !! t = Some y' /\
    s_write_buf y' = s_write_buf y ++ copies (reach_count w t (r_items (s_roster x))) xml.
Proof.
  intros Hwf Hx Hl Hs H t y Hne Hy. revert H. unfold presence_handle_available.
  set (pres := xmlSetProp _ _ _) in *.
  set (f := fun x => set_presence_stanza (Some pres) (set_available true x)).
  set (w1 := set_heap (<[s := f x]> (w_heap w)) w).
  assert (w_heap w1 !! s = Some (f x)) as Hx1 by apply lookup_insert_eq.
  assert (same_names w w1) as Hn by (by apply upd_names).
  rewrite bind_ok with (a := x) (w' := w) by (unfold deref; by rewrite Hx). cbv zeta.
  rewrite bind_ok with (a := tt) (w' := w1) by (unfold upd; by rewrite Hx).
  rewrite bind_ok with (a := tt) (w' := w1) by (by apply (ensure_loaded s (f x))).
  rewrite bind_ok with (a := f x) (w' := w1) by (unfold deref; by rewrite Hx1).
  change (r_items (s_roster (f x))) with (r_items (s_roster x)). unfold bind at 1.
  match goal with |- match ?e with _ => _ end = _ -> _ =>
    destruct e as [[[] w2]|] eqn:E; [|done] end.
  destruct (broadcast_loop pres xml (fun _ => true) w _ w1 w2 Hwf Hn Hs E) as [_ Hb].
  intros H. assert (w_heap w1 !! t = Some y) as Hy1 by (cbn; by rewrite lookup_insert_ne).
  destruct (Hb t y Hy1) as (y' & Hy' & Ew). exists y'. split; [|done]. rewrite <- Hy'.
  pose proof (stays_receive s). pose proof (stays_first_presence s).
  refine (stays_bind s _ _ _ _ _ _ _ H t Hne); [by apply stays_for_each|].
  intros _. destruct (negb (s_available x)); [done|apply stays_ret].
Qed.

(** And they see it end: a departure is sent to the same sessions, as often,
    and to nobody if the client never sent presence. *)
Theorem unavailable_reaches_subscribers s x w w' xml :
  wf w -> w_heap w !! s = Some x -> r_loaded (s_roster x) = true ->
  stanza_serialize (presence_node "unavailable" (full_jid_of x) None) = Some xml ->
  presence_handle_unavailable s w = Ok (tt, w') ->
  let n t := if s_available x || s_initial_presence_sent x
             then reach_count w t (r_items (s_roster x)) else O in
  forall t y, t <> s -> w_heap w !! t = Some y -> exists y', w_heap w' !! t = Some y' /\
    s_write_buf y' = s_write_buf y ++ copies (n t) xml.
Proof.
  intros Hwf Hx Hl Hs H n t y Hne Hy. revert H.
  unfold presence_handle_unavailable, presence_broadcast_unavailable. unfold bind at 1.
  rewrite bind_ok with (a := x) (w' := w) by (unfold deref; by rewrite Hx).
  subst n. cbv beta. rewrite <- negb_orb.
  destruct (s_available x || s_initial_presence_sent x); cbn [negb].
  2:{ cbn [ret]. intros H. exists y. rewrite (stays_upd s _ _ _ _ H t Hne). split; [done|].
      cbn. by rewrite str_app_nil_r. }
  cbv zeta. rewrite bind_ok with (a := tt) (w' := w) by (by apply (ensure_loaded s x)).
  rewrite bind_ok with (a := x) (w' := w) by (unfold deref; by rewrite Hx). unfold bind at 1.
  match goal with |- match (match ?e with _ => _ end) with _ => _ end = _ -> _ =>
    destruct e as [[[] w2]|] eqn:E; [|done] end.
  destruct (broadcast_loop _ xml (fun c => negb (c =? s)%nat) w _ w w2 Hwf (same_names_refl w) Hs E)
    as [_ Hb].
  destruct (Hb t y Hy) as (y' & Hy' & Ew).
  assert ((t =? s)%nat = false) as Hts by (by apply Nat.eqb_neq). rewrite Hts in Ew. cbn [negb] in Ew.
  destruct (upd s _ w2) as [[[] w3]|] eqn:E3; [|done]. intros H. exists y'. split; [|done].
  rewrite <- Hy', (stays_upd s _ _ _ _ H t Hne). by apply (stays_upd s _ _ _ _ E3).
Qed.
End Visibility.

(** ** Instances *)

(** Bob sees Alice's presence, Carol does not. *)
Definition friends : roster :=
  mkRoster [mkItem "bob@localhost" "" "from" false; mkItem "carol@localhost" "" "to" false] true.
Definition befriended : world := run (upd 0%nat (set_roster friends)) users_online.

Lemma wf_set_roster s r w :
  (r_count r <= MAX_ROSTER_ITEMS)%nat -> wf w -> wf (run (upd s (set_roster r)) w).
Proof.
  intros Hr Hwf. unfold run, upd. destruct (w_heap w !! s) as [x|] eqn:Hx; [|done].
  destruct (wf_heap _ Hwf _ _ Hx) as [Hok _]. eapply wf_upd; try done.
  by destruct Hok; constructor.
Qed.

Lemma befriended_wf : wf befriended.
Proof. apply wf_set_roster; [vm_compute; lia|apply users_wf]. Qed.

Definition away : xnode := XElem "presence" None [] [] [XElem "show" None [] [] [XText "away"]].

Lemma available_reaches_subscribers_witness :
  exists y, w_heap (run (presence_handle_available 0%nat away) befriended) !! 1%nat = Some y /\
    s_write_buf y = s_write_buf (sess_at 1 befriended) ++
      copies 1 (show (xmlSetProp away "from" (full_jid_of (sess_at 0 befriended)))).
Proof.
  destruct (available_reaches_subscribers 0%nat away (sess_at 0 befriended) befriended
    (run (presence_handle_available 0%nat away) befriended)
    (show (xmlSetProp away "from" (full_jid_of (sess_at 0 befriended))))
    befriended_wf ltac:(apply sess_at_some; vm_compute; reflexivity)
    ltac:(vm_compute; reflexivity) ltac:(reflexivity)
    ltac:(apply run_outcome; vm_compute; reflexivity) 1%nat (sess_at 1 befriended)
    ltac:(discriminate) ltac:(apply sess_at_some; vm_compute; reflexivity)) as (y & Hy & E).
  exists y. split; [exact Hy|].
  assert (reach_count befriended 1 (r_items (s_roster (sess_at 0 befriended))) = 1%nat) as Hn
    by (vm_compute; reflexivity).
  rewrite Hn in E. exact E.
Defined.

Lemma unavailable_reaches_subscribers_witness :
  exists y, w_heap (run (presence_handle_unavailable 0%nat) befriended) !! 1%nat = Some y /\
    s_write_buf y = s_write_buf (sess_at 1 befriended) ++
      copies 1 (show (presence_node "unavailable" (full_jid_of (sess_at 0 befriended)) None)).
Proof.
  destruct (unavailable_reaches_subscribers 0%nat (sess_at 0 befriended) befriended
    (run (presence_handle_unavailable 0%nat) befriended)
    (show (presence_node "unavailable" (full_jid_of (sess_at 0 befriended)) None))
    befriended_wf ltac:(apply sess_at_some; vm_compute; reflexivity)
    ltac:(vm_compute; reflexivity) ltac:(reflexivity)
    ltac:(apply run_outcome; vm_compute; reflexivity) 1%nat (sess_at 1 befriended)
    ltac:(discriminate) ltac:(apply sess_at_some; vm_compute; reflexivity)) as (y & Hy & E).
  exists y. split; [exact Hy|].
  assert ((if s_available (sess_at 0 befriended) || s_initial_presence_sent (sess_at 0 befriended)
           then reach_count befriended 1 (r_items (s_roster (sess_at 0 befriended))) else 0%nat)
          = 1%nat) as Hn by (vm_compute; reflexivity).
  rewrite Hn in E. exact E.
Defined.
