(* ===== verification/Refused.v ===== *)
(** A hole in the gate of stanza_route: what a client can do whose stream was
    refused. *)

From stdpp Require Import gmap.
From S2P Require Import Prelude Util Dom World Concrete SessionIo Inv User Message Presence.
From S2P Require Import Session Auth Stanza Xml Server Rounds Demo Output Silent Routing Broadcast.
Open Scope Z_scope.

Section Refused.
Context {LX : LibXml} {PX : Posix} {RC : Recovery} {RA : Reallocates PX}.

(** A session IQ of RFC 3921, set or get. *)
Definition session_iq (n : xnode) : Prop :=
  xn_name n = "iq" /\ child_ns n = "urn:ietf:params:xml:ns:xmpp-session" /\
  prop_or n "type" "" <> "result" /\ prop_or n "type" "" <> "error".

(** The header for another host: the error is sent, the teardown waits for
    the parser, and the state stays what it was. *)
Lemma refused_open s host x w :
  w_heap w !! s = Some x -> s_in_xml_parse x = true -> host <> domain (w_config w) ->
  match stream_handle_open s host w with
  | Ok (_, w') => self_only s x w w'
  | Fault _ => False
  end.
Proof.
  intros Hx Hp Hh. unfold stream_handle_open, bind at 1, g_config.
  rewrite (proj2 (eqs_false _ _) Hh). by apply stream_error_self.
Qed.

(** In any state but STREAM_OPENED the gate is open, and a session IQ is
    answered. *)
Lemma session_iq_routed s n x w :
  w_heap w !! s = Some x -> s_state x <> STATE_STREAM_OPENED -> session_iq n ->
  match stanza_route s n w with
  | Ok (_, w') => self_only s (set_state STATE_SESSION_ACTIVE x)
                    (set_heap (<[s := set_state STATE_SESSION_ACTIVE x]> (w_heap w)) w) w'
  | Fault _ => False
  end.
Proof.
  intros Hx Hs (Hn & Hns & Hr & He). unfold stanza_route. cbv zeta. unfold bind at 1, deref.
  rewrite Hx, Hn, bool_decide_eq_false_2 by done. cbn [andb].
  change ("iq" =s "iq") with true. cbv iota. unfold handle_iq. cbv zeta. unfold bind at 1, g_config.
  rewrite (proj2 (eqs_false _ _) Hr), (proj2 (eqs_false _ _) He), Hns. cbn [orb].
  change (iq_handler_of "urn:ietf:params:xml:ns:xmpp-session") with IqSession. cbv iota.
  unfold session_handle_session_iq. set (x1 := set_state STATE_SESSION_ACTIVE x).
  set (w1 := set_heap (<[s := x1]> (w_heap w)) w).
  rewrite bind_ok with (a := tt) (w' := w1) by (unfold upd; by rewrite Hx).
  apply send_self, lookup_insert_eq.
Qed.

Lemma self_only_names s x w w' :
  w_heap w !! s = Some x -> self_only s x w w' -> same_names w w'.
Proof.
  intros Hx (_ & y & Hh & _ & _ & Hl & _ & _ & Hd & _ & _ & Hse & Hn). constructor; [done..|].
  intros t z Hz. rewrite Hh. destruct (decide (s = t)) as [<-|].
  - rewrite lookup_insert_eq. simplify_eq. eauto.
  - rewrite lookup_insert_ne by done. eauto.
Qed.

(** C37. The gate of [stanza_route] only closes in state STREAM_OPENED.  A
    client that is not logged in and asks for a stream to a host the server
    does not serve is refused, but stays in state CONNECTED until the rest of
    its segment is parsed.  If a session IQ follows in it, the client is
    SESSION_ACTIVE, and a message after that to any user who has an account and
    is connected is queued for that user, if it can be serialised, while the
    sender still is not logged in. *)
Theorem refused_stream_bypasses_gate s x host iq msg b t y xml w :
  w_heap w !! s = Some x -> s_in_xml_parse x = true ->
  s_state x = STATE_CONNECTED -> s_authenticated x = false ->
  host <> domain (w_config w) -> session_iq iq -> xn_name msg = "message" ->
  addressed w (prop_or msg "to" "") b ->
  fs_stat (w_fs w) (conf_path (w_config w) (jb_local b)) = true ->
  session_find_by_jid (jid_bare (jb_local b) (jb_domain b) 512) w = Ok (Some t, w) ->
  t <> s -> w_heap w !! t = Some y ->
  stanza_serialize (xmlSetProp msg "from" (full_jid_of x)) = Some xml ->
  match (stream_handle_open s host ;; stanza_route s iq ;; stanza_route s msg) w with
  | Ok (_, w') =>
      (exists x', w_heap w' !! s = Some x' /\ s_authenticated x' = false /\
                  s_state x' = STATE_SESSION_ACTIVE) /\
      exists y', w_heap w' !! t = Some y' /\ s_write_buf y' = s_write_buf y ++ xml
  | Fault _ => False
  end.
Proof.
  intros Hx Hp Hs Ha Hh Hiq Hm (Hj & Hl & Hd) Hk Hf Hts Hy Hxml.
  pose proof (refused_open s host x w Hx Hp Hh) as H1. unfold bind at 1.
  destruct (stream_handle_open s host w) as [[[] w1]|]; [|done].
  pose proof (self_only_names _ _ _ _ Hx H1) as N1.
  destruct H1 as (F1 & x1 & E1 & S1 & A1 & L1 & _ & _ & D1 & R1 & C1 & _).
  assert (w_heap w1 !! s = Some x1) as Hx1 by (rewrite E1; apply lookup_insert_eq).
  pose proof (session_iq_routed s iq x1 w1 Hx1 ltac:(by rewrite S1, Hs) Hiq) as H2. unfold bind at 1.
  destruct (stanza_route s iq w1) as [[[] w2]|]; [|done]. set (xa := set_state _ x1) in *.
  assert (same_names w1 (set_heap (<[s := xa]> (w_heap w1)) w1)) as Na
    by (apply (upd_names s (set_state STATE_SESSION_ACTIVE) x1); done).
  pose proof (same_names_trans _ _ _ N1 (same_names_trans _ _ _ Na
    (self_only_names s xa _ _ (lookup_insert_eq _ _ _) H2))) as N2.
  destruct H2 as (F2 & x2 & E2 & S2 & A2 & L2 & _ & _ & D2 & R2 & C2 & _).
  cbn [w_heap set_heap w_config w_fs] in E2, C2, F2. rewrite insert_insert_eq, E1 in E2.
  assert (w_heap w2 !! s = Some x2) as Hx2 by (rewrite E2; apply lookup_insert_eq).
  unfold stanza_route. cbv zeta. unfold bind at 1, deref at 1. rewrite Hx2, Hm, S2.
  change (bool_decide (s_state xa = STATE_STREAM_OPENED)) with false. cbn [andb].
  change ("message" =s "iq") with false. change ("message" =s "message") with true.
  change (state_active (s_state xa)) with true. cbn [negb]. cbv iota.
  assert (full_jid_of x2 = full_jid_of x) as Hfull
    by (unfold full_jid_of; by rewrite L2, D2, R2, <- L1, <- D1, <- R1).
  pose proof (deliver_message s x2 msg b w2 t y xml Hx2) as H3.
  assert (match handle_message s msg w2 with
          | Ok (_, w') => exists cap, w_heap w' = <[t := written y xml cap]> (w_heap w2) /\ w_fs w' = w_fs w2
          | Fault _ => False end) as H4.
  { apply H3.
    - split; [done|]. split; [done|]. by rewrite C2, C1.
    - by rewrite F2, F1, C2, C1.
    - by apply (find_names w).
    - rewrite E2, !lookup_insert_ne by done. done.
    - by rewrite Hfull. }
  destruct (handle_message s msg w2) as [[[] w3]|]; [|done]. destruct H4 as (cap & Hw3 & _).
  rewrite Hw3. split.
  - exists x2. rewrite lookup_insert_ne by done. split; [done|]. by rewrite A2, S2, <- Ha, <- A1.
  - exists (written y xml cap). by rewrite lookup_insert_eq.
Qed.
End Refused.

(** ** A run *)

(** Alice and Bob are online; a third client opens a stream to a host the
    server does not serve and sends, in the same segment, a session IQ and a
    message to Bob. *)
Definition stranger_boot : world :=
  boot_net demo_config users_fs [7; 8; 9]
    (login 7 "alice" "secret" ++ login 8 "bob" "hunter2" ++
     [(9, chunk ["S stream to=elsewhere"; "S iq type=set id=1";
                 "N urn:ietf:params:xml:ns:xmpp-session session"; "E"; "E";
                 "S message to=bob@localhost"; "S body"; "C spam"; "E"; "E"])])%list
    ([[1]; [1; 0]] ++ replicate 6 [0; 1; 0] ++ replicate 6 [0; 0; 1] ++
     [[1; 0; 0]; [0; 0; 0; 1]])%list.
Definition stranger_in : world := rounds 15 (run server_init stranger_boot).
Definition stranger_done : world := run server_round stranger_in.

(** The message Bob gets. *)
Definition spam : xnode :=
  XElem "message" None [] [mkAttr None "to" "bob@localhost"; mkAttr None "from" "@/"]
    [XElem "body" None [] [] [XText "spam"]].

(** The whole round, from the bytes the third client sends. *)
Lemma stranger_run :
  s_authenticated (sess_at 2 stranger_in) = false /\
  s_state (sess_at 2 stranger_in) = STATE_CONNECTED /\
  outcome server_round stranger_in = Ok true /\
  (s_write_buf (sess_at 1 stranger_done) =s s_write_buf (sess_at 1 stranger_in) ++ show spam) = true.
Proof. split_and!; vm_compute; reflexivity. Qed.

(** Its parser is on the stack. *)
Definition stranger_parsed : world := run (upd 2%nat (set_in_xml_parse true)) stranger_in.

Definition stranger_iq : xnode :=
  XElem "iq" None [] [mkAttr None "type" "set"; mkAttr None "id" "1"]
    [XElem "session" (Some (mkNs "urn:ietf:params:xml:ns:xmpp-session" None)) [] [] []].
Definition stranger_message : xnode :=
  XElem "message" None [] [mkAttr None "to" "bob@localhost"]
    [XElem "body" None [] [] [XText "spam"]].

Lemma find_bob_parsed :
  session_find_by_jid (jid_bare "bob" "localhost" 512) stranger_parsed = Ok (Some 1%nat, stranger_parsed).
Proof. apply find_outcome. vm_compute. reflexivity. Qed.

Lemma refused_stream_bypasses_gate_witness :
  match (stream_handle_open 2%nat "elsewhere" ;; stanza_route 2%nat stranger_iq ;;
         stanza_route 2%nat stranger_message) stranger_parsed with
  | Ok (_, w') =>
      (exists x', w_heap w' !! 2%nat = Some x' /\ s_authenticated x' = false /\
                  s_state x' = STATE_SESSION_ACTIVE) /\
      exists y', w_heap w' !! 1%nat = Some y' /\
                 s_write_buf y' = s_write_buf (sess_at 1 stranger_parsed) ++ show spam
  | Fault _ => False
  end.
Proof.
  apply (refused_stream_bypasses_gate 2%nat (sess_at 2 stranger_parsed) "elsewhere" stranger_iq
           stranger_message (mkJid "bob" "localhost" "") 1%nat (sess_at 1 stranger_parsed)).
  - apply sess_at_some. vm_compute. reflexivity.
  - vm_compute. reflexivity.
  - vm_compute. reflexivity.
  - vm_compute. reflexivity.
  - vm_compute. discriminate.
  - split; [reflexivity|]. split; [reflexivity|]. split; discriminate.
  - reflexivity.
  - split; [vm_compute; reflexivity|split; [reflexivity|vm_compute; reflexivity]].
  - vm_compute. reflexivity.
  - exact find_bob_parsed.
  - discriminate.
  - apply sess_at_some. vm_compute. reflexivity.
  - assert (full_jid_of (sess_at 2 stranger_parsed) = "@/") as E by (vm_compute; reflexivity).
    rewrite E. reflexivity.
Defined.
