(* ===== verification/Credentials.v ===== *)
(** Accounts and authentication: what a stored password accepts, what account
    creation leaves on disk, and what SASL PLAIN lets in. *)

From stdpp Require Import gmap.
From S2P Require Import Prelude CLib Util Dom World Concrete SessionIo Inv User Auth Rounds Demo.
From S2P Require Import Output.
Open Scope Z_scope.

(** ** user.conf *)

(** No character that ends the line or the string. *)
Definition line_end (c : ascii) : bool :=
  is_char c newline || is_char c carriage_return || is_char c nul.

Fixpoint one_line (s : string) : bool :=
  match s with
  | EmptyString => true
  | String c s' => negb (line_end c) && one_line s'
  end.

Lemma one_line_app s t : one_line (s ++ t) = one_line s && one_line t.
Proof. induction s as [|c s IH]; simpl; [done|]. by rewrite IH, andb_assoc. Qed.

Lemma one_line_mem s c : one_line s = true -> str_mem c s = true -> line_end c = false.
Proof.
  induction s as [|d s IH]; simpl; intros H Hc; [done|]. eqs_prop.
  destruct (Ascii.eqb_spec c d); [by subst|]. by apply IH.
Qed.

(** What user.conf keeps of a password: the check reads lines of at most 1023
    characters, [password_of_line] cuts one at the first line end and trims
    the value. *)
Definition stored_password (p : string) : string :=
  trim (str_until line_end (str_take (Z.to_nat 1012) p)).

Lemma str_until_twice f g h s :
  (forall c, h c = f c || g c) -> str_until f (str_until g s) = str_until h s.
Proof.
  intros H. induction s as [|c s IH]; cbn [str_until]; [done|]. rewrite (H c).
  destruct (g c) eqn:E; cbn [str_until]; [by rewrite orb_true_r|].
  destruct (f c); cbn [orb]; [done|]. by rewrite IH.
Qed.

(** [fgets] stops after a newline: cut at one, its first line is the text cut
    there. *)
Lemma fgets_loop_first stop size room s :
  stop newline = true -> s <> "" -> (1 <= room)%nat ->
  exists c cs, fgets_loop size room s = c :: cs /\ str_until stop c = str_until stop (str_take room s).
Proof.
  intros Hn. revert room. induction s as [|c s IH]; intros room Hs Hr; [done|].
  destruct room as [|room]; [lia|]. cbn [fgets_loop str_take str_until].
  destruct (is_char c newline) eqn:Ec; cbn [orb].
  { apply is_char_eq in Ec as ->. eexists _, _. split; [done|]. cbn [str_until]. by rewrite Hn. }
  destruct room as [|room]; cbn [Nat.leb].
  { eexists _, _. split; [done|]. cbn [str_until]. by rewrite str_take_0. }
  destruct s as [|d s]; [by eexists _, _|].
  destruct (IH (S room)) as (l & ls & E & H); [done|lia|]. cbn [Nat.sub]. rewrite E.
  eexists _, _. split; [done|]. cbn [str_until]. by rewrite H.
Qed.

Lemma str_take_app_plus s n t : str_take (String.length s + n) (s ++ t) = s ++ str_take n t.
Proof. induction s as [|c s IH]; simpl; [done|]. by rewrite IH. Qed.

Lemma str_until_app_none f s t :
  (forall c, str_mem c s = true -> f c = false) -> str_until f (s ++ t) = s ++ str_until f t.
Proof.
  induction s as [|c s IH]; intros H; simpl; [done|].
  rewrite (H c) by (simpl; by rewrite Ascii.eqb_refl). f_equal. apply IH. intros d Hd.
  apply H. simpl. by destruct (Ascii.eqb d c).
Qed.

Lemma str_until_take_end f n s c :
  f c = true -> str_until f (str_take n (s ++ String c "")) = str_until f (str_take n s).
Proof.
  intros Hc. revert n. induction s as [|d s IH]; intros [|n]; simpl; try done.
  - by rewrite Hc.
  - by rewrite IH.
Qed.

(** The line that [user_create] and [user_change_password] write, read by
    [user_check_password]. *)
Lemma check_own_file p q :
  check_password_lines (fgets_all 1024 (password_line p)) q = (stored_password p =s q).
Proof.
  unfold fgets_all. destruct (fgets_loop_first line_end 1024 (1024 - 1) (password_line p))
    as (l & ls & E & Hl); [done|done|lia|]. rewrite E. cbn [check_password_lines].
  assert (str_until line_end l
          = "password = " ++ str_until line_end (str_take (Z.to_nat 1012) p)) as H.
  { rewrite Hl. unfold password_line.
    replace (1024 - 1)%nat with (String.length "password = " + Z.to_nat 1012)%nat by (simpl; lia).
    rewrite str_take_app_plus, str_until_app_none, str_until_take_end; [done|done|].
    intros c Hc. by repeat (destruct c as [[] [] [] [] [] [] [] []]; try done). }
  unfold password_of_line. rewrite (str_until_twice _ _ line_end), H; [reflexivity|].
  intros c. unfold line_end. by destruct (is_char c newline), (is_char c carriage_return).
Qed.

(** A password of one line that is not too long is kept but for the white
    space around it. *)
Lemma stored_password_line p :
  one_line p = true -> (String.length p <= Z.to_nat 1012)%nat -> stored_password p = trim p.
Proof.
  intros Hp Hl. unfold stored_password. rewrite str_take_ge by done. f_equal.
  apply str_until_none. intros c Hc. by apply (one_line_mem p).
Qed.

Section Accounts.
Context {LX : LibXml} {PX : Posix} {RC : Recovery} {RA : Reallocates PX} {PL : PosixLaws PX} {ID : IdealDisk PX}.

(** All the paths of an account fit their buffers. *)
Definition short_name (cfg : config_t) (username : string) : Prop :=
  (String.length (datadir cfg) + String.length username < Z.to_nat 1200)%nat.

Lemma conf_path_fits cfg u :
  short_name cfg u -> conf_path cfg u = datadir cfg ++ "/" ++ u ++ "/user.conf".
Proof.
  intros H. unfold conf_path, short_name in *. change 1280%nat with (Z.to_nat 1280). apply snprintf_fits. str_len.
Qed.

Lemma account_path_fits cfg u file :
  short_name cfg u -> (String.length file < 50)%nat ->
  snprintf 1536 (user_get_datapath cfg u 1280 ++ file) = datadir cfg ++ "/" ++ u ++ file.
Proof.
  intros H Hf. unfold user_get_datapath, short_name in *.
  change 1536%nat with (Z.to_nat 1536). change 1280%nat with (Z.to_nat 1280).
  rewrite (snprintf_fits (Z.to_nat 1280)) by str_len.
  rewrite snprintf_fits by str_len.
  by rewrite !str_app_assoc.
Qed.

(** What the file of a user says decides. *)
Lemma check_password_eq w u q :
  user_check_password u q w =
  Ok (match fs_read (w_fs w) (conf_path (w_config w) u) with
      | None => false
      | Some content => check_password_lines (fgets_all 1024 content) q
      end, w).
Proof.
  unfold user_check_password, bind, g_config, get_fs, ret. by destruct (fs_read _ _).
Qed.

(** An account that was made has its password line in user.conf. *)
Lemma make_account_conf w w' u p :
  short_name (w_config w) u ->
  make_account (user_get_datapath (w_config w) u 1280) p w = Ok (0, w') ->
  fs_read (w_fs w') (conf_path (w_config w) u) = Some (password_line p) /\
  w_config w' = w_config w.
Proof.
  intros Hs. unfold make_account. rewrite !account_path_fits by (done || simpl; lia).
  unfold bind, do_fs, ret.
  destruct (fs_mkdir (w_fs w) _) as [f1 [|]] eqn:E1; [|done]. cbn [negb w_fs set_fs].
  destruct (fs_write f1 _ (password_line p)) as [f2 [|]] eqn:E2; [|done]. cbn [negb w_fs set_fs].
  destruct (fs_write f2 _ empty_roster_file) as [f3 [|]] eqn:E3; [|done]. cbn [negb w_fs set_fs].
  destruct (fs_mkdir f3 _) as [f4 [|]] eqn:E4; [|done]. cbn [negb w_fs set_fs].
  intros [= <-]. split; [|done]. cbn [w_fs set_fs]. rewrite conf_path_fits by done.
  rewrite (fs_read_mkdir _ _ _ _ _ E4).
  rewrite (fs_read_other _ _ _ _ _ _ E3).
  - by apply (fs_read_written _ _ _ _ E2).
  - intros H%str_app_inj%str_app_inj%str_app_inj. discriminate H.
Qed.
End Accounts.

(** ** SASL PLAIN payloads *)

Lemma skip_to_nul_bytes s rest :
  no_nul s = true -> skip_to_nul (str_bytes s ++ 0 :: rest)%list = (0 :: rest)%list.
Proof.
  induction s as [|c s IH]; simpl; intros H; [done|]. eqs_prop.
  match goal with H : (char_code c =? 0) = false |- _ => rewrite H end. by apply IH.
Qed.

Lemma after_nul_bytes s b rest :
  no_nul s = true -> after_nul (str_bytes s ++ 0 :: b :: rest)%list = Some (b :: rest).
Proof. intros H. unfold after_nul. by rewrite skip_to_nul_bytes. Qed.

Lemma parse_plain_parts z a p :
  no_nul z = true -> no_nul a = true -> no_nul p = true -> p <> "" ->
  parse_plain (plain_message z a p) = Some (a, p).
Proof.
  intros Hz Ha Hp Hne. unfold parse_plain, plain_message.
  destruct p as [|c p]; [done|]. cbn [str_bytes].
  destruct a as [|d a].
  - cbn [str_bytes app]. rewrite after_nul_bytes by done.
    change (0 :: char_code c :: str_bytes p)%list
      with (str_bytes "" ++ 0 :: char_code c :: str_bytes p)%list.
    rewrite after_nul_bytes by done.
    change (char_code c :: str_bytes p)%list with (str_bytes (String c p)).
    by rewrite c_str_bytes_end.
  - cbn [str_bytes app]. rewrite after_nul_bytes by done.
    change (char_code d :: str_bytes a ++ 0 :: char_code c :: str_bytes p)%list
      with (str_bytes (String d a) ++ 0 :: char_code c :: str_bytes p)%list.
    rewrite after_nul_bytes by done. rewrite c_str_bytes by done.
    change (char_code c :: str_bytes p)%list with (str_bytes (String c p)).
    by rewrite c_str_bytes_end.
Qed.

Lemma str_bytes_range s : Forall byte_range (str_bytes s).
Proof. induction s; simpl; constructor; [apply char_code_range|done]. Qed.

Lemma plain_message_range z a p : Forall byte_range (plain_message z a p).
Proof.
  pose proof str_bytes_range.
  unfold plain_message. apply Forall_app. split; [done|]. constructor; [unfold byte_range; lia|].
  apply Forall_app. split; [done|]. constructor; [unfold byte_range; lia|done].
Qed.

Lemma str_bytes_of bs : Forall byte_range bs -> str_bytes (string_of_bytes bs) = bs.
Proof. induction 1 as [|b bs Hb _ IH]; simpl; [done|]. by rewrite IH, char_code_byte. Qed.

(** What a client sends for it. *)
Definition plain_text (z a p : string) : string := string_of_bytes (b64_encode (plain_message z a p)).

Lemma b64_valid_range c : b64_valid c = true -> byte_range c.
Proof. unfold b64_valid, byte_range. intros. lia. Qed.

Lemma plain_text_decodes z a p :
  (List.length (plain_message z a p) <= 3072)%nat ->
  base64_decode (str_bytes (plain_text z a p)) = Some (plain_message z a p).
Proof.
  intros Hl. unfold plain_text. rewrite str_bytes_of.
  - apply base64_decode_encode; [apply plain_message_range|done].
  - pose proof (b64_encode_valid _ (plain_message_range z a p)) as H.
    apply Forall_forall. intros c Hc. apply b64_valid_range.
    unfold all_valid in H. rewrite forallb_forall in H. apply H. by apply list_elem_of_In.
Qed.

Lemma plain_message_length z a p :
  List.length (plain_message z a p) =
  (String.length z + String.length a + String.length p + 2)%nat.
Proof.
  unfold plain_message. rewrite length_app. cbn [List.length]. rewrite length_app.
  cbn [List.length]. rewrite !length_str_bytes. lia.
Qed.

(** ** Properties *)

Section Properties.
Context {LX : LibXml} {PX : Posix} {RC : Recovery} {RA : Reallocates PX}.

(** An account that was made accepts what its file keeps of the password. *)
Lemma created_account_check {PL : PosixLaws PX} {ID : IdealDisk PX} w w' u p q :
  short_name (w_config w) u -> user_create u p w = Ok (0, w') ->
  user_check_password u q w' = Ok (stored_password p =s q, w').
Proof.
  intros Hs. unfold user_create. destruct (valid_username u); [|done]. cbn [negb].
  unfold bind at 1, user_exists, bind, g_config, get_fs, ret at 1.
  destruct (fs_stat _ _); [done|].
  intros H. destruct (make_account_conf w w' u p Hs H) as [Hr Hc].
  by rewrite check_password_eq, Hc, Hr, check_own_file.
Qed.

(** C14. An account made with a password, any string, accepts from then on
    exactly one: the first 1012 characters of the password, up to the first
    line end among them, without the white space around that.  So a password
    that begins or ends with white space, has several lines or is longer
    cannot log in at all, and its trimmed first line can.  The data directory
    and the user's name together are below 1200 characters, so that no path
    is cut short. *)
Theorem created_account_password {PL : PosixLaws PX} {ID : IdealDisk PX} w w' u p q :
  short_name (w_config w) u -> user_create u p w = Ok (0, w') ->
  user_check_password u q w' = Ok (stored_password p =s q, w').
Proof. apply created_account_check. Qed.

(** Changing a password has the same effect. *)
Theorem changed_password {ID : IdealDisk PX} w w' u p q :
  user_change_password u p w = Ok (0, w') ->
  user_check_password u q w' = Ok (stored_password p =s q, w').
Proof.
  unfold user_change_password, bind, g_config, do_fs, ret.
  destruct (fs_write _ _ _) as [f [|]] eqn:E; [|done]. intros [= <-].
  rewrite check_password_eq. cbn [w_fs w_config set_fs].
  by rewrite (fs_read_written _ _ _ _ E), check_own_file.
Qed.

(** Account creation refuses before it touches the disk: -2 exactly for
    an invalid name, -1 exactly for a valid one that exists, and nothing has
    changed then; and a name it does not refuse has no slash in it. *)
Theorem create_refusals w u p :
  match user_create u p w with
  | Ok (rc, w') =>
      (rc = -2 <-> valid_username u = false) /\
      (rc = -1 <-> valid_username u = true /\
                   fs_stat (w_fs w) (conf_path (w_config w) u) = true) /\
      (rc = -1 \/ rc = -2 -> w' = w) /\
      (rc = 0 \/ rc = -1 \/ rc = -2 \/ rc = -3) /\
      (rc <> -2 -> str_mem "/" u = false)
  | Fault _ => False
  end.
Proof.
  unfold user_create. destruct (valid_username u) eqn:Ev; cbn [negb]; [|by split_and!; naive_solver].
  assert (str_mem "/" u = false) as Hslash.
  { unfold valid_username in Ev. destruct (str_empty u); [done|].
    induction u as [|c u IH]; [done|]. cbn [username_chars str_mem] in *.
    destruct (Ascii.eqb_spec "/" c) as [<-|]; [done|]. destruct (_ && _)%bool; [done|].
    by apply IH. }
  unfold user_exists, bind, g_config, get_fs, ret.
  destruct (fs_stat _ _) eqn:Es; [by split_and!; naive_solver|].
  unfold make_account, bind, do_fs, ret.
  repeat (match goal with |- context [let '(_, _) := ?m in _] => destruct m as [? [|]] end;
    cbn [negb w_fs set_fs]); by split_and!; naive_solver.
Qed.

(** ** SASL *)

(** The facts under which [auth_handle_sasl] lets a session in. *)
Definition accepted (stanza : xnode) (w : world) (authcid passwd : string) : Prop :=
  xmlGetProp stanza "mechanism" = Some "PLAIN" /\
  exists content decoded,
    xmlNodeGetContent stanza = Some content /\
    base64_decode (str_bytes content) = Some decoded /\
    parse_plain decoded = Some (authcid, passwd) /\
    user_check_password authcid passwd w = Ok (true, w).

(** A refusal only writes to the session. *)
Lemma refusal_keeps s text x w w' y :
  w_heap w !! s = Some x -> session_write_str s text w = Ok (tt, w') ->
  w_heap w' !! s = Some y -> s_authenticated y = s_authenticated x.
Proof.
  intros Hx Hw Hy. pose proof (session_write_spec s text x w Hx) as H.
  unfold session_write_str in Hw. rewrite Hw in H. destruct H as (cap & Hh & _).
  rewrite Hh, lookup_insert_eq in Hy. by inv Hy.
Qed.

(** The session once its client is known. *)
Definition logged_in (cfg : config_t) (u : string) (x : session) : session :=
  set_state STATE_AUTHENTICATED (set_authenticated true
    (set_jid_domain (snprintf 256 (domain cfg)) (set_jid_local (snprintf 256 u) x))).

(** Letting a client in under a name. *)
Definition welcome (s : sid) (u : string) : M unit :=
  let! cfg := g_config in
  upd s (logged_in cfg u) ;;
  session_write_str s sasl_success ;;
  upd s (set_parser_reset_pending true).

(** The two ways [auth_handle_sasl] can take. *)
Lemma auth_cases s stanza w :
  (exists text, auth_handle_sasl s stanza w = session_write_str s text w) \/
  (exists u p, accepted stanza w u p /\ auth_handle_sasl s stanza w = welcome s u w).
Proof.
  unfold auth_handle_sasl.
  destruct (negb _) eqn:Em; [by left; eexists|].
  destruct (str_empty _) eqn:Ec; [by left; eexists|].
  destruct (base64_decode _) as [decoded|] eqn:Ed; [|by left; eexists].
  destruct (_ <? _)%nat; [by left; eexists|].
  destruct (parse_plain decoded) as [[a p]|] eqn:Ep; [|by left; eexists].
  pose proof (check_password_eq w a p) as Hcp. rewrite (bind_ok _ _ _ _ _ Hcp).
  match type of Hcp with _ = Ok (?v, _) => set (ok := v) in * end.
  destruct ok; [|by left; eexists]. right. exists a, p. split; [|done]. split.
  - destruct (xmlGetProp stanza "mechanism"); [|done]. by eqs_prop; subst.
  - destruct (xmlNodeGetContent stanza) as [c|] eqn:Ex; [|done]. eauto 10.
Qed.

Lemma welcome_eq s u x w :
  w_heap w !! s = Some x ->
  welcome s u w = (session_write_str s sasl_success ;; upd s (set_parser_reset_pending true))
    (set_heap (<[s := logged_in (w_config w) u x]> (w_heap w)) w).
Proof.
  intros Hx. unfold welcome, bind at 1, g_config.
  by rewrite (bind_ok _ _ _ tt (set_heap (<[s := logged_in (w_config w) u x]> (w_heap w)) w))
    by (unfold upd; by rewrite Hx).
Qed.

(** The session afterwards. *)
Lemma welcome_session s u x y w w' :
  w_heap w !! s = Some x -> welcome s u w = Ok (tt, w') -> w_heap w' !! s = Some y ->
  exists buf cap, y = set_parser_reset_pending true
    (set_write_buf buf (set_write_cap cap (logged_in (w_config w) u x))).
Proof.
  intros Hx Hrun Hy. rewrite (welcome_eq _ _ _ _ Hx) in Hrun.
  set (x1 := logged_in _ _ _) in *. set (w1 := set_heap _ w) in *.
  pose proof (session_write_spec s sasl_success x1 w1 (lookup_insert_eq _ _ _)) as H1.
  unfold session_write_str, bind at 1 in Hrun.
  destruct (session_write s sasl_success w1) as [[? w2]|]; [|done].
  destruct H1 as (cap & Hh & _). unfold upd in Hrun. rewrite Hh, lookup_insert_eq in Hrun.
  apply (f_equal (fun r => match r with Ok (_, v) => w_heap v !! s | _ => None end)) in Hrun.
  cbn [w_heap set_heap] in Hrun. rewrite lookup_insert_eq, Hy in Hrun. inv Hrun. by do 2 eexists.
Qed.

(** SASL lets nobody in without the password: a session that was not
    authenticated and is after [auth_handle_sasl] sent a PLAIN payload whose
    name and password the account store accepted, and it carries that name
    and the server's domain. *)
Theorem sasl_requires_password s stanza x y w w' :
  w_heap w !! s = Some x -> s_authenticated x = false ->
  auth_handle_sasl s stanza w = Ok (tt, w') ->
  w_heap w' !! s = Some y -> s_authenticated y = true ->
  exists authcid passwd, accepted stanza w authcid passwd /\
    s_jid_local y = snprintf 256 authcid /\
    s_jid_domain y = snprintf 256 (domain (w_config w)) /\
    s_state y = STATE_AUTHENTICATED.
Proof.
  intros Hx Hna Hrun Hy Ha. destruct (auth_cases s stanza w) as [[text E]|(u & p & Hacc & E)].
  - rewrite E in Hrun. pose proof (refusal_keeps _ _ _ _ _ _ Hx Hrun Hy). congruence.
  - rewrite E in Hrun. destruct (welcome_session _ _ _ _ _ _ Hx Hrun Hy) as (buf & cap & ->).
    by exists u, p.
Qed.

(** What is left to do when the account store has accepted the credentials. *)
Lemma sasl_accept_eq s stanza x w z u p :
  w_heap w !! s = Some x ->
  xmlGetProp stanza "mechanism" = Some "PLAIN" ->
  xmlNodeGetContent stanza = Some (plain_text z u p) ->
  no_nul z = true -> no_nul u = true -> no_nul p = true -> p <> "" ->
  (String.length z + String.length u + String.length p <= Z.to_nat 3070)%nat ->
  user_check_password u p w = Ok (true, w) ->
  auth_handle_sasl s stanza w =
  (session_write_str s sasl_success ;; upd s (set_parser_reset_pending true))
    (set_heap (<[s := logged_in (w_config w) u x]> (w_heap w)) w).
Proof.
  intros Hx Hm Hc Hz Hu Hp Hne Hl Hcp. unfold auth_handle_sasl. rewrite Hm, Hc.
  pose proof (plain_message_length z u p) as Hlen.
  assert (base64_decode (str_bytes (plain_text z u p)) = Some (plain_message z u p)) as Hd.
  { apply plain_text_decodes. change 3072%nat with (Z.to_nat 3072). lia. }
  assert (1 <= String.length p)%nat by (destruct p; simpl; [done|lia]).
  change ("PLAIN" =s "PLAIN") with true. cbn [negb].
  destruct (str_empty (plain_text z u p)) eqn:Ee.
  { apply str_empty_true in Ee. rewrite Ee in Hd. apply (f_equal (option_map (@List.length Z))) in Hd.
    cbn [option_map] in Hd. rewrite Hlen in Hd. inv Hd. lia. }
  rewrite Hd. rewrite (proj2 (Nat.ltb_ge _ _)) by lia.
  rewrite parse_plain_parts by done. rewrite (bind_ok _ _ _ _ _ Hcp). cbn [negb].
  by apply welcome_eq.
Qed.

Lemma sasl_accepted s stanza x w z u p :
  w_heap w !! s = Some x ->
  xmlGetProp stanza "mechanism" = Some "PLAIN" ->
  xmlNodeGetContent stanza = Some (plain_text z u p) ->
  no_nul z = true -> no_nul u = true -> no_nul p = true -> p <> "" ->
  (String.length z + String.length u + String.length p <= Z.to_nat 3070)%nat ->
  user_check_password u p w = Ok (true, w) ->
  match auth_handle_sasl s stanza w with
  | Ok (_, w') => exists y, w_heap w' !! s = Some y /\ s_authenticated y = true /\
      s_state y = STATE_AUTHENTICATED /\ s_parser_reset_pending y = true /\
      s_jid_local y = snprintf 256 u /\ s_write_buf y = s_write_buf x ++ sasl_success
  | Fault _ => False
  end.
Proof.
  intros Hx Hm Hc Hz Hu Hp Hne Hl Hcp.
  rewrite (sasl_accept_eq s stanza x w z u p) by done.
  set (x1 := logged_in (w_config w) u x). unfold session_write_str, bind.
  pose proof (session_write_spec s sasl_success x1 (set_heap (<[s := x1]> (w_heap w)) w)
    (lookup_insert_eq _ _ _)) as H1.
  destruct (session_write s sasl_success _) as [[? w1]|]; [|done].
  destruct H1 as (cap & Hh & _). unfold upd. rewrite Hh, lookup_insert_eq.
  eexists. cbn [w_heap set_heap]. by rewrite lookup_insert_eq.
Qed.

(** And whoever has the password gets in: a PLAIN payload in base64
    whose name and password the account store accepts authenticates the
    session under that name, queues the success element and asks for the
    parser to be reset. *)
Theorem sasl_accepts s stanza x w z u p :
  w_heap w !! s = Some x ->
  xmlGetProp stanza "mechanism" = Some "PLAIN" ->
  xmlNodeGetContent stanza = Some (plain_text z u p) ->
  no_nul z = true -> no_nul u = true -> no_nul p = true -> p <> "" ->
  (String.length z + String.length u + String.length p <= Z.to_nat 3070)%nat ->
  user_check_password u p w = Ok (true, w) ->
  match auth_handle_sasl s stanza w with
  | Ok (_, w') => exists y, w_heap w' !! s = Some y /\ s_authenticated y = true /\
      s_state y = STATE_AUTHENTICATED /\ s_parser_reset_pending y = true /\
      s_jid_local y = snprintf 256 u /\ s_write_buf y = s_write_buf x ++ sasl_success
  | Fault _ => False
  end.
Proof. apply sasl_accepted. Qed.
End Properties.

Definition demo_auth : world := run (auth_handle_sasl 0%nat (auth_stanza "alice" "secret")) demo_account.

Lemma demo_check : user_check_password "alice" "secret" demo_account = Ok (true, demo_account).
Proof.
  rewrite check_password_eq. apply (f_equal Ok), f_equal2; [vm_compute; reflexivity|reflexivity].
Qed.

Lemma created_account_password_witness :
  user_check_password "alice" "secret" demo_account = Ok (true, demo_account).
Proof.
  apply (created_account_password demo_open demo_account "alice" "secret" "secret").
  - apply Nat.ltb_lt. vm_compute. reflexivity.
  - unfold demo_account. apply run_outcome. vm_compute. reflexivity.
Defined.

(** Of two lines the first is kept. *)
Lemma changed_password_witness :
  user_check_password "alice" "new one"
    (run (user_change_password "alice" ("new one " ++ String newline "line two")) demo_account)
  = Ok (true, run (user_change_password "alice" ("new one " ++ String newline "line two")) demo_account).
Proof.
  apply (changed_password demo_account _ "alice" ("new one " ++ String newline "line two") "new one").
  apply run_outcome. vm_compute. reflexivity.
Defined.

Lemma sasl_requires_password_witness :
  exists a p, accepted (auth_stanza "alice" "secret") demo_account a p /\
              s_jid_local (sess_at 0 demo_auth) = snprintf 256 a.
Proof.
  destruct (sasl_requires_password 0%nat (auth_stanza "alice" "secret") (sess_at 0 demo_account)
              (sess_at 0 demo_auth) demo_account demo_auth) as (a & p & H & Hl & _).
  - apply sess_at_some. vm_compute. reflexivity.
  - vm_compute. reflexivity.
  - unfold demo_auth. apply run_outcome. vm_compute. reflexivity.
  - apply sess_at_some. vm_compute. reflexivity.
  - vm_compute. reflexivity.
  - exists a, p. split; [exact H|exact Hl].
Defined.

Lemma sasl_accepts_witness :
  match auth_handle_sasl 0%nat (auth_stanza "alice" "secret") demo_account with
  | Ok (_, w') => exists y, w_heap w' !! 0%nat = Some y /\ s_authenticated y = true /\
      s_state y = STATE_AUTHENTICATED /\ s_parser_reset_pending y = true /\
      s_jid_local y = snprintf 256 "alice" /\
      s_write_buf y = s_write_buf (sess_at 0 demo_account) ++ sasl_success
  | Fault _ => False
  end.
Proof.
  apply (sasl_accepts 0%nat _ (sess_at 0 demo_account) demo_account "" "alice" "secret").
  - apply sess_at_some. vm_compute. reflexivity.
  - reflexivity.
  - vm_compute. reflexivity.
  - reflexivity.
  - reflexivity.
  - reflexivity.
  - discriminate.
  - apply Nat.leb_le. vm_compute. reflexivity.
  - apply demo_check.
Defined.
