(* ===== verification/Registration.v ===== *)
(** Accounts over the wire: a registration followed by a login, and the
    removal of an account. *)

From stdpp Require Import gmap.
From S2P Require Import Prelude CLib Util Dom World Concrete SessionIo Inv User Session Auth Stanza Rounds.
From S2P Require Import Demo Output Silent Routing Credentials.
Open Scope Z_scope.

(** ** Registration *)

Section Registering.
Context {LX : LibXml} {PX : Posix} {RC : Recovery} {RA : Reallocates PX}.

(** An IQ that registers a user, and the element that logs it in. *)
Record registers (iq : xnode) (u p : string) : Prop := {
  rg_name : xn_name iq = "iq";
  rg_child : child_ns iq = "jabber:iq:register";
  rg_type : prop_or iq "type" "" = "set";
  rg_remove : has_remove (query_children iq) = false;
  rg_credentials : credentials (query_children iq) None None = (Some u, Some p)
}.

Record authenticates (el : xnode) (u p : string) : Prop := {
  at_name : xn_name el = "auth";
  at_ns : ns_of el = "urn:ietf:params:xml:ns:xmpp-sasl";
  at_mechanism : xmlGetProp el "mechanism" = Some "PLAIN";
  at_content : xmlNodeGetContent el = Some (plain_text "" u p)
}.

(** Account creation works on the disk only. *)
Lemma user_create_disk u p w rc w' :
  user_create u p w = Ok (rc, w') -> exists fs, w' = set_fs fs w.
Proof.
  unfold user_create, user_exists, make_account, bind, g_config, get_fs, do_fs, ret.
  destruct (negb _); [intros [= _ <-]; exists (w_fs w); by destruct w|].
  destruct (fs_stat _ _); [intros [= _ <-]; exists (w_fs w); by destruct w|].
  repeat (match goal with |- context [let '(_, _) := ?m in _] => destruct m as [? [|]] end;
    cbn [negb w_fs set_fs]); intros [= _ <-]; by eexists.
Qed.

Lemma str_nonempty s : s <> "" -> str_empty s = false.
Proof. by destruct s. Qed.

(** On an open stream, before the login, the IQ makes the account and sends
    the result. *)
Lemma register_eq s iq x w u p w1 :
  w_heap w !! s = Some x -> s_state x = STATE_STREAM_OPENED -> s_authenticated x = false ->
  registers iq u p -> u <> "" -> p <> "" -> user_create u p w = Ok (0, w1) ->
  stanza_route s iq w = send_result_iq s (prop_or iq "id" "") false w1.
Proof.
  intros Hx Hs Ha [Hn Hc Ht Hr Hcr] Hu Hp E. unfold stanza_route. cbv zeta.
  assert (deref s w = Ok (x, w)) as Hd by (unfold deref; by rewrite Hx).
  rewrite (bind_ok _ _ _ _ _ Hd), Hs, Ha, Hn, Hc.
  rewrite bool_decide_eq_true_2 by done. cbn [negb andb].
  change ("iq" =s "auth") with false. change ("iq" =s "iq") with true.
  change ("jabber:iq:register" =s "jabber:iq:register") with true. cbn [andb]. cbv iota.
  unfold register_handle_iq. cbv zeta. rewrite Ht, Hr, Hcr. cbn [nonempty].
  rewrite !str_nonempty by done. unfold register_set.
  change ("set" =s "get") with false. change ("set" =s "set") with true. cbv iota.
  rewrite (bind_ok _ _ _ _ _ Hd), Ha. cbn [negb]. by rewrite (bind_ok _ _ _ _ _ E).
Qed.

(** C15. A registration on an open stream, then a login with the name and the
    password that were registered: the account is made and the session is
    logged in under its name.  The password must be one that user.conf
    keeps as it is: one line of at most 1012 characters, without white space
    at its ends ([stored_password_line] in Credentials). *)
Theorem register_then_login {PL : PosixLaws PX} {ID : IdealDisk PX} s iq el x w u p w1 :
  w_heap w !! s = Some x -> s_state x = STATE_STREAM_OPENED -> s_authenticated x = false ->
  registers iq u p -> authenticates el u p ->
  u <> "" -> p <> "" -> no_nul u = true -> no_nul p = true -> stored_password p = p ->
  short_name (w_config w) u ->
  (String.length u + String.length p <= Z.to_nat 3070)%nat ->
  user_create u p w = Ok (0, w1) ->
  match (stanza_route s iq ;; stanza_route s el) w with
  | Ok (_, w') => exists y, w_heap w' !! s = Some y /\ s_authenticated y = true /\
      s_jid_local y = snprintf 256 u /\ s_state y = STATE_AUTHENTICATED
  | Fault _ => False
  end.
Proof.
  intros Hx Hs Ha Hiq [Hn Hns Hm Hc] Hu Hp Hnu Hnp Htr Hsn Hl E.
  unfold bind at 1. rewrite (register_eq s iq x w u p w1) by done.
  pose proof (created_account_check w w1 u p p Hsn E) as Hcp.
  rewrite Htr, eqs_refl in Hcp. destruct (user_create_disk _ _ _ _ _ E) as [fs ->].
  set (w1 := set_fs fs w) in *. assert (w_heap w1 !! s = Some x) as Hx1 by done.
  unfold send_result_iq. unfold bind at 1, deref at 1. rewrite Hx1. unfold bind at 1, g_config at 1.
  cbv zeta. match goal with |- context [stanza_send s ?n w1] => set (res := n) end.
  pose proof (send_self s res x w1 Hx1) as Hself. pose proof (silent_stanza_send s res w1) as Hsil.
  destruct (stanza_send s res w1) as [[[] w2]|]; [|done].
  destruct Hself as (Hfs & x2 & Hh & Hs2 & Ha2 & _). destruct (Hsil _ _ eq_refl) as [_ Hcfg _ _ _].
  assert (w_heap w2 !! s = Some x2) as Hx2 by (rewrite Hh; apply lookup_insert_eq).
  unfold stanza_route. cbv zeta. unfold bind at 1, deref at 1. rewrite Hx2, Hs2, Ha2, Hs, Ha, Hn, Hns.
  rewrite bool_decide_eq_true_2 by done. cbn [negb andb].
  change (("auth" =s "auth") && ("urn:ietf:params:xml:ns:xmpp-sasl" =s "urn:ietf:params:xml:ns:xmpp-sasl"))
    with true. cbv iota.
  rewrite check_password_eq in Hcp.
  pose proof (sasl_accepted s el x2 w2 "" u p Hx2 Hm Hc eq_refl Hnu Hnp Hp Hl) as H.
  assert (user_check_password u p w2 = Ok (true, w2)) as Hcp2.
  { rewrite check_password_eq, Hfs, Hcfg. apply Ok_inj, (f_equal fst) in Hcp. cbn [fst] in Hcp.
    by rewrite Hcp. }
  specialize (H Hcp2). destruct (auth_handle_sasl s el w2) as [[[] w3]|]; [|done].
  destruct H as (y & ? & ? & ? & _ & ? & _). by exists y.
Qed.
End Registering.

(** ** Removal *)

Section Removing.
Context {LX : LibXml} {PX : Posix} {RC : Recovery} {RA : Reallocates PX} {PL : PosixLaws PX} {ID : IdealDisk PX}.

Lemma str_take_app_ge n s t :
  (String.length s <= n)%nat -> str_take n (s ++ t) = s ++ str_take (n - String.length s) t.
Proof.
  revert n. induction s as [|c s IH]; intros [|n] H; cbn in *; [done|done|lia|].
  by rewrite IH by lia.
Qed.

(** The part of a path before its first slash. *)
Lemma slash_inj u v s t :
  str_mem "/" u = false -> str_mem "/" v = false -> u ++ "/" ++ s = v ++ "/" ++ t -> u = v.
Proof.
  revert v. induction u as [|c u IH]; intros [|d v] Hu Hv; cbn [str_mem append] in *.
  - done.
  - intros [= <- _]. done.
  - intros [= -> _]. done.
  - apply orb_false_iff in Hu as [_ Hu], Hv as [_ Hv]. intros [= -> E]. f_equal. by eapply IH.
Qed.

(** The paths below the directory of a user. *)
Definition belongs (cfg : config_t) (u q : string) : Prop :=
  exists t, q = datadir cfg ++ "/" ++ u ++ "/" ++ t.

(** What changes below the directory of [u] only. *)
Definition below (cfg : config_t) (u : string) (fs fs' : fs_t) : Prop :=
  forall q, ~ belongs cfg u q -> fs_read fs' q = fs_read fs q.

Lemma below_unlink cfg u fs q : belongs cfg u q -> below cfg u fs (fs_unlink fs q).
Proof. intros Hq r Hr. apply fs_read_unlinked. by intros ->. Qed.

Lemma below_trans cfg u f g h : below cfg u f g -> below cfg u g h -> below cfg u f h.
Proof. intros H1 H2 q Hq. by rewrite H2, H1. Qed.

Lemma conf_belongs cfg u : short_name cfg u -> belongs cfg u (conf_path cfg u).
Proof. intros H. exists "user.conf". by rewrite conf_path_fits. Qed.

Lemma conf_not_belongs cfg u v :
  short_name cfg v -> str_mem "/" u = false -> str_mem "/" v = false -> u <> v ->
  ~ belongs cfg u (conf_path cfg v).
Proof.
  intros Hs Hu Hv Hne [t H]. rewrite conf_path_fits in H by done.
  apply str_app_inj, str_app_inj in H. apply Hne. symmetry. exact (slash_inj v u "user.conf" t Hv Hu H).
Qed.

(** The offline messages go one by one. *)
Lemma unlink_offline cfg u dir names :
  short_name cfg u -> dir = datadir cfg ++ "/" ++ u ++ "/offline" -> forall w,
  exists fs, for_each names (fun name =>
      if is_dot_name name then ret tt else do_unlink (snprintf 1792 (dir ++ "/" ++ name))) w
    = Ok (tt, set_fs fs w) /\ below cfg u (w_fs w) fs.
Proof.
  intros Hs Hdir. induction names as [|name names IH]; intros w; cbn [for_each].
  { exists (w_fs w). split; [by destruct w|done]. }
  destruct (is_dot_name name).
  { destruct (IH w) as (fs & E & Hb). exists fs. split; [exact E|done]. }
  match goal with |- context [bind (do_unlink ?q) _] => set (path := q) end.
  unfold bind at 1, do_unlink at 1, do_fs at 1.
  destruct (IH (set_fs (fs_unlink (w_fs w) path) w)) as (fs & E & Hb). exists fs.
  rewrite E. split; [done|]. eapply below_trans; [|exact Hb]. apply below_unlink.
  unfold short_name in Hs. subst path. change 1792%nat with (Z.to_nat 1792). unfold snprintf.
  replace (dir ++ "/" ++ name)
    with ((datadir cfg ++ "/" ++ u ++ "/") ++ ("offline" ++ "/" ++ name))
    by (by rewrite Hdir, !str_app_assoc).
  rewrite str_take_app_ge by str_len. eexists. rewrite !str_app_assoc. reflexivity.
Qed.

(** Deleting an account works below its directory only, and what is left
    there has no readable user.conf if the system can remove it. *)
Lemma user_delete_disk u w :
  let cfg := w_config w in
  short_name cfg u -> (forall fs, fs_read (fs_unlink fs (conf_path cfg u)) (conf_path cfg u) = None) ->
  exists fs, user_delete u w = Ok (0, set_fs fs w) /\ below cfg u (w_fs w) fs /\
    fs_read fs (conf_path cfg u) = None.
Proof.
  intros cfg Hs Hun. unfold user_delete. unfold bind at 1, g_config at 1. fold cfg. cbv zeta.
  rewrite !account_path_fits by (done || simpl; lia). unfold bind at 1, get_fs at 1.
  match goal with |- context [bind ?m _ w] => set (loop := m) end.
  assert (exists fs, loop w = Ok (tt, set_fs fs w) /\ below cfg u (w_fs w) fs) as (fs & E & Hb).
  { subst loop. destruct (fs_readdir _ _) as [names|].
    - by apply unlink_offline.
    - exists (w_fs w). split; [by destruct w|done]. }
  rewrite (bind_ok _ _ _ _ _ E). unfold bind, do_rmdir, do_unlink, do_fs, ret. cbn [w_fs set_fs].
  eexists. split; [reflexivity|]. rewrite !conf_path_fits in * by done.
  assert (belongs cfg u (datadir cfg ++ "/" ++ u ++ "/user.conf")) as Hc by by exists "user.conf".
  assert (belongs cfg u (datadir cfg ++ "/" ++ u ++ "/roster.xml")) as Hr by by exists "roster.xml".
  split.
  - intros q Hq. rewrite fs_read_rmdir, (below_unlink cfg u _ _ Hr q Hq),
      (below_unlink cfg u _ _ Hc q Hq), fs_read_rmdir. by apply Hb.
  - rewrite fs_read_rmdir, fs_read_unlinked; [apply Hun|].
    intros [=]%str_app_inj%str_app_inj%str_app_inj.
Qed.

(** C16. A client that is logged in removes its account.  Afterwards no password is
    right for the account; every other account accepts what it accepted
    before; the client is sent the result and its session is marked for
    teardown; and no other session is touched.  That the system can remove the
    file user.conf is assumed: the code does not look at the outcome. *)
Theorem removal_closes_account s iq x w :
  w_heap w !! s = Some x -> s_authenticated x = true ->
  prop_or iq "type" "" = "set" -> has_remove (query_children iq) = true ->
  (String.length (s_jid_local x) < 256)%nat -> short_name (w_config w) (s_jid_local x) ->
  str_mem "/" (s_jid_local x) = false ->
  (forall fs path, fs_read (fs_unlink fs path) path = None) ->
  match register_handle_iq s iq w with
  | Ok (_, w') =>
      (forall p, user_check_password (s_jid_local x) p w' = Ok (false, w')) /\
      (forall u p b, u <> s_jid_local x -> short_name (w_config w) u -> str_mem "/" u = false ->
        user_check_password u p w = Ok (b, w) -> user_check_password u p w' = Ok (b, w')) /\
      exists y, w_heap w' = <[s := y]> (w_heap w) /\ s_teardown_pending y = true
  | Fault _ => False
  end.
Proof.
  intros Hx Ha Ht Hr Hl Hs Hns Hun. set (name := s_jid_local x) in *.
  unfold register_handle_iq. cbv zeta. rewrite Ht, Hr. change ("set" =s "get") with false.
  change ("set" =s "set") with true. cbv iota. unfold register_remove.
  assert (deref s w = Ok (x, w)) as Hd by (unfold deref; by rewrite Hx).
  rewrite (bind_ok _ _ _ _ _ Hd), Ha. cbn [negb]. unfold send_result_iq.
  unfold bind at 1. rewrite (bind_ok _ _ _ _ _ Hd). unfold bind at 1, g_config at 1. cbv zeta.
  match goal with |- context [stanza_send s ?n w] => set (res := n) end.
  pose proof (send_self s res x w Hx) as Hself. pose proof (silent_stanza_send s res w) as Hsil.
  destruct (stanza_send s res w) as [[[] w1]|]; [|done].
  destruct Hself as (Hfs & x1 & Hh & _). destruct (Hsil _ _ eq_refl) as [_ Hcfg _ _ _].
  fold name. rewrite snprintf_fits by done.
  destruct (user_delete_disk name w1) as (fs & E & Hb & Hc); [by rewrite Hcfg|by intros|].
  rewrite (bind_ok _ _ _ _ _ E). unfold upd. cbn [w_heap set_fs]. rewrite Hh, lookup_insert_eq.
  split_and!.
  - intros p. rewrite check_password_eq. cbn [w_fs w_config set_fs set_heap]. by rewrite Hc.
  - intros u p b Hne Hsu Hnu. rewrite !check_password_eq. cbn [w_fs w_config set_fs set_heap].
    rewrite Hcfg, Hb, Hfs by (rewrite Hcfg; by apply conf_not_belongs).
    intros H. apply Ok_inj, (f_equal fst) in H. cbn [fst] in H. by rewrite H.
  - eexists. cbn [w_heap set_heap set_fs]. rewrite insert_insert_eq. by split.
Qed.
End Removing.

(** ** Instances *)

Definition register_query (children : list xnode) : xnode :=
  XElem "iq" None [] [mkAttr None "type" "set"; mkAttr None "id" "1"]
    [XElem "query" (Some (mkNs "jabber:iq:register" None)) [] [] children].

Definition register_iq (u p : string) : xnode :=
  register_query [XElem "username" None [] [] [XText u]; XElem "password" None [] [] [XText p]].

Lemma register_then_login_witness :
  match (stanza_route 0%nat (register_iq "carol" "pass word") ;;
         stanza_route 0%nat (auth_stanza "carol" "pass word")) demo_open with
  | Ok (_, w') => exists y, w_heap w' !! 0%nat = Some y /\ s_authenticated y = true /\
      s_jid_local y = snprintf 256 "carol" /\ s_state y = STATE_AUTHENTICATED
  | Fault _ => False
  end.
Proof.
  apply (register_then_login 0%nat (register_iq "carol" "pass word") (auth_stanza "carol" "pass word")
           (sess_at 0 demo_open) demo_open "carol" "pass word"
           (run (user_create "carol" "pass word") demo_open)).
  - apply sess_at_some. vm_compute. reflexivity.
  - vm_compute. reflexivity.
  - vm_compute. reflexivity.
  - by constructor.
  - constructor; [reflexivity|reflexivity|reflexivity|vm_compute; reflexivity].
  - discriminate.
  - discriminate.
  - reflexivity.
  - reflexivity.
  - reflexivity.
  - apply Nat.ltb_lt. vm_compute. reflexivity.
  - apply Nat.leb_le. vm_compute. reflexivity.
  - apply run_outcome. vm_compute. reflexivity.
Defined.

Lemma concrete_unlink (fs : @fs_t ConcreteOs) path : fs_read (fs_unlink fs path) path = None.
Proof.
  cbn in *. destruct (fs !! path) as [[c|]|] eqn:E; [by rewrite lookup_delete_eq|by rewrite E..].
Qed.

Lemma removal_closes_account_witness :
  match register_handle_iq 0%nat (register_query [XElem "remove" None [] [] []]) users_online with
  | Ok (_, w') =>
      (forall p, user_check_password (s_jid_local (sess_at 0 users_online)) p w' = Ok (false, w')) /\
      exists y, w_heap w' = <[0%nat := y]> (w_heap users_online) /\ s_teardown_pending y = true
  | Fault _ => False
  end.
Proof.
  pose proof (removal_closes_account 0%nat (register_query [XElem "remove" None [] [] []])
                (sess_at 0 users_online) users_online) as H.
  destruct (register_handle_iq _ _ users_online) as [[? w']|].
  - destruct H as (H1 & _ & H2).
    + apply sess_at_some. vm_compute. reflexivity.
    + vm_compute. reflexivity.
    + reflexivity.
    + reflexivity.
    + apply Nat.ltb_lt. vm_compute. reflexivity.
    + apply Nat.ltb_lt. vm_compute. reflexivity.
    + vm_compute. reflexivity.
    + apply concrete_unlink.
    + split; [exact H1|exact H2].
  - apply H.
    + apply sess_at_some. vm_compute. reflexivity.
    + vm_compute. reflexivity.
    + reflexivity.
    + reflexivity.
    + apply Nat.ltb_lt. vm_compute. reflexivity.
    + apply Nat.ltb_lt. vm_compute. reflexivity.
    + vm_compute. reflexivity.
    + apply concrete_unlink.
Defined.
