(* ===== verification/Identity.v ===== *)
(** Who a session acts for: the login flag, the name and the domain of a
    session change by a SASL login only.  A small logic of invariants that
    hold of each session by itself, and what every operation of the server
    does to them. *)

From stdpp Require Import gmap.
From S2P Require Import Prelude Util Dom World Concrete SessionIo Inv Roster User Message Presence.
From S2P Require Import Session Teardown Auth Stanza Xml Safety Server Rounds Demo SaxTree.
From S2P Require Import Credentials.
Open Scope Z_scope.

(** The fields that say on whose behalf a session acts. *)
Definition identity {LX : LibXml} (x : session) : bool * string * string :=
  (s_authenticated x, s_jid_local x, s_jid_domain x).

(** ** Invariants of single sessions *)

(** A property of sessions that depends on their identity alone. *)
Class Identifying {LX : LibXml} (P : sid -> session -> Prop) : Prop :=
  identifying s x y : identity y = identity x -> P s x -> P s y.

Section Keeping.
Context {LX : LibXml} {PX : Posix} {RC : Recovery} {RA : Reallocates PX}.
Context (P : sid -> session -> Prop).

Definition everyone (w : world) : Prop := forall s x, w_heap w !! s = Some x -> P s x.

(** Where [m] ends, the invariant holds if it held before. *)
Definition keeps {A} (m : M A) : Prop := triple (fun _ => True) everyone m (fun _ => everyone).

Lemma keeps_end {A} (m : M A) w a w' : keeps m -> everyone w -> m w = Ok (a, w') -> everyone w'.
Proof. intros Hm Hw E. specialize (Hm w Hw). by rewrite E in Hm. Qed.

Lemma keeps_ret {A} (a : A) : keeps (ret a).
Proof. by apply triple_ret. Qed.

Lemma keeps_raise {A} f : keeps (raise (A := A) f).
Proof. by apply triple_raise. Qed.

Lemma keeps_bind {A B} (m : M A) (k : A -> M B) :
  keeps m -> (forall a, keeps (k a)) -> keeps (bind m k).
Proof. intros Hm Hk. eapply triple_bind; [exact Hm|exact Hk]. Qed.

Lemma keeps_for_each {A} (l : list A) (body : A -> M unit) :
  (forall a, keeps (body a)) -> keeps (for_each l body).
Proof. apply triple_for_each. Qed.

(** Computations that leave the heap alone. *)
Lemma keeps_same_heap {A} (m : M A) :
  (forall w a w', m w = Ok (a, w') -> w_heap w' = w_heap w) -> keeps m.
Proof.
  intros H w Hw. destruct (m w) as [[a w']|] eqn:E; [|done]. unfold everyone. by rewrite (H _ _ _ E).
Qed.

Lemma keeps_get : keeps get.
Proof. by apply triple_get. Qed.

Lemma keeps_get_fs : keeps get_fs.
Proof. apply keeps_same_heap. by intros ??? [= <- <-]. Qed.

Lemma keeps_config : keeps g_config.
Proof. apply keeps_same_heap. by intros ??? [= <- <-]. Qed.

Lemma keeps_lift {A} (r : res A) : keeps (lift r).
Proof. apply keeps_same_heap. unfold lift. intros w a w'. destruct r; [by intros [= _ <-]|done]. Qed.

Lemma keeps_do_fs {A} (f : fs_t -> fs_t * A) : keeps (do_fs f).
Proof. apply keeps_same_heap. unfold do_fs. intros w a w'. destruct (f _). by intros [= _ <-]. Qed.

Lemma keeps_do_net {A} (f : net_t -> net_t * A) : keeps (do_net f).
Proof. apply keeps_same_heap. unfold do_net. intros w a w'. destruct (f _). by intros [= _ <-]. Qed.

Lemma keeps_do_os {A} (f : os_t -> os_t * A) : keeps (do_os f).
Proof. apply keeps_same_heap. unfold do_os. intros w a w'. destruct (f _). by intros [= _ <-]. Qed.

Lemma keeps_arr_get {A} (l : list A) i : keeps (arr_get l i).
Proof. unfold arr_get. destruct (l !! i); [apply keeps_ret|apply keeps_raise]. Qed.

Lemma keeps_modify f : (forall w, w_heap (f w) = w_heap w) -> keeps (modify f).
Proof. intros H. apply keeps_same_heap. by intros w a w' [= <- <-]. Qed.

Lemma keeps_deref s : keeps (deref s).
Proof. apply keeps_same_heap. unfold deref. intros w a w'. destruct (_ !! _); [by intros [= _ <-]|done]. Qed.

Lemma keeps_delete s : keeps (modify (fun w => set_heap (delete s (w_heap w)) w)).
Proof. intros w Hw t x. cbn [w_heap set_heap]. intros [_ H]%lookup_delete_Some. by apply Hw. Qed.

Lemma keeps_alloc x : (forall s, P s x) -> keeps (session_alloc x).
Proof.
  intros Hx w Hw t y. cbn [w_heap set_heap set_next session_alloc].
  intros [[<- <-]|[_ H]]%lookup_insert_Some; [done|by apply Hw].
Qed.

Lemma keeps_upd_to s f : (forall x, P s x -> P s (f x)) -> keeps (upd s f).
Proof.
  intros Hf w Hw. unfold upd. destruct (w_heap w !! s) as [x|] eqn:Hx; [|done].
  intros t y. cbn [w_heap set_heap]. intros [[<- <-]|[_ H]]%lookup_insert_Some; [|by apply Hw].
  by apply Hf, Hw.
Qed.

Lemma keeps_upd {HP : Identifying P} s f :
  (forall x, identity (f x) = identity x) -> keeps (upd s f).
Proof. intros Hf. apply keeps_upd_to. intros x. by apply HP. Qed.
End Keeping.

Create HintDb keeps.
#[export] Hint Resolve keeps_ret keeps_raise keeps_get keeps_get_fs keeps_config keeps_lift
  keeps_do_fs keeps_do_net keeps_do_os keeps_arr_get keeps_deref keeps_delete : keeps.
#[export] Hint Extern 1 (keeps _ (modify _)) => apply keeps_modify; reflexivity : keeps.
#[export] Hint Extern 1 (keeps _ (upd _ _)) => apply keeps_upd; [assumption|reflexivity] : keeps.

Ltac keep_go :=
  cbv zeta;
  lazymatch goal with
  | |- keeps _ (bind _ _) => apply keeps_bind; [keep_go|intros ?; keep_go]
  | |- keeps _ (for_each _ _) => apply keeps_for_each; intros ?; keep_go
  | |- keeps _ (match ?x with _ => _ end) => destruct x; keep_go
  | |- _ => eauto with keeps
  end.

(** ** The operations *)

Section Sending.
Context {LX : LibXml} {PX : Posix} {RC : Recovery} {RA : Reallocates PX}.
Context (P : sid -> session -> Prop) {HP : Identifying P}.

Lemma keeps_session_write s data : keeps P (session_write s data).
Proof.
  unfold session_write. destruct (str_empty data); [keep_go|].
  apply keeps_bind; [keep_go|]. intros x. cbv zeta.
  apply keeps_bind; [rewrite realloc_granted; cbn [negb]; destruct (_ <? _)%nat; keep_go|].
  intros []; unfold upd_pollfd; keep_go.
Qed.

Lemma keeps_session_flush s : keeps P (session_flush s).
Proof. unfold session_flush, upd_pollfd. keep_go. Qed.

Lemma keeps_find_loop l bare : keeps P (find_by_jid_loop l bare).
Proof. induction l as [|[t|] l IH]; cbn [find_by_jid_loop]; keep_go. Qed.

Lemma keeps_session_find bare : keeps P (session_find_by_jid bare).
Proof. pose proof keeps_find_loop. unfold session_find_by_jid. keep_go. Qed.

Lemma keeps_parse to : keeps P (parse_ignoring_rc to).
Proof. unfold parse_ignoring_rc. keep_go. Qed.

Lemma keeps_remove_session s : keeps P (server_remove_session s).
Proof. unfold server_remove_session. keep_go. Qed.

Lemma keeps_session_destroy s : keeps P (session_destroy s).
Proof. unfold session_destroy. keep_go. Qed.

Lemma keeps_parser_create s : keeps P (xml_parser_create s).
Proof. unfold xml_parser_create. keep_go. Qed.
End Sending.

#[export] Hint Resolve keeps_session_write keeps_session_flush keeps_session_find keeps_parse
  keeps_remove_session keeps_session_destroy keeps_parser_create : keeps.

Section Accounts.
Context {LX : LibXml} {PX : Posix} {RC : Recovery} {RA : Reallocates PX}.
Context (P : sid -> session -> Prop) {HP : Identifying P}.

Lemma keeps_stanza_send s n : keeps P (stanza_send s n).
Proof. unfold stanza_send. keep_go. Qed.

Lemma keeps_check_password u p : keeps P (user_check_password u p).
Proof. unfold user_check_password. keep_go. Qed.

Lemma keeps_user_exists u : keeps P (user_exists u).
Proof. unfold user_exists. keep_go. Qed.

Lemma keeps_user_create u p : keeps P (user_create u p).
Proof. pose proof keeps_user_exists. unfold user_create, make_account. keep_go. Qed.

Lemma keeps_change_password u p : keeps P (user_change_password u p).
Proof. unfold user_change_password. keep_go. Qed.

Lemma keeps_user_delete u : keeps P (user_delete u).
Proof. unfold user_delete, do_unlink, do_rmdir. keep_go. Qed.

Lemma keeps_load_path path : keeps P (roster_load_from_path path).
Proof. unfold roster_load_from_path. keep_go. Qed.

Lemma keeps_save_path path r : keeps P (roster_save_to_path path r).
Proof. unfold roster_save_to_path. keep_go. Qed.
End Accounts.

#[export] Hint Resolve keeps_stanza_send keeps_check_password keeps_user_exists keeps_user_create
  keeps_change_password keeps_user_delete keeps_load_path keeps_save_path : keeps.

Section Stanzas.
Context {LX : LibXml} {PX : Posix} {RC : Recovery} {RA : Reallocates PX}.
Context (P : sid -> session -> Prop) {HP : Identifying P}.

Lemma keeps_stanza_send_error s n t c : keeps P (stanza_send_error s n t c).
Proof. unfold stanza_send_error. keep_go. Qed.

Lemma keeps_roster_push s it : keeps P (roster_push s it).
Proof. unfold roster_push, xml_own_ns. keep_go. Qed.

Lemma keeps_roster_load s : keeps P (roster_load s).
Proof. unfold roster_load. keep_go. Qed.

Lemma keeps_roster_save s : keeps P (roster_save s).
Proof. unfold roster_save. keep_go. Qed.

Lemma keeps_load_for_user u : keeps P (roster_load_for_user u).
Proof. unfold roster_load_for_user. keep_go. Qed.

Lemma keeps_save_for_user u r : keeps P (roster_save_for_user u r).
Proof. unfold roster_save_for_user. keep_go. Qed.

Lemma keeps_contact ri : keeps P (contact_session ri).
Proof. unfold contact_session. keep_go. Qed.

Lemma keeps_store_offline u n : keeps P (message_store_offline u n).
Proof. unfold message_store_offline. keep_go. Qed.

Lemma keeps_deliver_file s d n : keeps P (deliver_file s d n).
Proof. unfold deliver_file, do_unlink. keep_go. Qed.
End Stanzas.

#[export] Hint Resolve keeps_stanza_send_error keeps_roster_push keeps_roster_load
  keeps_roster_save keeps_load_for_user keeps_save_for_user keeps_contact keeps_store_offline
  keeps_deliver_file : keeps.

Section Handlers.
Context {LX : LibXml} {PX : Posix} {RC : Recovery} {RA : Reallocates PX}.
Context (P : sid -> session -> Prop) {HP : Identifying P}.

Lemma keeps_ensure_roster s : keeps P (ensure_roster s).
Proof. unfold ensure_roster. keep_go. Qed.

Lemma keeps_deliver_offline s : keeps P (message_deliver_offline s).
Proof. unfold message_deliver_offline, do_rmdir. keep_go. Qed.

Lemma keeps_handle_message s n : keeps P (handle_message s n).
Proof. unfold handle_message. keep_go. Qed.

Lemma keeps_broadcast_unavailable s : keeps P (presence_broadcast_unavailable s).
Proof. pose proof keeps_ensure_roster. unfold presence_broadcast_unavailable. keep_go. Qed.

Lemma keeps_redeliver s : keeps P (presence_redeliver_pending_subscribes s).
Proof. unfold presence_redeliver_pending_subscribes, redeliver_from. keep_go. Qed.
End Handlers.

#[export] Hint Resolve keeps_ensure_roster keeps_deliver_offline keeps_handle_message
  keeps_broadcast_unavailable keeps_redeliver : keeps.

Section Presence_keeps.
Context {LX : LibXml} {PX : Posix} {RC : Recovery} {RA : Reallocates PX}.
Context (P : sid -> session -> Prop) {HP : Identifying P}.

Lemma keeps_update_target t ld l b f a : keeps P (update_target t ld l b f a).
Proof. unfold update_target, update_cached, update_file. keep_go. Qed.

Lemma keeps_target_loaded t : keeps P (target_loaded t).
Proof. unfold target_loaded. keep_go. Qed.

Lemma keeps_update_sender s b f : keeps P (update_sender s b f).
Proof. unfold update_sender. keep_go. Qed.

Lemma keeps_notify s t ld ty sb tb : keeps P (notify_withdrawal s t ld ty sb tb).
Proof. unfold notify_withdrawal. keep_go. Qed.

Lemma keeps_handle_available s n : keeps P (presence_handle_available s n).
Proof. unfold presence_handle_available. keep_go. Qed.

Lemma keeps_handle_subscribe s to : keeps P (presence_handle_subscribe s to).
Proof. unfold presence_handle_subscribe. keep_go. Qed.
End Presence_keeps.

#[export] Hint Resolve keeps_update_target keeps_target_loaded keeps_update_sender keeps_notify
  keeps_handle_available keeps_handle_subscribe : keeps.

Section Iq_keeps.
Context {LX : LibXml} {PX : Posix} {RC : Recovery} {RA : Reallocates PX}.
Context (P : sid -> session -> Prop) {HP : Identifying P}.

Lemma keeps_handle_presence s n : keeps P (handle_presence s n).
Proof.
  unfold handle_presence, presence_handle_unavailable, presence_handle_subscribed,
    presence_handle_unsubscribe, presence_handle_unsubscribed. keep_go.
Qed.

Lemma keeps_roster_handle_iq s n : keeps P (roster_handle_iq s n).
Proof. unfold roster_handle_iq, roster_get, roster_set_remove, roster_set_update. keep_go. Qed.

Lemma keeps_register s n : keeps P (register_handle_iq s n).
Proof. unfold register_handle_iq, register_remove, register_set, send_result_iq. keep_go. Qed.

Lemma keeps_disco_info s n : keeps P (disco_handle_info s n).
Proof. unfold disco_handle_info. keep_go. Qed.

Lemma keeps_disco_items s n : keeps P (disco_handle_items s n).
Proof. unfold disco_handle_items. keep_go. Qed.

Lemma keeps_teardown s : keeps P (session_teardown s).
Proof. unfold session_teardown. keep_go. Qed.

Lemma keeps_route_to_user s n to m : keeps P m -> keeps P (route_to_user s n to m).
Proof. intros. unfold route_to_user. keep_go. Qed.
End Iq_keeps.

#[export] Hint Resolve keeps_handle_presence keeps_roster_handle_iq keeps_register
  keeps_disco_info keeps_disco_items keeps_teardown keeps_route_to_user : keeps.

Section Stream_keeps.
Context {LX : LibXml} {PX : Posix} {RC : Recovery} {RA : Reallocates PX}.
Context (P : sid -> session -> Prop) {HP : Identifying P}.

Lemma keeps_defer s : keeps P (teardown_or_defer s).
Proof. unfold teardown_or_defer. keep_go. Qed.

Lemma keeps_stream_error s c : keeps P (stream_send_error s c).
Proof. pose proof keeps_defer. unfold stream_send_error, session_write_str. keep_go. Qed.

Lemma keeps_stream_close s : keeps P (stream_handle_close s).
Proof. pose proof keeps_defer. unfold stream_handle_close, session_write_str. keep_go. Qed.

Lemma keeps_stream_open s to : keeps P (stream_handle_open s to).
Proof. pose proof keeps_stream_error. unfold stream_handle_open, session_write_str. keep_go. Qed.

Lemma keeps_bind_handler s n : keeps P (session_handle_bind s n).
Proof. pose proof keeps_stream_error. unfold session_handle_bind, random_resource. keep_go. Qed.

Lemma keeps_session_iq s n : keeps P (session_handle_session_iq s n).
Proof. unfold session_handle_session_iq. keep_go. Qed.
End Stream_keeps.

#[export] Hint Resolve keeps_defer keeps_stream_error keeps_stream_close keeps_stream_open
  keeps_bind_handler keeps_session_iq : keeps.

(** ** Stanzas *)

(** The element that may log a session in. *)
Definition login_element {LX : LibXml} (n : xnode) : bool :=
  (xn_name n =s "auth") && (ns_of n =s "urn:ietf:params:xml:ns:xmpp-sasl").

Section Route_keeps.
Context {LX : LibXml} {PX : Posix} {RC : Recovery} {RA : Reallocates PX}.
Context (P : sid -> session -> Prop) {HP : Identifying P}.

Lemma keeps_handle_iq s n : keeps P (handle_iq s n).
Proof. unfold handle_iq, require_active. keep_go. Qed.

(** Everything but a login leaves the identities alone. *)
Lemma keeps_stanza_route s n :
  (login_element n = true -> keeps P (auth_handle_sasl s n)) -> keeps P (stanza_route s n).
Proof.
  intros Ha. pose proof keeps_handle_iq. unfold stanza_route. cbv zeta.
  apply keeps_bind; [keep_go|]. intros x. destruct (_ && _)%bool; [|keep_go].
  fold (login_element n). destruct (login_element n); [by apply Ha|keep_go].
Qed.

Lemma keeps_welcome s u :
  (forall cfg x, P s x -> P s (logged_in cfg u x)) -> keeps P (welcome s u).
Proof.
  intros Hl. unfold welcome, session_write_str. apply keeps_bind; [keep_go|]. intros cfg.
  apply keeps_bind; [apply keeps_upd_to; intros x; apply Hl|]. intros []. keep_go.
Qed.

(** A login, when the invariant bears the new identity. *)
Lemma keeps_auth s n :
  (forall cfg u x, P s x -> P s (logged_in cfg u x)) -> keeps P (auth_handle_sasl s n).
Proof.
  intros Hl w Hw. destruct (auth_cases s n w) as [[text ->]|(u & p & _ & ->)].
  - by apply keeps_session_write.
  - apply keeps_welcome; [by intros; apply Hl|done].
Qed.
End Route_keeps.

Section Naming.
Context {LX : LibXml} {PX : Posix} {RC : Recovery} {RA : Reallocates PX}.

(** The sessions other than [e] are who they are in [w0]. *)
Definition as_in (w0 : world) (e : option sid) (s : sid) (y : session) : Prop :=
  e <> Some s -> forall x, w_heap w0 !! s = Some x -> identity y = identity x.

#[local] Instance as_in_identifying w0 e : Identifying (as_in w0 e).
Proof. intros s x y E H Hne z Hz. rewrite E. by apply H. Qed.

Lemma as_in_refl w e : everyone (as_in w e) w.
Proof. intros s x Hx _ y Hy. by simplify_eq. Qed.

(** C4. Names are given for passwords, and for nothing else.  Whatever a stanza
    asks for, a session that has another login flag, name or domain after it
    is the session that sent it; the stanza was a SASL element sent on an open
    stream by a client that was not logged in, with a name and a password that
    the account store accepted; and the session now has that name, in the
    domain of the server. *)
Theorem identity_needs_password s n w w' t x y :
  stanza_route s n w = Ok (tt, w') ->
  w_heap w !! t = Some x -> w_heap w' !! t = Some y -> identity y <> identity x ->
  t = s /\ login_element n = true /\ s_state x = STATE_STREAM_OPENED /\
  s_authenticated x = false /\
  exists u p, accepted n w u p /\
    identity y = (true, snprintf 256 u, snprintf 256 (domain (w_config w))).
Proof.
  intros Hrun Hx Hy Hne.
  assert (t = s) as ->.
  { destruct (decide (t = s)) as [|Hts]; [done|]. destruct Hne.
    assert (keeps (as_in w (Some s)) (stanza_route s n)) as Hk.
    { apply keeps_stanza_route; [apply _|]. intros _. apply keeps_auth; [apply _|].
      by intros ??? _ []. }
    by apply (keeps_end _ _ _ _ _ Hk (as_in_refl _ _) Hrun t y Hy); [congruence|]. }
  assert (forall m : M unit, keeps (as_in w None) m -> m w = Ok (tt, w') -> False) as Hno.
  { intros m Hm E. by apply Hne, (keeps_end _ _ _ _ _ Hm (as_in_refl _ _) E s y Hy). }
  destruct (login_element n) eqn:El.
  2: { exfalso. eapply Hno, Hrun. apply keeps_stanza_route; [apply _|congruence]. }
  unfold stanza_route in Hrun. cbv zeta in Hrun. fold (login_element n) in Hrun. rewrite El in Hrun.
  unfold bind, deref in Hrun. rewrite Hx in Hrun.
  destruct (bool_decide _ && negb _)%bool eqn:Eg.
  2: { exfalso. eapply Hno, Hrun. pose proof keeps_handle_iq.
       pose proof (as_in_identifying w None). keep_go. }
  apply andb_true_iff in Eg as [Eo%bool_decide_eq_true Ea%negb_true_iff].
  destruct (auth_cases s n w) as [[text E]|(u & p & Hacc & E)]; rewrite E in Hrun.
  - exfalso. eapply Hno, Hrun. apply keeps_session_write, _.
  - destruct (welcome_session _ _ _ _ _ _ Hx Hrun Hy) as (buf & cap & ->).
    split_and!; try done. by exists u, p.
Qed.
End Naming.

(** ** The running server *)

Section Running_keeps.
Context {LX : LibXml} {PX : Posix} {RC : Recovery} {RA : Reallocates PX}.
Context (P : sid -> session -> Prop) {HP : Identifying P}.
(** A new client and a login are fine with the invariant. *)
Context (P_new : forall s fd, P s (session_zero fd)).
Context (P_login : forall s cfg u x, P s x -> P s (logged_in cfg u x)).

Lemma keeps_sax_handler s ev : keeps P (sax_handler s ev).
Proof using P_login HP RA.
  assert (forall n, keeps P (stanza_route s n)) as Hr.
  { intros n. apply keeps_stanza_route; [done|]. intros _. apply keeps_auth; [done|]. apply P_login. }
  destruct ev; cbn [sax_handler]; unfold on_start_element_ns, on_end_element_ns, on_characters,
    on_structured_error; keep_go.
Qed.

Lemma keeps_readable s : keeps P (session_on_readable s).
Proof using P_login HP RA.
  pose proof keeps_sax_handler. unfold session_on_readable, xml_feed, xml_parser_reset. keep_go.
Qed.

Lemma keeps_writable s : keeps P (session_on_writable s).
Proof using HP RA. unfold session_on_writable. keep_go. Qed.

Lemma keeps_slot_gone i : keeps P (slot_gone i).
Proof using. unfold slot_gone. keep_go. Qed.

Lemma keeps_accept : keeps P server_accept.
Proof using P_new HP RA.
  assert (forall fd, keeps P (session_alloc (session_zero fd))) as Ha
    by (intros fd; apply keeps_alloc; intros; apply P_new).
  unfold server_accept, session_create. keep_go.
Qed.

Lemma keeps_process_slot i s : keeps P (process_slot i s).
Proof using P_login HP RA.
  pose proof keeps_readable. pose proof keeps_writable. pose proof keeps_slot_gone.
  unfold process_slot. keep_go.
Qed.

Lemma keeps_clients fuel : forall i, keeps P (process_clients fuel i).
Proof using P_login HP RA.
  pose proof keeps_process_slot. induction fuel; intros i; cbn [process_clients]; keep_go.
Qed.

Lemma keeps_round : keeps P server_round.
Proof using P_new P_login HP RA.
  pose proof keeps_clients. pose proof keeps_accept. unfold server_round. keep_go.
Qed.

Lemma keeps_init : keeps P server_init.
Proof using. unfold server_init. keep_go. Qed.

(** Such an invariant holds of every session of a running server. *)
Lemma reachable_everyone w0 w : w_heap w0 = ∅ -> reachable w0 w -> everyone P w.
Proof using P_new P_login HP RA.
  intros Hh. induction 1 as [w Hi|w b w' _ IH _ Hr|w _ IH].
  - apply (keeps_end _ _ _ _ _ keeps_init) in Hi; [done|]. intros s x. by rewrite Hh, lookup_empty.
  - by apply (keeps_end _ _ _ _ _ keeps_round) in Hr.
  - done.
Qed.
End Running_keeps.

(** ** Inside a round

    The places where a round can be observed: after the poll, after the
    accept, between two slots, and, while session_on_readable has the parser
    of a session on the call stack, between two of its callbacks. *)

Section Inside.
Context {LX : LibXml} {PX : Posix} {RC : Recovery} {RA : Reallocates PX}.

(** server_run up to the accept: whether there are events. *)
Definition round_starts : M bool :=
  let! w := get in
  let! r := do_net (fun n => net_poll n (poll_args w)) in
  match r with
  | PReady revents =>
      modify (fun w => set_pollfds (store_revents revents (w_pollfds w)) w) ;; ret true
  | _ => ret false
  end.

(** session_on_readable up to the first callback: the callbacks that the
    parser is going to make, if it is called. *)
Definition parse_starts (s : sid) : M (option (list sax_event)) :=
  let! x := deref s in
  let! r := do_net (fun n =>
    net_read n (s_fd x) (READ_BUF_SIZE - String.length (s_read_buf x))%nat) in
  match r with
  | RErr | REof | RData "" => ret None
  | RData data =>
      upd s (fun x => set_read_buf (s_read_buf x ++ data) x) ;;
      let! x := deref s in
      match s_xml_ctx x with
      | None => ret None
      | Some ctx =>
          if (READ_BUF_SIZE <=? String.length (s_read_buf x))%nat then ret None
          else
            upd s (set_in_xml_parse true) ;;
            let '(ctx', events) := xmlParseChunk ctx (s_read_buf x) in
            upd s (set_xml_ctx (Some ctx')) ;;
            ret (Some events)
      end
  end.

(** session_on_readable after the last callback. *)
Definition parse_ends (s : sid) : M unit :=
  upd s (fun x => set_read_buf "" (set_in_xml_parse false x)) ;;
  let! x := deref s in
  (when s_parser_reset_pending x then
     upd s (set_parser_reset_pending false) ;;
     xml_parser_reset s) ;;
  let! x := deref s in
  when s_teardown_pending x then
    session_flush s ;;
    session_teardown s.

(** The session is marked as being parsed from the first callback on. *)
Lemma parse_starts_parsing s evs w w1 :
  parse_starts s w = Ok (Some evs, w1) -> parsing s w1.
Proof.
  unfold parse_starts, bind, deref, do_net, upd, ret. destruct (w_heap w !! s) as [x|]; [|done].
  destruct (net_read _ _ _) as [net [[|c data]| |]]; cbn [w_heap set_net]; [done| |done..].
  destruct (w_heap w !! s) as [x'|]; [|done].
  cbn [w_heap set_heap]. rewrite lookup_insert_eq. cbn [s_xml_ctx set_read_buf].
  destruct (s_xml_ctx x') as [ctx|]; [|done]. destruct (_ <=? _)%nat; [done|].
  cbn [w_heap set_heap]. rewrite lookup_insert_eq. cbn [s_read_buf set_read_buf].
  destruct (xmlParseChunk _ _) as [ctx' events]. cbn [w_heap set_heap]. rewrite lookup_insert_eq.
  intros H. apply Ok_inj, (f_equal snd) in H. cbn [snd] in H. subst w1.
  eexists. cbn [w_heap set_heap]. by rewrite lookup_insert_eq.
Qed.

(** The pieces make up the handler. *)
Lemma readable_parse s evs w w1 :
  parse_starts s w = Ok (Some evs, w1) ->
  session_on_readable s w = (for_each evs (sax_handler s) ;; parse_ends s) w1.
Proof.
  unfold parse_starts, session_on_readable, xml_feed, has_parser.
  unfold bind, deref, do_net, upd. destruct (w_heap w !! s) as [x|]; [|done].
  destruct (net_read _ _ _) as [net [[|c data]| |]]; cbn [w_heap set_net]; [done| |done..].
  destruct (w_heap w !! s) as [x'|]; [|done].
  cbn [w_heap set_heap]. rewrite !lookup_insert_eq. cbn [s_xml_ctx s_read_buf set_read_buf].
  destruct (s_xml_ctx x') as [ctx|] eqn:Ec; [|done]. destruct (_ <=? _)%nat; [done|].
  unfold ret. cbn [w_heap set_heap]. rewrite !lookup_insert_eq. cbv beta iota.
  cbn [w_heap set_heap]. rewrite ?lookup_insert_eq. cbv beta iota.
  rewrite (Ec : s_xml_ctx (set_in_xml_parse true
                  (set_read_buf (s_read_buf x' ++ String c data) x')) = Some ctx).
  rewrite str_app_nonempty by done.
  destruct (xmlParseChunk _ _) as [ctx' events]. cbn [w_heap set_heap]. rewrite !lookup_insert_eq.
  intros H. apply Ok_inj in H. injection H as -> <-.
  match goal with |- context [for_each evs (sax_handler s) ?w2] => set (w1 := w2) end.
  destruct (for_each evs (sax_handler s) w1) as [[[] w2]|]; done.
Qed.

(** The state after some of the callbacks is a state inside
    session_on_readable, which still has to run the others. *)
Lemma readable_between s evs1 evs2 w w1 w2 :
  parse_starts s w = Ok (Some (evs1 ++ evs2)%list, w1) ->
  for_each evs1 (sax_handler s) w1 = Ok (tt, w2) ->
  session_on_readable s w = (for_each evs2 (sax_handler s) ;; parse_ends s) w2.
Proof.
  intros H E. rewrite (readable_parse _ _ _ _ H). unfold bind at 1. rewrite for_each_app.
  unfold bind at 1. by rewrite E.
Qed.

(** And a round is its start, the accept and the slots. *)
Lemma round_parts w w1 :
  round_starts w = Ok (true, w1) ->
  server_round w =
    (let! p := arr_get (w_pollfds w1) 0 in
     (when has_event (pfd_revents p) POLLIN then server_accept) ;;
     process_clients round_fuel 1) w1.
Proof.
  unfold round_starts, server_round, bind, get, do_net, modify, ret.
  destruct (net_poll _ _) as [net [revs| |]]; [|done..].
  intros H. apply Ok_inj, (f_equal snd) in H. cbn [snd] in H. by subst w1.
Qed.
End Inside.

Section Inside_keeps.
Context {LX : LibXml} {PX : Posix} {RC : Recovery} {RA : Reallocates PX}.
Context (P : sid -> session -> Prop) {HP : Identifying P}.

Lemma keeps_round_starts : keeps P round_starts.
Proof using RA. unfold round_starts. keep_go. Qed.

Lemma keeps_parse_starts s : keeps P (parse_starts s).
Proof using RA HP. unfold parse_starts. keep_go. Qed.
End Inside_keeps.

Section Standing.
Context {LX : LibXml} {PX : Posix} {RC : Recovery} {RA : Reallocates PX}.

(** Who has not logged in has no name. *)
Definition standing (s : sid) (x : session) : Prop :=
  s_authenticated x = false -> s_jid_local x = "" /\ s_jid_domain x = "".

#[local] Instance standing_identifying : Identifying standing.
Proof. intros s x y [= E1 E2 E3]. unfold standing. by rewrite E1, E2, E3. Qed.

(** The states of a running server: between two rounds; in a round, after the
    poll, after the accept and after a slot; and, when the parser of a session
    was called ([serving_parse]) and is on the stack, before the first and
    after any of its callbacks.  What really happens comes in a certain order;
    here it comes in any, so there are more states than those. *)
Inductive serving (w0 : world) : world -> Prop :=
  | serving_round w : reachable w0 w -> serving w0 w
  | serving_poll w b w' : serving w0 w -> round_starts w = Ok (b, w') -> serving w0 w'
  | serving_accept w w' : serving w0 w -> server_accept w = Ok (tt, w') -> serving w0 w'
  | serving_slot w i s i' w' :
      serving w0 w -> process_slot i s w = Ok (i', w') -> serving w0 w'
  | serving_parse w s evs w' :
      serving w0 w -> parse_starts s w = Ok (Some evs, w') -> serving w0 w'
  | serving_event w s ev w' :
      serving w0 w -> sax_handler s ev w = Ok (tt, w') -> serving w0 w'.

(** So the states inside session_on_readable, with the parser on the stack,
    are among them. *)
Lemma between_callbacks w0 s evs1 evs2 w w1 w2 :
  serving w0 w -> parse_starts s w = Ok (Some (evs1 ++ evs2)%list, w1) ->
  for_each evs1 (sax_handler s) w1 = Ok (tt, w2) ->
  serving w0 w2 /\
  session_on_readable s w = (for_each evs2 (sax_handler s) ;; parse_ends s) w2.
Proof.
  intros Hw H E. split; [|by eapply readable_between].
  assert (serving w0 w1) as Hw1 by (by eapply serving_parse). clear H Hw.
  revert w1 Hw1 E. induction evs1 as [|ev evs1 IH]; intros w1 Hw1; cbn [for_each].
  { intros E. apply Ok_inj, (f_equal snd) in E. cbn [snd] in E. by subst w2. }
  unfold bind. destruct (sax_handler s ev w1) as [[[] w3]|] eqn:E1; [|done].
  apply IH. by eapply serving_event.
Qed.

(** C10. In every state of a running server, also while the parser of a client
    is on the call stack and its teardown is deferred, and whatever its clients
    have sent, a session that is not logged in carries no name and no domain. *)
Theorem nameless_until_login w0 w s x :
  w_heap w0 = ∅ -> serving w0 w -> w_heap w !! s = Some x -> standing s x.
Proof.
  intros Hh Hw. revert s x. change (everyone standing w).
  assert (forall s cfg u x, standing s x -> standing s (logged_in cfg u x)) as Hl by by intros ???? _.
  induction Hw as [w Hr|w b w' _ IH E|w w' _ IH E|w i s i' w' _ IH E|w s evs w' _ IH E|w s ev w' _ IH E].
  1: by eapply reachable_everyone; [apply _|done|apply Hl|done|done].
  all: eapply keeps_end; [|exact IH|exact E].
  - apply keeps_round_starts.
  - by apply keeps_accept; [apply _|].
  - by apply keeps_process_slot; [apply _|].
  - apply keeps_parse_starts, _.
  - by apply keeps_sax_handler; [apply _|].
Qed.

(** What [session_find_by_jid] returns has the bare JID and a name. *)
Lemma find_loop_named bare : forall l w t w',
  find_by_jid_loop l bare w = Ok (Some t, w') ->
  exists y, w_heap w !! t = Some y /\ s_jid_local y <> "".
Proof.
  induction l as [|[u|] l IH]; intros w t w'; cbn [find_by_jid_loop]; [done| |apply IH].
  unfold bind, deref. destruct (w_heap w !! u) as [y|] eqn:Hy; [|done].
  destruct (str_empty (s_jid_local y)) eqn:Ee; [apply IH|].
  destruct (_ =s _); [|apply IH]. intros [= <- <-]. exists y. split; [done|]. intros E. by rewrite E in Ee.
Qed.

(** C5. Lookup by JID does not test the login flag; still, in a running server,
    it only finds sessions that are logged in.  All that is routed to users,
    messages, presence, IQs and roster pushes, is sent to what it finds. *)
Theorem delivery_needs_login w0 w bare t w' :
  w_heap w0 = ∅ -> serving w0 w -> session_find_by_jid bare w = Ok (Some t, w') ->
  exists y, w_heap w !! t = Some y /\ s_authenticated y = true.
Proof.
  intros Hh Hr H. apply find_loop_named in H as (y & Hy & Hn). exists y. split; [done|].
  destruct (s_authenticated y) eqn:Ea; [done|].
  destruct (nameless_until_login _ _ _ _ Hh Hr Hy Ea) as [E _]. by rewrite E in Hn.
Qed.
End Standing.

Definition routed_auth : world := run (stanza_route 0%nat (auth_stanza "alice" "secret")) demo_account.

Lemma identity_needs_password_witness :
  exists u p, accepted (auth_stanza "alice" "secret") demo_account u p /\
    identity (sess_at 0 routed_auth) = (true, snprintf 256 u, snprintf 256 (domain (w_config demo_account))).
Proof.
  destruct (identity_needs_password 0%nat (auth_stanza "alice" "secret") demo_account routed_auth
              0%nat (sess_at 0 demo_account) (sess_at 0 routed_auth)) as (_ & _ & _ & _ & H).
  - unfold routed_auth. apply run_outcome. vm_compute. reflexivity.
  - apply sess_at_some. vm_compute. reflexivity.
  - apply sess_at_some. vm_compute. reflexivity.
  - vm_compute. discriminate.
  - exact H.
Defined.

(** The parser of the first client is on the stack and has reported the stream
    header. *)
Definition header_callback : sax_event :=
  SaxStart "stream" None None [] [mkSaxAttr "to" None None "localhost"].
Definition demo_fed : world := run (parse_starts 0%nat) demo_two.
Definition demo_in_parse : world := run (sax_handler 0%nat header_callback) demo_fed.

Lemma demo_two_serving : serving demo_boot demo_two.
Proof.
  apply serving_round. unfold demo_two, demo_one, demo_init.
  repeat (eapply reach_step; [|vm_compute; reflexivity|vm_compute; reflexivity]).
  eapply reach_start. vm_compute. reflexivity.
Qed.

Lemma demo_fed_eq : parse_starts 0%nat demo_two = Ok (Some [header_callback], demo_fed).
Proof. unfold demo_fed. apply run_outcome. vm_compute. reflexivity. Qed.

Lemma demo_in_parse_serving : serving demo_boot demo_in_parse.
Proof.
  apply (serving_event _ demo_fed 0%nat header_callback).
  - eapply serving_parse; [exact demo_two_serving|exact demo_fed_eq].
  - unfold demo_in_parse. apply run_outcome. vm_compute. reflexivity.
Qed.

Lemma nameless_until_login_witness :
  s_in_xml_parse (sess_at 0 demo_in_parse) = true /\
  s_authenticated (sess_at 0 demo_in_parse) = false /\ standing 0%nat (sess_at 0 demo_in_parse).
Proof.
  split; [vm_compute; reflexivity|]. split; [vm_compute; reflexivity|].
  apply (nameless_until_login demo_boot demo_in_parse).
  - reflexivity.
  - exact demo_in_parse_serving.
  - apply sess_at_some. vm_compute. reflexivity.
Defined.

Lemma users_find : session_find_by_jid "bob@localhost" users_online
  = Ok (Some 1%nat, run (session_find_by_jid "bob@localhost") users_online).
Proof. apply run_outcome. vm_compute. reflexivity. Qed.

Lemma delivery_needs_login_witness :
  exists y, w_heap users_online !! 1%nat = Some y /\ s_authenticated y = true.
Proof.
  apply (delivery_needs_login users_boot users_online "bob@localhost" 1%nat
           (run (session_find_by_jid "bob@localhost") users_online)).
  - reflexivity.
  - apply serving_round, users_reachable.
  - apply users_find.
Defined.
