(* ===== verification/Recovery.v ===== *)
(** What happens when a write buffer cannot grow: session_write frees the
    session under its callers.  The other files assume that this never comes
    to pass ([Reallocates]); here it does. *)

From stdpp Require Import gmap.
From S2P Require Import Prelude Util Dom World Concrete SessionIo Inv Roster User Message Presence.
From S2P Require Import Session Teardown Auth Rounds Demo Routing Broadcast Credentials.
Open Scope Z_scope.

Section Recovery.
Context {LX : LibXml} {PX : Posix} {RC : Recovery}.

(** The data does not fit the buffer of the session, and [realloc] refuses. *)
Definition write_refused (x : session) (data : string) : bool :=
  let need := (String.length (s_write_buf x) + String.length data)%nat in
  negb (str_empty data) && (s_write_cap x <? need)%nat &&
  negb (realloc_ok (grown_cap (s_write_cap x) need)).

Lemma session_write_refused s x data w :
  w_heap w !! s = Some x -> write_refused x data = true -> session_write s data w = recover s w.
Proof.
  intros Hx Hr. unfold write_refused in Hr. unfold session_write.
  destruct (str_empty data); [done|]. rewrite (bind_ok _ _ w x w) by (unfold deref; by rewrite Hx).
  cbv zeta. destruct (s_write_cap x <? _)%nat; [|done].
  destruct (realloc_ok _); [done|]. cbn [negb]. unfold bind, ret.
  by destruct (recover s w) as [[[] w']|].
Qed.

(** A session that never sent presence is freed without a broadcast. *)
Definition unseen (x : session) : Prop :=
  s_available x = false /\ s_initial_presence_sent x = false.

Lemma teardown_unseen s x w :
  wf w -> w_heap w !! s = Some x -> unseen x ->
  exists w', session_teardown s w = Ok (tt, w') /\ wf w' /\ gone w w' s.
Proof.
  intros Hwf Hx [Ha Hi].
  destruct (free_session_ok w s Hwf ltac:(by exists x)) as (w' & E & Hwf' & Hg).
  exists w'. split; [|done]. unfold session_teardown, bind at 1, deref. rewrite Hx.
  rewrite bool_decide_eq_false_2 by (by apply (wf_heap _ Hwf) in Hx as [[] _]).
  rewrite Ha, Hi. cbn [orb]. exact E.
Qed.
End Recovery.

Section Refused.
Context {LX : LibXml} {PX : Posix}.

(** C36. When the answer to a login cannot be queued, the server frees the session
    and uses it: SASL success ends in a use after free. *)
Theorem sasl_success_uses_freed depth s stanza x w u p :
  wf w -> w_heap w !! s = Some x -> unseen x ->
  xmlGetProp stanza "mechanism" = Some "PLAIN" ->
  xmlNodeGetContent stanza = Some (plain_text "" u p) ->
  no_nul u = true -> no_nul p = true -> p <> "" ->
  (String.length u + String.length p <= Z.to_nat 3070)%nat ->
  user_check_password u p w = Ok (true, w) ->
  write_refused x sasl_success = true ->
  auth_handle_sasl (RC := teardown_within (S depth)) s stanza w = Fault FFreed.
Proof.
  intros Hwf Hx Hu Hm Hc Hnu Hnp Hp Hl Hcp Hr.
  rewrite (sasl_accept_eq s stanza x w "" u p) by done.
  set (x1 := logged_in (w_config w) u x). set (w1 := set_heap (<[s := x1]> (w_heap w)) w).
  assert (w_heap w1 !! s = Some x1) as Hx1 by apply lookup_insert_eq.
  assert (wf w1) as Hwf1.
  { destruct (wf_heap _ Hwf _ _ Hx) as [[] _]. eapply wf_upd; try done.
    constructor; try done; apply snprintf_length; lia. }
  unfold session_write_str, bind. rewrite (session_write_refused s x1) by done.
  destruct (teardown_unseen (RC := teardown_within depth) s x1 w1 Hwf1 Hx1 Hu) as (w2 & E & _ & Hg).
  unfold recover. cbn [teardown_within]. rewrite E. unfold upd. by rewrite (gn_dead _ _ _ Hg).
Qed.

(** The session [s] of a client that is online, its buffer full, the first
    contact to see its presence being the one of session [t]. *)
Record towards (w : world) (s t : sid) (x : session) (it : roster_item) : Prop := {
  to_heap : w_heap w !! s = Some x;
  to_state : s_state x <> STATE_DISCONNECTED;
  to_available : s_available x = true;
  to_loaded : r_loaded (s_roster x) = true;
  to_items : head (r_items (s_roster x)) = Some it;
  to_from : sub_has_from (ri_subscription it) = true;
  to_contact : contact_session it w = Ok (Some t, w);
  to_sent : exists xml, xml <> "" /\
    stanza_serialize (presence_node "unavailable" (full_jid_of x) None) = Some xml;
  to_full : (s_write_cap x <= String.length (s_write_buf x))%nat
}.

Lemma full_refused x data :
  (s_write_cap x <= String.length (s_write_buf x))%nat -> data <> "" ->
  (forall n, realloc_ok n = false) -> write_refused x data = true.
Proof.
  intros Hc Hd Hr. unfold write_refused. rewrite Hr.
  destruct data as [|c data]; [done|]. cbn [str_empty negb andb String.length].
  by rewrite (proj2 (Nat.ltb_lt _ _)) by lia.
Qed.

(** C35. The recovery itself need not end.  Two clients who are online and see each
    other's presence, both with a full buffer and no memory left: tearing
    either down tells the other, which cannot be told and is torn down, which
    tells the first, and so on until the stack is exhausted, however large it
    is. *)
Theorem recovery_never_ends depth : forall s t x y a b data w,
  (forall n, realloc_ok n = false) -> s <> t ->
  towards w s t x a -> towards w t s y b -> data <> "" ->
  session_write (RC := teardown_within depth) s data w = Fault FStack.
Proof.
  induction depth as [|depth IH]; intros s t x y a b data w Hm Hst Hx Hy Hd.
  all: rewrite (session_write_refused s x) by (apply Hx || by apply full_refused; [apply Hx|..]).
  { done. }
  unfold recover. cbn [teardown_within]. unfold session_teardown.
  assert (deref s w = Ok (x, w)) as Hs by (unfold deref; by rewrite (to_heap _ _ _ _ _ Hx)).
  rewrite (bind_ok _ _ _ _ _ Hs), bool_decide_eq_false_2 by apply Hx.
  rewrite (to_available _ _ _ _ _ Hx). cbn [orb]. unfold presence_broadcast_unavailable.
  unfold bind at 1. rewrite (bind_ok _ _ _ _ _ Hs), (to_available _ _ _ _ _ Hx). cbn [negb andb].
  cbv zeta. rewrite (bind_ok _ _ w tt w)
    by (apply (ensure_loaded s x); apply Hx).
  rewrite (bind_ok _ _ _ _ _ Hs). pose proof (to_items _ _ _ _ _ Hx) as Hi.
  destruct (r_items (s_roster x)) as [|it rest]; [done|]. injection Hi as ->. cbn [for_each].
  rewrite (to_from _ _ _ _ _ Hx). cbn [negb]. unfold bind at 1 2 3.
  rewrite (to_contact _ _ _ _ _ Hx), (proj2 (Nat.eqb_neq t s)) by done. cbn [negb].
  destruct (to_sent _ _ _ _ _ Hx) as (xml & Hne & Hser). unfold stanza_send. rewrite Hser.
  by rewrite (IH t s y x b a).
Qed.
End Refused.

(** ** Instances: the same system once memory is exhausted *)

Definition ExhaustedOs : Posix := {|
  fs_t := @fs_t ConcreteOs; fs_stat := @fs_stat ConcreteOs; fs_mkdir := @fs_mkdir ConcreteOs;
  fs_read := @fs_read ConcreteOs; fs_write := @fs_write ConcreteOs;
  fs_readdir := @fs_readdir ConcreteOs; fs_unlink := @fs_unlink ConcreteOs;
  fs_rmdir := @fs_rmdir ConcreteOs; net_t := @net_t ConcreteOs; net_write := @net_write ConcreteOs;
  net_read := @net_read ConcreteOs; net_close := @net_close ConcreteOs;
  net_accept := @net_accept ConcreteOs; net_listen := @net_listen ConcreteOs;
  net_poll := @net_poll ConcreteOs; os_t := @os_t ConcreteOs; os_random := @os_random ConcreteOs;
  os_gmtime := @os_gmtime ConcreteOs; malloc_ok := @malloc_ok ConcreteOs;
  realloc_ok _ := false; sizeof_session := @sizeof_session ConcreteOs
|}.

(** A state of the one system as a state of the other. *)
Definition exhausted (w : @world ConcreteXml ConcreteOs) : @world ConcreteXml ExhaustedOs :=
  @mkWorld ConcreteXml ExhaustedOs (w_config w) (w_heap w) (w_next w) (w_pollfds w) (w_sessions w)
    (w_nfds w) (w_listen_fd w) (w_shutdown_flag w) (w_fs w) (w_net w) (w_os w).

Lemma exhausted_wf w : wf w -> wf (exhausted w).
Proof. intros []. by constructor. Qed.

Lemma exhausted_heap w : w_heap (exhausted w) = w_heap w.
Proof. done. Qed.

Lemma exhausted_check u p w :
  user_check_password u p w = Ok (true, w) ->
  user_check_password (PX := ExhaustedOs) u p (exhausted w) = Ok (true, exhausted w).
Proof. rewrite !check_password_eq. intros H. apply Ok_inj, (f_equal fst) in H. cbn in H |- *. by rewrite H. Qed.

(** The buffer of a session, filled to the last byte. *)
Definition no_room (x : session) : session := set_write_cap (String.length (s_write_buf x)) x.

Lemma no_room_wf s w : wf w -> wf (run (upd s no_room) w).
Proof.
  intros Hwf. unfold run, upd. destruct (w_heap w !! s) as [x|] eqn:Hx; [|done].
  destruct (wf_heap _ Hwf _ _ Hx) as [Hok _]. eapply wf_upd; try done.
  by destruct Hok; constructor.
Qed.

Lemma demo_account_wf : wf demo_account.
Proof.
  pose proof (quiet_user_create demo_open "alice" "secret" demo_open (inside_refl _ demo_wf)) as H.
  unfold demo_account, run. destruct (user_create "alice" "secret" demo_open) as [[rc w']|].
  - apply H.
  - apply demo_wf.
Qed.

(** Alice's client logs in while its buffer is full. *)
Definition brink : @world ConcreteXml ConcreteOs := run (upd 0%nat no_room) demo_account.

Lemma brink_heap : w_heap (exhausted brink) !! 0%nat = Some (sess_at 0 brink).
Proof. rewrite exhausted_heap. apply sess_at_some. vm_compute. reflexivity. Qed.

Lemma brink_wf : wf (exhausted brink).
Proof. apply exhausted_wf, no_room_wf, demo_account_wf. Qed.

Lemma brink_check :
  user_check_password (PX := ExhaustedOs) "alice" "secret" (exhausted brink)
  = Ok (true, exhausted brink).
Proof.
  apply exhausted_check. rewrite check_password_eq.
  apply (f_equal Ok), f_equal2; [vm_compute; reflexivity|reflexivity].
Qed.

Lemma brink_refused : unseen (sess_at 0 brink) /\
  write_refused (PX := ExhaustedOs) (sess_at 0 brink) sasl_success = true.
Proof. split; [split|]; vm_compute; reflexivity. Qed.

Lemma sasl_success_uses_freed_witness :
  auth_handle_sasl (RC := teardown_within 8) 0%nat (auth_stanza "alice" "secret") (exhausted brink)
  = Fault FFreed.
Proof.
  apply (sasl_success_uses_freed (PX := ExhaustedOs) 7 0%nat (auth_stanza "alice" "secret")
           (sess_at 0 brink) (exhausted brink) "alice" "secret").
  - apply brink_wf.
  - apply brink_heap.
  - apply brink_refused.
  - reflexivity.
  - vm_compute. reflexivity.
  - reflexivity.
  - reflexivity.
  - discriminate.
  - apply Nat.leb_le. vm_compute. reflexivity.
  - apply brink_check.
  - apply brink_refused.
Defined.

(** Alice and Bob are online and friends. *)
Definition locked : @world ConcreteXml ConcreteOs :=
  run (upd 1%nat (fun x => no_room (set_roster (mkRoster [mkItem "alice@localhost" "" "both" false] true) x)))
    (run (upd 0%nat (fun x => no_room (set_roster (mkRoster [mkItem "bob@localhost" "" "both" false] true) x)))
       users_online).

Lemma contact_at {LX : LibXml} {PX : Posix} it t w :
  wf w -> outcome (contact_session it) w = Ok (Some t) -> contact_session it w = Ok (Some t, w).
Proof.
  intros Hwf H. apply run_outcome in H.
  destruct (contact_session_names w w _ _ _ Hwf (same_names_refl w) H) as (E & _).
  by rewrite E in H.
Qed.

Lemma befriend_wf s name w :
  wf w -> wf (run (upd s (fun x =>
    no_room (set_roster (mkRoster [mkItem name "" "both" false] true) x))) w).
Proof.
  intros Hwf. unfold run, upd. destruct (w_heap w !! s) as [x|] eqn:Hx; [|done].
  destruct (wf_heap _ Hwf _ _ Hx) as [[] _]. eapply wf_upd; try done.
  constructor; try done. vm_compute. lia.
Qed.

Lemma locked_wf : wf (exhausted locked).
Proof. apply exhausted_wf. do 2 apply befriend_wf. apply users_wf. Qed.

Lemma exhausted_serialize n : stanza_serialize (LX := ConcreteXml) n = Some (show n).
Proof. reflexivity. Qed.

Lemma str_filled s : str_empty s = false -> s <> "".
Proof. by destruct s. Qed.

Lemma exhausted_towards w s t x name :
  wf (exhausted w) -> w_heap w !! s = Some x -> s_state x <> STATE_DISCONNECTED ->
  s_available x = true -> s_roster x = mkRoster [mkItem name "" "both" false] true ->
  outcome (contact_session (PX := ExhaustedOs) (mkItem name "" "both" false)) (exhausted w)
    = Ok (Some t) ->
  s_write_cap x = String.length (s_write_buf x) ->
  str_empty (show (presence_node "unavailable" (full_jid_of x) None)) = false ->
  towards (PX := ExhaustedOs) (exhausted w) s t x (mkItem name "" "both" false).
Proof.
  intros Hwf Hs Hst Ha Hr Hc Hf He. constructor; rewrite ?exhausted_heap, ?Hr, ?Hf; try done.
  - by apply contact_at.
  - eexists. split; [apply str_filled, He|apply exhausted_serialize].
Qed.

#[local] Instance roster_eq_dec : EqDecision roster.
Proof. solve_decision. Defined.

(** What [exhausted_towards] asks of the client, to be computed. *)
Definition facing (w : @world ConcreteXml ConcreteOs) (s t : sid) (name : string) : bool :=
  let x := sess_at s w in
  has_sess s w && negb (bool_decide (s_state x = STATE_DISCONNECTED)) && s_available x &&
  bool_decide (s_roster x = mkRoster [mkItem name "" "both" false] true) &&
  match outcome (contact_session (PX := ExhaustedOs) (mkItem name "" "both" false))
          (exhausted w) with
  | Ok (Some t') => (t' =? t)%nat
  | _ => false
  end &&
  (s_write_cap x =? String.length (s_write_buf x))%nat &&
  negb (str_empty (show (presence_node "unavailable" (full_jid_of x) None))).

Lemma facing_towards w s t name :
  wf (exhausted w) -> facing w s t name = true ->
  towards (PX := ExhaustedOs) (exhausted w) s t (sess_at s w) (mkItem name "" "both" false).
Proof.
  unfold facing. cbv zeta. rewrite !andb_true_iff, !negb_true_iff, !bool_decide_eq_true,
    bool_decide_eq_false, Nat.eqb_eq.
  intros Hwf ((((((H1 & H2) & H3) & H4) & H5) & H6) & H7).
  apply exhausted_towards; try done; [by apply sess_at_some|].
  destruct (outcome _ _) as [[t'|]|]; try done. apply Nat.eqb_eq in H5. by rewrite H5.
Qed.

Lemma locked_alice : facing locked 0%nat 1%nat "bob@localhost" = true.
Proof. vm_compute. reflexivity. Qed.

Lemma locked_bob : facing locked 1%nat 0%nat "alice@localhost" = true.
Proof. vm_compute. reflexivity. Qed.

Lemma recovery_never_ends_witness :
  session_write (RC := teardown_within 1000) 0%nat "<presence/>" (exhausted locked) = Fault FStack.
Proof.
  apply (recovery_never_ends (PX := ExhaustedOs) 1000 0%nat 1%nat (sess_at 0 locked) (sess_at 1 locked)
           (mkItem "bob@localhost" "" "both" false) (mkItem "alice@localhost" "" "both" false)).
  - reflexivity.
  - discriminate.
  - apply facing_towards; [apply locked_wf|apply locked_alice].
  - apply facing_towards; [apply locked_wf|apply locked_bob].
  - discriminate.
Defined.
