(* ===== verification/Redelivery.v ===== *)
(** What a client that comes online is told of the subscription requests that
    wait for it. *)

From stdpp Require Import gmap.
From S2P Require Import Prelude Util Dom World Concrete SessionIo Inv Roster Presence Demo Output Broadcast.
Open Scope Z_scope.

Section Redelivery.
Context {LX : LibXml} {PX : Posix} {RC : Recovery} {RA : Reallocates PX}.

(** The text a stanza is queued as; nothing if it cannot be serialised. *)
Definition sent_text (n : xnode) : string :=
  match stanza_serialize n with Some xml => xml | None => "" end.

(** The specification: the requests among the items of one user, ... *)
Definition requests_of (ours : string) (other : session) : string :=
  fold_right append "" (map (fun ri =>
    if ri_ask_subscribe ri && (ri_jid ri =s ours)
    then sent_text (presence_node "subscribe" (bare_jid_of other) (Some ours)) else "")
    (r_items (s_roster other))).

(** ... and among those of the users who are online, in the order of the
    session table. *)
Definition online_user (s : sid) (w : world) (slot : option sid) : option session :=
  match slot with
  | Some o =>
      if (o =? s)%nat then None
      else match w_heap w !! o with
           | Some other => if str_empty (s_jid_local other) then None
                           else if r_loaded (s_roster other) then Some other else None
           | None => None
           end
  | None => None
  end.

Definition requests (s : sid) (ours : string) (w : world) (slots : list (option sid)) : string :=
  fold_right append "" (map (requests_of ours) (omap (online_user s w) slots)).

(** Between [w] and [w'] the data [d] was queued on [s], and that is all. *)
Definition queues (s : sid) (d : string) (w w' : world) : Prop :=
  forall x, w_heap w !! s = Some x ->
    exists cap, w_heap w' = <[s := written x d cap]> (w_heap w) /\ same_rest w w'.

Definition queueing (s : sid) (d : string) (w : world) (m : M unit) : Prop :=
  match m w with Ok (_, w') => queues s d w w' | Fault _ => False end.

Lemma queueing_ret s w : queueing s "" w (ret tt).
Proof.
  intros x Hx. exists (s_write_cap x). split; [|done]. unfold written.
  rewrite str_app_nil_r, insert_id; [done|]. rewrite Hx. by destruct x.
Qed.

Lemma queueing_bind s d e w (m k : M unit) x :
  w_heap w !! s = Some x -> queueing s d w m ->
  (forall w1, queues s d w w1 -> queueing s e w1 k) -> queueing s (d ++ e) w (m ;; k).
Proof.
  intros Hx Hm Hk. unfold queueing, bind in *. destruct (m w) as [[[] w1]|]; [|done].
  specialize (Hk w1 Hm). destruct (k w1) as [[? w2]|]; [|done].
  destruct (Hm x Hx) as (c1 & E1 & R1).
  destruct (Hk (written x d c1)) as (c2 & E2 & R2); [rewrite E1; apply lookup_insert_eq|].
  intros x' Hx'. simplify_eq. exists c2. rewrite E2, E1, insert_insert_eq.
  split; [|by eapply same_rest_trans]. f_equal. unfold written. cbn. by rewrite str_app_assoc.
Qed.

Lemma queueing_send s n x w :
  w_heap w !! s = Some x -> queueing s (sent_text n) w (stanza_send s n).
Proof.
  intros Hx. unfold stanza_send, sent_text. destruct (stanza_serialize n); [|apply queueing_ret].
  pose proof (session_write_spec s s0 x w Hx) as H. unfold queueing.
  destruct (session_write s s0 w) as [[? w']|]; [|done]. intros x' Hx'. by simplify_eq.
Qed.

(** A loop whose body queues what [f] says. *)
Lemma queueing_for_each {A} s (f : A -> string) (body : A -> M unit) l : forall w x,
  w_heap w !! s = Some x ->
  (forall a w1 d, a ∈ l -> queues s d w w1 -> queueing s (f a) w1 (body a)) ->
  queueing s (fold_right append "" (map f l)) w (for_each l body).
Proof.
  induction l as [|a l IH]; intros w x Hx Hb; [apply queueing_ret|]. cbn [for_each map fold_right].
  eapply queueing_bind; [exact Hx|apply (Hb a w "")|].
  { apply list_elem_of_here. }
  { apply (queueing_ret s w). }
  intros w1 H1. destruct (H1 x Hx) as (cap & E & R).
  eapply IH; [rewrite E; apply lookup_insert_eq|].
  intros b w2 d Hin H2. apply (Hb b w2 (f a ++ d)); [by apply list_elem_of_further|].
  intros x' Hx'. simplify_eq.
  destruct (H2 (written x (f a) cap)) as (c2 & E2 & R2); [rewrite E; apply lookup_insert_eq|].
  exists c2. rewrite E2, E, insert_insert_eq. split; [|by eapply same_rest_trans].
  f_equal. unfold written. cbn. by rewrite str_app_assoc.
Qed.

(** The scan of one session. *)
Lemma redeliver_one s ours w slot w1 d :
  is_Some (w_heap w !! s) -> (forall o, slot = Some o -> is_Some (w_heap w !! o)) ->
  queues s d w w1 ->
  queueing s (match online_user s w slot with Some y => requests_of ours y | None => "" end) w1
    (redeliver_from s ours slot).
Proof.
  intros [x Hx] Hslot Hq. destruct slot as [o|]; cbn [online_user redeliver_from]; [|apply queueing_ret].
  destruct (Nat.eqb_spec o s) as [->|Hne]; [apply queueing_ret|].
  destruct (Hslot o eq_refl) as [y Hy]. destruct (Hq x Hx) as (cap & E & R).
  assert (w_heap w1 !! o = Some y) as Hy1 by (by rewrite E, lookup_insert_ne).
  rewrite Hy. unfold queueing, bind, deref. rewrite Hy1. fold (queueing s).
  destruct (str_empty (s_jid_local y)); [apply queueing_ret|].
  destruct (r_loaded (s_roster y)); [|apply queueing_ret]. cbn [negb].
  eapply queueing_for_each; [rewrite E; apply lookup_insert_eq|].
  intros ri w2 d2 _ H2. destruct (ri_ask_subscribe ri); [|apply queueing_ret].
  destruct (_ =s _); [|apply queueing_ret]. cbn [negb andb].
  destruct (H2 (written x d cap)) as (c2 & E2 & _); [rewrite E; apply lookup_insert_eq|].
  eapply queueing_send. rewrite E2. apply lookup_insert_eq.
Qed.

End Redelivery.

(** ** An instance: Alice asked to see Bob's presence *)

Definition asking : world :=
  run (upd 0%nat (set_roster (mkRoster [mkItem "bob@localhost" "" "none" true] true))) users_online.

Lemma asking_request :
  requests 1%nat (bare_jid_of (sess_at 1 asking)) asking (active_slots asking)
  = show (presence_node "subscribe" "alice@localhost" (Some "bob@localhost")).
Proof. vm_compute. reflexivity. Qed.

Lemma asking_wf : wf asking.
Proof. apply wf_set_roster; [vm_compute; lia|apply users_wf]. Qed.

