(* ===== verification/RosterFacts.v ===== *)
(** The roster array as a finite map of JIDs, and rosters on disk. *)

From stdpp Require Import gmap.
From S2P Require Import Prelude CLib Util Dom World Concrete SessionIo Roster.
Open Scope Z_scope.

(** ** The abstract roster: at most one item per JID *)

Definition as_map (r : roster) : gmap string roster_item :=
  list_to_map (map (fun it => (ri_jid it, it)) (r_items r)).

(** No JID occurs twice, and every string fits its buffer. *)
Record roster_ok (r : roster) : Prop := {
  ro_nodup : NoDup (map ri_jid (r_items r));
  ro_jid : Forall (fun it => String.length (ri_jid it) < 512)%nat (r_items r);
  ro_name : Forall (fun it => String.length (ri_name it) < 256)%nat (r_items r);
  ro_sub : Forall (fun it => String.length (ri_subscription it) < 16)%nat (r_items r)
}.

(** What [roster_add_item] makes of the item that is there, if any. *)
Definition merged (old : option roster_item) (jid : string) (name sub : option string)
    (ask : bool) : roster_item :=
  match old with
  | Some it => set_item_ask ask (opt_apply sub set_item_subscription
                 (opt_apply name set_item_name it))
  | None => mkItem jid (match name with Some n => snprintf 256 n | None => "" end)
              (snprintf 16 (match sub with Some s => s | None => "none" end)) ask
  end.

(** ** Lookup *)

Lemma find_item_from_spec l : forall k jid,
  match find_item_from k l jid with
  | Some i => exists j it, i = (k + j)%nat /\ l !! j = Some it /\ ri_jid it = jid
  | None => jid ∉ map ri_jid l
  end.
Proof.
  induction l as [|it l IH]; intros k jid; simpl; [apply not_elem_of_nil|].
  destruct (ri_jid it =s jid) eqn:E; eqs_prop.
  - exists 0%nat, it. split_and!; [lia|done|done].
  - specialize (IH (S k) jid). destruct (find_item_from (S k) l jid) as [i|].
    + destruct IH as (j & it' & -> & Hj & Hjid). exists (S j), it'. split_and!; [lia|done|done].
    + apply not_elem_of_cons. split; [congruence|done].
Qed.

Lemma find_item_spec r jid :
  match roster_find_item r jid with
  | Some i => exists it, r_items r !! i = Some it /\ ri_jid it = jid
  | None => jid ∉ map ri_jid (r_items r)
  end.
Proof.
  pose proof (find_item_from_spec (r_items r) 0 jid) as H. unfold roster_find_item.
  destruct (find_item_from _ _ _); [|done]. destruct H as (j & it & -> & ? & ?). eauto.
Qed.

Lemma as_map_Some r jid it :
  NoDup (map ri_jid (r_items r)) ->
  as_map r !! jid = Some it <-> it ∈ r_items r /\ ri_jid it = jid.
Proof.
  intros Hnd. unfold as_map. rewrite <- elem_of_list_to_map.
  - rewrite list_elem_of_fmap. split.
    + intros (it' & [= -> ->] & ?). auto.
    + intros [? <-]. eauto.
  - by rewrite map_map.
Qed.

Lemma as_map_None r jid : as_map r !! jid = None <-> jid ∉ map ri_jid (r_items r).
Proof. unfold as_map. rewrite <- not_elem_of_list_to_map. by rewrite map_map. Qed.

(** Two rosters without repetitions are the same map when they have the same
    items. *)
Lemma as_map_ext r m :
  NoDup (map ri_jid (r_items r)) ->
  (forall jid it, m !! jid = Some it <-> it ∈ r_items r /\ ri_jid it = jid) -> as_map r = m.
Proof.
  intros Hnd Hm. apply map_eq. intros jid. apply option_eq. intros it.
  by rewrite as_map_Some, Hm.
Qed.

Lemma nodup_jid_inj r i j it it' :
  NoDup (map ri_jid (r_items r)) -> r_items r !! i = Some it -> r_items r !! j = Some it' ->
  ri_jid it = ri_jid it' -> i = j.
Proof.
  intros Hnd Hi Hj E. eapply NoDup_lookup; [done| |].
  - rewrite list_lookup_fmap, Hi. done.
  - rewrite list_lookup_fmap, Hj. simpl. by rewrite E.
Qed.

(** ** Updating, adding, removing *)

Lemma map_jid_alter f i l :
  (forall it, ri_jid (f it) = ri_jid it) -> map ri_jid (alter f i l) = map ri_jid l.
Proof.
  intros Hf. apply list_eq. intros j. rewrite !list_lookup_fmap.
  destruct (decide (i = j)) as [->|].
  - rewrite list_lookup_alter_eq. destruct (l !! j); simpl; [by rewrite Hf|done].
  - by rewrite list_lookup_alter_ne.
Qed.

Lemma as_map_upd r i f it :
  NoDup (map ri_jid (r_items r)) -> (forall it, ri_jid (f it) = ri_jid it) ->
  r_items r !! i = Some it ->
  as_map (upd_item i f r) = <[ri_jid it := f it]> (as_map r).
Proof.
  intros Hnd Hf Hi. apply as_map_ext; [simpl; by rewrite map_jid_alter|].
  intros jid it'. rewrite lookup_insert_Some, as_map_Some by done. simpl. split.
  - intros [[<- <-]|[Hne [Hin <-]]].
    + split; [|done]. apply list_elem_of_lookup. exists i. by rewrite list_lookup_alter_eq, Hi.
    + split; [|done]. apply list_elem_of_lookup in Hin as [j Hj]. apply list_elem_of_lookup.
      exists j. rewrite list_lookup_alter_ne; [done|]. intros ->. by simplify_eq.
  - intros [Hin <-]. apply list_elem_of_lookup in Hin as [j Hj].
    destruct (decide (i = j)) as [->|].
    + rewrite list_lookup_alter_eq, Hi in Hj. inv Hj. left. by rewrite Hf.
    + rewrite list_lookup_alter_ne in Hj by done. right. split.
      * intros E. by pose proof (nodup_jid_inj _ _ _ _ _ Hnd Hi Hj E).
      * split; [|done]. apply list_elem_of_lookup. eauto.
Qed.

Lemma as_map_snoc r it :
  NoDup (map ri_jid (r_items r)) -> ri_jid it ∉ map ri_jid (r_items r) ->
  NoDup (map ri_jid (r_items r ++ [it])%list) /\
  as_map (set_items (r_items r ++ [it])%list r) = <[ri_jid it := it]> (as_map r).
Proof.
  intros Hnd Hni.
  assert (NoDup (map ri_jid (r_items r ++ [it])%list)) as Hnd'.
  { rewrite map_app. apply NoDup_app. split_and!; [done| |apply NoDup_singleton].
    intros j Hj Hj'. simpl in Hj'. apply list_elem_of_singleton in Hj'. congruence. }
  split; [done|]. apply as_map_ext; [done|]. intros jid it'. simpl.
  rewrite lookup_insert_Some, as_map_Some, elem_of_app, list_elem_of_singleton by done. split.
  - intros [[<- <-]|[Hne [Hin <-]]]; auto.
  - intros [[Hin| ->] <-]; [|auto]. right. split; [|done]. intros E. apply Hni. rewrite E.
    apply list_elem_of_fmap. eauto.
Qed.

Lemma as_map_remove r i it :
  NoDup (map ri_jid (r_items r)) -> r_items r !! i = Some it ->
  let l := (take i (r_items r) ++ drop (S i) (r_items r))%list in
  NoDup (map ri_jid l) /\ as_map (set_items l r) = delete (ri_jid it) (as_map r).
Proof.
  intros Hnd Hi l. pose proof (take_drop_middle _ _ _ Hi) as Hl.
  assert (Permutation (r_items r) (it :: l)) as Hp.
  { rewrite <- Hl at 1. subst l. by rewrite Permutation_middle. }
  pose proof (Permutation_map ri_jid Hp) as Hpj. rewrite Hpj in Hnd. simpl in Hnd.
  apply NoDup_cons in Hnd as [Hni Hnd]. split; [done|].
  apply as_map_ext; [done|]. intros jid it'. simpl. rewrite lookup_delete_Some.
  rewrite as_map_Some by (rewrite Hpj; simpl; by apply NoDup_cons).
  rewrite Hp, elem_of_cons. split.
  - intros (Hne & [->|Hin] & <-); [done|auto].
  - intros [Hin <-]. split; [|auto]. intros E. apply Hni. rewrite E. apply list_elem_of_fmap. eauto.
Qed.

Lemma opt_apply_length o f (g : roster_item -> string) it n :
  (forall v it, String.length (g (f v it)) < n \/ g (f v it) = g it)%nat ->
  (String.length (g it) < n)%nat -> (String.length (g (opt_apply o f it)) < n)%nat.
Proof. intros H Hit. destruct o as [v|]; [|done]. simpl. destruct (H v it) as [?| ->]; done. Qed.

Definition item_fits (it : roster_item) : Prop :=
  (String.length (ri_jid it) < 512)%nat /\ (String.length (ri_name it) < 256)%nat /\
  (String.length (ri_subscription it) < 16)%nat.

Lemma merged_fits old jid name sub ask :
  (forall it, old = Some it -> item_fits it) -> (String.length jid < 512)%nat ->
  item_fits (merged old jid name sub ask).
Proof.
  intros Hold Hj. pose proof (snprintf_length 256) as H1. pose proof (snprintf_length 16) as H2.
  destruct old as [it|]; simpl.
  - destruct (Hold it eq_refl) as (? & ? & ?). unfold item_fits.
    destruct name, sub; simpl; split_and!; try done; first [apply H1 | apply H2]; lia.
  - unfold item_fits. simpl. split_and!; [done| |apply H2; lia].
    destruct name; [apply H1; lia|simpl; lia].
Qed.

Lemma roster_ok_fits r : roster_ok r <-> NoDup (map ri_jid (r_items r)) /\ Forall item_fits (r_items r).
Proof.
  split.
  - intros []. split; [done|]. rewrite !Forall_forall in *. intros it Hit. by split_and!; auto.
  - intros [? Hf]. constructor; [done|..]; eapply Forall_impl; try done; by intros ? (? & ? & ?).
Qed.

Lemma merged_at r jid i it name sub ask :
  r_items r !! i = Some it ->
  upd_item i (fun it => set_item_ask ask (opt_apply sub set_item_subscription
                          (opt_apply name set_item_name it))) r =
  upd_item i (fun it => merged (Some it) jid name sub ask) r.
Proof. done. Qed.

Lemma alter_fits f i l :
  Forall item_fits l -> (forall it, item_fits it -> item_fits (f it)) -> Forall item_fits (alter f i l).
Proof.
  intros Hl Hf. apply Forall_lookup. intros j it Hj.
  destruct (decide (i = j)) as [->|].
  - rewrite list_lookup_alter_eq in Hj. destruct (l !! j) eqn:E; inv Hj.
    apply Hf. by eapply Forall_lookup_1.
  - rewrite list_lookup_alter_ne in Hj by done. by eapply Forall_lookup_1.
Qed.

Lemma long_jid_not_found r jid :
  Forall (fun it => String.length (ri_jid it) < 512)%nat (r_items r) ->
  (512 <= String.length jid)%nat -> roster_find_item r jid = None.
Proof.
  intros Hj Hlen. unfold roster_find_item. generalize 0%nat.
  induction Hj as [|it l Hit _ IH]; intros k; simpl; [done|].
  destruct (ri_jid it =s jid) eqn:E; [|apply IH]. eqs_prop. subst. lia.
Qed.

Lemma long_jid_added r jid name sub ask :
  Forall (fun it => String.length (ri_jid it) < 512)%nat (r_items r) ->
  (512 <= String.length jid)%nat -> (r_count r < MAX_ROSTER_ITEMS)%nat ->
  roster_add_item r jid name sub ask =
  (set_items (r_items r ++ [merged None (snprintf 512 jid) name sub ask])%list r, 0).
Proof.
  intros Hj Hlen Hc. unfold roster_add_item. rewrite long_jid_not_found by done.
  by rewrite (proj2 (Nat.leb_gt _ _)) by lia.
Qed.

(** ** Properties *)

(** [roster_find_item] finds exactly the item the roster has for a JID. *)
Theorem find_item_refines r jid :
  roster_ok r ->
  match roster_find_item r jid with
  | Some i => exists it, r_items r !! i = Some it /\ as_map r !! jid = Some it
  | None => as_map r !! jid = None
  end.
Proof.
  intros [Hnd _ _ _]. pose proof (find_item_spec r jid) as H.
  destruct (roster_find_item r jid); [|by apply as_map_None].
  destruct H as (it & Hi & <-). exists it. split; [done|]. apply as_map_Some; [done|].
  split; [|done]. apply list_elem_of_lookup. eauto.
Qed.

Lemma add_item_map r jid name sub ask :
  roster_ok r -> (String.length jid < 512)%nat ->
  let '(r', rc) := roster_add_item r jid name sub ask in
  roster_ok r' /\ r_loaded r' = r_loaded r /\
  if decide (as_map r !! jid = None /\ (MAX_ROSTER_ITEMS <= r_count r)%nat)
  then rc = -1 /\ r' = r
  else rc = 0 /\ as_map r' = <[jid := merged (as_map r !! jid) jid name sub ask]> (as_map r).
Proof.
  intros Hok Hj. pose proof (proj1 (roster_ok_fits r) Hok) as [Hnd Hfit].
  pose proof (find_item_spec r jid) as H. unfold roster_add_item.
  destruct (roster_find_item r jid) as [i|].
  - destruct H as (it & Hi & <-).
    assert (as_map r !! ri_jid it = Some it) as Hm.
    { apply as_map_Some; [done|]. split; [|done]. apply list_elem_of_lookup. eauto. }
    rewrite Hm. rewrite decide_False by (by intros [? _]).
    rewrite (merged_at r (ri_jid it) i it) by done.
    assert (forall it', ri_jid (merged (Some it') (ri_jid it) name sub ask) = ri_jid it') as Hmj
      by (intros; by destruct name, sub).
    split_and!; [|done|done|by apply as_map_upd].
    apply roster_ok_fits. simpl. rewrite map_jid_alter by done. split; [done|].
    apply alter_fits; [done|]. intros it' Hit'.
    apply (merged_fits (Some it') (ri_jid it) name sub ask); [by intros ? [= <-]|done].
  - apply as_map_None in H. rewrite H.
    destruct (Nat.leb_spec MAX_ROSTER_ITEMS (r_count r)).
    { rewrite decide_True by done. by split_and!. }
    rewrite decide_False by (intros [_ ?]; lia). rewrite (snprintf_fits 512) by done.
    match goal with |- context [(r_items r ++ [?v])%list] => set (it := v) end.
    apply as_map_None in H. destruct (as_map_snoc r it Hnd H) as [Hnd' Hmap].
    split_and!; [|done|done|done]. apply roster_ok_fits. split; [done|]. simpl.
    apply Forall_app. split; [done|]. apply Forall_singleton.
    apply (merged_fits None jid name sub ask); [done|done].
Qed.

(** C17. [roster_add_item] is insertion into the map of the items: with a JID
    that fits, it updates the item there is or adds one, keeps every other
    item and one item per JID; only a new JID in a full roster is refused, and
    then nothing changes. *)
Theorem add_item_refines r jid name sub ask :
  roster_ok r -> (String.length jid < 512)%nat ->
  let '(r', rc) := roster_add_item r jid name sub ask in
  roster_ok r' /\ r_loaded r' = r_loaded r /\
  if decide (as_map r !! jid = None /\ (MAX_ROSTER_ITEMS <= r_count r)%nat)
  then rc = -1 /\ r' = r
  else rc = 0 /\ as_map r' = <[jid := merged (as_map r !! jid) jid name sub ask]> (as_map r).
Proof. apply add_item_map. Qed.

Lemma remove_item_map r jid :
  roster_ok r ->
  let '(r', rc) := roster_remove_item r jid in
  roster_ok r' /\ as_map r' = delete jid (as_map r) /\
  (rc = if decide (as_map r !! jid = None) then -1 else 0) /\
  (rc = 0 -> S (r_count r') = r_count r).
Proof.
  intros Hok. pose proof (proj1 (roster_ok_fits r) Hok) as [Hnd Hfit].
  pose proof (find_item_spec r jid) as H. unfold roster_remove_item.
  destruct (roster_find_item r jid) as [i|].
  - destruct H as (it & Hi & <-). destruct (as_map_remove r i it Hnd Hi) as [Hnd' Hmap].
    split_and!; [|done| |].
    + apply roster_ok_fits. split; [done|]. simpl.
      apply Forall_app. split; [by apply Forall_take|by apply Forall_drop].
    + rewrite decide_False; [done|]. rewrite as_map_None. intros Hni. apply Hni.
      apply list_elem_of_fmap. exists it. split; [done|]. apply list_elem_of_lookup. eauto.
    + intros _. unfold r_count. simpl. rewrite length_app, length_take, length_drop.
      apply lookup_lt_Some in Hi. lia.
  - apply as_map_None in H. split_and!; [done| |by rewrite decide_True|done].
    by rewrite delete_id.
Qed.

(** [roster_remove_item] is deletion from the map; -1 and no change when
    there is nothing to delete. *)
Theorem remove_item_refines r jid :
  roster_ok r ->
  let '(r', rc) := roster_remove_item r jid in
  roster_ok r' /\ as_map r' = delete jid (as_map r) /\
  (rc = if decide (as_map r !! jid = None) then -1 else 0) /\
  (rc = 0 -> S (r_count r') = r_count r).
Proof. apply remove_item_map. Qed.

(** A JID of 512 bytes or more is stored cut and never found again: a
    second set for it adds a second item with the same JID. *)
Theorem long_jid_duplicates r jid name sub ask :
  roster_ok r -> (512 <= String.length jid)%nat -> (S (r_count r) < MAX_ROSTER_ITEMS)%nat ->
  let r1 := fst (roster_add_item r jid name sub ask) in
  let r2 := fst (roster_add_item r1 jid name sub ask) in
  roster_find_item r1 jid = None /\ r_count r2 = (r_count r + 2)%nat /\
  ~ NoDup (map ri_jid (r_items r2)).
Proof.
  intros [_ Hj _ _] Hlen Hc. cbv zeta.
  rewrite (long_jid_added r) by (done || lia). cbn [fst].
  match goal with |- context [(r_items r ++ [?v])%list] => set (it := v) end.
  pose proof (snprintf_length 512 jid ltac:(lia)) as Hs.
  assert (Forall (fun it => String.length (ri_jid it) < 512)%nat (r_items r ++ [it])%list) as Hj'
    by (apply Forall_app; split; [done|by apply Forall_singleton]).
  assert (r_count (set_items (r_items r ++ [it])%list r) = S (r_count r)) as Hc1
    by (unfold r_count; simpl; rewrite length_app; simpl; lia).
  split; [by apply long_jid_not_found|].
  rewrite long_jid_added by (done || rewrite Hc1; lia). cbn [fst]. fold it.
  unfold r_count. simpl. split; [rewrite !length_app; simpl; lia|].
  rewrite !map_app. simpl. rewrite <- app_assoc, NoDup_app. intros (_ & _ & Hnd).
  simpl in Hnd. apply NoDup_cons in Hnd as [Hn _]. apply Hn. apply list_elem_of_here.
Qed.

(** ** Rosters on disk *)

Section Disk.
Context {LX : LibXml} {PX : Posix} {LL : LibXmlLaws LX} {ID : IdealDisk PX}.

(** The element of an item. *)
Definition item_elem (ri : roster_item) : xnode :=
  XElem "item" None []
    ([mkAttr None "jid" (ri_jid ri)] ++
     (if str_empty (ri_name ri) then [] else [mkAttr None "name" (ri_name ri)]) ++
     [mkAttr None "subscription" (ri_subscription ri)] ++
     (if ri_ask_subscribe ri then [mkAttr None "ask" "subscribe"] else []))%list [].

Lemma item_props_spec ri : item_props (XElem "item" None [] [] []) ri = item_elem ri.
Proof.
  unfold item_props, item_elem. rewrite xmlNewProp_spec.
  destruct (str_empty (ri_name ri)), (ri_ask_subscribe ri); cbn [negb];
    by rewrite ?xmlNewProp_spec.
Qed.

Lemma add_items_spec name d ps cs l :
  add_items (XElem name None d ps cs) None l =
  XElem name None d ps (cs ++ map item_elem l)%list.
Proof.
  revert cs. induction l as [|ri l IH]; intros cs; simpl; [by rewrite app_nil_r|].
  unfold add_items in IH |- *. simpl. rewrite xmlNewChild_spec. simpl.
  rewrite item_props_spec, xmlAddChild_spec by done. rewrite IH. by rewrite <- app_assoc.
Qed.

Lemma item_of_elem ri : item_fits ri -> item_of_node (item_elem ri) = ri.
Proof.
  intros (H1 & H2 & H3). unfold item_of_node, item_elem. rewrite !xmlGetProp_spec.
  destruct ri as [j n sub ask]. simpl in *.
  destruct (str_empty n) eqn:En, ask; cbn; rewrite ?snprintf_fits by done; try done;
    by apply str_empty_true in En as ->.
Qed.

Lemma load_items_filter cs : forall k,
  load_items k cs = load_items k (List.filter is_element cs).
Proof.
  induction cs as [|c cs IH]; intros k; simpl; [done|].
  destruct (is_element c) eqn:E; cbn [negb]; [|done].
  simpl. rewrite E. cbn [negb]. by rewrite !IH.
Qed.

Lemma load_items_elems l : forall k,
  Forall item_fits l -> (k + List.length l <= MAX_ROSTER_ITEMS)%nat ->
  load_items k (map item_elem l) = l.
Proof.
  induction l as [|ri l IH]; intros k Hf Hk; [done|]. apply Forall_cons in Hf as [Hri Hf].
  cbn [map List.length load_items] in *.
  change (is_element (item_elem ri)) with true. change (xn_name (item_elem ri)) with "item".
  cbn [negb]. change ("item" =s "item") with true. cbn [negb].
  rewrite (proj2 (Nat.leb_gt _ _)) by lia. rewrite item_of_elem by done.
  rewrite IH by (done || lia). done.
Qed.

(** The strings of the item are text that XML can hold. *)
Definition item_clean (it : roster_item) : Prop :=
  xml_text (ri_jid it) = true /\ xml_text (ri_name it) = true /\
  xml_text (ri_subscription it) = true.

Lemma item_elem_plain it : item_clean it -> plain_elem (item_elem it).
Proof.
  intros (? & ? & ?). eexists "item", _. split; [reflexivity|]. split; [done|].
  split.
  - apply (bool_decide_unpack _). by destruct (str_empty (ri_name it)), (ri_ask_subscribe it).
  - destruct (str_empty (ri_name it)), (ri_ask_subscribe it); simpl; repeat constructor; done.
Qed.

End Disk.

(** ** Instances *)

Definition demo_items : list roster_item :=
  [mkItem "bob@localhost" "Bob" "both" false; mkItem "eve@localhost" "" "none" true].
Definition demo_roster : roster := mkRoster demo_items true.

Lemma demo_roster_ok : roster_ok demo_roster.
Proof.
  constructor.
  - apply (bool_decide_unpack _). vm_compute. exact I.
  - repeat constructor.
  - repeat constructor.
  - repeat constructor.
Qed.

Lemma find_item_refines_witness : as_map demo_roster !! "zoe@localhost" = None.
Proof. apply (find_item_refines demo_roster "zoe@localhost"). apply demo_roster_ok. Defined.

Lemma add_item_refines_witness :
  let '(r', rc) := roster_add_item demo_roster "zoe@localhost" (Some "Zoe") None false in
  roster_ok r'.
Proof.
  destruct (add_item_refines demo_roster "zoe@localhost" (Some "Zoe") None false
              demo_roster_ok ltac:(simpl; lia)) as [H _]. exact H.
Defined.

Lemma remove_item_refines_witness :
  let '(r', rc) := roster_remove_item demo_roster "bob@localhost" in
  as_map r' = delete "bob@localhost" (as_map demo_roster).
Proof.
  destruct (remove_item_refines demo_roster "bob@localhost" demo_roster_ok) as [_ [H _]]. exact H.
Defined.

Fixpoint long_jid (n : nat) : string :=
  match n with O => "@b" | S n' => String "a" (long_jid n') end.

Lemma long_jid_duplicates_witness :
  roster_find_item (fst (roster_add_item demo_roster (long_jid 512) None None false))
    (long_jid 512) = None.
Proof.
  destruct (long_jid_duplicates demo_roster (long_jid 512) None None false) as [H _].
  - apply demo_roster_ok.
  - apply Nat.leb_le. vm_compute. reflexivity.
  - apply Nat.ltb_lt. vm_compute. reflexivity.
  - exact H.
Defined.

