(* ===== verification/Subscriptions.v ===== *)
(** Subscriptions: the strings in the rosters of the two parties implement two
    permissions, and what a subscription request leaves in the sender's
    roster. *)

From stdpp Require Import gmap.
From S2P Require Import Prelude CLib Util Dom World Concrete SessionIo Inv Roster Presence.
From S2P Require Import Rounds Demo Output Silent RosterFacts.
Open Scope Z_scope.

(** ** The handshake, abstractly

    For two users A and B: whether A may see the presence of B, and B that of
    A; and whether either has asked for it and is waiting for an answer. *)
Record permissions := mkPerm {
  a_sees_b : bool;
  b_sees_a : bool;
  a_waits : bool;
  b_waits : bool
}.

Inductive party := PA | PB.

(** The stanzas a party may send about the other. *)
Inductive sub_event :=
  | Subscribe (p : party)
  | Subscribed (p : party)
  | Unsubscribe (p : party)
  | Unsubscribed (p : party).

Definition perm_step (e : sub_event) (m : permissions) : permissions :=
  match e with
  | Subscribe PA => mkPerm (a_sees_b m) (b_sees_a m) true (b_waits m)
  | Subscribe PB => mkPerm (a_sees_b m) (b_sees_a m) (a_waits m) true
  | Subscribed PA => mkPerm (a_sees_b m) true (a_waits m) false
  | Subscribed PB => mkPerm true (b_sees_a m) false (b_waits m)
  | Unsubscribe PA => mkPerm false (b_sees_a m) false (b_waits m)
  | Unsubscribe PB => mkPerm (a_sees_b m) false (a_waits m) false
  | Unsubscribed PA => mkPerm (a_sees_b m) false (a_waits m) false
  | Unsubscribed PB => mkPerm false (b_sees_a m) false (b_waits m)
  end.

(** ** The handshake as the rosters record it *)

(** The item for B in the roster of A, and for A in that of B. *)
Record items := mkItems { item_a : roster_item; item_b : roster_item }.

Definition items_step (e : sub_event) (m : items) : items :=
  match e with
  | Subscribe PA => mkItems (set_item_ask true (item_a m)) (item_b m)
  | Subscribe PB => mkItems (item_a m) (set_item_ask true (item_b m))
  | Subscribed PA => mkItems (subscribed_sender (item_a m)) (subscribed_target (item_b m))
  | Subscribed PB => mkItems (subscribed_target (item_a m)) (subscribed_sender (item_b m))
  | Unsubscribe PA => mkItems (unsubscribe_sender (item_a m)) (unsubscribe_target (item_b m))
  | Unsubscribe PB => mkItems (unsubscribe_target (item_a m)) (unsubscribe_sender (item_b m))
  | Unsubscribed PA => mkItems (unsubscribed_sender (item_a m)) (unsubscribed_target (item_b m))
  | Unsubscribed PB => mkItems (unsubscribed_target (item_a m)) (unsubscribed_sender (item_b m))
  end.

(** The string for "I see the other" and "the other sees me". *)
Definition sub_string (to from : bool) : string :=
  match to, from with
  | false, false => "none"
  | true, false => "to"
  | false, true => "from"
  | true, true => "both"
  end.

(** The items of the two parties record the permissions. *)
Definition records (m : permissions) (i : items) : Prop :=
  ri_subscription (item_a i) = sub_string (a_sees_b m) (b_sees_a m) /\
  ri_subscription (item_b i) = sub_string (b_sees_a m) (a_sees_b m) /\
  ri_ask_subscribe (item_a i) = a_waits m /\
  ri_ask_subscribe (item_b i) = b_waits m.

Lemma items_step_records e m i : records m i -> records (perm_step e m) (items_step e i).
Proof.
  intros (Ha & Hb & Qa & Qb). destruct m as [x y u v], i as [[ja na sa qa] [jb nb sb qb]].
  simpl in *. destruct e as [[]|[]|[]|[]], x, y; simpl in *; subst; by split_and!.
Qed.

(** Broadcasts agree with the permissions: in items that record them,
    [sub_has_to] and [sub_has_from] are the permissions themselves. *)
Theorem broadcast_tests_permissions m i :
  records m i ->
  sub_has_to (ri_subscription (item_a i)) = a_sees_b m /\
  sub_has_from (ri_subscription (item_a i)) = b_sees_a m /\
  sub_has_to (ri_subscription (item_b i)) = b_sees_a m /\
  sub_has_from (ri_subscription (item_b i)) = a_sees_b m.
Proof. intros (-> & -> & _). by destruct (a_sees_b m), (b_sees_a m). Qed.

(** ** The request *)

Section Request.
Context {LX : LibXml} {PX : Posix} {RC : Recovery} {RA : Reallocates PX}.

Lemma output_only_roster w w' s x :
  output_only w w' -> w_heap w !! s = Some x ->
  exists y, w_heap w' !! s = Some y /\ s_roster y = s_roster x.
Proof.
  intros H Hx. destruct (oo_heap _ _ H _ _ Hx) as (y & Hy & Hw). exists y. split; [done|].
  by apply wrote_roster in Hw as [? _].
Qed.

(** The roster after a request to [bare]. *)
Definition requested (r : roster) (bare : string) : roster :=
  match roster_find_item r bare with
  | None => fst (roster_add_item r bare None (Some "none") true)
  | Some i => upd_item i (set_item_ask true) r
  end.

Lemma bare_length b : (String.length (bare_of b) < 512)%nat.
Proof. apply snprintf_length. lia. Qed.

Lemma requested_map r bare :
  roster_ok r -> (String.length bare < 512)%nat ->
  (as_map r !! bare <> None \/ (r_count r < MAX_ROSTER_ITEMS)%nat) ->
  as_map (requested r bare) =
  <[bare := set_item_ask true (default (mkItem bare "" "none" false) (as_map r !! bare))]>
    (as_map r).
Proof.
  intros Hok Hl Hroom. pose proof Hok as [Hnd _ _ _]. unfold requested.
  pose proof (find_item_spec r bare) as Hf. destruct (roster_find_item r bare) as [i|].
  - destruct Hf as (it & Hi & <-).
    assert (as_map r !! ri_jid it = Some it) as ->.
    { apply as_map_Some; [done|]. split; [|done]. apply list_elem_of_lookup. eauto. }
    by apply as_map_upd.
  - apply as_map_None in Hf.
    pose proof (add_item_map r bare None (Some "none") true Hok Hl) as H.
    destruct (roster_add_item _ _ _ _ _) as [r' rc]. destruct H as (_ & _ & H).
    rewrite decide_False in H by (intros [_ ?]; destruct Hroom; [done|lia]).
    destruct H as [_ H]. rewrite Hf in H |- *. exact H.
Qed.

(** What the handler does before it sends anything. *)
Lemma subscribe_eq s to w rc b x :
  w_heap w !! s = Some x -> r_loaded (s_roster x) = true ->
  jid_parse to 256 256 256 = Ok (rc, Some b) ->
  let r := requested (s_roster x) (bare_of b) in
  let w1 := set_heap (<[s := set_roster r x]> (w_heap w)) w in
  exists w2, w_heap w2 = w_heap w1 /\
    w_fs w2 = fs_saved (w_config w) (w_fs w) (s_jid_local x) r /\
    forall w', presence_handle_subscribe s to w = Ok (tt, w') -> output_only w2 w'.
Proof.
  intros Hx Hld Hp r w1.
  assert (w_heap w1 !! s = Some (set_roster r x)) as Hx1 by apply lookup_insert_eq.
  destruct (roster_save_eq s _ w1 Hx1) as [rc' Hs].
  exists (set_fs (fs_saved (w_config w) (w_fs w) (s_jid_local x) r) w1).
  split; [done|]. split; [done|]. intros w'. unfold presence_handle_subscribe.
  unfold parse_ignoring_rc. rewrite bind_ok with (a := b) (w' := w)
    by (unfold lift; rewrite Hp; done).
  unfold ensure_roster. rewrite bind_ok with (a := tt) (w' := w)
    by (unfold bind, deref; rewrite Hx, Hld; done).
  rewrite bind_ok with (a := x) (w' := w) by (unfold deref; by rewrite Hx).
  rewrite bind_ok with (a := tt) (w' := w1).
  2:{ unfold w1, r, requested. destruct (roster_find_item _ _) eqn:E;
        unfold upd; by rewrite Hx, ?E. }
  rewrite (bind_ok _ _ _ _ _ Hs).
  intros H. match type of H with ?m ?w2 = _ => assert (silent m) as Hq end; [|by eapply Hq].
  silent_go.
Qed.

(** C31. A subscription request is recorded: when the handler ends, the
    sender's roster has the contact with the request pending, the
    subscription it had (or none), every other item as before, and this is
    the roster that was written to the sender's file. *)
Theorem subscribe_recorded s to w w' rc b x :
  w_heap w !! s = Some x -> r_loaded (s_roster x) = true -> roster_ok (s_roster x) ->
  jid_parse to 256 256 256 = Ok (rc, Some b) ->
  (as_map (s_roster x) !! bare_of b <> None \/ (r_count (s_roster x) < MAX_ROSTER_ITEMS)%nat) ->
  presence_handle_subscribe s to w = Ok (tt, w') ->
  exists y, w_heap w' !! s = Some y /\
    as_map (s_roster y) =
      <[bare_of b := set_item_ask true
          (default (mkItem (bare_of b) "" "none" false) (as_map (s_roster x) !! bare_of b))]>
        (as_map (s_roster x)) /\
    w_fs w' = fs_saved (w_config w) (w_fs w) (s_jid_local x) (s_roster y).
Proof.
  intros Hx Hld Hok Hp Hroom Hrun.
  destruct (subscribe_eq s to w rc b x Hx Hld Hp) as (w2 & Hh & Hfs & Ho).
  specialize (Ho _ Hrun).
  destruct (output_only_roster w2 w' s (set_roster (requested (s_roster x) (bare_of b)) x) Ho)
    as (y & Hy & Hr); [rewrite Hh; apply lookup_insert_eq|].
  exists y. split; [done|]. rewrite Hr. cbn [s_roster set_roster]. split.
  - apply requested_map; [done|apply bare_length|done].
  - by rewrite (oo_fs _ _ Ho), Hfs.
Qed.
End Request.

(** ** Instances *)

Lemma broadcast_tests_permissions_witness : sub_has_to "to" = true.
Proof.
  apply (broadcast_tests_permissions (mkPerm true false false false)
    (mkItems (mkItem "b@h" "" "to" false) (mkItem "a@h" "" "from" false))).
  split; [reflexivity|]. split; [reflexivity|]. split; reflexivity.
Defined.

(** Alice asks to see Bob's presence. *)
Definition demo_asked : world := run (presence_handle_subscribe 0%nat "bob@localhost") users_online.

Lemma subscribe_recorded_witness :
  exists y, w_heap demo_asked !! 0%nat = Some y /\
    as_map (s_roster y) !! "bob@localhost" = Some (mkItem "bob@localhost" "" "none" true).
Proof.
  destruct (subscribe_recorded 0%nat "bob@localhost" users_online demo_asked 0
              (mkJid "bob" "localhost" "") (sess_at 0 users_online)) as (y & Hy & Hr & _).
  - apply sess_at_some. vm_compute. reflexivity.
  - vm_compute. reflexivity.
  - assert (s_roster (sess_at 0 users_online) = mkRoster [] true) as -> by (vm_compute; reflexivity).
    constructor; constructor.
  - vm_compute. reflexivity.
  - right. apply Nat.ltb_lt. vm_compute. reflexivity.
  - unfold demo_asked. apply run_outcome. vm_compute. reflexivity.
  - exists y. split; [exact Hy|]. rewrite Hr.
    assert (s_roster (sess_at 0 users_online) = mkRoster [] true) as -> by (vm_compute; reflexivity).
    vm_compute. reflexivity.
Defined.
