(* ===== verification/Handshake.v ===== *)
(** The handlers of presence.c as steps of the handshake: sequences of
    subscription stanzas between two connected users; what each of them
    leaves in the rosters of both parties, in memory and on disk. *)

From stdpp Require Import gmap.
From S2P Require Import Prelude Util Dom World Concrete SessionIo Inv Roster User Message.
From S2P Require Import Presence Rounds Demo Output Silent Routing Broadcast RosterFacts.
From S2P Require Import Subscriptions.
Open Scope Z_scope.

(** The three stanzas that change subscriptions on both sides. *)
Inductive sub_stanza := SSubscribed | SUnsubscribe | SUnsubscribed.

Definition event_of (k : sub_stanza) : party -> sub_event :=
  match k with
  | SSubscribed => Subscribed
  | SUnsubscribe => Unsubscribe
  | SUnsubscribed => Unsubscribed
  end.

(** What each does to the item of the sender and to that of the target. *)
Definition sender_update (k : sub_stanza) : roster_item -> roster_item :=
  match k with
  | SSubscribed => subscribed_sender
  | SUnsubscribe => unsubscribe_sender
  | SUnsubscribed => unsubscribed_sender
  end.

Definition target_update (k : sub_stanza) : roster_item -> roster_item :=
  match k with
  | SSubscribed => subscribed_target
  | SUnsubscribe => unsubscribe_target
  | SUnsubscribed => unsubscribed_target
  end.

Lemma sender_step k i : item_a (items_step (event_of k PA) i) = sender_update k (item_a i).
Proof. by destruct k. Qed.

Lemma target_step k i : item_b (items_step (event_of k PA) i) = target_update k (item_b i).
Proof. by destruct k. Qed.

Lemma sub_switch_jid a b c d it : ri_jid (sub_switch a b c d it) = ri_jid it.
Proof. unfold sub_switch. by destruct (ri_subscription it =s a), (ri_subscription it =s c). Qed.

Lemma update_jid k it :
  ri_jid (sender_update k it) = ri_jid it /\ ri_jid (target_update k it) = ri_jid it.
Proof. by destruct k; split; apply sub_switch_jid. Qed.

Lemma find_in_map r jid it :
  NoDup (map ri_jid (r_items r)) -> as_map r !! jid = Some it ->
  exists i, roster_find_item r jid = Some i /\ r_items r !! i = Some it /\ ri_jid it = jid.
Proof.
  intros Hnd [Hin <-]%as_map_Some; [|done]. pose proof (find_item_spec r (ri_jid it)) as H.
  destruct (roster_find_item r (ri_jid it)) as [i|].
  - destruct H as (it' & Hi & Hj). exists i. split_and!; [done| |done].
    apply list_elem_of_lookup in Hin as [n Hn].
    by rewrite (nodup_jid_inj r i n it' it) in * by done.
  - destruct H. apply list_elem_of_fmap. eauto.
Qed.

Section Handshake.
Context {LX : LibXml} {PX : Posix} {RC : Recovery} {RA : Reallocates PX}.

Definition handler_of (k : sub_stanza) : sid -> string -> M unit :=
  match k with
  | SSubscribed => presence_handle_subscribed
  | SUnsubscribe => presence_handle_unsubscribe
  | SUnsubscribed => presence_handle_unsubscribed
  end.

(** The session with this roster, which was also written to its file. *)
Definition stored (s : sid) (x : session) (r : roster) (w : world) : world :=
  set_fs (fs_saved (w_config w) (w_fs w) (s_jid_local x) r)
    (set_heap (<[s := set_roster r x]> (w_heap w)) w).

Lemma stored_names s x r w : w_heap w !! s = Some x -> same_names w (stored s x r w).
Proof.
  intros Hx. by destruct (upd_names s (set_roster r) x w Hx eq_refl eq_refl) as [A B C]; constructor.
Qed.

(** Update the item, save, push: whatever comes after that only sends. *)
Lemma store_run s x f w w' (k : M unit) :
  w_heap w !! s = Some x -> silent k ->
  (upd s (fun x => set_roster (f (s_roster x)) x) ;; roster_save s ;; k) w = Ok (tt, w') ->
  output_only (stored s x (f (s_roster x)) w) w'.
Proof.
  intros Hx Hk. set (x1 := set_roster (f (s_roster x)) x).
  set (w1 := set_heap (<[s := x1]> (w_heap w)) w).
  rewrite bind_ok with (a := tt) (w' := w1) by (unfold upd; by rewrite Hx).
  assert (w_heap w1 !! s = Some x1) as Hx1 by apply lookup_insert_eq.
  destruct (roster_save_eq s x1 w1 Hx1) as [rc E]. rewrite (bind_ok _ _ _ _ _ E).
  intros H. by apply Hk in H.
Qed.

Lemma update_sender_run s x i f bare w w' :
  w_heap w !! s = Some x -> roster_find_item (s_roster x) bare = Some i ->
  update_sender s bare f w = Ok (tt, w') ->
  output_only (stored s x (upd_item i f (s_roster x)) w) w'.
Proof.
  intros Hx Hi. unfold update_sender.
  rewrite bind_ok with (a := x) (w' := w) by (unfold deref; by rewrite Hx). rewrite Hi.
  apply (store_run s x (upd_item i f)); [done|]. silent_go.
Qed.

Lemma silent_notify s o b ty sb tb : silent (notify_withdrawal s o b ty sb tb).
Proof. unfold notify_withdrawal. silent_go. Qed.

(** Only subscribed writes the roster of the target when the sender is not
    in it. *)
Definition always_saved (k : sub_stanza) : bool :=
  match k with SSubscribed => true | _ => false end.

(** The three handlers: first the sender's side, then the target's. *)
Lemma handler_run k s to b x i w w' :
  w_heap w !! s = Some x -> r_loaded (s_roster x) = true ->
  jid_parse to 256 256 256 = Ok (0, Some b) ->
  roster_find_item (s_roster x) (bare_of b) = Some i ->
  handler_of k s to w = Ok (tt, w') ->
  exists w2 (rest : option sid -> bool -> M unit),
    output_only (stored s x (upd_item i (sender_update k) (s_roster x)) w) w2 /\
    (forall o ld, silent (rest o ld)) /\
    (let! target := session_find_by_jid (bare_of b) in
     let! loaded := target_loaded target in
     update_target target loaded (jb_local b) (bare_jid_of x) (target_update k) (always_saved k) ;;
     rest target loaded) w2 = Ok (tt, w').
Proof.
  intros Hx Hl Hp Hi.
  assert (parse_ignoring_rc to w = Ok (b, w)) as Ep
    by (unfold parse_ignoring_rc, bind, lift; by rewrite Hp).
  assert (ensure_roster s w = Ok (tt, w)) as Ee by (by apply (ensure_loaded s x)).
  assert (deref s w = Ok (x, w)) as Ed by (unfold deref; by rewrite Hx).
  destruct k; cbn [handler_of sender_update target_update].
  - unfold presence_handle_subscribed.
    rewrite (bind_ok _ _ _ _ _ Ep), (bind_ok _ _ _ _ _ Ed), (bind_ok _ _ _ _ _ Ee),
      (bind_ok _ _ _ _ _ Ed), Hi.
    set (x1 := set_roster (upd_item i subscribed_sender (s_roster x)) x).
    set (w1 := set_heap (<[s := x1]> (w_heap w)) w).
    rewrite bind_ok with (a := tt) (w' := w1) by (unfold upd; by rewrite Hx).
    assert (w_heap w1 !! s = Some x1) as Hx1 by apply lookup_insert_eq.
    destruct (roster_save_eq s x1 w1 Hx1) as [rc E]. rewrite (bind_ok _ _ _ _ _ E).
    rewrite bind_ok with (a := x1) (w' := stored s x (s_roster x1) w)
      by (unfold deref; cbn [w_heap set_fs]; by rewrite Hx1).
    unfold bind at 1. destruct (roster_push _ _ _) as [[u w2]|] eqn:E2; [|done]. intros H.
    eexists w2, _. split; [by eapply silent_roster_push|]. split; [|exact H].
    intros o ld. cbv beta. silent_go.
  - unfold presence_handle_unsubscribe.
    rewrite (bind_ok _ _ _ _ _ Ep), (bind_ok _ _ _ _ _ Ed), (bind_ok _ _ _ _ _ Ee).
    unfold bind at 1. destruct (update_sender _ _ _ w) as [[[] w2]|] eqn:E; [|done]. intros H.
    eexists w2, _. split; [by eapply update_sender_run|]. split; [|exact H].
    intros o ld. apply silent_notify.
  - unfold presence_handle_unsubscribed.
    rewrite (bind_ok _ _ _ _ _ Ep), (bind_ok _ _ _ _ _ Ed), (bind_ok _ _ _ _ _ Ee).
    unfold bind at 1. destruct (update_sender _ _ _ w) as [[[] w2]|] eqn:E; [|done]. intros H.
    eexists w2, _. split; [by eapply update_sender_run|]. split; [|exact H].
    intros o ld. apply silent_notify.
Qed.

(** ** The handlers do not fail *)

Lemma find_upd i f r jid :
  (forall it, ri_jid (f it) = ri_jid it) ->
  roster_find_item (upd_item i f r) jid = roster_find_item r jid.
Proof.
  intros Hf. unfold roster_find_item, upd_item, set_items. cbn [r_items].
  generalize 0%nat as n. revert i. induction (r_items r) as [|it l IH]; intros i n; [done|].
  destruct i as [|i]; cbn [alter list_alter find_item_from]; rewrite ?Hf; [done|].
  destruct (_ =s _); [done|]. apply IH.
Qed.

Lemma item_at_upd x i f r jid :
  roster_find_item r jid = Some i ->
  exists it, item_at (set_roster (upd_item i f r) x) (Some i) = Some it.
Proof.
  intros H. pose proof (find_item_spec r jid) as Hs. rewrite H in Hs. destruct Hs as (it & Hi & _).
  exists (f it). cbn [item_at s_roster set_roster upd_item set_items r_items].
  by rewrite list_lookup_alter_eq, Hi.
Qed.

(** What was sent before a session's roster is stored does not matter. *)
Lemma stored_output s x x2 r w w2 :
  output_only w w2 -> w_heap w !! s = Some x -> w_heap w2 !! s = Some x2 ->
  output_only (stored s x r w) (stored s x2 r w2).
Proof.
  intros Ho Hx Hx2. destruct (oo_heap _ _ Ho _ _ Hx) as (y & Hy & d & c & Hw). simplify_eq.
  destruct Ho as [H1 H2 H3 H4 H5].
  constructor; cbn [stored w_fs w_config w_sessions w_nfds w_heap set_fs set_heap];
    rewrite ?H1, ?H2; try done.
  intros t z Hz. destruct (decide (s = t)) as [<-|].
  - rewrite lookup_insert_eq in *. simplify_eq. eexists. split; [done|]. by exists d, c.
  - rewrite lookup_insert_ne in * by done. by apply H5.
Qed.

(** Update the item, save, and then only send. *)
Lemma store_total s x f w (k : M unit) :
  w_heap w !! s = Some x -> delivers (stored s x (f (s_roster x)) w) k (fun _ => True) ->
  exists w', (upd s (fun x => set_roster (f (s_roster x)) x) ;; roster_save s ;; k) w = Ok (tt, w') /\
             output_only (stored s x (f (s_roster x)) w) w'.
Proof.
  intros Hx Hk. set (x1 := set_roster (f (s_roster x)) x).
  set (w1 := set_heap (<[s := x1]> (w_heap w)) w).
  rewrite bind_ok with (a := tt) (w' := w1) by (unfold upd; by rewrite Hx).
  assert (w_heap w1 !! s = Some x1) as Hx1 by apply lookup_insert_eq.
  destruct (roster_save_eq s x1 w1 Hx1) as [rc E]. rewrite (bind_ok _ _ _ _ _ E).
  destruct (delivers_run _ _ _ Hk) as ([] & w' & ? & ? & _). eauto.
Qed.

Lemma stored_lookup s x r w : w_heap (stored s x r w) !! s = Some (set_roster r x).
Proof. apply lookup_insert_eq. Qed.

Lemma stored_other s x r w t y :
  s <> t -> w_heap w !! t = Some y -> w_heap (stored s x r w) !! t = Some y.
Proof. intros Hne Hy. cbn [stored w_heap set_fs set_heap]. by rewrite lookup_insert_ne. Qed.

(** The push that follows: the item is there. *)
Lemma delivers_push_found s x i f jid w (o : roster -> option nat) :
  roster_find_item (s_roster x) jid = Some i -> o (upd_item i f (s_roster x)) = Some i ->
  delivers (stored s x (upd_item i f (s_roster x)) w)
    (let! y := deref s in roster_push s (item_at y (o (s_roster y)))) (fun _ => True).
Proof.
  intros Hi Ho. eapply delivers_bind; [apply delivers_deref, stored_lookup|].
  intros y Hy%wrote_roster. destruct Hy as (Ry & _). rewrite Ry. cbn [s_roster set_roster].
  rewrite Ho. destruct (item_at_upd x i f (s_roster x) jid Hi) as [it Hit].
  assert (item_at y (Some i) = Some it) as -> by (cbn [item_at] in *; by rewrite Ry).
  eapply delivers_roster_push, stored_lookup.
Qed.

Lemma update_sender_total s x i f bare w :
  w_heap w !! s = Some x -> roster_find_item (s_roster x) bare = Some i ->
  exists w', update_sender s bare f w = Ok (tt, w') /\
             output_only (stored s x (upd_item i f (s_roster x)) w) w'.
Proof.
  intros Hx Hi. unfold update_sender.
  rewrite bind_ok with (a := x) (w' := w) by (unfold deref; by rewrite Hx). rewrite Hi.
  apply (store_total s x (upd_item i f)); [done|].
  by apply (delivers_push_found s x i f bare w (fun _ => Some i)).
Qed.

(** The half of the target, when the half of the sender led from [W] to [w]. *)
Lemma target_total W t y j tb sb lcl f always (k : option sid -> bool -> M unit) w :
  output_only W w -> session_find_by_jid tb w = Ok (Some t, w) -> w_heap W !! t = Some y ->
  r_loaded (s_roster y) = true -> roster_find_item (s_roster y) sb = Some j ->
  delivers (stored t y (upd_item j f (s_roster y)) W) (k (Some t) true) (fun _ => True) ->
  exists w',
    (let! target := session_find_by_jid tb in
     let! loaded := target_loaded target in
     update_target target loaded lcl sb f always ;;
     k target loaded) w = Ok (tt, w') /\
    output_only (stored t y (upd_item j f (s_roster y)) W) w'.
Proof.
  intros Ho Hf Hy Hl Hj Hk. rewrite (bind_ok _ _ _ _ _ Hf).
  destruct (oo_heap _ _ Ho _ _ Hy) as (y2 & Hy2 & (Ry & _)%wrote_roster).
  rewrite bind_ok with (a := true) (w' := w)
    by (unfold target_loaded, bind, deref; by rewrite Hy2, Ry, Hl).
  cbn [update_target]. unfold update_cached.
  destruct (update_sender_total t y2 j f sb w Hy2 ltac:(by rewrite Ry)) as (w1 & E & Ho1).
  unfold update_sender in E.
  assert (update_cached t sb f always w = Ok (tt, w1)) as E1.
  { unfold update_cached. rewrite bind_ok with (a := y2) (w' := w) in * by (unfold deref; by rewrite Hy2).
    by rewrite Ry, Hj in *. }
  fold (update_cached t sb f always). rewrite (bind_ok _ _ _ _ _ E1). rewrite Ry in Ho1.
  pose proof (output_only_trans _ _ _
    (stored_output t y y2 (upd_item j f (s_roster y)) W w Ho Hy Hy2) Ho1) as Ho2.
  specialize (Hk w1 Ho2). destruct (k _ _ w1) as [[[] w']|]; [|done]. destruct Hk. eauto.
Qed.

Lemma delivers_notify W s t x y ty sb tb :
  w_heap W !! s = Some x -> w_heap W !! t = Some y ->
  delivers W (notify_withdrawal s (Some t) true ty sb tb) (fun _ => True).
Proof.
  intros Hx Hy. unfold notify_withdrawal.
  eapply delivers_bind; [by eapply delivers_stanza_send|]. intros _ _.
  eapply delivers_bind; [by eapply delivers_deref|]. intros z _.
  destruct (s_available z); [by eapply delivers_stanza_send|by apply delivers_ret].
Qed.

(** What the handlers leave in the rosters of two connected users who have
    each other in them; all else is output. *)
Definition both_stored (s t : sid) (x y : session) (rx ry : roster) (w : world) : world :=
  stored t y ry (stored s x rx w).

(** The half of the sender; the rest is the half of the target. *)
Lemma handler_halves k s t to rc b x ix w :
  w_heap w !! s = Some x -> r_loaded (s_roster x) = true ->
  jid_parse to 256 256 256 = Ok (rc, Some b) ->
  roster_find_item (s_roster x) (bare_of b) = Some ix ->
  exists w1 rest,
    output_only (stored s x (upd_item ix (sender_update k) (s_roster x)) w) w1 /\
    (forall W x' y', w_heap W !! s = Some x' -> w_heap W !! t = Some y' ->
       delivers W (rest (Some t) true) (fun _ => True)) /\
    handler_of k s to w =
      (let! target := session_find_by_jid (bare_of b) in
       let! loaded := target_loaded target in
       update_target target loaded (jb_local b) (bare_jid_of x) (target_update k) (always_saved k) ;;
       rest target loaded) w1.
Proof.
  intros Hx Hlx Hp Hix.
  assert (parse_ignoring_rc to w = Ok (b, w)) as Ep
    by (unfold parse_ignoring_rc, bind, lift; by rewrite Hp).
  assert (ensure_roster s w = Ok (tt, w)) as Ee by (by apply (ensure_loaded s x)).
  assert (deref s w = Ok (x, w)) as Ed by (unfold deref; by rewrite Hx).
  destruct (update_sender_total s x ix (sender_update k) (bare_of b) w Hx Hix) as (w1 & E1 & Ho1).
  unfold handler_of, presence_handle_subscribed, presence_handle_unsubscribe,
    presence_handle_unsubscribed.
  destruct k; cbn [sender_update target_update always_saved] in *;
    rewrite (bind_ok _ _ _ _ _ Ep), (bind_ok _ _ _ _ _ Ed), (bind_ok _ _ _ _ _ Ee).
  - rewrite (bind_ok _ _ _ _ _ Ed), Hix.
    set (rx := upd_item ix subscribed_sender (s_roster x)) in *. set (W := stored s x rx w).
    set (w0 := set_heap (<[s := set_roster rx x]> (w_heap w)) w).
    rewrite bind_ok with (a := tt) (w' := w0) by (unfold upd; by rewrite Hx).
    assert (w_heap w0 !! s = Some (set_roster rx x)) as Hx0 by apply lookup_insert_eq.
    destruct (roster_save_eq s _ w0 Hx0) as [rcs Es]. rewrite (bind_ok _ _ _ _ _ Es).
    change (set_fs _ w0) with W.
    rewrite bind_ok with (a := set_roster rx x) (w' := W)
      by (unfold deref; unfold W; by rewrite stored_lookup).
    assert (roster_find_item rx (bare_of b) = Some ix) as Hrx
      by (unfold rx; rewrite find_upd; [done|apply (update_jid SSubscribed)]).
    cbn [s_roster set_roster]. rewrite Hrx.
    destruct (item_at_upd x ix subscribed_sender (s_roster x) (bare_of b) Hix) as [it Hit].
    fold rx in Hit. rewrite Hit.
    destruct (delivers_run W (roster_push s (Some it)) (fun _ => True)) as ([] & w2 & E2 & Ho2 & _);
      [eapply delivers_roster_push, stored_lookup|].
    rewrite (bind_ok _ _ _ _ _ E2). eexists w2, (fun o _ => _). split; [done|]. split; [|reflexivity].
    intros W' x' y' Hx' Hy'. cbv beta iota. eapply delivers_bind; [by eapply delivers_deref|].
    intros z _. eapply delivers_bind with (R := fun _ => True);
      [|intros _ _; by eapply delivers_stanza_send].
    destruct (s_available z), (s_presence_stanza z);
      [by eapply delivers_stanza_send|by apply delivers_ret..].
  - rewrite (bind_ok _ _ _ _ _ E1). eexists w1, (fun o ld => _). split; [done|].
    split; [|reflexivity]. intros W' x' y' ??. by eapply delivers_notify.
  - rewrite (bind_ok _ _ _ _ _ E1). eexists w1, (fun o ld => _). split; [done|].
    split; [|reflexivity]. intros W' x' y' ??. by eapply delivers_notify.
Qed.

Lemma handler_total k s t to rc b x y ix iy w :
  s <> t -> w_heap w !! s = Some x -> w_heap w !! t = Some y ->
  r_loaded (s_roster x) = true -> r_loaded (s_roster y) = true ->
  jid_parse to 256 256 256 = Ok (rc, Some b) ->
  session_find_by_jid (bare_of b) w = Ok (Some t, w) ->
  roster_find_item (s_roster x) (bare_of b) = Some ix ->
  roster_find_item (s_roster y) (bare_jid_of x) = Some iy ->
  exists w', handler_of k s to w = Ok (tt, w') /\
    output_only (both_stored s t x y (upd_item ix (sender_update k) (s_roster x))
                   (upd_item iy (target_update k) (s_roster y)) w) w'.
Proof.
  intros Hst Hx Hy Hlx Hly Hp Hf Hix Hiy.
  destruct (handler_halves k s t to rc b x ix w Hx Hlx Hp Hix) as (w1 & rest & Ho & Hr & ->).
  apply (target_total (stored s x (upd_item ix (sender_update k) (s_roster x)) w) t y iy);
    [done| |by apply stored_other|done..|].
  - eapply find_names; [|exact Hf].
    exact (same_names_trans _ _ _ (stored_names s x _ w Hx) (output_names _ _ Ho)).
  - eapply Hr; [|apply stored_lookup]. apply stored_other; [congruence|apply stored_lookup].
Qed.

Lemma subscribe_total s t to rc b x y ix w :
  s <> t -> w_heap w !! s = Some x -> w_heap w !! t = Some y ->
  r_loaded (s_roster x) = true ->
  jid_parse to 256 256 256 = Ok (rc, Some b) ->
  session_find_by_jid (bare_of b) w = Ok (Some t, w) ->
  roster_find_item (s_roster x) (bare_of b) = Some ix ->
  exists w', presence_handle_subscribe s to w = Ok (tt, w') /\
    output_only (stored s x (upd_item ix (set_item_ask true) (s_roster x)) w) w'.
Proof.
  intros Hst Hx Hy Hlx Hp Hf Hix. unfold presence_handle_subscribe.
  rewrite bind_ok with (a := b) (w' := w) by (unfold parse_ignoring_rc, bind, lift; by rewrite Hp).
  rewrite bind_ok with (a := tt) (w' := w) by (by apply (ensure_loaded s x)).
  rewrite bind_ok with (a := x) (w' := w) by (unfold deref; by rewrite Hx). rewrite Hix.
  set (rx := upd_item ix (set_item_ask true) (s_roster x)).
  set (w0 := set_heap (<[s := set_roster rx x]> (w_heap w)) w).
  rewrite bind_ok with (a := tt) (w' := w0) by (unfold upd; by rewrite Hx).
  assert (w_heap w0 !! s = Some (set_roster rx x)) as Hx0 by apply lookup_insert_eq.
  destruct (roster_save_eq s _ w0 Hx0) as [rcs Es]. rewrite (bind_ok _ _ _ _ _ Es).
  change (set_fs _ w0) with (stored s x rx w).
  rewrite bind_ok with (a := set_roster rx x) (w' := stored s x rx w)
    by (unfold deref; by rewrite stored_lookup).
  assert (roster_find_item rx (bare_of b) = Some ix) as Hrx by (unfold rx; by rewrite find_upd).
  cbn [s_roster set_roster]. rewrite Hrx.
  destruct (item_at_upd x ix (set_item_ask true) (s_roster x) (bare_of b) Hix) as [it Hit].
  fold rx in Hit. rewrite Hit.
  destruct (delivers_run (stored s x rx w) (roster_push s (Some it)) (fun _ => True))
    as ([] & w2 & E2 & Ho2 & _); [eapply delivers_roster_push, stored_lookup|].
  rewrite (bind_ok _ _ _ _ _ E2).
  pose proof (same_names_trans _ _ _ (stored_names s x rx w Hx) (output_names _ _ Ho2)) as Hn.
  rewrite (bind_ok _ _ _ _ _ (find_names _ _ _ _ Hn Hf)).
  match goal with |- context [stanza_send t ?n w2] =>
    pose proof (delivers_stanza_send _ t y n (stored_other s x rx w t y Hst Hy) w2 Ho2) as H;
    destruct (stanza_send t n w2) as [[[] w3]|]; [|done] end.
  destruct H. eauto.
Qed.

(** ** Sequences of stanzas *)

Definition actor (e : sub_event) : party :=
  match e with Subscribe p | Subscribed p | Unsubscribe p | Unsubscribed p => p end.

Definition event_type (e : sub_event) : string :=
  match e with
  | Subscribe _ => "subscribe"
  | Subscribed _ => "subscribed"
  | Unsubscribe _ => "unsubscribe"
  | Unsubscribed _ => "unsubscribed"
  end.

(** A presence stanza that means the event, addressed to a party: [js] and
    [jt] are the bare JIDs of A and B. *)
Definition means (js jt : string) (e : sub_event) (n : xnode) : Prop :=
  prop_or n "type" "" = event_type e /\
  exists rc b, jid_parse (prop_or n "to" "") 256 256 256 = Ok (rc, Some b) /\
    bare_of b = match actor e with PA => jt | PB => js end.

(** The server receives it from the session of the party. *)
Definition perform (s t : sid) (e : sub_event) (n : xnode) : M unit :=
  handle_presence (match actor e with PA => s | PB => t end) n.

(** A is connected as [s] and B as [t], they have each other in their
    rosters, and the two items record the permissions. *)
Record linked_as (s t : sid) (js jt : string) (m : permissions) (w : world)
    (x y : session) (ia ib : roster_item) : Prop := {
  lk_x : w_heap w !! s = Some x;
  lk_y : w_heap w !! t = Some y;
  lk_x_loaded : r_loaded (s_roster x) = true;
  lk_y_loaded : r_loaded (s_roster y) = true;
  lk_x_nodup : NoDup (map ri_jid (r_items (s_roster x)));
  lk_y_nodup : NoDup (map ri_jid (r_items (s_roster y)));
  lk_js : bare_jid_of x = js;
  lk_jt : bare_jid_of y = jt;
  lk_s : session_find_by_jid js w = Ok (Some s, w);
  lk_t : session_find_by_jid jt w = Ok (Some t, w);
  lk_ia : as_map (s_roster x) !! jt = Some ia;
  lk_ib : as_map (s_roster y) !! js = Some ib;
  lk_records : records m (mkItems ia ib)
}.

Definition linked (s t : sid) (js jt : string) (m : permissions) (w : world) : Prop :=
  exists x y ia ib, linked_as s t js jt m w x y ia ib.

(** *** The roles can be exchanged *)

Definition other (p : party) : party := match p with PA => PB | PB => PA end.

Definition exchange (e : sub_event) : sub_event :=
  match e with
  | Subscribe p => Subscribe (other p)
  | Subscribed p => Subscribed (other p)
  | Unsubscribe p => Unsubscribe (other p)
  | Unsubscribed p => Unsubscribed (other p)
  end.

Definition exchanged (m : permissions) : permissions :=
  mkPerm (b_sees_a m) (a_sees_b m) (b_waits m) (a_waits m).

Lemma linked_exchange s t js jt m w : linked s t js jt m w -> linked t s jt js (exchanged m) w.
Proof.
  intros (x & y & ia & ib & [? ? ? ? ? ? ? ? ? ? ? ? (? & ? & ? & ?)]).
  exists y, x, ib, ia. by constructor.
Qed.

Lemma exchange_step e m : exchanged (perm_step (exchange e) (exchanged m)) = perm_step e m.
Proof. by destruct e as [[]|[]|[]|[]], m. Qed.

(** *** A step *)

(** The roster has the item under the JID, is loaded and without duplicates. *)
Definition has_item (r : roster) (j : string) (it : roster_item) : Prop :=
  as_map r !! j = Some it /\ NoDup (map ri_jid (r_items r)) /\ r_loaded r = true.

Lemma has_item_upd r j it i f :
  has_item r j it -> roster_find_item r j = Some i -> (forall it, ri_jid (f it) = ri_jid it) ->
  has_item (upd_item i f r) j (f it).
Proof.
  intros (Hm & Hnd & Hl) Hi Hf. destruct (find_in_map _ _ _ Hnd Hm) as (i' & Hi' & Hit & Hj).
  simplify_eq. split_and!; [| |done].
  - by rewrite (as_map_upd _ _ _ it), lookup_insert_eq.
  - cbn [upd_item set_items r_items]. by rewrite map_jid_alter.
Qed.

Lemma linked_after s t js jt m m' w w' x y ia ib x' y' ia' ib' :
  linked_as s t js jt m w x y ia ib -> same_names w w' ->
  w_heap w' !! s = Some x' -> w_heap w' !! t = Some y' ->
  has_item (s_roster x') jt ia' -> has_item (s_roster y') js ib' ->
  records m' (mkItems ia' ib') -> linked s t js jt m' w'.
Proof.
  intros [Hx Hy _ _ _ _ Hjs Hjt Hs Ht _ _ _] Hn Hx' Hy' (Ha & ? & ?) (Hb & ? & ?) Hm.
  destruct (nm_heap _ _ Hn _ _ Hx) as (x2 & Hx2 & Lx & Dx), (nm_heap _ _ Hn _ _ Hy) as (y2 & Hy2 & Ly & Dy).
  simplify_eq. exists x', y', ia', ib'.
  constructor; unfold bare_jid_of in *; rewrite ?Lx, ?Dx, ?Ly, ?Dy in *; try done;
    by eapply find_names.
Qed.

(** A step of party A: the handler for the stanza, to a session [t] that is
    there. *)
Lemma step_of_a s t js jt m w e n :
  s <> t -> actor e = PA -> linked s t js jt m w -> means js jt e n ->
  exists w', perform s t e n w = Ok (tt, w') /\ linked s t js jt (perm_step e m) w'.
Proof.
  intros Hst Hp (x & y & ia & ib & Hl) [Ht (rc & b & Hb & Hto)]. pose proof Hl as [].
  rewrite Hp in Hto. subst jt js.
  assert (has_item (s_roster x) (bare_of b) ia) as Hia by done.
  assert (has_item (s_roster y) (bare_jid_of x) ib) as Hib by done.
  destruct (find_in_map _ _ _ lk_x_nodup0 lk_ia0) as (ix & Eix & _),
    (find_in_map _ _ _ lk_y_nodup0 lk_ib0) as (iy & Eiy & _).
  pose proof (items_step_records e _ _ lk_records0) as Hr.
  assert (forall k, e = event_of k PA -> exists w', handler_of k s (prop_or n "to" "") w = Ok (tt, w') /\
            linked s t (bare_jid_of x) (bare_of b) (perm_step e m) w') as Hk.
  { intros k ->. destruct (handler_total k s t (prop_or n "to" "") rc b x y ix iy w) as (w' & E & Ho); try done.
    exists w'. split; [done|]. set (rx := upd_item ix _ _) in *. set (ry := upd_item iy _ _) in *.
    destruct (output_only_roster _ _ s (set_roster rx x) Ho) as (x' & Hx' & Rx);
      [apply stored_other; [congruence|apply stored_lookup]|].
    destruct (output_only_roster _ _ t (set_roster ry y) Ho) as (y' & Hy' & Ry);
      [apply stored_lookup|].
    eapply (linked_after _ _ _ _ _ _ _ w' _ _ _ _ x' y' (sender_update k ia) (target_update k ib) Hl);
      [|done|done|rewrite Rx|rewrite Ry|].
    - eapply same_names_trans; [by apply (stored_names s x rx)|].
      eapply same_names_trans; [|by apply output_names].
      apply stored_names. by apply stored_other.
    - apply has_item_upd; [done..|]. intros it. by apply update_jid.
    - apply has_item_upd; [done..|]. intros it. by apply update_jid.
    - by destruct k. }
  unfold perform, handle_presence. rewrite Hp, Ht.
  destruct e as [[]|[]|[]|[]]; try done.
  - destruct (subscribe_total s t (prop_or n "to" "") rc b x y ix w) as (w' & E & Ho); try done.
    exists w'. split; [done|].
    destruct (output_only_roster _ _ s _ Ho (stored_lookup _ _ _ _)) as (x' & Hx' & Rx).
    destruct (output_only_roster _ _ t y Ho) as (y' & Hy' & Ry); [by apply stored_other|].
    eapply (linked_after _ _ _ _ _ _ _ w' _ _ _ _ x' y' (set_item_ask true ia) ib Hl);
      [|done|done|rewrite Rx|by rewrite Ry|done].
    + exact (same_names_trans _ _ _ (stored_names s x _ w lk_x0) (output_names _ _ Ho)).
    + by apply has_item_upd.
  - by apply (Hk SSubscribed).
  - by apply (Hk SUnsubscribe).
  - by apply (Hk SUnsubscribed).
Qed.

Lemma step_linked s t js jt m w e n :
  s <> t -> linked s t js jt m w -> means js jt e n ->
  exists w', perform s t e n w = Ok (tt, w') /\ linked s t js jt (perm_step e m) w'.
Proof.
  intros Hst Hl Hn. destruct (actor e) eqn:Hp; [by apply step_of_a|].
  destruct (step_of_a t s jt js (exchanged m) w (exchange e) n) as (w' & E & Hl');
    [congruence|by destruct e as [[]|[]|[]|[]]|by apply linked_exchange|
     by destruct e as [[]|[]|[]|[]], Hn|].
  exists w'. split; [by destruct e as [[]|[]|[]|[]]|].
  apply linked_exchange in Hl'. by rewrite exchange_step in Hl'.
Qed.

(** C7. The handlers of presence.c implement the handshake.  Take two connected
    users who have each other in their rosters, and any sequence of presence
    stanzas of the types subscribe, subscribed, unsubscribe and unsubscribed
    that they send to each other, each to any JID of the other's account.
    The server handles them all without a fault, and afterwards the two
    roster items record the permissions that the stanzas amount to: who sees
    whose presence and who waits for an answer, with "to" on one side being
    "from" on the other. *)
Theorem handshake_refines s t js jt stanzas m w :
  s <> t -> linked s t js jt m w ->
  Forall (fun '(e, n) => means js jt e n) stanzas ->
  exists w', for_each stanzas (fun '(e, n) => perform s t e n) w = Ok (tt, w') /\
    linked s t js jt (fold_left (fun m e => perm_step e m) (map fst stanzas) m) w'.
Proof.
  intros Hst Hl Hf. revert m w Hl. induction Hf as [|[e n] stanzas Hn _ IH]; intros m w Hl.
  { by exists w. }
  destruct (step_linked s t js jt m w e n Hst Hl Hn) as (w1 & E1 & Hl1).
  destruct (IH _ _ Hl1) as (w' & E & Hl'). exists w'. split; [|done].
  cbn [for_each]. by rewrite (bind_ok _ _ _ _ _ E1).
Qed.

(** C8. A subscription stanza is a step of the handshake.  Between two connected
    users who have each other in their rosters, the handlers of subscribed,
    unsubscribe and unsubscribed change the two items as [items_step] says
    for the sender as party A, leave every other item of both rosters as it
    was, and write both rosters to the files of their users. *)
Theorem handlers_step k s t to b x y i w w' :
  s <> t -> w_heap w !! s = Some x -> w_heap w !! t = Some y ->
  r_loaded (s_roster x) = true -> r_loaded (s_roster y) = true ->
  NoDup (map ri_jid (r_items (s_roster x))) -> NoDup (map ri_jid (r_items (s_roster y))) ->
  jid_parse to 256 256 256 = Ok (0, Some b) ->
  session_find_by_jid (bare_of b) w = Ok (Some t, w) ->
  as_map (s_roster x) !! bare_of b = Some (item_a i) ->
  as_map (s_roster y) !! bare_jid_of x = Some (item_b i) ->
  handler_of k s to w = Ok (tt, w') ->
  let i' := items_step (event_of k PA) i in
  exists x' y', w_heap w' !! s = Some x' /\ w_heap w' !! t = Some y' /\
    as_map (s_roster x') = <[bare_of b := item_a i']> (as_map (s_roster x)) /\
    as_map (s_roster y') = <[bare_jid_of x := item_b i']> (as_map (s_roster y)) /\
    w_fs w' = fs_saved (w_config w) (fs_saved (w_config w) (w_fs w) (s_jid_local x) (s_roster x'))
                (s_jid_local y) (s_roster y').
Proof.
  intros Hst Hx Hy Hlx Hly Hndx Hndy Hp Hf Ha Hb Hrun. cbv zeta.
  rewrite sender_step, target_step.
  destruct (find_in_map _ _ _ Hndx Ha) as (ix & Eix & Hia & Hita).
  destruct (find_in_map _ _ _ Hndy Hb) as (iy & Eiy & Hib & Hitb).
  destruct (handler_total k s t to 0 b x y ix iy w) as (w2 & E & Ho); try done.
  rewrite Hrun in E. apply Ok_inj, (f_equal snd) in E. cbn [snd] in E. subst w2.
  set (rx := upd_item ix _ _) in *. set (ry := upd_item iy _ _) in *.
  destruct (output_only_roster _ _ s (set_roster rx x) Ho) as (x' & Hx' & Rx);
    [apply stored_other; [congruence|apply stored_lookup]|].
  destruct (output_only_roster _ _ t (set_roster ry y) Ho) as (y' & Hy' & Ry);
    [apply stored_lookup|].
  exists x', y'. split; [done|]. split; [done|]. rewrite Rx, Ry. cbn [s_roster set_roster]. split_and!.
  - subst rx. rewrite (as_map_upd _ _ _ (item_a i)) by (done || apply update_jid). by rewrite Hita.
  - subst ry. rewrite (as_map_upd _ _ _ (item_b i)) by (done || apply update_jid). by rewrite Hitb.
  - by rewrite (oo_fs _ _ Ho).
Qed.

(** The second half of the three handlers, for a target that is not. *)
Lemma target_file_run tb sb lcl f j r always (k : option sid -> bool -> M unit) w w' :
  session_find_by_jid tb w = Ok (None, w) ->
  r = roster_of_file (fs_read (w_fs w) (roster_path (w_config w) lcl)) ->
  roster_find_item r sb = Some j -> (forall o b, silent (k o b)) ->
  (let! target := session_find_by_jid tb in
   let! loaded := target_loaded target in
   update_target target loaded lcl sb f always ;;
   k target loaded) w = Ok (tt, w') ->
  output_only (set_fs (fs_saved (w_config w) (w_fs w) lcl (upd_item j f r)) w) w'.
Proof.
  intros Hf Hr Hj Hk. rewrite (bind_ok _ _ _ _ _ Hf).
  rewrite bind_ok with (a := false) (w' := w) by done. cbn [update_target].
  rewrite bind_ok with (a := tt) (w' := set_fs (fs_saved (w_config w) (w_fs w) lcl (upd_item j f r)) w);
    [apply Hk|].
  unfold update_file, roster_load_for_user, roster_load_from_path, bind, g_config, get_fs, ret.
  rewrite <- Hr, Hj. unfold roster_save_for_user, roster_save_to_path, bind, g_config, do_fs, ret, fs_saved.
  by destruct (fs_write _ _ _).
Qed.

(** C9. The same step towards a user who is not connected: the item in the
    sender's roster changes, and the one in the roster file of the target,
    which is a file of its own. *)
Theorem handlers_step_stored {ID : IdealDisk PX} k s to b x r i w w' :
  w_heap w !! s = Some x -> r_loaded (s_roster x) = true ->
  let path := roster_path (w_config w) (jb_local b) in
  r = roster_of_file (fs_read (w_fs w) path) -> path <> roster_path (w_config w) (s_jid_local x) ->
  NoDup (map ri_jid (r_items (s_roster x))) -> NoDup (map ri_jid (r_items r)) ->
  jid_parse to 256 256 256 = Ok (0, Some b) ->
  session_find_by_jid (bare_of b) w = Ok (None, w) ->
  as_map (s_roster x) !! bare_of b = Some (item_a i) ->
  as_map r !! bare_jid_of x = Some (item_b i) ->
  handler_of k s to w = Ok (tt, w') ->
  let i' := items_step (event_of k PA) i in
  exists x' r', w_heap w' !! s = Some x' /\
    as_map (s_roster x') = <[bare_of b := item_a i']> (as_map (s_roster x)) /\
    as_map r' = <[bare_jid_of x := item_b i']> (as_map r) /\
    w_fs w' = fs_saved (w_config w) (fs_saved (w_config w) (w_fs w) (s_jid_local x) (s_roster x'))
                (jb_local b) r'.
Proof.
  intros Hx Hlx path Hr Hpath Hndx Hndr Hp Hf Ha Hb Hrun. cbv zeta.
  rewrite sender_step, target_step.
  destruct (find_in_map _ _ _ Hndx Ha) as (ix & Eix & Hia & Hita).
  destruct (find_in_map _ _ _ Hndr Hb) as (ir & Eir & Hib & Hitb).
  destruct (handler_run k s to b x ix w w' Hx Hlx Hp Eix Hrun) as (w2 & rest & Ho & Hs & H).
  set (rx := upd_item ix (sender_update k) (s_roster x)) in *.
  assert (session_find_by_jid (bare_of b) w2 = Ok (None, w2)) as Hf2
    by (eapply find_names; [|exact Hf]; by eapply same_names_trans; [apply stored_names|apply output_names]).
  assert (r = roster_of_file (fs_read (w_fs w2) (roster_path (w_config w2) (jb_local b)))) as Hr2.
  { rewrite (oo_fs _ _ Ho), (oo_config _ _ Ho). cbn [stored w_fs w_config set_fs set_heap].
    fold path. unfold fs_saved. destruct (fs_write _ _ _) as [fs ok] eqn:E. cbn [fst].
    by rewrite (fs_read_other _ _ _ _ _ _ E Hpath). }
  pose proof (target_file_run _ _ _ _ ir r _ rest w2 w' Hf2 Hr2 Eir Hs H) as Ho2.
  destruct (oo_heap _ _ Ho s (set_roster rx x)) as (x2 & Hx2 & Wx);
    [cbn [w_heap stored set_fs set_heap]; apply lookup_insert_eq|].
  destruct (oo_heap _ _ Ho2 s x2 Hx2) as (x3 & Hx3 & Wx3).
  apply wrote_roster in Wx as (Rx & _ & _), Wx3 as (Rx3 & _ & _).
  exists x3, (upd_item ir (target_update k) r). split; [done|]. rewrite Rx3, Rx.
  cbn [s_roster set_roster]. split_and!.
  - subst rx. rewrite (as_map_upd _ _ _ (item_a i)) by (done || apply update_jid). by rewrite Hita.
  - rewrite (as_map_upd _ _ _ (item_b i)) by (done || apply update_jid). by rewrite Hitb.
  - rewrite (oo_fs _ _ Ho2). cbn [w_fs set_fs].
    by rewrite (oo_fs _ _ Ho), (oo_config _ _ Ho).
Qed.

(** The local part of a JID is not checked before it becomes part of a path.
    A client that says subscribed to a contact with the local part ".." makes
    the server write a roster file outside its data directory. *)
Theorem subscribed_leaves_datadir {ID : IdealDisk PX} s to b x i w w' :
  let cfg := w_config w in
  let outside := datadir cfg ++ "/../roster.xml" in
  w_heap w !! s = Some x -> r_loaded (s_roster x) = true ->
  roster_find_item (s_roster x) (bare_of b) = Some i ->
  jid_parse to 256 256 256 = Ok (0, Some b) -> jb_local b = ".." ->
  session_find_by_jid (bare_of b) w = Ok (None, w) ->
  (String.length (datadir cfg) < Z.to_nat 1200)%nat ->
  fs_read (w_fs w) outside = None -> outside <> roster_path cfg (s_jid_local x) ->
  presence_handle_subscribed s to w = Ok (tt, w') ->
  exists fs, w_fs w' = fst (fs_write fs outside (xmlDumpDoc (roster_doc (mkRoster [] true)))).
Proof.
  intros cfg outside Hx Hl Hi Hp Hb Hf Hsn Hno Hne Hrun.
  assert (roster_path cfg ".." = outside) as Hpath.
  { unfold roster_path, outside. change 1280%nat with (Z.to_nat 1280). apply snprintf_fits.
    subst cfg. str_len. }
  destruct (handler_run SSubscribed s to b x i w w' Hx Hl Hp Hi Hrun) as (w2 & rest & Ho & Hs & H).
  assert (session_find_by_jid (bare_of b) w2 = Ok (None, w2)) as Hf2
    by (eapply find_names; [|exact Hf]; by eapply same_names_trans; [apply stored_names|apply output_names]).
  rewrite (bind_ok _ _ _ _ _ Hf2) in H. rewrite bind_ok with (a := false) (w' := w2) in H by done.
  assert (fs_read (w_fs w2) outside = None) as Hno2.
  { rewrite (oo_fs _ _ Ho). cbn [stored w_fs set_fs set_heap]. unfold fs_saved.
    destruct (fs_write _ _ _) as [fs ok] eqn:E. cbn [fst].
    by rewrite (fs_read_other _ _ _ _ _ _ E Hne). }
  cbn [update_target always_saved] in H. rewrite Hb in H. unfold update_file in H.
  rewrite bind_ok with (a := tt) (w' := set_fs (fs_saved cfg (w_fs w2) ".." (mkRoster [] true)) w2) in H.
  - exists (w_fs w2). rewrite (oo_fs _ _ (Hs _ _ _ _ _ H)). cbn [w_fs set_fs]. unfold fs_saved. by rewrite Hpath.
  - unfold roster_load_for_user, roster_load_from_path, roster_save_for_user, roster_save_to_path,
      bind, g_config, get_fs, do_fs, ret, fs_saved.
    assert (w_config w2 = cfg) as Hcfg by apply (oo_config _ _ Ho). rewrite Hcfg, Hpath, Hno2.
    cbn [roster_of_file roster_find_item find_item_from r_items]. rewrite Hcfg, Hpath.
    by destruct (fs_write _ _ _).
Qed.
End Handshake.

(** ** An instance: Bob lets Alice see his presence *)

Definition asked_one : world :=
  run (upd 0%nat (set_roster (mkRoster [mkItem "bob@localhost" "" "none" true] true))) users_online.
Definition asked : world :=
  run (upd 1%nat (set_roster (mkRoster [mkItem "alice@localhost" "" "none" false] true))) asked_one.
Definition agreed : world := run (handler_of SSubscribed 1%nat "alice@localhost") asked.

Lemma find_alice_asked : session_find_by_jid (jid_bare "alice" "localhost" 512) asked = Ok (Some 0%nat, asked).
Proof. apply find_outcome. vm_compute. reflexivity. Qed.

Lemma find_bob_asked : session_find_by_jid (jid_bare "bob" "localhost" 512) asked = Ok (Some 1%nat, asked).
Proof. apply find_outcome. vm_compute. reflexivity. Qed.

Definition sub_stanza_node (type to : string) : xnode :=
  XElem "presence" None [] [mkAttr None "type" type; mkAttr None "to" to] [].

(** Alice waits for Bob's answer. *)
Lemma asked_linked :
  linked 0%nat 1%nat "alice@localhost" "bob@localhost" (mkPerm false false true false) asked.
Proof.
  assert (s_roster (sess_at 1 asked) = mkRoster [mkItem "alice@localhost" "" "none" false] true) as E1
    by (vm_compute; reflexivity).
  assert (s_roster (sess_at 0 asked) = mkRoster [mkItem "bob@localhost" "" "none" true] true) as E0
    by (vm_compute; reflexivity).
  exists (sess_at 0 asked), (sess_at 1 asked), (mkItem "bob@localhost" "" "none" true),
    (mkItem "alice@localhost" "" "none" false).
  constructor.
  - apply sess_at_some. vm_compute. reflexivity.
  - apply sess_at_some. vm_compute. reflexivity.
  - rewrite E0. reflexivity.
  - rewrite E1. reflexivity.
  - rewrite E0. apply NoDup_singleton.
  - rewrite E1. apply NoDup_singleton.
  - vm_compute. reflexivity.
  - vm_compute. reflexivity.
  - exact find_alice_asked.
  - exact find_bob_asked.
  - rewrite E0. vm_compute. reflexivity.
  - rewrite E1. vm_compute. reflexivity.
  - split_and!; reflexivity.
Qed.

(** Bob agrees, and asks in turn; Alice agrees, naming Bob's resource; then
    she asks again and Bob withdraws. *)
Definition exchange_of_five : list (sub_event * xnode) :=
  [(Subscribed PB, sub_stanza_node "subscribed" "alice@localhost");
   (Subscribe PB, sub_stanza_node "subscribe" "alice@localhost");
   (Subscribed PA, sub_stanza_node "subscribed" "bob@localhost/phone");
   (Subscribe PA, sub_stanza_node "subscribe" "bob@localhost");
   (Unsubscribed PB, sub_stanza_node "unsubscribed" "alice@localhost")].

Lemma handshake_refines_witness :
  exists w', for_each exchange_of_five (fun '(e, n) => perform 0%nat 1%nat e n) asked = Ok (tt, w') /\
    linked 0%nat 1%nat "alice@localhost" "bob@localhost" (mkPerm false true false false) w'.
Proof.
  apply (handshake_refines 0%nat 1%nat "alice@localhost" "bob@localhost" exchange_of_five
           (mkPerm false false true false) asked).
  - discriminate.
  - exact asked_linked.
  - repeat constructor; cbn [actor].
    all: first [exists 0, (mkJid "alice" "localhost" ""); split; reflexivity
               |exists 0, (mkJid "bob" "localhost" ""); split; reflexivity
               |exists 0, (mkJid "bob" "localhost" "phone"); split; reflexivity].
Defined.

Lemma handlers_step_witness :
  exists x' y', w_heap agreed !! 1%nat = Some x' /\ w_heap agreed !! 0%nat = Some y' /\
    as_map (s_roster x') !! "alice@localhost" = Some (mkItem "alice@localhost" "" "from" false) /\
    as_map (s_roster y') !! "bob@localhost" = Some (mkItem "bob@localhost" "" "to" false).
Proof.
  assert (s_roster (sess_at 1 asked) = mkRoster [mkItem "alice@localhost" "" "none" false] true) as E1
    by (vm_compute; reflexivity).
  assert (s_roster (sess_at 0 asked) = mkRoster [mkItem "bob@localhost" "" "none" true] true) as E0
    by (vm_compute; reflexivity).
  assert (bare_jid_of (sess_at 1 asked) = "bob@localhost") as Eb by (vm_compute; reflexivity).
  destruct (handlers_step SSubscribed 1%nat 0%nat "alice@localhost" (mkJid "alice" "localhost" "")
              (sess_at 1 asked) (sess_at 0 asked)
              (mkItems (mkItem "alice@localhost" "" "none" false) (mkItem "bob@localhost" "" "none" true))
              asked agreed) as (x' & y' & Hx' & Hy' & Rx & Ry & _).
  - discriminate.
  - apply sess_at_some. vm_compute. reflexivity.
  - apply sess_at_some. vm_compute. reflexivity.
  - rewrite E1. reflexivity.
  - rewrite E0. reflexivity.
  - rewrite E1. apply NoDup_singleton.
  - rewrite E0. apply NoDup_singleton.
  - vm_compute. reflexivity.
  - apply find_alice_asked.
  - rewrite E1. vm_compute. reflexivity.
  - rewrite E0, Eb. vm_compute. reflexivity.
  - unfold agreed. apply run_outcome. vm_compute. reflexivity.
  - exists x', y'. split; [exact Hx'|]. split; [exact Hy'|]. rewrite Rx, Ry, E0, E1, Eb.
    split; vm_compute; reflexivity.
Defined.

(** ** An instance: Alice unsubscribes from Bob, who is not there *)

Definition bob_away : world :=
  run (roster_save_for_user "bob" (mkRoster [mkItem "alice@localhost" "" "from" false] true) ;;
       upd 1%nat (set_jid_local "") ;;
       upd 0%nat (set_roster (mkRoster [mkItem "bob@localhost" "" "to" false] true))) users_online.
Definition parted : world := run (handler_of SUnsubscribe 0%nat "bob@localhost") bob_away.

Lemma bob_away_none : session_find_by_jid (jid_bare "bob" "localhost" 512) bob_away = Ok (None, bob_away).
Proof. apply find_outcome. vm_compute. reflexivity. Qed.

Lemma bob_away_file :
  mkRoster [mkItem "alice@localhost" "" "from" false] true
  = roster_of_file (fs_read (w_fs bob_away) (roster_path (w_config bob_away) "bob")).
Proof. vm_compute. reflexivity. Qed.

Lemma handlers_step_stored_witness :
  exists x' r', w_heap parted !! 0%nat = Some x' /\
    as_map (s_roster x') !! "bob@localhost" = Some (mkItem "bob@localhost" "" "none" false) /\
    as_map r' !! "alice@localhost" = Some (mkItem "alice@localhost" "" "none" false).
Proof.
  assert (s_roster (sess_at 0 bob_away) = mkRoster [mkItem "bob@localhost" "" "to" false] true) as E0
    by (vm_compute; reflexivity).
  assert (bare_jid_of (sess_at 0 bob_away) = "alice@localhost") as Eb by (vm_compute; reflexivity).
  destruct (handlers_step_stored SUnsubscribe 0%nat "bob@localhost" (mkJid "bob" "localhost" "")
              (sess_at 0 bob_away) (mkRoster [mkItem "alice@localhost" "" "from" false] true)
              (mkItems (mkItem "bob@localhost" "" "to" false) (mkItem "alice@localhost" "" "from" false))
              bob_away parted) as (x' & r' & Hx' & Rx & Rr & _).
  - apply sess_at_some. vm_compute. reflexivity.
  - rewrite E0. reflexivity.
  - apply bob_away_file.
  - vm_compute. discriminate.
  - rewrite E0. apply NoDup_singleton.
  - apply NoDup_singleton.
  - vm_compute. reflexivity.
  - apply bob_away_none.
  - rewrite E0. vm_compute. reflexivity.
  - rewrite Eb. vm_compute. reflexivity.
  - unfold parted. apply run_outcome. vm_compute. reflexivity.
  - exists x', r'. split; [exact Hx'|]. rewrite Rx, Rr, E0, Eb. split; vm_compute; reflexivity.
Defined.

(** ** An instance: Alice names a contact ".." *)

Definition upwards : world :=
  run (upd 0%nat (set_roster (mkRoster [mkItem "..@localhost" "" "none" false] true))) users_online.
Definition escaped : world := run (presence_handle_subscribed 0%nat "..@localhost") upwards.

Lemma upwards_none : session_find_by_jid (jid_bare ".." "localhost" 512) upwards = Ok (None, upwards).
Proof. apply find_outcome. vm_compute. reflexivity. Qed.

Lemma subscribed_leaves_datadir_witness :
  exists fs, w_fs escaped
    = fst (fs_write fs "data/../roster.xml" (xmlDumpDoc (roster_doc (mkRoster [] true)))).
Proof.
  apply (subscribed_leaves_datadir 0%nat "..@localhost" (mkJid ".." "localhost" "")
           (sess_at 0 upwards) 0%nat upwards escaped).
  - apply sess_at_some. vm_compute. reflexivity.
  - vm_compute. reflexivity.
  - vm_compute. reflexivity.
  - vm_compute. reflexivity.
  - reflexivity.
  - apply upwards_none.
  - apply Nat.ltb_lt. vm_compute. reflexivity.
  - vm_compute. reflexivity.
  - vm_compute. discriminate.
  - unfold escaped. apply run_outcome. vm_compute. reflexivity.
Defined.
