(* ===== verification/RosterIq.v ===== *)
(** Roster IQs: what a client's roster set leaves in its roster and on disk,
    and where that is undefined; the subscription stanzas that end in
    undefined behaviour. *)

From stdpp Require Import gmap pretty.
From S2P Require Import Prelude CLib Util Dom World Concrete SessionIo Inv Roster Presence Stanza.
From S2P Require Import Rounds Demo Output Silent RosterFacts Subscriptions.
Open Scope Z_scope.

Section Roster_set.
Context {LX : LibXml} {PX : Posix} {RC : Recovery} {RA : Reallocates PX}.

(** The item a set asks for and its JID, unless it is a removal. *)
Definition set_request (stanza : xnode) : option (string * option string) :=
  match xml_find_child (xml_find_child (Some stanza) "query") "item" with
  | None => None
  | Some item_el =>
      match xmlGetProp item_el "jid" with
      | None => None
      | Some jid => if prop_or item_el "subscription" "" =s "remove" then None
                    else Some (jid, xmlGetProp item_el "name")
      end
  end.

(** The item of a new contact. *)
Definition new_item (jid : string) (name : option string) : roster_item :=
  mkItem jid (match name with Some n => snprintf 256 n | None => "" end) "none" false.

(** Up to the update of the roster, the handler is [roster_set_update]. *)
Lemma set_iq_eq s stanza jid name x w :
  w_heap w !! s = Some x -> r_loaded (s_roster x) = true ->
  prop_or stanza "type" "" = "set" -> set_request stanza = Some (jid, name) ->
  roster_handle_iq s stanza w = roster_set_update s stanza jid name w.
Proof.
  intros Hx Hld Ht Hr. unfold roster_handle_iq. cbv zeta.
  rewrite bind_ok with (a := tt) (w' := w)
    by (unfold ensure_roster, bind, deref; rewrite Hx, Hld; done).
  rewrite Ht. change ("set" =s "get") with false. change ("set" =s "set") with true. cbv iota.
  unfold set_request in Hr.
  destruct (xml_find_child (xml_find_child (Some stanza) "query") "item") as [el|]; [|done].
  destruct (xmlGetProp el "jid") as [j|]; [|done].
  destruct (_ =s "remove"); [done|]. by injection Hr as -> ->.
Qed.

(** What the handler does for a new contact: it adds the item, saves, and
    then only sends. *)
Lemma roster_set_eq s stanza jid name x w :
  w_heap w !! s = Some x -> roster_find_item (s_roster x) jid = None ->
  let r := fst (roster_add_item (s_roster x) jid name (Some "none") false) in
  let w2 := set_fs (fs_saved (w_config w) (w_fs w) (s_jid_local x) r)
              (set_heap (<[s := set_roster r x]> (w_heap w)) w) in
  exists w', roster_set_update s stanza jid name w = Ok (tt, w') /\ output_only w2 w'.
Proof.
  intros Hx Hf r. cbv zeta. set (w1 := set_heap (<[s := set_roster r x]> (w_heap w)) w).
  assert (w_heap w1 !! s = Some (set_roster r x)) as Hx1 by apply lookup_insert_eq.
  destruct (roster_save_eq s _ w1 Hx1) as [rc Hs].
  unfold roster_set_update. rewrite bind_ok with (a := x) (w' := w) by (unfold deref; by rewrite Hx).
  cbv zeta. rewrite Hf. cbn [item_at]. rewrite bind_ok with (a := tt) (w' := w) by done.
  rewrite bind_ok with (a := tt) (w' := w1) by (unfold upd; by rewrite Hx).
  rewrite bind_ok with (a := tt) (w' := w1) by (by destruct name).
  rewrite (bind_ok _ _ _ _ _ Hs). change (w_config w1) with (w_config w). change (w_fs w1) with (w_fs w).
  match goal with |- exists w', ?m ?w2 = _ /\ _ =>
    destruct (delivers_run w2 m (fun _ => True)) as ([] & w' & ? & ? & _); [|by eauto] end.
  eapply delivers_bind; [by eapply delivers_stanza_send|]. intros _ _.
  eapply delivers_bind; [by eapply delivers_deref|]. intros y _.
  destruct (item_at _ _); [by eapply delivers_roster_push|by apply delivers_ret].
Qed.

(** C30. A roster set for a new contact is recorded, one for a contact the
    roster has is undefined.  When the roster has no item for the JID, the
    handler ends without a fault; the session's roster has the new item,
    without subscription, and all other items as before; and this roster was
    written to the user's file.  When it has one, the handler copies the
    subscription of that item onto itself with [snprintf], whether or not a
    new name is given.  The roster has no JID twice, its strings fit their
    fields, and so does the JID. *)
Theorem roster_set_recorded s stanza jid name x w :
  w_heap w !! s = Some x -> r_loaded (s_roster x) = true -> roster_ok (s_roster x) ->
  prop_or stanza "type" "" = "set" -> set_request stanza = Some (jid, name) ->
  (String.length jid < 512)%nat ->
  (as_map (s_roster x) !! jid = None -> (r_count (s_roster x) < MAX_ROSTER_ITEMS)%nat ->
   exists y w', roster_handle_iq s stanza w = Ok (tt, w') /\ w_heap w' !! s = Some y /\
     as_map (s_roster y) = <[jid := new_item jid name]> (as_map (s_roster x)) /\
     w_fs w' = fs_saved (w_config w) (w_fs w) (s_jid_local x) (s_roster y)) /\
  (as_map (s_roster x) !! jid <> None -> roster_handle_iq s stanza w = Fault FOverlap).
Proof.
  intros Hx Hld Hok Ht Hr Hl. rewrite (set_iq_eq s stanza jid name x w) by done.
  pose proof (find_item_spec (s_roster x) jid) as Hf. split.
  - intros Hm Hroom. apply as_map_None in Hm. destruct (roster_find_item _ _) as [i|] eqn:Ef.
    { destruct Hf as (it & Hi & <-). destruct Hm. apply list_elem_of_fmap. exists it.
      split; [done|]. apply list_elem_of_lookup. eauto. }
    destruct (roster_set_eq s stanza jid name x w Hx Ef) as (w' & E & Ho).
    destruct (output_only_roster _ w' s _ Ho (lookup_insert_eq _ _ _)) as (y & Hy & Hry).
    exists y, w'. split_and!; [done..| |].
    + rewrite Hry. cbn [s_roster set_roster].
      pose proof (add_item_map _ jid name (Some "none") false Hok Hl) as H.
      destruct (roster_add_item _ _ _ _ _) as [r' rc]. destruct H as (_ & _ & H).
      rewrite decide_False in H by (intros [_ ?]; lia). destruct H as [_ H].
      rewrite (proj2 (as_map_None _ _) Hf) in H. by destruct name.
    + by rewrite (oo_fs _ _ Ho), Hry.
  - intros Hm. destruct (roster_find_item _ _) as [i|] eqn:Ef.
    + unfold roster_set_update. rewrite bind_ok with (a := x) (w' := w) by (unfold deref; by rewrite Hx).
      cbv zeta. by rewrite Ef.
    + destruct Hm. by apply as_map_None.
Qed.

(** ** Undefined behaviour *)

Lemma push_null s x w :
  w_heap w !! s = Some x -> roster_push s None w = Fault FNull.
Proof.
  intros Hx. unfold roster_push, bind, do_os. destruct (os_random _ _).
  unfold deref. cbn [w_heap set_os]. rewrite Hx. by destruct (xml_own_ns _ _).
Qed.

(** A request to a new contact when the roster is full: the item is not
    added, and the push dereferences the null pointer of its lookup. *)
Lemma subscribe_full s to x w rc b :
  w_heap w !! s = Some x -> r_loaded (s_roster x) = true ->
  jid_parse to 256 256 256 = Ok (rc, Some b) ->
  roster_find_item (s_roster x) (bare_of b) = None ->
  r_count (s_roster x) = MAX_ROSTER_ITEMS ->
  presence_handle_subscribe s to w = Fault FNull.
Proof.
  intros Hx Hld Hp Hf Hc. unfold presence_handle_subscribe.
  unfold parse_ignoring_rc. rewrite bind_ok with (a := b) (w' := w)
    by (unfold bind, lift; rewrite Hp; done).
  rewrite bind_ok with (a := tt) (w' := w)
    by (unfold ensure_roster, bind, deref; rewrite Hx, Hld; done).
  rewrite bind_ok with (a := x) (w' := w) by (unfold deref; by rewrite Hx). cbv zeta.
  rewrite Hf. assert (roster_add_item (s_roster x) (bare_of b) None (Some "none") true
                      = (s_roster x, -1)) as Hadd.
  { unfold roster_add_item. rewrite Hf, Hc. by rewrite Nat.leb_refl. }
  set (x1 := set_roster (s_roster x) x).
  set (w1 := set_heap (<[s := x1]> (w_heap w)) w).
  rewrite bind_ok with (a := tt) (w' := w1)
    by (unfold upd; rewrite Hx, Hadd; done).
  assert (w_heap w1 !! s = Some x1) as Hx1 by apply lookup_insert_eq.
  destruct (roster_save_eq s _ w1 Hx1) as [rc' Hs]. rewrite (bind_ok _ _ _ _ _ Hs).
  set (w2 := set_fs _ w1). assert (w_heap w2 !! s = Some x1) as Hx2 by done.
  rewrite bind_ok with (a := x1) (w' := w2) by (unfold deref; by rewrite Hx2).
  cbn [s_roster set_roster x1]. rewrite Hf. cbn [item_at]. unfold bind at 1.
  by rewrite (push_null s x1 w2 Hx2).
Qed.

Definition subscription_type (type : string) : bool :=
  bool_decide (type ∈ ["subscribe"; "subscribed"; "unsubscribe"; "unsubscribed"]).

(** All four handlers begin with the address. *)
Lemma presence_parse_fault s n w f :
  subscription_type (prop_or n "type" "") = true ->
  parse_ignoring_rc (prop_or n "to" "") w = Fault f -> handle_presence s n w = Fault f.
Proof.
  unfold subscription_type, handle_presence. intros Ht%bool_decide_eq_true Hf.
  repeat (apply elem_of_cons in Ht as [->|Ht]); [..|by apply not_elem_of_nil in Ht];
    cbn -[parse_ignoring_rc presence_handle_subscribe presence_handle_subscribed
          presence_handle_unsubscribe presence_handle_unsubscribed];
    unfold presence_handle_subscribe, presence_handle_subscribed, presence_handle_unsubscribe,
      presence_handle_unsubscribed, bind at 1; by rewrite Hf.
Qed.

(** The stanza of a bound session reaches the dispatcher of presence.c. *)
Lemma route_presence s n x w :
  w_heap w !! s = Some x -> state_active (s_state x) = true -> xn_name n = "presence" ->
  stanza_route s n w = handle_presence s n w.
Proof.
  intros Hx Ha Hn. unfold stanza_route, bind, deref. rewrite Hx, Hn, Ha.
  rewrite bool_decide_eq_false_2 by (intros E; by rewrite E in Ha). done.
Qed.

(** C38. Three subscription stanzas of a client with a bound session end in
    undefined behaviour, in whatever state the server is: one without a [to]
    uses JID buffers that were never written; one to an address with a slash
    before the at sign copies past the end of it; and a request to a new
    contact when the roster is full dereferences a null item. *)
Theorem subscription_faults s n x w :
  w_heap w !! s = Some x -> state_active (s_state x) = true ->
  xn_name n = "presence" -> subscription_type (prop_or n "type" "") = true ->
  let to := prop_or n "to" "" in
  (to = "" -> stanza_route s n w = Fault FUninit) /\
  (forall p m t, to = p ++ String "/" (m ++ String "@" t) ->
     str_mem "@" (p ++ String "/" m) = false -> str_mem "/" p = false ->
     (String.length (p ++ m) < 255)%nat -> (String.length t < 254)%nat ->
     stanza_route s n w = Fault FOob) /\
  (forall rc b, prop_or n "type" "" = "subscribe" -> r_loaded (s_roster x) = true ->
     jid_parse to 256 256 256 = Ok (rc, Some b) ->
     roster_find_item (s_roster x) (bare_of b) = None ->
     r_count (s_roster x) = MAX_ROSTER_ITEMS -> stanza_route s n w = Fault FNull).
Proof.
  intros Hx Ha Hn Ht. cbv zeta. rewrite (route_presence s n x w) by done. split_and!.
  - intros E. apply presence_parse_fault; [done|]. by rewrite E.
  - intros p m t E H1 H2 H3 H4. apply presence_parse_fault; [done|].
    rewrite E. unfold parse_ignoring_rc, bind, lift.
    by rewrite (jid_parse_overread p m t H1 H2 H3 H4).
  - intros rc b Hty Hld Hp Hf Hc. unfold handle_presence. rewrite Hty.
    by apply (subscribe_full s _ x w rc b).
Qed.
End Roster_set.

(** ** Instances *)

Definition set_iq : xnode :=
  XElem "iq" None [] [mkAttr None "type" "set"; mkAttr None "id" "r1"]
    [XElem "query" (Some (mkNs "jabber:iq:roster" None)) [] []
       [XElem "item" None [] [mkAttr None "jid" "bob@localhost"; mkAttr None "name" "Bob"] []]].

Lemma roster_set_recorded_witness :
  exists y w', roster_handle_iq 0%nat set_iq users_online = Ok (tt, w') /\
    w_heap w' !! 0%nat = Some y /\
    as_map (s_roster y) !! "bob@localhost" = Some (mkItem "bob@localhost" "Bob" "none" false).
Proof.
  assert (s_roster (sess_at 0 users_online) = mkRoster [] true) as Hr by (vm_compute; reflexivity).
  destruct (roster_set_recorded 0%nat set_iq "bob@localhost" (Some "Bob")
              (sess_at 0 users_online) users_online) as [H _].
  - apply sess_at_some. vm_compute. reflexivity.
  - rewrite Hr. reflexivity.
  - rewrite Hr. constructor; constructor.
  - reflexivity.
  - reflexivity.
  - simpl. lia.
  - destruct H as (y & w' & E & Hy & Hm & _).
    + rewrite Hr. reflexivity.
    + rewrite Hr. apply Nat.ltb_lt. reflexivity.
    + exists y, w'. split; [exact E|]. split; [exact Hy|]. rewrite Hm, Hr. vm_compute. reflexivity.
Defined.

(** Alice's roster is full; her session is bound. *)
Definition full_roster : roster :=
  mkRoster (map (fun i => mkItem (pretty (Z.of_nat i) ++ "@localhost") "" "none" false)
              (seq 0 128)) true.
Definition full_world : world :=
  run (upd 0%nat (fun x => set_state STATE_BOUND (set_roster full_roster x))) users_online.

Definition to_bob : xnode :=
  XElem "presence" None [] [mkAttr None "type" "subscribe"; mkAttr None "to" "bob@localhost"] [].

Lemma subscription_faults_witness : stanza_route 0%nat to_bob full_world = Fault FNull.
Proof.
  assert (s_state (sess_at 0 full_world) = STATE_BOUND /\
          r_loaded (s_roster (sess_at 0 full_world)) = true /\
          roster_find_item (s_roster (sess_at 0 full_world)) "bob@localhost" = None /\
          r_count (s_roster (sess_at 0 full_world)) = MAX_ROSTER_ITEMS) as (H0 & H1 & H2 & H3)
    by (vm_compute; auto).
  destruct (subscription_faults 0%nat to_bob (sess_at 0 full_world) full_world) as (_ & _ & H).
  - apply sess_at_some. vm_compute. reflexivity.
  - rewrite H0. reflexivity.
  - reflexivity.
  - reflexivity.
  - apply (H 0 (mkJid "bob" "localhost" "")).
    + reflexivity.
    + exact H1.
    + vm_compute. reflexivity.
    + exact H2.
    + exact H3.
Defined.
