(* ===== verification/ConfigFacts.v ===== *)
(** The configuration file: what [config_load] makes of a file that lists the
    six settings, and which source of a setting wins. *)

From stdpp Require Import pretty.
From S2P Require Import Prelude CLib Util Dom World Concrete Config.
Open Scope Z_scope.

(** ** Lines *)

(** A value that a line can carry: not empty, without white space around it,
    on one line. *)
Definition config_value (v : string) : bool :=
  negb (str_empty v) && (trim v =s v) && negb (str_mem newline v) && negb (str_mem nul v).

Definition config_key (key : string) : bool :=
  match key with
  | EmptyString => false
  | String c _ => negb (isspace c) && negb (is_char c "#")
  end && negb (str_mem "=" key) && (trim (key ++ " ") =s key) &&
  negb (str_mem newline key) && negb (str_mem nul key).

Definition setting (key val : string) : string := key ++ " = " ++ val ++ String newline "".

Lemma rtrim_length s : (String.length (rtrim s) <= String.length s)%nat.
Proof.
  induction s as [|c s IH]; simpl; [lia|].
  destruct (rtrim s); simpl in *; [destruct (isspace c); simpl; lia|lia].
Qed.

Lemma skip_space_length s : (String.length (skip_space s) <= String.length s)%nat.
Proof. induction s as [|c s IH]; simpl; [lia|]. destruct (isspace c); simpl; lia. Qed.

Lemma trim_end_length s : (String.length (trim_end s) <= String.length s)%nat.
Proof. destruct s; simpl; [lia|]. pose proof (rtrim_length s). lia. Qed.

Lemma config_value_spec v :
  config_value v = true ->
  trim v = v /\ rtrim v = v /\ v <> "" /\ str_mem newline v = false /\ str_mem nul v = false.
Proof.
  unfold config_value. intros H. eqs_prop. split_and!; try done; [|by destruct v].
  destruct v as [|c v]; [done|]. destruct (isspace c) eqn:Hc.
  - exfalso. match goal with H : trim _ = _ |- _ => apply (f_equal String.length) in H end.
    unfold trim in *. simpl in *. rewrite Hc in *.
    pose proof (trim_end_length (skip_space v)). pose proof (skip_space_length v). lia.
  - rewrite <- trim_end_rtrim by done.
    match goal with H : trim _ = _ |- _ => unfold trim in H; rewrite skip_space_nonspace in H end;
      done.
Qed.

Lemma rtrim_app_fixed s v : rtrim v = v -> v <> "" -> rtrim (s ++ v) = s ++ v.
Proof.
  intros Hv Hne. induction s as [|c s IH]; simpl; [done|]. rewrite IH.
  destruct s; simpl; [by destruct v|done].
Qed.

Lemma str_until_all p s : (forall c, p c = true -> str_mem c s = false) -> str_until p s = s.
Proof.
  intros H. apply str_until_none. intros c Hc. destruct (p c) eqn:E; [|done].
  apply H in E. congruence.
Qed.

Lemma config_entry_setting key val :
  config_key key = true -> config_value val = true ->
  config_entry (setting key val) = Some (key, val).
Proof.
  intros Hk Hv. apply config_value_spec in Hv as (Ht & Hr & Hne & Hnl & Hnul).
  unfold config_key in Hk. destruct key as [|c k]; [done|]. set (key := String c k) in *.
  eqs_prop. unfold config_entry, setting. cbv zeta.
  replace (key ++ " = " ++ val ++ String newline "")
    with ((key ++ " = " ++ val) ++ String newline "") by (by rewrite !str_app_assoc).
  set (l := key ++ " = " ++ val).
  assert (str_mem newline l = false /\ str_mem nul l = false) as [Hl1 Hl2].
  { subst l. rewrite !str_mem_app.
    match goal with H : str_mem newline key = false |- _ => rewrite H end.
    match goal with H : str_mem nul key = false |- _ => rewrite H end. by rewrite Hnl, Hnul. }
  rewrite (str_until_all (fun d => is_char d nul)).
  2:{ intros d Hd. apply is_char_eq in Hd as ->. rewrite str_mem_app, Hl2. done. }
  rewrite str_until_app; [| |by apply is_char_eq].
  2:{ intros d Hd. destruct (is_char d newline) eqn:E; [|done].
      apply is_char_eq in E as ->. congruence. }
  assert (trim l = l) as ->.
  { unfold trim. subst l key.
    change (String c k ++ " = " ++ val) with (String c (k ++ " = " ++ val)).
    rewrite skip_space_nonspace, trim_end_rtrim by done.
    change (String c (k ++ " = " ++ val)) with (String c k ++ " = " ++ val).
    rewrite <- str_app_assoc. by apply rtrim_app_fixed. }
  assert (l = (key ++ " ") ++ String "=" (" " ++ val)) as El
    by (subst l; by rewrite str_app_assoc).
  assert (strchr "=" l = Some (String.length (key ++ " "))) as ->.
  { rewrite El. apply strchr_app. rewrite str_mem_app. eqs_prop.
    match goal with H : str_mem "=" key = false |- _ => by rewrite H end. }
  replace (str_take (String.length (key ++ " ")) l) with (key ++ " ")
    by (by rewrite El, str_take_app).
  replace (str_drop (S (String.length (key ++ " "))) l) with (" " ++ val).
  2:{ rewrite El. change (String "=" (" " ++ val)) with ("=" ++ (" " ++ val)).
      rewrite <- (str_app_assoc (key ++ " ")).
      replace (S (String.length (key ++ " "))) with (String.length ((key ++ " ") ++ "="))
        by (rewrite str_length_app; simpl; lia).
      by rewrite str_drop_app. }
  change (trim (" " ++ val)) with (trim val). rewrite Ht.
  destruct l as [|d l'] eqn:El'; [done|].
  assert (d = c) as -> by (subst key; injection El; auto).
  match goal with H : is_char c "#" = false |- _ => rewrite H end.
  match goal with H : trim (key ++ " ") = key |- _ => by rewrite H end.
Qed.

(** A line that fits the buffer, and what follows it. *)
Lemma fgets_loop_cons size room l s :
  str_mem newline l = false -> (String.length l + 1 <= room)%nat ->
  fgets_loop size room (l ++ String newline s) =
  (l ++ String newline "") :: fgets_loop size (size - 1) s.
Proof.
  revert room. induction l as [|c l IH]; intros room Hn Hr; [done|].
  cbn [String.length str_mem] in *. eqs_prop.
  change (String c l ++ String newline s) with (String c (l ++ String newline s)).
  cbn [fgets_loop]. unfold is_char. rewrite Ascii.eqb_sym.
  match goal with H : Ascii.eqb newline c = false |- _ => rewrite H end.
  rewrite (proj2 (Nat.leb_gt _ _)) by lia. simpl orb. cbv iota.
  rewrite IH by (done || lia). by destruct l.
Qed.

Lemma fgets_setting key val s :
  config_key key = true -> config_value val = true ->
  (String.length key + String.length val <= Z.to_nat 1000)%nat ->
  fgets_all 1024 (setting key val ++ s) = setting key val :: fgets_all 1024 s.
Proof.
  intros Hk Hv Hl. apply config_value_spec in Hv as (_ & _ & _ & Hnl & _).
  assert (str_mem newline key = false) as Hkn.
  { unfold config_key in Hk. destruct key; [done|]. by eqs_prop. }
  unfold fgets_all, setting.
  replace ((key ++ " = " ++ val ++ String newline "") ++ s)
    with ((key ++ " = " ++ val) ++ String newline s) by (by rewrite !str_app_assoc).
  rewrite fgets_loop_cons.
  - by rewrite !str_app_assoc.
  - by rewrite !str_mem_app, Hkn, Hnl.
  - change (1024 - 1)%nat with (Z.to_nat 1023). str_len.
Qed.

(** ** Files *)

Definition loglevel_name (l : Z) : string :=
  if l =? LOG_DEBUG then "DEBUG" else if l =? LOG_WARN then "WARN"
  else if l =? LOG_ERROR then "ERROR" else "INFO".

(** A file that lists the settings of a configuration. *)
Definition config_file (c : config_t) : string :=
  setting "domain" (domain c) ++ setting "port" (dec (port c)) ++
  setting "bind_address" (bind_address c) ++ setting "datadir" (datadir c) ++
  setting "logfile" (logfile c) ++ setting "loglevel" (loglevel_name (loglevel c)).

Record config_ok (c : config_t) : Prop := {
  co_domain : config_value (domain c) = true /\ (String.length (domain c) < 256)%nat;
  co_port : 0 <= port c < 65536;
  co_bind : config_value (bind_address c) = true /\ (String.length (bind_address c) < 256)%nat;
  co_datadir : config_value (datadir c) = true /\
               (String.length (datadir c) < Z.to_nat 980)%nat;
  co_logfile : config_value (logfile c) = true /\
               (String.length (logfile c) < Z.to_nat 980)%nat;
  co_loglevel : 0 <= loglevel c <= 3
}.

Lemma digit_facts c :
  isdigit c = true -> isspace c = false /\ Ascii.eqb newline c = false /\ Ascii.eqb nul c = false.
Proof.
  intros H. split; [by apply digit_not_space|].
  split; (destruct (Ascii.eqb _ c) eqn:E; [apply Ascii.eqb_eq in E; by subst|done]).
Qed.

Lemma digits_facts s :
  str_all isdigit s = true ->
  rtrim s = s /\ str_mem newline s = false /\ str_mem nul s = false.
Proof.
  induction s as [|c s IH]; cbn [str_all rtrim str_mem]; intros H; [done|]. eqs_prop.
  destruct IH as (-> & -> & ->); [done|].
  destruct (digit_facts c) as (Hs & -> & ->); [done|]. rewrite Hs. by destruct s.
Qed.

Lemma digits_config_value s : str_all isdigit s = true -> s <> "" -> config_value s = true.
Proof.
  intros Hs Hne. destruct (digits_facts s Hs) as (Hr & Hn & H0).
  unfold config_value. rewrite Hn, H0. destruct s as [|c s]; [done|].
  simpl in Hs. eqs_prop. destruct (digit_facts c) as (Hc & _); [done|].
  unfold trim. rewrite skip_space_nonspace, trim_end_rtrim, Hr by done.
  by rewrite eqs_refl.
Qed.

Lemma pretty_go_digits x s :
  str_all isdigit s = true -> str_all isdigit (pretty_N_go x s) = true.
Proof.
  revert s. induction (N.lt_wf_0 x) as [x _ IH]. intros s Hs.
  destruct (decide (x = 0)%N) as [->|Hx]; [done|].
  rewrite pretty_N_go_step by lia. apply IH; [apply N.div_lt; lia|]. simpl.
  rewrite Hs, andb_true_r. pose proof (N.mod_lt x 10 ltac:(lia)) as Hm.
  destruct (x mod 10)%N as [|[[[|[]|]|[|[]|]|]|[[|[]|]|[|[]|]|]|]]; done.
Qed.

Lemma dec_facts k :
  0 <= k < 2 ^ 31 -> config_value (dec k) = true /\ atoi (dec k) = k /\
  (String.length (dec k) <= 10)%nat.
Proof.
  intros Hk. assert (fmt_0d 0 k ++ "" = dec k) as E.
  { unfold fmt_0d. rewrite (proj2 (Z.ltb_ge _ _)) by lia. unfold pad0. by rewrite str_app_nil_r. }
  split_and!.
  - apply digits_config_value.
    + unfold dec. destruct k as [|p|p]; [done| |lia].
      change (pretty (Z.pos p)) with (pretty (N.pos p)). unfold pretty, pretty_N.
      rewrite decide_False by done. by apply pretty_go_digits.
    + rewrite <- E. destruct (fmt_head 0 k) as (c & s & -> & _); [lia|done].
  - rewrite <- E. by apply atoi_fmt.
  - by apply dec_length.
Qed.

Lemma loglevel_round l : 0 <= l <= 3 ->
  config_value (loglevel_name l) = true /\ parse_loglevel (loglevel_name l) = l /\
  (String.length (loglevel_name l) <= 5)%nat.
Proof.
  intros H. assert (l = 0 \/ l = 1 \/ l = 2 \/ l = 3) as [-> | [-> | [-> | ->]]] by lia;
    split_and!; first [reflexivity | simpl; lia].
Qed.

Lemma config_line_setting key val c :
  config_key key = true -> config_value val = true ->
  config_line c (setting key val) = config_set key val c.
Proof. intros. unfold config_line. by rewrite config_entry_setting. Qed.

(** ** Options *)

Definition plain_option (o : cli_option) : Prop :=
  match o with OptHelp | OptUnknown => False | _ => True end.

Definition domain_arg (o : cli_option) := match o with OptDomain a => Some a | _ => None end.
Definition port_arg (o : cli_option) := match o with OptPort a => Some a | _ => None end.
Definition datadir_arg (o : cli_option) := match o with OptDatadir a => Some a | _ => None end.
Definition logfile_arg (o : cli_option) := match o with OptLogfile a => Some a | _ => None end.
Definition loglevel_arg (o : cli_option) := match o with OptLoglevel a => Some a | _ => None end.

Lemma from_last_cons {A} (g : string -> A) (a : string) (l : list string) d :
  from_option g d (last (a :: l)) = from_option g (g a) (last l).
Proof. rewrite last_cons. by destruct (last l). Qed.

Lemma apply_options_spec opts : forall f,
  Forall plain_option opts ->
  let '(c', rc) := apply_options opts f in
  rc = 0 /\
  domain c' = from_option (snprintf 256) (domain f) (last (omap domain_arg opts)) /\
  port c' = from_option atoi (port f) (last (omap port_arg opts)) /\
  datadir c' = from_option (snprintf 1024) (datadir f) (last (omap datadir_arg opts)) /\
  logfile c' = from_option (snprintf 1024) (logfile f) (last (omap logfile_arg opts)) /\
  loglevel c' = from_option parse_loglevel (loglevel f) (last (omap loglevel_arg opts)) /\
  bind_address c' = bind_address f.
Proof.
  induction opts as [|o opts IH]; intros f Ho; [by split_and!|].
  apply Forall_cons in Ho as [Ho Hos]. cbn [apply_options omap list_omap].
  destruct o as [a|a|a|a|a|a| |]; try done;
    cbn [domain_arg port_arg datadir_arg logfile_arg loglevel_arg];
    match goal with |- context [apply_options opts ?g] => specialize (IH g Hos) end;
    rewrite ?from_last_cons; exact IH.
Qed.

(** ** Properties *)

(** C40. A file that lists the settings of a configuration, one per line, is
    read as that configuration, whatever was set before: each value arrives
    whole, the port as a number, the level by its name. *)
Theorem config_round_trip c c0 :
  config_ok c -> config_load (Some (config_file c)) c0 = (c, 0).
Proof.
  intros [[Hd Hd'] Hp [Hb Hb'] [Hdd Hdd'] [Hl Hl'] Hlv].
  destruct (dec_facts (port c) ltac:(lia)) as (Hpv & Hpa & Hpl).
  destruct (loglevel_round _ Hlv) as (Hlc & Hlp & Hll).
  unfold config_load, config_file. f_equal.
  rewrite <- (str_app_nil_r (setting "loglevel" _)).
  rewrite !fgets_setting by (done || (simpl; lia)).
  change (fgets_all 1024 "") with (@nil string). cbn [fold_left].
  rewrite !config_line_setting by done. unfold config_set. cbn [String.eqb Ascii.eqb Bool.eqb].
  unfold set_domain, set_port, set_bind_address, set_datadir, set_logfile, set_loglevel.
  cbn [domain port bind_address datadir logfile loglevel].
  rewrite Hpa, Hlp. change 1024%nat with (Z.to_nat 1024).
  rewrite !snprintf_fits by lia. by destruct c.
Qed.

(** Which source of a setting wins. With no help or unknown option the
    command line is accepted, and each setting is the argument of its last
    option there, or else what the configuration file made of it; the bind
    address has no option and comes from the file. *)
Theorem config_precedence read_file opts c :
  Forall plain_option opts ->
  let path := default "./xmppd.conf" (find_config_path opts None) in
  let f := fst (config_load (read_file path) c) in
  let '(c', rc) := config_parse_args read_file opts c in
  rc = 0 /\
  domain c' = from_option (snprintf 256) (domain f) (last (omap domain_arg opts)) /\
  port c' = from_option atoi (port f) (last (omap port_arg opts)) /\
  datadir c' = from_option (snprintf 1024) (datadir f) (last (omap datadir_arg opts)) /\
  logfile c' = from_option (snprintf 1024) (logfile f) (last (omap logfile_arg opts)) /\
  loglevel c' = from_option parse_loglevel (loglevel f) (last (omap loglevel_arg opts)) /\
  bind_address c' = bind_address f.
Proof.
  intros Ho path f. unfold config_parse_args.
  replace (match find_config_path opts None with Some p => p | None => "./xmppd.conf" end)
    with path by (unfold path; by destruct (find_config_path opts None)).
  fold f. by apply apply_options_spec.
Qed.

(** ** Instances *)

Lemma config_round_trip_witness :
  config_load (Some (config_file demo_config)) config_defaults = (demo_config, 0).
Proof.
  apply config_round_trip. constructor; try (split; [reflexivity|]); simpl; lia.
Defined.

Lemma config_precedence_witness :
  let '(c', rc) := config_parse_args (fun _ => Some (setting "domain" "file.example"))
                     [OptDomain "one.example"; OptPort "5223"; OptDomain "two.example"]
                     config_defaults in
  domain c' = "two.example".
Proof.
  pose proof (config_precedence (fun _ => Some (setting "domain" "file.example"))
    [OptDomain "one.example"; OptPort "5223"; OptDomain "two.example"] config_defaults
    ltac:(repeat constructor)) as H.
  destruct (config_parse_args _ _ _) as [c' rc]. destruct H as (_ & H & _). exact H.
Defined.
